(** * SalaTrack board: synchronisation engine of the client page

    A shallow embedding of the client component of the scheduling board and
    the properties its specification states about it.

    The repository carries the page component twice:
    - [src/app/PageClientBoard.tsx], and
    - a second copy (kept here under the name [Part000]) that adds the
      single-flight configuration loader, the role upgrade ladder, the
      in-patient toggle and the abort signatures of the error classifier.

    Functions that are textually the same in both copies are embedded once.
    Functions that differ are embedded once per copy, in the modules
    [SrcApp] and [Part000]. *)

From Stdlib Require Import ZArith List String Ascii QArith Lia Bool.
From Stdlib Require Import Permutation Sorted SpecFloat Qabs.
From stdpp Require Import base gmap strings list.
Import ListNotations.

Open Scope string_scope.
Open Scope list_scope.
Open Scope Z_scope.

(* ------------------------------------------------------------------ *)
(** ** JavaScript values used by the page *)
(* ------------------------------------------------------------------ *)

(** A text is written as in a string literal of this file: by the bytes of
    its UTF-8 encoding.  The functions of JavaScript that look at the
    characters of a text are defined on its code points, and the ones that
    count or compare ([.length], [>]) on its UTF-16 code units. *)
Definition byteOf (c : ascii) : Z := Z.of_N (N_of_ascii c).
Definition charOf (z : Z) : ascii := ascii_of_N (Z.to_N z).

(** A byte that continues a sequence: 10xxxxxx. *)
Definition isCont (b : Z) : bool := ((128 <=? b) && (b <=? 191))%bool.

(** The code points of a text, sequence by sequence (of one to four bytes,
    in shortest form).  A byte that starts no such sequence is kept as it
    is, as the value [1114112 + b] past the code points. *)
Fixpoint codePoints (s : string) : list Z :=
  match s with
  | EmptyString => []
  | String c1 t1 =>
      let a := byteOf c1 in
      let stray := (1114112 + a) :: codePoints t1 in
      if a <? 128 then a :: codePoints t1
      else
        match t1 with
        | EmptyString => stray
        | String c2 t2 =>
            let b := byteOf c2 in
            if ((194 <=? a) && (a <=? 223))%bool then
              if isCont b then ((a - 192) * 64 + (b - 128)) :: codePoints t2
              else stray
            else
              match t2 with
              | EmptyString => stray
              | String c3 t3 =>
                  let c := byteOf c3 in
                  if ((224 <=? a) && (a <=? 239))%bool then
                    if (isCont b && isCont c && ((225 <=? a) || (160 <=? b)))%bool
                    then ((a - 224) * 4096 + (b - 128) * 64 + (c - 128)) :: codePoints t3
                    else stray
                  else
                    match t3 with
                    | EmptyString => stray
                    | String c4 t4 =>
                        let d := byteOf c4 in
                        if ((240 <=? a) && (a <=? 244) &&
                            isCont b && isCont c && isCont d &&
                            ((241 <=? a) || (144 <=? b)) &&
                            ((a <=? 243) || (b <=? 143)))%bool
                        then ((a - 240) * 262144 + (b - 128) * 4096 +
                              (c - 128) * 64 + (d - 128)) :: codePoints t4
                        else stray
                    end
              end
        end
  end.

(** The bytes of a code point. *)
Definition bytesOf (cp : Z) : string :=
  if cp <? 128 then String (charOf cp) EmptyString
  else if cp <? 2048 then
    String (charOf (192 + cp / 64)) (String (charOf (128 + cp mod 64)) EmptyString)
  else if cp <? 65536 then
    String (charOf (224 + cp / 4096))
      (String (charOf (128 + (cp / 64) mod 64))
         (String (charOf (128 + cp mod 64)) EmptyString))
  else if cp <? 1114112 then
    String (charOf (240 + cp / 262144))
      (String (charOf (128 + (cp / 4096) mod 64))
         (String (charOf (128 + (cp / 64) mod 64))
            (String (charOf (128 + cp mod 64)) EmptyString)))
  else String (charOf (cp - 1114112)) EmptyString.

Definition ofCodePoints (l : list Z) : string :=
  fold_right (fun cp r => String.append (bytesOf cp) r) EmptyString l.

(** The number of UTF-16 code units of a code point: two past U+FFFF. *)
Definition unitsOf (cp : Z) : nat :=
  if ((65536 <=? cp) && (cp <? 1114112))%bool then 2%nat else 1%nat.

(** [s.length]: the number of the code units of [s]. *)
Definition jsLength (s : string) : nat := list_sum (List.map unitsOf (codePoints s)).

(** A text proper: every byte belongs to a sequence. *)
Definition isText (s : string) : Prop :=
  List.Forall (fun cp => cp < 1114112) (codePoints s).

(** The first of the two code units of a code point past U+FFFF. *)
Definition highSurrogate (cp : Z) : Z := 55296 + (cp - 65536) / 1024.

(** The code points that the first [n] code units make up; a cut through
    the two code units of a code point leaves its high surrogate. *)
Fixpoint takeUnits (n : nat) (l : list Z) : list Z :=
  match n, l with
  | O, _ => []
  | _, [] => []
  | Datatypes.S k, c :: r =>
      match unitsOf c, k with
      | 2%nat, O => [highSurrogate c]
      | 2%nat, Datatypes.S k' => c :: takeUnits k' r
      | _, _ => c :: takeUnits k r
      end
  end.

(** [s.slice(0, n)] *)
Definition sliceTo (n : nat) (s : string) : string :=
  ofCodePoints (takeUnits n (codePoints s)).

(** The order of the code units, read off the bytes: it is the order of
    the bytes, except that the code points past U+FFFF (first byte 240 to
    244) come before the code points from U+E000 to U+FFFF (first byte 238
    or 239), as their surrogates do. *)
Definition unitRank (c : ascii) : ascii :=
  let b := byteOf c in
  if ((240 <=? b) && (b <=? 244))%bool then charOf (b - 2)
  else if b =? 238 then charOf 243
  else if b =? 239 then charOf 244
  else c.

Fixpoint unitRanks (s : string) : string :=
  match s with
  | EmptyString => EmptyString
  | String c r => String (unitRank c) (unitRanks r)
  end.

(** [a <= b] on texts *)
Definition codeUnitLeb (a b : string) : bool := String.leb (unitRanks a) (unitRanks b).

Definition inRanges (ranges : list (Z * Z)) (cp : Z) : bool :=
  existsb (fun r => ((fst r <=? cp) && (cp <=? snd r))%bool) ranges.

(** The lower-case mappings of the Unicode Character Database (version 14)
    that map one code point to one code point: the code points from [first]
    to [last] in steps of [step] map to themselves plus [delta]. *)
Definition lowerCaseRules : list (Z * Z * Z * Z) :=
  [
    (65, 90, 1, 32); (192, 214, 1, 32); (216, 222, 1, 32); (256, 302, 2, 1);
    (306, 310, 2, 1); (313, 327, 2, 1); (330, 374, 2, 1); (376, 376, 1, (-121));
    (377, 381, 2, 1); (385, 385, 1, 210); (386, 388, 2, 1); (390, 390, 1, 206);
    (391, 391, 1, 1); (393, 394, 1, 205); (395, 395, 1, 1); (398, 398, 1, 79);
    (399, 399, 1, 202); (400, 400, 1, 203); (401, 401, 1, 1); (403, 403, 1, 205);
    (404, 404, 1, 207); (406, 406, 1, 211); (407, 407, 1, 209); (408, 408, 1, 1);
    (412, 412, 1, 211); (413, 413, 1, 213); (415, 415, 1, 214); (416, 420, 2, 1);
    (422, 422, 1, 218); (423, 423, 1, 1); (425, 425, 1, 218); (428, 428, 1, 1);
    (430, 430, 1, 218); (431, 431, 1, 1); (433, 434, 1, 217); (435, 437, 2, 1);
    (439, 439, 1, 219); (440, 440, 1, 1); (444, 444, 1, 1); (452, 452, 1, 2);
    (453, 453, 1, 1); (455, 455, 1, 2); (456, 456, 1, 1); (458, 458, 1, 2);
    (459, 475, 2, 1); (478, 494, 2, 1); (497, 497, 1, 2); (498, 500, 2, 1);
    (502, 502, 1, (-97)); (503, 503, 1, (-56)); (504, 542, 2, 1); (544, 544, 1, (-130));
    (546, 562, 2, 1); (570, 570, 1, 10795); (571, 571, 1, 1); (573, 573, 1, (-163));
    (574, 574, 1, 10792); (577, 577, 1, 1); (579, 579, 1, (-195)); (580, 580, 1, 69);
    (581, 581, 1, 71); (582, 590, 2, 1); (880, 882, 2, 1); (886, 886, 1, 1);
    (895, 895, 1, 116); (902, 902, 1, 38); (904, 906, 1, 37); (908, 908, 1, 64);
    (910, 911, 1, 63); (913, 929, 1, 32); (931, 939, 1, 32); (975, 975, 1, 8);
    (984, 1006, 2, 1); (1012, 1012, 1, (-60)); (1015, 1015, 1, 1); (1017, 1017, 1, (-7));
    (1018, 1018, 1, 1); (1021, 1023, 1, (-130)); (1024, 1039, 1, 80); (1040, 1071, 1, 32);
    (1120, 1152, 2, 1); (1162, 1214, 2, 1); (1216, 1216, 1, 15); (1217, 1229, 2, 1);
    (1232, 1326, 2, 1); (1329, 1366, 1, 48); (4256, 4293, 1, 7264); (4295, 4295, 1, 7264);
    (4301, 4301, 1, 7264); (5024, 5103, 1, 38864); (5104, 5109, 1, 8); (7312, 7354, 1, (-3008));
    (7357, 7359, 1, (-3008)); (7680, 7828, 2, 1); (7838, 7838, 1, (-7615)); (7840, 7934, 2, 1);
    (7944, 7951, 1, (-8)); (7960, 7965, 1, (-8)); (7976, 7983, 1, (-8)); (7992, 7999, 1, (-8));
    (8008, 8013, 1, (-8)); (8025, 8031, 2, (-8)); (8040, 8047, 1, (-8)); (8072, 8079, 1, (-8));
    (8088, 8095, 1, (-8)); (8104, 8111, 1, (-8)); (8120, 8121, 1, (-8)); (8122, 8123, 1, (-74));
    (8124, 8124, 1, (-9)); (8136, 8139, 1, (-86)); (8140, 8140, 1, (-9)); (8152, 8153, 1, (-8));
    (8154, 8155, 1, (-100)); (8168, 8169, 1, (-8)); (8170, 8171, 1, (-112)); (8172, 8172, 1, (-7));
    (8184, 8185, 1, (-128)); (8186, 8187, 1, (-126)); (8188, 8188, 1, (-9)); (8486, 8486, 1, (-7517));
    (8490, 8490, 1, (-8383)); (8491, 8491, 1, (-8262)); (8498, 8498, 1, 28); (8544, 8559, 1, 16);
    (8579, 8579, 1, 1); (9398, 9423, 1, 26); (11264, 11311, 1, 48); (11360, 11360, 1, 1);
    (11362, 11362, 1, (-10743)); (11363, 11363, 1, (-3814)); (11364, 11364, 1, (-10727)); (11367, 11371, 2, 1);
    (11373, 11373, 1, (-10780)); (11374, 11374, 1, (-10749)); (11375, 11375, 1, (-10783)); (11376, 11376, 1, (-10782));
    (11378, 11378, 1, 1); (11381, 11381, 1, 1); (11390, 11391, 1, (-10815)); (11392, 11490, 2, 1);
    (11499, 11501, 2, 1); (11506, 11506, 1, 1); (42560, 42604, 2, 1); (42624, 42650, 2, 1);
    (42786, 42798, 2, 1); (42802, 42862, 2, 1); (42873, 42875, 2, 1); (42877, 42877, 1, (-35332));
    (42878, 42886, 2, 1); (42891, 42891, 1, 1); (42893, 42893, 1, (-42280)); (42896, 42898, 2, 1);
    (42902, 42920, 2, 1); (42922, 42922, 1, (-42308)); (42923, 42923, 1, (-42319)); (42924, 42924, 1, (-42315));
    (42925, 42925, 1, (-42305)); (42926, 42926, 1, (-42308)); (42928, 42928, 1, (-42258)); (42929, 42929, 1, (-42282));
    (42930, 42930, 1, (-42261)); (42931, 42931, 1, 928); (42932, 42946, 2, 1); (42948, 42948, 1, (-48));
    (42949, 42949, 1, (-42307)); (42950, 42950, 1, (-35384)); (42951, 42953, 2, 1); (42960, 42960, 1, 1);
    (42966, 42968, 2, 1); (42997, 42997, 1, 1); (65313, 65338, 1, 32); (66560, 66599, 1, 40);
    (66736, 66771, 1, 40); (66928, 66938, 1, 39); (66940, 66954, 1, 39); (66956, 66962, 1, 39);
    (66964, 66965, 1, 39); (68736, 68786, 1, 64); (71840, 71871, 1, 32); (93760, 93791, 1, 32);
    (125184, 125217, 1, 34) ].

(** The code points with the property Cased. *)
Definition casedRanges : list (Z * Z) :=
  [
    (65, 90); (97, 122); (170, 170); (181, 181); (186, 186); (192, 214);
    (216, 246); (248, 442); (444, 447); (452, 659); (661, 696); (704, 705);
    (736, 740); (837, 837); (880, 883); (886, 887); (890, 893); (895, 895);
    (902, 902); (904, 906); (908, 908); (910, 929); (931, 1013); (1015, 1153);
    (1162, 1327); (1329, 1366); (1376, 1416); (4256, 4293); (4295, 4295); (4301, 4301);
    (4304, 4346); (4349, 4351); (5024, 5109); (5112, 5117); (7296, 7304); (7312, 7354);
    (7357, 7359); (7424, 7615); (7680, 7957); (7960, 7965); (7968, 8005); (8008, 8013);
    (8016, 8023); (8025, 8025); (8027, 8027); (8029, 8029); (8031, 8061); (8064, 8116);
    (8118, 8124); (8126, 8126); (8130, 8132); (8134, 8140); (8144, 8147); (8150, 8155);
    (8160, 8172); (8178, 8180); (8182, 8188); (8305, 8305); (8319, 8319); (8336, 8348);
    (8450, 8450); (8455, 8455); (8458, 8467); (8469, 8469); (8473, 8477); (8484, 8484);
    (8486, 8486); (8488, 8488); (8490, 8493); (8495, 8500); (8505, 8505); (8508, 8511);
    (8517, 8521); (8526, 8526); (8544, 8575); (8579, 8580); (9398, 9449); (11264, 11492);
    (11499, 11502); (11506, 11507); (11520, 11557); (11559, 11559); (11565, 11565); (42560, 42605);
    (42624, 42653); (42786, 42887); (42891, 42894); (42896, 42954); (42960, 42961); (42963, 42963);
    (42965, 42969); (42997, 42998); (43000, 43002); (43824, 43866); (43868, 43880); (43888, 43967);
    (64256, 64262); (64275, 64279); (65313, 65338); (65345, 65370); (66560, 66639); (66736, 66771);
    (66776, 66811); (66928, 66938); (66940, 66954); (66956, 66962); (66964, 66965); (66967, 66977);
    (66979, 66993); (66995, 67001); (67003, 67004); (67456, 67456); (67459, 67461); (67463, 67504);
    (67506, 67514); (68736, 68786); (68800, 68850); (71840, 71903); (93760, 93823); (119808, 119892);
    (119894, 119964); (119966, 119967); (119970, 119970); (119973, 119974); (119977, 119980); (119982, 119993);
    (119995, 119995); (119997, 120003); (120005, 120069); (120071, 120074); (120077, 120084); (120086, 120092);
    (120094, 120121); (120123, 120126); (120128, 120132); (120134, 120134); (120138, 120144); (120146, 120485);
    (120488, 120512); (120514, 120538); (120540, 120570); (120572, 120596); (120598, 120628); (120630, 120654);
    (120656, 120686); (120688, 120712); (120714, 120744); (120746, 120770); (120772, 120779); (122624, 122633);
    (122635, 122654); (125184, 125251); (127280, 127305); (127312, 127337); (127344, 127369) ].

(** The code points with the property Case_Ignorable. *)
Definition caseIgnorableRanges : list (Z * Z) :=
  [
    (39, 39); (46, 46); (58, 58); (94, 94); (96, 96); (168, 168);
    (173, 173); (175, 175); (180, 180); (183, 184); (688, 879); (884, 885);
    (890, 890); (900, 901); (903, 903); (1155, 1161); (1369, 1369); (1375, 1375);
    (1425, 1469); (1471, 1471); (1473, 1474); (1476, 1477); (1479, 1479); (1524, 1524);
    (1536, 1541); (1552, 1562); (1564, 1564); (1600, 1600); (1611, 1631); (1648, 1648);
    (1750, 1757); (1759, 1768); (1770, 1773); (1807, 1807); (1809, 1809); (1840, 1866);
    (1958, 1968); (2027, 2037); (2042, 2042); (2045, 2045); (2070, 2093); (2137, 2139);
    (2184, 2184); (2192, 2193); (2200, 2207); (2249, 2306); (2362, 2362); (2364, 2364);
    (2369, 2376); (2381, 2381); (2385, 2391); (2402, 2403); (2417, 2417); (2433, 2433);
    (2492, 2492); (2497, 2500); (2509, 2509); (2530, 2531); (2558, 2558); (2561, 2562);
    (2620, 2620); (2625, 2626); (2631, 2632); (2635, 2637); (2641, 2641); (2672, 2673);
    (2677, 2677); (2689, 2690); (2748, 2748); (2753, 2757); (2759, 2760); (2765, 2765);
    (2786, 2787); (2810, 2815); (2817, 2817); (2876, 2876); (2879, 2879); (2881, 2884);
    (2893, 2893); (2901, 2902); (2914, 2915); (2946, 2946); (3008, 3008); (3021, 3021);
    (3072, 3072); (3076, 3076); (3132, 3132); (3134, 3136); (3142, 3144); (3146, 3149);
    (3157, 3158); (3170, 3171); (3201, 3201); (3260, 3260); (3263, 3263); (3270, 3270);
    (3276, 3277); (3298, 3299); (3328, 3329); (3387, 3388); (3393, 3396); (3405, 3405);
    (3426, 3427); (3457, 3457); (3530, 3530); (3538, 3540); (3542, 3542); (3633, 3633);
    (3636, 3642); (3654, 3662); (3761, 3761); (3764, 3772); (3782, 3782); (3784, 3789);
    (3864, 3865); (3893, 3893); (3895, 3895); (3897, 3897); (3953, 3966); (3968, 3972);
    (3974, 3975); (3981, 3991); (3993, 4028); (4038, 4038); (4141, 4144); (4146, 4151);
    (4153, 4154); (4157, 4158); (4184, 4185); (4190, 4192); (4209, 4212); (4226, 4226);
    (4229, 4230); (4237, 4237); (4253, 4253); (4348, 4348); (4957, 4959); (5906, 5908);
    (5938, 5939); (5970, 5971); (6002, 6003); (6068, 6069); (6071, 6077); (6086, 6086);
    (6089, 6099); (6103, 6103); (6109, 6109); (6155, 6159); (6211, 6211); (6277, 6278);
    (6313, 6313); (6432, 6434); (6439, 6440); (6450, 6450); (6457, 6459); (6679, 6680);
    (6683, 6683); (6742, 6742); (6744, 6750); (6752, 6752); (6754, 6754); (6757, 6764);
    (6771, 6780); (6783, 6783); (6823, 6823); (6832, 6862); (6912, 6915); (6964, 6964);
    (6966, 6970); (6972, 6972); (6978, 6978); (7019, 7027); (7040, 7041); (7074, 7077);
    (7080, 7081); (7083, 7085); (7142, 7142); (7144, 7145); (7149, 7149); (7151, 7153);
    (7212, 7219); (7222, 7223); (7288, 7293); (7376, 7378); (7380, 7392); (7394, 7400);
    (7405, 7405); (7412, 7412); (7416, 7417); (7468, 7530); (7544, 7544); (7579, 7679);
    (8125, 8125); (8127, 8129); (8141, 8143); (8157, 8159); (8173, 8175); (8189, 8190);
    (8203, 8207); (8216, 8217); (8228, 8228); (8231, 8231); (8234, 8238); (8288, 8292);
    (8294, 8303); (8305, 8305); (8319, 8319); (8336, 8348); (8400, 8432); (11388, 11389);
    (11503, 11505); (11631, 11631); (11647, 11647); (11744, 11775); (11823, 11823); (12293, 12293);
    (12330, 12333); (12337, 12341); (12347, 12347); (12441, 12446); (12540, 12542); (40981, 40981);
    (42232, 42237); (42508, 42508); (42607, 42610); (42612, 42621); (42623, 42623); (42652, 42655);
    (42736, 42737); (42752, 42785); (42864, 42864); (42888, 42890); (42994, 42996); (43000, 43001);
    (43010, 43010); (43014, 43014); (43019, 43019); (43045, 43046); (43052, 43052); (43204, 43205);
    (43232, 43249); (43263, 43263); (43302, 43309); (43335, 43345); (43392, 43394); (43443, 43443);
    (43446, 43449); (43452, 43453); (43471, 43471); (43493, 43494); (43561, 43566); (43569, 43570);
    (43573, 43574); (43587, 43587); (43596, 43596); (43632, 43632); (43644, 43644); (43696, 43696);
    (43698, 43700); (43703, 43704); (43710, 43711); (43713, 43713); (43741, 43741); (43756, 43757);
    (43763, 43764); (43766, 43766); (43867, 43871); (43881, 43883); (44005, 44005); (44008, 44008);
    (44013, 44013); (64286, 64286); (64434, 64450); (65024, 65039); (65043, 65043); (65056, 65071);
    (65106, 65106); (65109, 65109); (65279, 65279); (65287, 65287); (65294, 65294); (65306, 65306);
    (65342, 65342); (65344, 65344); (65392, 65392); (65438, 65439); (65507, 65507); (65529, 65531);
    (66045, 66045); (66272, 66272); (66422, 66426); (67456, 67461); (67463, 67504); (67506, 67514);
    (68097, 68099); (68101, 68102); (68108, 68111); (68152, 68154); (68159, 68159); (68325, 68326);
    (68900, 68903); (69291, 69292); (69446, 69456); (69506, 69509); (69633, 69633); (69688, 69702);
    (69744, 69744); (69747, 69748); (69759, 69761); (69811, 69814); (69817, 69818); (69821, 69821);
    (69826, 69826); (69837, 69837); (69888, 69890); (69927, 69931); (69933, 69940); (70003, 70003);
    (70016, 70017); (70070, 70078); (70089, 70092); (70095, 70095); (70191, 70193); (70196, 70196);
    (70198, 70199); (70206, 70206); (70367, 70367); (70371, 70378); (70400, 70401); (70459, 70460);
    (70464, 70464); (70502, 70508); (70512, 70516); (70712, 70719); (70722, 70724); (70726, 70726);
    (70750, 70750); (70835, 70840); (70842, 70842); (70847, 70848); (70850, 70851); (71090, 71093);
    (71100, 71101); (71103, 71104); (71132, 71133); (71219, 71226); (71229, 71229); (71231, 71232);
    (71339, 71339); (71341, 71341); (71344, 71349); (71351, 71351); (71453, 71455); (71458, 71461);
    (71463, 71467); (71727, 71735); (71737, 71738); (71995, 71996); (71998, 71998); (72003, 72003);
    (72148, 72151); (72154, 72155); (72160, 72160); (72193, 72202); (72243, 72248); (72251, 72254);
    (72263, 72263); (72273, 72278); (72281, 72283); (72330, 72342); (72344, 72345); (72752, 72758);
    (72760, 72765); (72767, 72767); (72850, 72871); (72874, 72880); (72882, 72883); (72885, 72886);
    (73009, 73014); (73018, 73018); (73020, 73021); (73023, 73029); (73031, 73031); (73104, 73105);
    (73109, 73109); (73111, 73111); (73459, 73460); (78896, 78904); (92912, 92916); (92976, 92982);
    (92992, 92995); (94031, 94031); (94095, 94111); (94176, 94177); (94179, 94180); (110576, 110579);
    (110581, 110587); (110589, 110590); (113821, 113822); (113824, 113827); (118528, 118573); (118576, 118598);
    (119143, 119145); (119155, 119170); (119173, 119179); (119210, 119213); (119362, 119364); (121344, 121398);
    (121403, 121452); (121461, 121461); (121476, 121476); (121499, 121503); (121505, 121519); (122880, 122886);
    (122888, 122904); (122907, 122913); (122915, 122916); (122918, 122922); (123184, 123197); (123566, 123566);
    (123628, 123631); (125136, 125142); (125252, 125259); (127995, 127999); (917505, 917505); (917536, 917631);
    (917760, 917999) ].

Definition lowerCaseOf (cp : Z) : Z :=
  match
    List.find (fun r : Z * Z * Z * Z =>
                 let '(first, last, step, _) := r in
                 ((first <=? cp) && (cp <=? last) && ((cp - first) mod step =? 0))%bool)
      lowerCaseRules
  with
  | Some (_, _, _, delta) => cp + delta
  | None => cp
  end.

Definition isCased (cp : Z) : bool := inRanges casedRanges cp.
Definition isCaseIgnorable (cp : Z) : bool := inRanges caseIgnorableRanges cp.

(** A cased letter follows, after case-ignorable characters or none. *)
Fixpoint casedAhead (l : list Z) : bool :=
  match l with
  | [] => false
  | c :: r => if isCaseIgnorable c then casedAhead r else isCased c
  end.

(** The lower case of the code points [l]; [afterCased] says that a cased
    letter precedes them, with case-ignorable characters or none in
    between.  Two mappings are not one to one: U+0130 maps to U+0069 U+0307,
    and U+03A3, the capital sigma, maps to the final sigma U+03C2 after a
    cased letter when no cased letter follows, and to U+03C3 otherwise. *)
Fixpoint lowerFrom (afterCased : bool) (l : list Z) : list Z :=
  match l with
  | [] => []
  | c :: r =>
      (if c =? 931 then [if (afterCased && negb (casedAhead r))%bool then 962 else 963]
       else if c =? 304 then [105; 775]
       else [lowerCaseOf c])
      ++ lowerFrom (if isCaseIgnorable c then afterCased else isCased c) r
  end.

(** [String.prototype.toLowerCase] *)
Definition toLowerCase (s : string) : string :=
  ofCodePoints (lowerFrom false (codePoints s)).

(** [s.includes(pat)]: [pat] occurs in [s] at some position.  An occurrence
    among the code units of texts proper is an occurrence among their
    bytes, and the other way round: no sequence of bytes starts inside
    another one. *)
Fixpoint includes (s pat : string) : bool :=
  (String.prefix pat s ||
   match s with
   | EmptyString => false
   | String _ r => includes r pat
   end)%bool.

(** The white space and the line terminators of the language: TAB, LF, VT,
    FF, CR, the space, the no-break space, U+1680, U+2000 to U+200A, the line
    and paragraph separators, U+202F, U+205F, U+3000 and U+FEFF. *)
Definition isWhiteSpace (cp : Z) : bool :=
  (existsb (Z.eqb cp)
     [ 9; 10; 11; 12; 13; 32; 160; 5760; 8232; 8233; 8239; 8287; 12288; 65279 ]
   || ((8192 <=? cp) && (cp <=? 8202)))%bool.

Fixpoint trimStart (l : list Z) : list Z :=
  match l with
  | [] => []
  | c :: r => if isWhiteSpace c then trimStart r else l
  end.

(** [String.prototype.trim] *)
Definition trim (s : string) : string :=
  ofCodePoints (rev (trimStart (rev (trimStart (codePoints s))))).

(** A string is falsy exactly when it is empty: [!s]. *)
Definition isEmpty (s : string) : bool :=
  match s with EmptyString => true | _ => false end.

(** The values the page catches: a Supabase or [Error] object (the fields the
    page reads; [None] is a missing, [null] or [undefined] field), a bare
    string, or [null]/[undefined]. *)
Record ErrObject : Type := mkErr {
  message : option string;
  error_description : option string;
  details : option string;
  hint : option string;
  code : option string
}.

Inductive JsErr : Type :=
| ErrStr (s : string)
| ErrObj (o : ErrObject)
| ErrNullish.

Definition errorOf (msg : string) : JsErr :=
  ErrObj (mkErr (Some msg) None None None None).

(** [a ?? b] on an optional field. *)
Definition nullish {A} (a : option A) (b : A) : A :=
  match a with Some x => x | None => b end.

(** [e?.message ?? e?.error_description ?? e?.details ?? e?.hint ??
     (typeof e === 'string' ? e : '')] *)
Definition rawText (e : JsErr) : string :=
  match e with
  | ErrObj o =>
      match message o with
      | Some s => s
      | None =>
          match error_description o with
          | Some s => s
          | None =>
              match details o with
              | Some s => s
              | None => nullish (hint o) ""
              end
          end
      end
  | ErrStr s => s
  | ErrNullish => ""
  end.

(** [navigator]: [None] when [typeof navigator === 'undefined'], otherwise
    the value of [navigator.onLine]. *)
Definition Navigator : Type := option bool.

(** [typeof navigator !== 'undefined' ? navigator.onLine === false : false] *)
Definition offline (nav : Navigator) : bool :=
  match nav with
  | Some b => negb b
  | None => false
  end.

(* ------------------------------------------------------------------ *)
(** ** TransientErrorClassifier *)
(* ------------------------------------------------------------------ *)

(** The signatures of a connectivity failure: network, timeout and abort. *)
Definition networkSignatures : list string :=
  [ "failed to fetch"; "networkerror"; "network"; "load failed";
    "err_network_changed"; "internet_disconnected"; "websocket" ].
Definition timeoutSignatures : list string := [ "timeout" ].
Definition abortSignatures : list string :=
  [ "abort"; "aborted"; "aborterror"; "signal is aborted" ].

Definition carries (sigs : list string) (e : JsErr) : bool :=
  existsb (includes (toLowerCase (rawText e))) sigs.

(* ------------------------------------------------------------------ *)
(** ** RetryPolicy *)
(* ------------------------------------------------------------------ *)

(** What awaiting a promise gives: its value, or the value it rejects with. *)
Inductive Outcome (A : Type) : Type :=
| Ok (a : A)
| Throw (e : JsErr).
Arguments Ok {A} a.
Arguments Throw {A} e.

(** A number of JavaScript is a binary64 floating-point number of IEEE 754.
    Its arithmetic is the one of [SpecFloat]: the result of an operation is
    the number nearest to the exact result, ties to even, and an infinity
    past the greatest number. *)
Definition Number : Type := spec_float.

Definition prec : Z := 53.
Definition emax : Z := 1024.

(** The number nearest to the integer [z]; the integers up to 2^53 in
    magnitude are numbers as they stand. *)
Definition numberOfZ (z : Z) : Number := binary_normalize prec emax z 0 false.

(** The number that a decimal literal denotes, the literal given as a
    fraction: the literal [1.6] is [decimal (16 # 10)]. *)
Definition decimal (q : Q) : Number :=
  match Qnum q with
  | Z0 => S754_zero false
  | Zpos n => SFdiv prec emax (S754_finite false n 0) (S754_finite false (Qden q) 0)
  | Zneg n => SFdiv prec emax (S754_finite true n 0) (S754_finite false (Qden q) 0)
  end.

(** [a * b] *)
Definition times (a b : Number) : Number := SFmul prec emax a b.

(** The value of a finite number, as a fraction. *)
Definition valueOf (x : Number) : Q :=
  match x with
  | S754_finite s m e =>
      let v := if 0 <=? e then inject_Z (Z.pos m * 2 ^ e)
               else Z.pos m # Z.to_pos (2 ^ (- e)) in
      if s then Qopp v else v
  | _ => 0%Q
  end.

(** [Math.pow(x, i)] for a counter [i].  The language leaves the precision
    of [Math.pow] to its implementation ("an implementation-approximated
    value"), so the function belongs to the engine that runs the page. *)
Class Engine : Type := { mathPow : Number -> nat -> Number }.

(** The power rounded correctly: the number nearest to the exact power. *)
Definition nearestPower (x : Number) (i : nat) : Number :=
  match i with
  | O => numberOfZ 1
  | Datatypes.S _ =>
      match x with
      | S754_finite s m e =>
          binary_normalize prec emax
            ((if s then -1 else 1) ^ Z.of_nat i * Z.pos m ^ Z.of_nat i)
            (e * Z.of_nat i) false
      | S754_infinity s => S754_infinity (s && Nat.odd i)
      | S754_zero s => S754_zero (s && Nat.odd i)
      | S754_nan => S754_nan
      end
  end.

(** An engine whose [Math.pow] rounds correctly. *)
#[export] Instance correctlyRounded : Engine := {| mathPow := nearestPower |}.

Section Retry.

Context {engine : Engine}.

(** [baseMs * Math.pow(1.6, i)] *)
Definition backoff (baseMs : Number) (i : nat) : Number :=
  times baseMs (mathPow (decimal (16 # 10)) i).

(** [fn] is the operation: a call answers and changes its environment [S]. *)
Context {S T : Type}.
Variable fn : S -> Outcome T * S.

(** The [for] loop of [retry], from iteration [i] with [remaining] iterations
    to go; [waits] are the delays of the timers awaited so far. *)
Fixpoint retry_loop (remaining i : nat) (baseMs : Number) (lastErr : JsErr)
    (st : S) (waits : list Number) : Outcome T * S * list Number :=
  match remaining with
  | O => (Throw lastErr, st, waits)
  | Datatypes.S k =>
      match fn st with
      | (Ok v, st') => (Ok v, st', waits)
      | (Throw e, st') =>
          retry_loop k (Datatypes.S i) baseMs e st' (waits ++ [backoff baseMs i])
      end
  end.

(** [retry(fn, tries, baseMs)]; [lastErr] starts out [undefined]. *)
Definition retry (tries : nat) (baseMs : Number) (st : S) : Outcome T * S * list Number :=
  retry_loop tries 0 baseMs ErrNullish st [].

(** [retry(fn)] with the default [tries = 6] and [baseMs = 400]. *)
Definition retry_default (st : S) : Outcome T * S * list Number :=
  retry 6 (numberOfZ 400) st.

(** [fails errs st st']: from [st], successive calls of [fn] fail with the
    errors [errs], in this order, and leave the environment [st']. *)
Inductive fails : list JsErr -> S -> S -> Prop :=
| fails_nil st : fails [] st st
| fails_cons e errs st st1 st2 :
    fn st = (Throw e, st1) -> fails errs st1 st2 -> fails (e :: errs) st st2.

End Retry.

(* ------------------------------------------------------------------ *)
(** ** Calendar dates *)
(* ------------------------------------------------------------------ *)

(** A day key ['YYYY-MM-DD'], as the three numbers
    [iso.split('-').map(Number)] reads from it. *)
Record ISODate : Type := mkISO { year : Z; month : Z; mday : Z }.

Definition ISODate_eqb (a b : ISODate) : bool :=
  ((year a =? year b) && (month a =? month b) && (mday a =? mday b))%bool.

(** A [Date] object, as the number of whole days of its local calendar date
    since 1970-01-01.  The page builds its dates at local midnight or noon
    and only moves them by whole days. *)
Definition Date : Type := Z.

(** Day number of the civil date [y-m-d] of the proleptic Gregorian
    calendar ([m] from 1 to 12). *)
Definition days_from_civil (y m d : Z) : Z :=
  let y := if m <=? 2 then y - 1 else y in
  let era := y / 400 in
  let yoe := y - era * 400 in
  let mp := if 2 <? m then m - 3 else m + 9 in
  let doy := (153 * mp + 2) / 5 + d - 1 in
  let doe := yoe * 365 + yoe / 4 - yoe / 100 + doy in
  era * 146097 + doe - 719468.

(** Civil date of a day number. *)
Definition civil_from_days (z : Z) : ISODate :=
  let z := z + 719468 in
  let era := z / 146097 in
  let doe := z - era * 146097 in
  let yoe := (doe - doe / 1460 + doe / 36524 - doe / 146096) / 365 in
  let y := yoe + era * 400 in
  let doy := doe - (365 * yoe + yoe / 4 - yoe / 100) in
  let mp := (5 * doy + 2) / 153 in
  let d := doy - (153 * mp + 2) / 5 + 1 in
  let m := if mp <? 10 then mp + 3 else mp - 9 in
  mkISO (if m <=? 2 then y + 1 else y) m d.

(** [new Date(y, monthIndex, d)]: years 0 to 99 mean 1900 to 1999, months
    and days out of range carry over. *)
Definition newDate (y monthIndex d : Z) : Date :=
  let y := if ((0 <=? y) && (y <=? 99))%bool then 1900 + y else y in
  days_from_civil (y + monthIndex / 12) (monthIndex mod 12 + 1) 1 + (d - 1).

(** [dt.getDay()]: 0 is Sunday, 6 is Saturday; 1970-01-01 was a Thursday. *)
Definition getDay (dt : Date) : Z := (dt + 4) mod 7.

(** [dt.getDate()]: the day of the month. *)
Definition getDate (dt : Date) : Z := mday (civil_from_days dt).

(** [dt.setDate(v)]: day [v] of the month of [dt], carrying over. *)
Definition setDate (dt : Date) (v : Z) : Date :=
  let c := civil_from_days dt in
  days_from_civil (year c) (month c) 1 + (v - 1).

(** Modelled from the spec: [toISODate] of [@/lib/date] is not part of the
    sources at hand.  The page treats it as the key of the local calendar
    date of [dt] (the spec keeps date arithmetic outside the engine). *)
Definition toISODate (dt : Date) : ISODate := civil_from_days dt.

(** [parseISODate(iso)] *)
Definition parseISODate (iso : ISODate) : Date :=
  newDate (year iso) (month iso - 1) (mday iso).

(** [nextBusinessDayISO(iso)] *)
Definition nextBusinessDayISO (iso : ISODate) : ISODate :=
  let dt := parseISODate iso in
  let dow := getDay dt in
  let dt :=
    if dow =? 5 then setDate dt (getDate dt + 3)
    else if dow =? 6 then setDate dt (getDate dt + 2)
    else if dow =? 0 then setDate dt (getDate dt + 1)
    else setDate dt (getDate dt + 1) in
  toISODate dt.

(** [prevBusinessDayISO(iso)] *)
Definition prevBusinessDayISO (iso : ISODate) : ISODate :=
  let dt := parseISODate iso in
  let dow := getDay dt in
  let dt :=
    if dow =? 1 then setDate dt (getDate dt - 3)
    else if dow =? 0 then setDate dt (getDate dt - 2)
    else if dow =? 6 then setDate dt (getDate dt - 1)
    else setDate dt (getDate dt - 1) in
  toISODate dt.

(** The check behind the round trip of the two calendar conversions, on one
    day [doe] of a 400-year era. *)
Definition era_day_ok (doe : Z) : bool :=
  let yoe := (doe - doe / 1460 + doe / 36524 - doe / 146096) / 365 in
  let doy := doe - (365 * yoe + yoe / 4 - yoe / 100) in
  let mp := (5 * doy + 2) / 153 in
  let d := doy - (153 * mp + 2) / 5 + 1 in
  ((0 <=? yoe) && (yoe <? 400) && (0 <=? mp) && (mp <? 12) &&
   (1 <=? d) && (d <=? 31) &&
   (yoe * 365 + yoe / 4 - yoe / 100 + ((153 * mp + 2) / 5 + d - 1) =? doe))%bool.

(** [p] holds of 0, 1, ..., [n - 1]. *)
Definition all_below (n : Z) (p : Z -> bool) : bool :=
  fst (Z.iter n (fun s : bool * Z => ((fst s && p (snd s))%bool, snd s + 1))
         (true, 0)).

(** The calendar day a key names, and its day of the week (0 is Sunday). *)
Definition dayNumber (iso : ISODate) : Z :=
  days_from_civil (year iso) (month iso) (mday iso).

Definition weekday (iso : ISODate) : Z := (dayNumber iso + 4) mod 7.

(** Keys whose numbers [new Date(y, m - 1, d)] reads as they stand: a month
    from 1 to 12 and a year that is not one of the two-digit years. *)
Definition plainKey (iso : ISODate) : Prop :=
  1 <= month iso <= 12 /\ ~ (0 <= year iso <= 99).

(* ------------------------------------------------------------------ *)
(** ** Data model *)
(* ------------------------------------------------------------------ *)

(** Modelled from the spec: the [Item] type of [@/lib/data] is not part of
    the sources at hand.  A card has an identity, a board, a day key, a row
    (room name), an integer position [ord] in its (day, row) cell, the four
    text fields and the [done] flag. *)
Module Item.
Record t : Type := mk {
  id : string;
  center_id : string;
  day : ISODate;
  row : string;
  ord : Z;
  name : string;
  room : string;
  dx : string;
  proc : string;
  done : bool
}.
End Item.
Abbreviation Item := Item.t.

(** The payload of [addItem]: a card that has no identity yet. *)
Module NewItem.
Record t : Type := mk {
  center_id : string;
  day : ISODate;
  row : string;
  ord : Z;
  name : string;
  room : string;
  dx : string;
  proc : string;
  done : bool
}.
End NewItem.
Abbreviation NewItem := NewItem.t.

(** The patches the page sends with [updateItem]. *)
Inductive Patch : Type :=
| PatchOrd (ord : Z)
| PatchRow (row : string)
| PatchDay (day : ISODate)
| PatchDone (done : bool)
| PatchCard (name room dx proc : string).

(** A row of the [inpatients] table. *)
Module Inpatient.
Record t : Type := mk {
  id : string;
  center_id : string;
  source_item_id : string;
  name : option string;
  bed : option string;
  dx : option string;
  evolution : option string;
  is_active : bool;
  admitted_at : Z;
  discharged_at : option Z
}.
End Inpatient.
Abbreviation InpatientRow := Inpatient.t.

(** The payload of the insert into [inpatients]. *)
Module NewInpatient.
Record t : Type := mk {
  center_id : string;
  source_item_id : string;
  name : option string;
  bed : option string;
  dx : option string;
  evolution : option string;
  is_active : bool;
  admitted_at : Z;
  discharged_at : option Z
}.
End NewInpatient.
Abbreviation NewInpatient := NewInpatient.t.

Inductive Role : Type := Unknown | Viewer | Editor.

Definition Role_eqb (a b : Role) : bool :=
  match a, b with
  | Unknown, Unknown | Viewer, Viewer | Editor, Editor => true
  | _, _ => false
  end.

(* ------------------------------------------------------------------ *)
(** ** The environment of the page *)
(* ------------------------------------------------------------------ *)

(** Requests to the remote store and to the session service. *)
Inductive Call : Type :=
| ListWeek (centerId : string) (monday : option ISODate)
| AddItem (payload : NewItem)
| UpdateItem (id : string) (patch : Patch)
| InpatientsSelectActive (centerId : string)
| InpatientsDischarge (centerId : string) (sourceItemId : string) (at_ : Z)
| InpatientsInsert (payload : NewInpatient)
| ItemsSelectIn (ids : list string)
| AuthSignOut.

(** What the page does that can be observed from outside. *)
Inductive Effect : Type :=
| Remote (c : Call)
| Alert (msg : string)
| ConsoleLog (tag : string)
| ConsoleWarn (tag : string)
| ConsoleError (tag : string)
| StorageRemove (key : string)
| StorageSet (key value : string)
| Dispatch (event : string).

(** The environment: the browser ([navigator], the clock, [localStorage]),
    the module variable [lastNetWarnAt], the two remote tables, the
    failures [faults] that the next remote calls meet, in order ([None], or
    no entry left, is a call that goes through), the identities the remote
    store gives to new rows, and the journal of the effects so far, oldest
    first. *)
Record World : Type := mkWorld {
  navigator : Navigator;
  clock : Z;
  lastNetWarnAt : Z;
  localStorage : gmap string string;
  itemsTable : list Item;
  inpatientsTable : list InpatientRow;
  faults : list (option JsErr);
  newId : nat -> string;
  journal : list Effect
}.

Definition set_lastNetWarnAt (v : Z) (w : World) : World :=
  mkWorld (navigator w) (clock w) v (localStorage w) (itemsTable w)
    (inpatientsTable w) (faults w) (newId w) (journal w).

Definition set_localStorage (v : gmap string string) (w : World) : World :=
  mkWorld (navigator w) (clock w) (lastNetWarnAt w) v (itemsTable w)
    (inpatientsTable w) (faults w) (newId w) (journal w).

Definition set_itemsTable (v : list Item) (w : World) : World :=
  mkWorld (navigator w) (clock w) (lastNetWarnAt w) (localStorage w) v
    (inpatientsTable w) (faults w) (newId w) (journal w).

Definition set_inpatientsTable (v : list InpatientRow) (w : World) : World :=
  mkWorld (navigator w) (clock w) (lastNetWarnAt w) (localStorage w)
    (itemsTable w) v (faults w) (newId w) (journal w).

Definition set_faults (v : list (option JsErr)) (w : World) : World :=
  mkWorld (navigator w) (clock w) (lastNetWarnAt w) (localStorage w)
    (itemsTable w) (inpatientsTable w) v (newId w) (journal w).

Definition set_journal (v : list Effect) (w : World) : World :=
  mkWorld (navigator w) (clock w) (lastNetWarnAt w) (localStorage w)
    (itemsTable w) (inpatientsTable w) (faults w) (newId w) v.

(** The requests among the effects. *)
Definition callsOf (j : list Effect) : list Call :=
  flat_map (fun e => match e with Remote c => [c] | _ => [] end) j.

Definition alertsOf (j : list Effect) : list string :=
  flat_map (fun e => match e with Alert m => [m] | _ => [] end) j.


Definition isFetch (c : Call) : bool :=
  match c with
  | ListWeek _ _ => true
  | _ => false
  end.

(* ------------------------------------------------------------------ *)
(** ** Asynchronous handlers *)
(* ------------------------------------------------------------------ *)

(** A handler of a component with state [C] runs on the state of its
    component and on the environment, and ends normally or by throwing.
    The page runs on a single event loop; a handler is taken here from its
    call to its end, with no other handler in between. *)
Definition M (C A : Type) : Type := C * World -> Outcome A * (C * World).

Section Handlers.

Context {C : Type}.

Definition ret {A} (a : A) : M C A := fun s => (Ok a, s).

Definition bind {A B} (m : M C A) (k : A -> M C B) : M C B :=
  fun s =>
    match m s with
    | (Ok a, s1) => k a s1
    | (Throw e, s1) => (Throw e, s1)
    end.

Definition throw {A} (e : JsErr) : M C A := fun s => (Throw e, s).

(** [try { m } catch (e) { h(e) }] *)
Definition tryCatch {A} (m : M C A) (h : JsErr -> M C A) : M C A :=
  fun s =>
    match m s with
    | (Ok a, s1) => (Ok a, s1)
    | (Throw e, s1) => h e s1
    end.

(** [try { m } finally { f }] *)
Definition tryFinally {A} (m : M C A) (f : M C unit) : M C A :=
  fun s =>
    match m s with
    | (r, s1) =>
        match f s1 with
        | (Ok _, s2) => (r, s2)
        | (Throw e, s2) => (Throw e, s2)
        end
    end.

Definition getState : M C C := fun s => (Ok (fst s), s).
Definition setState (f : C -> C) : M C unit := fun s => (Ok tt, (f (fst s), snd s)).
Definition getWorld : M C World := fun s => (Ok (snd s), s).
Definition setWorld (f : World -> World) : M C unit :=
  fun s => (Ok tt, (fst s, f (snd s))).

Definition emit (e : Effect) : M C unit :=
  setWorld (fun w => set_journal (journal w ++ [e]) w).

(** A request: it is journalled, then it meets the next entry of [faults];
    with no fault it has the effect [serve] on the remote tables. *)
Definition request {A} (c : Call) (serve : World -> A * World) : M C (Outcome A) :=
  fun s =>
    let w := set_journal (journal (snd s) ++ [Remote c]) (snd s) in
    match faults w with
    | Some e :: rest => (Ok (Throw e), (fst s, set_faults rest w))
    | None :: rest =>
        let r := serve (set_faults rest w) in (Ok (Ok (fst r)), (fst s, snd r))
    | [] => let r := serve w in (Ok (Ok (fst r)), (fst s, snd r))
    end.

(** A request through a function that throws when the request fails. *)
Definition requestOrThrow {A} (c : Call) (serve : World -> A * World) : M C A :=
  bind (request c serve)
       (fun r => match r with Ok a => ret a | Throw e => throw e end).

End Handlers.

Notation "x <- m ;; k" := (bind m (fun x => k))
  (at level 100, m at next level, right associativity).
Notation "m ;;; k" := (bind m (fun _ => k))
  (at level 100, right associativity).

(* ------------------------------------------------------------------ *)
(** ** The board component *)
(* ------------------------------------------------------------------ *)

(** The state of the [Board] component at a render: its props, its React
    state, the two refs and the [alive] flag of its subscription effect. *)
Record Board : Type := mkBoard {
  role : Role;
  centerId : option string;
  rows : list string;
  readOnly : bool;
  dayKeys : list ISODate;
  items : list Item;
  draftCell : option (ISODate * string);
  inpatientSet : gset string;
  inpatients : list InpatientRow;
  inpatientsLoading : bool;
  inpatientMetaMap : gmap string (string * ISODate);
  inpatientInFlight : gset string;
  alive : bool
}.

Definition setItems (v : list Item) (b : Board) : Board :=
  mkBoard (role b) (centerId b) (rows b) (readOnly b) (dayKeys b) v
    (draftCell b) (inpatientSet b) (inpatients b) (inpatientsLoading b)
    (inpatientMetaMap b) (inpatientInFlight b) (alive b).

Definition setDraftCell (v : option (ISODate * string)) (b : Board) : Board :=
  mkBoard (role b) (centerId b) (rows b) (readOnly b) (dayKeys b) (items b)
    v (inpatientSet b) (inpatients b) (inpatientsLoading b)
    (inpatientMetaMap b) (inpatientInFlight b) (alive b).

Definition setInpatientSet (v : gset string) (b : Board) : Board :=
  mkBoard (role b) (centerId b) (rows b) (readOnly b) (dayKeys b) (items b)
    (draftCell b) v (inpatients b) (inpatientsLoading b)
    (inpatientMetaMap b) (inpatientInFlight b) (alive b).

Definition setInpatients (v : list InpatientRow) (b : Board) : Board :=
  mkBoard (role b) (centerId b) (rows b) (readOnly b) (dayKeys b) (items b)
    (draftCell b) (inpatientSet b) v (inpatientsLoading b)
    (inpatientMetaMap b) (inpatientInFlight b) (alive b).

Definition setInpatientsLoading (v : bool) (b : Board) : Board :=
  mkBoard (role b) (centerId b) (rows b) (readOnly b) (dayKeys b) (items b)
    (draftCell b) (inpatientSet b) (inpatients b) v
    (inpatientMetaMap b) (inpatientInFlight b) (alive b).

Definition setInpatientMetaMap (v : gmap string (string * ISODate)) (b : Board) : Board :=
  mkBoard (role b) (centerId b) (rows b) (readOnly b) (dayKeys b) (items b)
    (draftCell b) (inpatientSet b) (inpatients b) (inpatientsLoading b)
    v (inpatientInFlight b) (alive b).

Definition setInpatientInFlight (v : gset string) (b : Board) : Board :=
  mkBoard (role b) (centerId b) (rows b) (readOnly b) (dayKeys b) (items b)
    (draftCell b) (inpatientSet b) (inpatients b) (inpatientsLoading b)
    (inpatientMetaMap b) v (alive b).

(** [(role === "editor" && readOnly) ? "viewer" : role] *)
Definition effectiveRole (b : Board) : Role :=
  if (Role_eqb (role b) Editor && readOnly b)%bool then Viewer else role b.

(** The board identity when [centerId] is truthy: [if (!centerId) return]. *)
Definition boardId (b : Board) : option string :=
  match centerId b with
  | Some c => if isEmpty c then None else Some c
  | None => None
  end.

(** [typeof navigator !== 'undefined' && !navigator.onLine] *)
Definition notOnLine (nav : Navigator) : bool :=
  match nav with
  | Some b => negb b
  | None => false
  end.

(** [arr[i]]: [undefined] out of range. *)
Definition at_ {A} (l : list A) (i : Z) : option A :=
  if i <? 0 then None else nth_error l (Z.to_nat i).

(** [arr.findIndex(p)]: the first index where [p] holds, or -1. *)
Fixpoint findIndex {A} (p : A -> bool) (l : list A) : Z :=
  match l with
  | [] => -1
  | x :: r =>
      if p x then 0
      else let k := findIndex p r in if k <? 0 then -1 else k + 1
  end.

(** [arr.indexOf(x)] on day keys *)
Definition indexOf (l : list ISODate) (x : ISODate) : Z :=
  findIndex (fun y => ISODate_eqb y x) l.

(** [arr.sort((a, b) => Number(a.ord) - Number(b.ord))]: the sort is stable,
    cards with the same [ord] keep their order. *)
Fixpoint insertByOrd (x : Item) (l : list Item) : list Item :=
  match l with
  | [] => [x]
  | y :: r => if Item.ord x <=? Item.ord y then x :: y :: r else y :: insertByOrd x r
  end.

Definition sortByOrd (l : list Item) : list Item := fold_right insertByOrd [] l.

(** [i.day === day && i.row === row] *)
Definition inCell (day : ISODate) (row : string) (i : Item) : bool :=
  (ISODate_eqb (Item.day i) day && String.eqb (Item.row i) row)%bool.

(** [items.filter(...).sort(...)]: the cell of a card, in display order. *)
Definition cellOf (cache : list Item) (day : ISODate) (row : string) : list Item :=
  sortByOrd (List.filter (inCell day row) cache).

(** [Number(x) || 0] on an integer. *)
Definition numberOr0 (x : Z) : Z := if x =? 0 then 0 else x.

(** [Math.max(...l)] of a list that is not empty. *)
Definition mathMax (l : list Z) : Z :=
  match l with
  | [] => 0
  | x :: r => fold_left Z.max r x
  end.

(** The number nearest to the integer [z] (of magnitude below 2^1024), as
    an integer: [z] itself up to 2^53 in magnitude, beyond that the nearest
    integer with 53 significant bits, ties to the even one.  The sum of two
    numbers is the number nearest to their exact sum. *)
Definition toNumber (z : Z) : Z :=
  let a := Z.abs z in
  let e := Z.log2 a - 52 in
  if e <=? 0 then z
  else
    let q := a / 2 ^ e in
    let r := a mod 2 ^ e in
    let up := ((2 ^ (e - 1) <? r) || ((2 ^ (e - 1) =? r) && Z.odd q))%bool in
    Z.sgn z * ((if up then q + 1 else q) * 2 ^ e).

(** [cellItems.length > 0
      ? Math.max(...cellItems.map((i) => Number(i.ord) || 0)) + 1 : 1] *)
Definition nextOrdOf (cellItems : list Item) : Z :=
  if 0 <? Z.of_nat (length cellItems)
  then toNumber (mathMax (List.map (fun i => numberOr0 (Item.ord i)) cellItems) + 1)
  else 1.

Definition applyPatch (p : Patch) (i : Item) : Item :=
  match p with
  | PatchOrd o =>
      Item.mk (Item.id i) (Item.center_id i) (Item.day i) (Item.row i) o
        (Item.name i) (Item.room i) (Item.dx i) (Item.proc i) (Item.done i)
  | PatchRow r =>
      Item.mk (Item.id i) (Item.center_id i) (Item.day i) r (Item.ord i)
        (Item.name i) (Item.room i) (Item.dx i) (Item.proc i) (Item.done i)
  | PatchDay d =>
      Item.mk (Item.id i) (Item.center_id i) d (Item.row i) (Item.ord i)
        (Item.name i) (Item.room i) (Item.dx i) (Item.proc i) (Item.done i)
  | PatchDone b =>
      Item.mk (Item.id i) (Item.center_id i) (Item.day i) (Item.row i) (Item.ord i)
        (Item.name i) (Item.room i) (Item.dx i) (Item.proc i) b
  | PatchCard n r x p =>
      Item.mk (Item.id i) (Item.center_id i) (Item.day i) (Item.row i) (Item.ord i)
        n r x p (Item.done i)
  end.

(** The row the remote store makes of a payload. *)
Definition itemOfPayload (id : string) (p : NewItem) : Item :=
  Item.mk id (NewItem.center_id p) (NewItem.day p) (NewItem.row p) (NewItem.ord p)
    (NewItem.name p) (NewItem.room p) (NewItem.dx p) (NewItem.proc p)
    (NewItem.done p).

(** The days of the week that starts on [monday]. *)
Definition inWeek (monday : option ISODate) (d : ISODate) : bool :=
  match monday with
  | Some m => ((dayNumber m <=? dayNumber d) && (dayNumber d <=? dayNumber m + 6))%bool
  | None => false
  end.

Definition visibleIn (cid : string) (monday : option ISODate) (i : Item) : bool :=
  (String.eqb (Item.center_id i) cid && inWeek monday (Item.day i))%bool.

Definition writeItem (id : string) (p : Patch) (table : list Item) : list Item :=
  List.map (fun i => if String.eqb (Item.id i) id then applyPatch p i else i) table.

(** A [TypeError] for a property read on [null] or [undefined]. *)
Definition typeError : JsErr := errorOf "Cannot read properties of undefined".

(** [e?.message || e?.error_description || e?.details || e?.hint || ''] *)
Definition firstTruthy (e : JsErr) : string :=
  match e with
  | ErrObj o =>
      let pick (f : option string) (rest : string) :=
        match f with
        | Some s => if isEmpty s then rest else s
        | None => rest
        end in
      pick (message o) (pick (error_description o) (pick (details o) (pick (hint o) "")))
  | _ => ""
  end.

Section BoardHandlers.

(** The classifier [isTransientNetworkError] of the copy of the page at
    hand. *)
Variable classify : Navigator -> JsErr -> bool.

Context {C : Type}.

(** [showErr(e)] *)
Definition showErr (e : JsErr) : M C unit :=
  w <- getWorld ;;
  if classify (navigator w) e then
    if clock w - lastNetWarnAt w >? 5000 then
      emit (ConsoleWarn "[NET] transient error — ignoring alert") ;;;
      setWorld (set_lastNetWarnAt (clock w))
    else ret tt
  else
    emit (ConsoleError "[ERR]") ;;;
    let msg := trim (firstTruthy e) in
    emit (Alert (if isEmpty msg then "Error inesperado. Revisa la consola." else msg)).

End BoardHandlers.

Section RemoteStore.

Context {C : Type}.

(** Modelled from the spec: [listWeek], [addItem] and [updateItem] of
    [@/lib/data] are not part of the sources at hand.  The remote store
    exposes create, read and update over the cards; [listWeek] reads the
    cards of a board for the week that starts on the given Monday, in the
    order of the table; [updateItem] patches the card with the given
    identity; [addItem] appends the new card.  A request that fails throws. *)
Definition listWeek (cid : string) (monday : option ISODate) : M C (list Item) :=
  requestOrThrow (ListWeek cid monday)
    (fun w => (List.filter (visibleIn cid monday) (itemsTable w), w)).

Definition addItem (payload : NewItem) : M C Item :=
  requestOrThrow (AddItem payload)
    (fun w =>
       let it := itemOfPayload (newId w (length (itemsTable w))) payload in
       (it, set_itemsTable (itemsTable w ++ [it]) w)).

Definition updateItem (id : string) (p : Patch) : M C unit :=
  requestOrThrow (UpdateItem id p)
    (fun w => (tt, set_itemsTable (writeItem id p (itemsTable w)) w)).

End RemoteStore.

Section BoardOperations.

Variable classify : Navigator -> JsErr -> bool.

(** [refresh] *)
Definition refresh : M Board unit :=
  b <- getState ;;
  match boardId b with
  | None => ret tt
  | Some cid =>
      w <- getWorld ;;
      if notOnLine (navigator w) then ret tt
      else
        tryCatch
          (data <- listWeek cid (head (dayKeys b)) ;;
           setState (setItems data))
          (showErr classify)
  end.

(** [onSubmitAdd(day, vals)]; [vals] are the name, room, dx and proc of the
    form. *)
Definition onSubmitAdd (day : ISODate) (vName vRoom vDx vProc : string) : M Board unit :=
  b <- getState ;;
  if negb (Role_eqb (effectiveRole b) Editor) then ret tt
  else
    tryCatch
      (match boardId b with
       | None => ret tt
       | Some cid =>
           match draftCell b with
           | None => throw typeError
           | Some (_, draftRow) =>
               let cellItems := List.filter (inCell day draftRow) (items b) in
               let nextOrd := nextOrdOf cellItems in
               let payload :=
                 NewItem.mk cid day draftRow nextOrd (trim vName) (trim vRoom)
                   (trim vDx) vProc false in
               emit (ConsoleLog "[ADD] vals=") ;;;
               emit (ConsoleLog "[ADD] payload=") ;;;
               if (isEmpty (NewItem.name payload) && isEmpty (NewItem.dx payload)
                   && isEmpty (NewItem.room payload))%bool
               then emit (Alert "No puedes guardar un paciente vacío.")
               else
                 created <- addItem payload ;;
                 emit (ConsoleLog "[ADD] created row from supabase=") ;;;
                 setState (setDraftCell None) ;;;
                 refresh
           end
       end)
      (showErr classify).

(** [moveOneUp(it)]; [Number(x)] is [x] on the integers.  Reading [.ord]
    of a neighbour that is [undefined] would throw a [TypeError]. *)
Definition moveOneUp (it : Item) : M Board unit :=
  b <- getState ;;
  let cell := cellOf (items b) (Item.day it) (Item.row it) in
  let idx := findIndex (fun i => String.eqb (Item.id i) (Item.id it)) cell in
  if idx <=? 0 then ret tt
  else
    match at_ cell (idx - 1) with
    | None => throw typeError
    | Some prev =>
        let itOrd := Item.ord it in
        let prevOrd := Item.ord prev in
        tryCatch
          (updateItem (Item.id it) (PatchOrd prevOrd) ;;;
           updateItem (Item.id prev) (PatchOrd itOrd) ;;;
           refresh)
          (showErr classify)
    end.

(** [moveOneDown(it)] *)
Definition moveOneDown (it : Item) : M Board unit :=
  b <- getState ;;
  let cell := cellOf (items b) (Item.day it) (Item.row it) in
  let idx := findIndex (fun i => String.eqb (Item.id i) (Item.id it)) cell in
  if ((idx <? 0) || (Z.of_nat (length cell) - 1 <=? idx))%bool then ret tt
  else
    match at_ cell (idx + 1) with
    | None => throw typeError
    | Some next =>
        let itOrd := Item.ord it in
        let nextOrd := Item.ord next in
        tryCatch
          (updateItem (Item.id it) (PatchOrd nextOrd) ;;;
           updateItem (Item.id next) (PatchOrd itOrd) ;;;
           refresh)
          (showErr classify)
    end.

(** The two branches of [moveDayLeft] and [moveDayRight] end the same way. *)
Definition moveToDay (it : Item) (destDay : ISODate) : M Board unit :=
  tryCatch
    (updateItem (Item.id it) (PatchDay destDay) ;;; refresh)
    (showErr classify).

(** [moveDayLeft(it)]; [idx - 1] is an index of [dayKeys] when [idx > 0],
    the [None] branch is never taken. *)
Definition moveDayLeft (it : Item) : M Board unit :=
  b <- getState ;;
  let idx := indexOf (dayKeys b) (Item.day it) in
  if 0 <? idx then
    match at_ (dayKeys b) (idx - 1) with
    | Some destDay => moveToDay it destDay
    | None => throw typeError
    end
  else if idx =? 0 then moveToDay it (prevBusinessDayISO (Item.day it))
  else ret tt.

(** [moveDayRight(it)]; [idx + 1] is an index of [dayKeys] in the first
    branch, the [None] branch is never taken. *)
Definition moveDayRight (it : Item) : M Board unit :=
  b <- getState ;;
  let idx := indexOf (dayKeys b) (Item.day it) in
  if ((0 <=? idx) && (idx <? Z.of_nat (length (dayKeys b)) - 1))%bool then
    match at_ (dayKeys b) (idx + 1) with
    | Some destDay => moveToDay it destDay
    | None => throw typeError
    end
  else if idx =? Z.of_nat (length (dayKeys b)) - 1
  then moveToDay it (nextBusinessDayISO (Item.day it))
  else ret tt.

End BoardOperations.

(* ------------------------------------------------------------------ *)
(** ** The sign-in buttons and the persisted display preferences *)
(* ------------------------------------------------------------------ *)

(** The state of the [AuthButtons] component. *)
Record AuthButtons : Type := mkAuthButtons {
  email : string;
  pass : string;
  userEmail : option string;
  open : bool
}.

Definition READONLY_KEY : string := "salatrack_readonly".

(** The initial value of [readOnly] when the board mounts:
    [localStorage.getItem('salatrack_readonly') === '1'] *)
Definition initialReadOnly (w : World) : bool :=
  match localStorage w !! READONLY_KEY with
  | Some v => String.eqb v "1"
  | None => false
  end.

(** The effect that persists [readOnly]:
    [localStorage.setItem('salatrack_readonly', readOnly ? '1' : '0')] *)
Definition persistReadOnly {C} (ro : bool) : M C unit :=
  let v := if ro then "1" else "0" in
  emit (StorageSet READONLY_KEY v) ;;;
  setWorld (fun w => set_localStorage (<[READONLY_KEY := v]> (localStorage w)) w).

(** [localStorage.removeItem(key)] *)
Definition removeItem {C} (key : string) : M C unit :=
  emit (StorageRemove key) ;;;
  setWorld (fun w => set_localStorage (delete key (localStorage w)) w).

(** [supabase.auth.signOut()]: answers with an error or without. *)
Definition authSignOut {C} : M C (Outcome unit) :=
  request AuthSignOut (fun w => (tt, w)).

(* ------------------------------------------------------------------ *)
(** ** The in-patient table of the remote store *)
(* ------------------------------------------------------------------ *)

Definition activeFor (cid : string) (r : InpatientRow) : bool :=
  (String.eqb (Inpatient.center_id r) cid && Inpatient.is_active r)%bool.

Definition activeOf (cid src : string) (r : InpatientRow) : bool :=
  (activeFor cid r && String.eqb (Inpatient.source_item_id r) src)%bool.

(** The answer of the remote store to a row that breaks a uniqueness
    constraint. *)
Definition uniqueViolation : JsErr :=
  ErrObj (mkErr (Some "duplicate key value violates unique constraint")
                None None None (Some "23505")).

Definition rowOfPayload (id : string) (p : NewInpatient) : InpatientRow :=
  Inpatient.mk id (NewInpatient.center_id p) (NewInpatient.source_item_id p)
    (NewInpatient.name p) (NewInpatient.bed p) (NewInpatient.dx p)
    (NewInpatient.evolution p) (NewInpatient.is_active p)
    (NewInpatient.admitted_at p) (NewInpatient.discharged_at p).

Definition dischargeRow (at_time : Z) (r : InpatientRow) : InpatientRow :=
  Inpatient.mk (Inpatient.id r) (Inpatient.center_id r) (Inpatient.source_item_id r)
    (Inpatient.name r) (Inpatient.bed r) (Inpatient.dx r) (Inpatient.evolution r)
    false (Inpatient.admitted_at r) (Some at_time).

(** [.order('admitted_at', { ascending: false })] *)
Fixpoint insertLatest (x : InpatientRow) (l : list InpatientRow) : list InpatientRow :=
  match l with
  | [] => [x]
  | y :: r =>
      if Inpatient.admitted_at y <=? Inpatient.admitted_at x then x :: y :: r
      else y :: insertLatest x r
  end.

Definition latestFirst (l : list InpatientRow) : list InpatientRow :=
  fold_right insertLatest [] l.

Section InpatientStore.

Context {C : Type}.

(** Modelled from the spec: the remote store holds the in-patient records
    and enforces, by a uniqueness constraint, at most one active record per
    source card and board; a request that breaks it is answered with the
    error code 23505.  The three requests below are the ones the page
    builds with the query builder; each answers with its data or with an
    error, and does not throw. *)
Definition inpatientsSelectActive (cid : string) : M C (Outcome (list InpatientRow)) :=
  request (InpatientsSelectActive cid)
    (fun w => (latestFirst (List.filter (activeFor cid) (inpatientsTable w)), w)).

Definition inpatientsDischarge (cid src : string) (at_time : Z) : M C (Outcome unit) :=
  request (InpatientsDischarge cid src at_time)
    (fun w =>
       (tt, set_inpatientsTable
              (List.map (fun r => if activeOf cid src r then dischargeRow at_time r else r)
                 (inpatientsTable w)) w)).

Definition inpatientsInsert (p : NewInpatient) : M C (Outcome (option JsErr)) :=
  request (InpatientsInsert p)
    (fun w =>
       if (NewInpatient.is_active p &&
           existsb (activeOf (NewInpatient.center_id p) (NewInpatient.source_item_id p))
             (inpatientsTable w))%bool
       then (Some uniqueViolation, w)
       else (None,
             set_inpatientsTable
               (inpatientsTable w ++
                [rowOfPayload (newId w (length (inpatientsTable w))) p]) w)).

(** [supabase.from('items').select('id, proc, day').in('id', ids)] *)
Definition itemsSelectIn (ids : list string) : M C (Outcome (list (string * string * ISODate))) :=
  request (ItemsSelectIn ids)
    (fun w =>
       (List.map (fun i => (Item.id i, Item.proc i, Item.day i))
          (List.filter (fun i => existsb (String.eqb (Item.id i)) ids) (itemsTable w)),
        w)).

End InpatientStore.

(** [{ error }] of an answer: the error when there is one. *)
Definition errorOfAnswer (r : Outcome (option JsErr)) : option JsErr :=
  match r with
  | Throw e => Some e
  | Ok o => o
  end.

(** [(insErr as any).code] *)
Definition codeOf (e : JsErr) : option string :=
  match e with
  | ErrObj o => code o
  | _ => None
  end.

(** [code !== '23505'] *)
Definition isNot23505 (c : option string) : bool :=
  match c with
  | Some s => negb (String.eqb s "23505")
  | None => true
  end.

(* ------------------------------------------------------------------ *)
(** ** The configuration loader, as a machine of promises *)
(* ------------------------------------------------------------------ *)

(** The four reads of a load, in the order of the code: the centre by its
    slug, its active rooms, its active procedure types, and the schedule of
    today. *)
Inductive Read : Type := ReadCenter | ReadRooms | ReadProcedures | ReadSchedule.

Definition nextRead (r : Read) : option Read :=
  match r with
  | ReadCenter => Some ReadRooms
  | ReadRooms => Some ReadProcedures
  | ReadProcedures => Some ReadSchedule
  | ReadSchedule => None
  end.

(** A promise of a load awaits the answer of one of its reads, or is
    settled: fulfilled after the last read, rejected by the first answer
    that makes the code throw (an error of the read, or no centre found). *)
Inductive PromiseState : Type :=
| Awaits (r : Read)
| Settled (o : Outcome unit).

(** The loader: [loadingCenterRef.current] (the number of the promise it
    holds), the promises made so far (promise [k] is the [k]-th load that
    was started), the promises whose maker is still inside its
    [try { await p } finally { ... }], the promise handed to each call, in
    the order of the calls, and the reads sent, oldest first, each with the
    promise it belongs to. *)
Record Loader : Type := mkLoader {
  loadingCenterRef : option nat;
  promises : list PromiseState;
  owners : list nat;
  handed : list nat;
  reads : list (nat * Read)
}.

Definition loaderInit : Loader := mkLoader None [] [] [] [].

(** What happens on the event loop: a call of [loadCenterConfig], the answer
    to the read that a promise awaits (data, or what makes the code throw),
    and the maker of a promise resuming after its [await]. *)
Inductive LoaderEvent : Type :=
| CallLoad
| ReadAnswers (p : nat) (o : Outcome unit)
| ResumeOwner (p : nat).

Definition isAwaiting (s : PromiseState) : bool :=
  match s with Awaits _ => true | Settled _ => false end.

(** The loads in flight. *)
Definition inFlight (l : Loader) : nat :=
  length (List.filter isAwaiting (promises l)).

(** The loads started: the reads of the centre sent. *)
Definition loadsStarted (l : Loader) : nat :=
  length (List.filter (fun pr => match snd pr with ReadCenter => true | _ => false end)
            (reads l)).

(** The body of a load goes on when the read it awaits is answered. *)
Definition answer (p : nat) (o : Outcome unit) (l : Loader) : Loader :=
  match nth_error (promises l) p with
  | Some (Awaits r) =>
      match o with
      | Throw e =>
          mkLoader (loadingCenterRef l) (<[p := Settled (Throw e)]> (promises l))
            (owners l) (handed l) (reads l)
      | Ok _ =>
          match nextRead r with
          | Some r' =>
              mkLoader (loadingCenterRef l) (<[p := Awaits r']> (promises l))
                (owners l) (handed l) (reads l ++ [(p, r')])
          | None =>
              mkLoader (loadingCenterRef l) (<[p := Settled (Ok tt)]> (promises l))
                (owners l) (handed l) (reads l)
          end
      end
  | _ => l
  end.

Definition isSettled (p : nat) (ps : list PromiseState) : bool :=
  match nth_error ps p with
  | Some (Settled _) => true
  | _ => false
  end.

Definition removeNat (p : nat) (l : list nat) : list nat :=
  List.filter (fun q => negb (Nat.eqb q p)) l.

Definition memNat (p : nat) (l : list nat) : bool := existsb (Nat.eqb p) l.

(* ------------------------------------------------------------------ *)
(** ** The copy of the page in [src/app/PageClientBoard.tsx] *)
(* ------------------------------------------------------------------ *)

Module SrcApp.

(** [isTransientNetworkError(e)] *)
Definition isTransientNetworkError (nav : Navigator) (e : JsErr) : bool :=
  let msg := toLowerCase (rawText e) in
  (offline nav ||
   includes msg "failed to fetch" ||
   includes msg "networkerror" ||
   includes msg "network" ||
   includes msg "load failed" ||
   includes msg "err_network_changed" ||
   includes msg "internet_disconnected" ||
   includes msg "websocket" ||
   includes msg "timeout")%bool.

(** [refreshSafe] of the subscription effect *)
Definition refreshSafe : M Board unit :=
  b <- getState ;;
  if negb (alive b) then ret tt
  else
    tryCatch (refresh isTransientNetworkError)
      (fun e => emit (ConsoleWarn "[REFRESH] failed")).

(** [signOut] *)
Definition signOut : M AuthButtons unit :=
  tryCatch
    (removeItem READONLY_KEY ;;;
     r <- authSignOut ;;
     match r with
     | Throw e => throw e
     | Ok _ => ret tt
     end)
    (showErr isTransientNetworkError).

(** [loadCenterConfig]: every call starts a load of its own; there is no
    marker of a load in flight. *)
Definition loaderStep (l : Loader) (ev : LoaderEvent) : Loader :=
  match ev with
  | CallLoad =>
      let p := length (promises l) in
      mkLoader (loadingCenterRef l) (promises l ++ [Awaits ReadCenter]) (owners l)
        (handed l ++ [p]) (reads l ++ [(p, ReadCenter)])
  | ReadAnswers p o => answer p o l
  | ResumeOwner _ => l
  end.

Definition loaderRun (l : Loader) (evs : list LoaderEvent) : Loader :=
  fold_left loaderStep evs l.

End SrcApp.

(* ------------------------------------------------------------------ *)
(** ** The second copy of the page *)
(* ------------------------------------------------------------------ *)

Module Part000.

(** [isTransientNetworkError(e)] *)
Definition isTransientNetworkError (nav : Navigator) (e : JsErr) : bool :=
  let msg := toLowerCase (rawText e) in
  (offline nav ||
   includes msg "failed to fetch" ||
   includes msg "networkerror" ||
   includes msg "network" ||
   includes msg "load failed" ||
   includes msg "err_network_changed" ||
   includes msg "internet_disconnected" ||
   includes msg "websocket" ||
   includes msg "timeout" ||
   includes msg "abort" ||
   includes msg "aborted" ||
   includes msg "aborterror" ||
   includes msg "signal is aborted")%bool.

(** [refreshSafe] of the subscription effect *)
Definition refreshSafe : M Board unit :=
  b <- getState ;;
  if negb (alive b) then ret tt
  else
    w <- getWorld ;;
    if offline (navigator w) then ret tt
    else
      tryCatch (refresh isTransientNetworkError)
        (fun e =>
           if isTransientNetworkError (navigator w) e then ret tt
           else emit (ConsoleWarn "[REFRESH] failed")).

(** [signOut]; in the browser [typeof window !== 'undefined'] holds. *)
Definition signOut : M AuthButtons unit :=
  tryCatch
    (removeItem READONLY_KEY ;;;
     r <- authSignOut ;;
     match r with
     | Throw e => throw e
     | Ok _ =>
         setState (fun a => mkAuthButtons "" "" None false) ;;;
         emit (Dispatch "salatrack:signedout")
     end)
    (showErr isTransientNetworkError).

(** [refreshInpatients] *)
Definition refreshInpatients : M Board unit :=
  b <- getState ;;
  match boardId b with
  | None => ret tt
  | Some cid =>
      setState (setInpatientsLoading true) ;;;
      tryFinally
        (tryCatch
           (r <- inpatientsSelectActive cid ;;
            match r with
            | Throw e => throw e
            | Ok rows =>
                setState (setInpatients rows) ;;;
                let ids :=
                  List.filter (fun s => negb (isEmpty s))
                    (List.map Inpatient.source_item_id rows) in
                setState (setInpatientSet (list_to_set ids)) ;;;
                if (0 <? Z.of_nat (length ids)) then
                  tryCatch
                    (r2 <- itemsSelectIn ids ;;
                     match r2 with
                     | Throw e => throw e
                     | Ok itData =>
                         setState
                           (setInpatientMetaMap
                              (fold_left
                                 (fun m x =>
                                    match x with
                                    | (xid, xproc, xday) =>
                                        if isEmpty xid then m
                                        else <[xid := (xproc, xday)]> m
                                    end)
                                 itData ∅))
                     end)
                    (fun e =>
                       emit (ConsoleWarn "[INP] proc/day lookup failed") ;;;
                       setState (setInpatientMetaMap ∅))
                else setState (setInpatientMetaMap ∅)
            end)
           (fun e => emit (ConsoleWarn "[INP] refresh failed")))
        (setState (setInpatientsLoading false))
  end.

(** [toggleInpatient(it)].  On discharge the code starts the reload without
    awaiting it ([void refreshInpatients()]); the reload is run here before
    the [finally], which gives the same final state. *)
Definition toggleInpatient (it : Item) : M Board unit :=
  b <- getState ;;
  match boardId b with
  | None => ret tt
  | Some cid =>
      let key := Item.id it in
      if bool_decide (key ∈ inpatientInFlight b) then ret tt
      else
        setState (fun b => setInpatientInFlight ({[key]} ∪ inpatientInFlight b) b) ;;;
        tryFinally
          (tryCatch
             (let isIn := bool_decide (Item.id it ∈ inpatientSet b) in
              w <- getWorld ;;
              if isIn then
                r <- inpatientsDischarge cid (Item.id it) (clock w) ;;
                match r with
                | Throw e => throw e
                | Ok _ =>
                    setState (fun b => setInpatientSet (inpatientSet b ∖ {[Item.id it]}) b) ;;;
                    setState (fun b =>
                      setInpatients
                        (List.filter
                           (fun r => negb (String.eqb (Inpatient.source_item_id r) (Item.id it)))
                           (inpatients b)) b) ;;;
                    tryCatch refreshInpatients (fun _ => ret tt)
                end
              else
                let payload :=
                  NewInpatient.mk cid (Item.id it) (Some (Item.name it))
                    (Some (Item.room it)) (Some (Item.dx it)) None true (clock w) None in
                r <- inpatientsInsert payload ;;
                match errorOfAnswer r with
                | Some insErr =>
                    if isNot23505 (codeOf insErr) then throw insErr else ret tt
                | None => ret tt
                end ;;;
                setState (fun b => setInpatientSet ({[Item.id it]} ∪ inpatientSet b) b) ;;;
                refreshInpatients)
             (fun e => emit (ConsoleWarn "[INP] toggle failed")))
          (setState (fun b => setInpatientInFlight (inpatientInFlight b ∖ {[Item.id it]}) b))
  end.

(** [loadCenterConfig]: single-flight.  A call that finds a promise in
    [loadingCenterRef] is handed that promise; otherwise it starts a load
    (whose body runs up to its first read), stores its promise in the ref
    and awaits it inside [try ... finally], where the ref is set to [null]
    again. *)
Definition loaderStep (l : Loader) (ev : LoaderEvent) : Loader :=
  match ev with
  | CallLoad =>
      match loadingCenterRef l with
      | Some p => mkLoader (Some p) (promises l) (owners l) (handed l ++ [p]) (reads l)
      | None =>
          let p := length (promises l) in
          mkLoader (Some p) (promises l ++ [Awaits ReadCenter]) (owners l ++ [p])
            (handed l ++ [p]) (reads l ++ [(p, ReadCenter)])
      end
  | ReadAnswers p o => answer p o l
  | ResumeOwner p =>
      if (memNat p (owners l) && isSettled p (promises l))%bool
      then mkLoader None (promises l) (removeNat p (owners l)) (handed l) (reads l)
      else l
  end.

Definition loaderRun (l : Loader) (evs : list LoaderEvent) : Loader :=
  fold_left loaderStep evs l.

(** *** Session and role *)

(** How [withTimeout(getMyRole(centerSlug), 4000, ...)] ends: with a role,
    or with an error (the timeout is one of them). *)
Inductive Lookup : Type :=
| LookupOk (r : Role)
| LookupFails (e : JsErr).

(** [resolveRole(sess)], given how its lookup ends. *)
Definition resolveRole (hasUser : bool) (l : Lookup) : Role :=
  if negb hasUser then Unknown
  else
    match l with
    | LookupOk r => r
    | LookupFails _ => Viewer
    end.

(** The ladder of [upgradeToEditor]: the iteration [i] of its loop and
    whether it awaits its timer or its lookup. *)
Inductive LadderPhase : Type := AwaitsTimer | AwaitsLookup.

Record Ladder : Type := mkLadder { ladder_i : nat; ladder_phase : LadderPhase }.

Inductive BootPhase : Type :=
| BootAwaitsSession
| BootAwaitsRole (hasUser : bool)
| BootDone.

(** The state of the effect: the React state [role] and [authReady], the
    [alive] flag, the calls of the listener that await their [resolveRole]
    (call [k] with the session it was given, [None] once it has resumed),
    the bootstrap, and the promise [upgrading] of the ladder. *)
Record Auth : Type := mkAuth {
  authRole : Role;
  authReady : bool;
  authAlive : bool;
  listenerCalls : list (option bool);
  boot : BootPhase;
  upgrading : option Ladder
}.

Definition authInit : Auth := mkAuth Unknown false true [] BootAwaitsSession None.

Inductive AuthEvent : Type :=
| AuthStateChange (hasUser : bool)
| ListenerResumes (k : nat) (l : Lookup)
| BootSession (sess : Outcome bool)
| BootResumes (l : Lookup)
| LadderTimer
| LadderResumes (l : Lookup)
| Unmount.

Definition maxTries : nat := 6.

(** [upgradeToEditor(sess)], up to the first [await] of the ladder. *)
Definition upgradeToEditor (hasUser : bool) (a : Auth) : Auth :=
  if negb hasUser then a
  else
    match upgrading a with
    | Some _ => a
    | None =>
        if ((0 <? maxTries)%nat && authAlive a)%bool
        then mkAuth (authRole a) (authReady a) (authAlive a) (listenerCalls a)
               (boot a) (Some (mkLadder 0 AwaitsTimer))
        else a
    end.

(** The end of a handler, after its [await resolveRole(sess)]:
    [if (!alive) return; setRole(nextRole);
     if (sess?.user && nextRole === 'viewer') void upgradeToEditor(sess)] *)
Definition afterResolve (hasUser : bool) (l : Lookup) (a : Auth) : Auth :=
  if negb (authAlive a) then a
  else
    let nextRole := resolveRole hasUser l in
    let a1 := mkAuth nextRole (authReady a) (authAlive a) (listenerCalls a)
                (boot a) (upgrading a) in
    if (hasUser && Role_eqb nextRole Viewer)%bool then upgradeToEditor hasUser a1
    else a1.

Definition authStep (a : Auth) (ev : AuthEvent) : Auth :=
  match ev with
  | AuthStateChange hasUser =>
      if negb (authAlive a) then a
      else mkAuth (if hasUser then Viewer else Unknown) true (authAlive a)
             (listenerCalls a ++ [Some hasUser]) (boot a) (upgrading a)
  | ListenerResumes k l =>
      match nth_error (listenerCalls a) k with
      | Some (Some hasUser) =>
          afterResolve hasUser l
            (mkAuth (authRole a) (authReady a) (authAlive a)
               (<[k := None]> (listenerCalls a)) (boot a) (upgrading a))
      | _ => a
      end
  | BootSession sess =>
      match boot a with
      | BootAwaitsSession =>
          match sess with
          | Ok hasUser =>
              if negb (authAlive a)
              then mkAuth (authRole a) (authReady a) (authAlive a) (listenerCalls a)
                     BootDone (upgrading a)
              else mkAuth (if hasUser then Viewer else Unknown) true (authAlive a)
                     (listenerCalls a) (BootAwaitsRole hasUser) (upgrading a)
          | Throw _ =>
              if negb (authAlive a)
              then mkAuth (authRole a) (authReady a) (authAlive a) (listenerCalls a)
                     BootDone (upgrading a)
              else mkAuth Unknown true (authAlive a) (listenerCalls a) BootDone
                     (upgrading a)
          end
      | _ => a
      end
  | BootResumes l =>
      match boot a with
      | BootAwaitsRole hasUser =>
          afterResolve hasUser l
            (mkAuth (authRole a) (authReady a) (authAlive a) (listenerCalls a)
               BootDone (upgrading a))
      | _ => a
      end
  | LadderTimer =>
      match upgrading a with
      | Some (mkLadder i AwaitsTimer) =>
          if negb (authAlive a)
          then mkAuth (authRole a) (authReady a) (authAlive a) (listenerCalls a)
                 (boot a) None
          else mkAuth (authRole a) (authReady a) (authAlive a) (listenerCalls a)
                 (boot a) (Some (mkLadder i AwaitsLookup))
      | _ => a
      end
  | LadderResumes l =>
      match upgrading a with
      | Some (mkLadder i AwaitsLookup) =>
          let r2 := resolveRole true l in
          if negb (authAlive a)
          then mkAuth (authRole a) (authReady a) (authAlive a) (listenerCalls a)
                 (boot a) None
          else if Role_eqb r2 Editor
          then mkAuth Editor (authReady a) (authAlive a) (listenerCalls a)
                 (boot a) None
          else if ((Datatypes.S i <? maxTries)%nat && authAlive a)%bool
          then mkAuth (authRole a) (authReady a) (authAlive a) (listenerCalls a)
                 (boot a) (Some (mkLadder (Datatypes.S i) AwaitsTimer))
          else mkAuth (authRole a) (authReady a) (authAlive a) (listenerCalls a)
                 (boot a) None
      | _ => a
      end
  | Unmount =>
      mkAuth (authRole a) (authReady a) false (listenerCalls a) (boot a) (upgrading a)
  end.

Definition authRun (a : Auth) (evs : list AuthEvent) : Auth :=
  fold_left authStep evs a.

(** The steps of the background ladder. *)
Definition isLadderStep (ev : AuthEvent) : bool :=
  match ev with
  | LadderTimer | LadderResumes _ => true
  | _ => false
  end.

(** The steps in which a lookup of the role comes back: to a call of the
    listener, to the bootstrap or to the ladder. *)
Definition isLookupStep (ev : AuthEvent) : bool :=
  match ev with
  | ListenerResumes _ _ | BootResumes _ | LadderResumes _ => true
  | _ => false
  end.

End Part000.

(** The card that [onSubmitAdd] sends. *)
Definition addPayload (b : Board) (cid : string) (day : ISODate) (draftRow : string)
    (vName vRoom vDx vProc : string) : NewItem :=
  NewItem.mk cid day draftRow
    (nextOrdOf (List.filter (inCell day draftRow) (items b)))
    (trim vName) (trim vRoom) (trim vDx) vProc false.

(* ------------------------------------------------------------------ *)
(** ** Sample data *)
(* ------------------------------------------------------------------ *)

(** An operation that fails twice and then answers with the number of calls
    made before; its environment counts the calls. *)
Definition flaky (n : nat) : Outcome nat * nat :=
  if (n <? 2)%nat then (Throw (errorOf "Failed to fetch"), Datatypes.S n)
  else (Ok n, Datatypes.S n).

(** The board of the scenario of the specification: board "demo", rooms A
    and B, the week of Monday 2024-01-01, card X at position 1 and card Y at
    position 2 of the cell (2024-01-01, A). *)
Definition monday2024 : ISODate := mkISO 2024 1 1.
Definition friday2024 : ISODate := mkISO 2024 1 5.
Definition week2024 : list ISODate :=
  [ mkISO 2024 1 1; mkISO 2024 1 2; mkISO 2024 1 3; mkISO 2024 1 4; mkISO 2024 1 5 ].

Definition cardX : Item :=
  Item.mk "x" "demo" monday2024 "A" 1 "X" "" "" "Coronaria" false.
Definition cardY : Item :=
  Item.mk "y" "demo" monday2024 "A" 2 "Y" "" "" "Coronaria" false.
Definition cardF : Item :=
  Item.mk "f" "demo" friday2024 "A" 1 "F" "" "" "Coronaria" false.
Definition cardG : Item :=
  Item.mk "g" "demo" monday2024 "B" 1 "Ana García" "" "" "Coronaria" false.

(** A no-break space (U+00A0), a line separator (U+2028) and a byte order
    mark (U+FEFF): white space that is no ASCII character. *)
Definition blanks : string := ofCodePoints [160; 8232; 65279].

Definition demoBoard : Board :=
  mkBoard Editor (Some "demo") ["A"; "B"] false week2024 [cardX; cardY]
    (Some (monday2024, "A")) ∅ [] false ∅ ∅ true.

Definition demoWorld : World :=
  mkWorld (Some true) 0 0 ∅ [cardX; cardY] [] [] (fun _ => "n") [].

Definition offlineWorld : World :=
  mkWorld (Some false) 0 0 ∅ [cardX; cardY] [] [] (fun _ => "n") [].

(** A cell whose one card has reached the position 2^53. *)
Definition cardBig : Item :=
  Item.mk "big" "demo" monday2024 "A" (2 ^ 53) "B" "" "" "Coronaria" false.

Definition bigBoard : Board :=
  mkBoard Editor (Some "demo") ["A"; "B"] false week2024 [cardBig]
    (Some (monday2024, "A")) ∅ [] false ∅ ∅ true.

Definition bigWorld : World :=
  mkWorld (Some true) 0 0 ∅ [cardBig] [] [] (fun _ => "n") [].

(** The Friday of the sample week falls on the last visible day. *)
Definition fridayBoard : Board :=
  mkBoard Editor (Some "demo") ["A"; "B"] false week2024 [cardF]
    None ∅ [] false ∅ ∅ true.

Definition fridayWorld : World :=
  mkWorld (Some true) 0 0 ∅ [cardF] [] [] (fun _ => "n") [].

(** The error that the next request meets, if any. *)
Definition nextFault (w : World) : option JsErr :=
  match faults w with
  | Some e :: _ => Some e
  | _ => None
  end.


(** The record that [toggleInpatient] inserts for a card. *)
Definition inpatientPayload (cid : string) (it : Item) (w : World) : NewInpatient :=
  NewInpatient.mk cid (Item.id it) (Some (Item.name it)) (Some (Item.room it))
    (Some (Item.dx it)) None true (clock w) None.

Definition toggleFailed : Effect := ConsoleWarn "[INP] toggle failed".

(** The rejection of [withTimeout] after 4 seconds. *)
Definition timeoutError : JsErr := errorOf "Timeout: getMyRole".

(** A session whose role has been confirmed as [editor] while a ladder is
    still running. *)
Definition confirmedEditor : Part000.Auth :=
  Part000.mkAuth Editor true true [None]
    Part000.BootDone (Some (Part000.mkLadder 2 Part000.AwaitsTimer)).

Definition ladderSteps : list Part000.AuthEvent :=
  [ Part000.LadderTimer; Part000.LadderResumes (Part000.LookupFails timeoutError);
    Part000.LadderTimer; Part000.LadderResumes (Part000.LookupOk Viewer) ].

(** A remote table that already holds the active record of card X, and a
    remote store that is unreachable. *)
Definition recordX : InpatientRow :=
  Inpatient.mk "r1" "demo" "x" (Some "X") None None None true 0 None.

Definition racedWorld : World :=
  mkWorld (Some true) 5 0 ∅ [cardX; cardY] [recordX] [] (fun _ => "n") [].

Definition unreachableWorld : World :=
  mkWorld (Some true) 5 0 ∅ [cardX; cardY] []
    [Some (errorOf "Failed to fetch")] (fun _ => "n") [].

(* ------------------------------------------------------------------ *)
(** ** Notions used to state the properties of the moves *)
(* ------------------------------------------------------------------ *)

(** [i.id === it.id] *)
Definition sameId (it i : Item) : bool := String.eqb (Item.id i) (Item.id it).



(** The card [it] with the position [o]: the card as the cache holds it
    after the write of [o] and a refresh. *)
Definition withOrd (o : Z) (it : Item) : Item := applyPatch (PatchOrd o) it.


(** The cache holds what [listWeek] answers for the visible week. *)
Definition inSync (b : Board) (w : World) (cid : string) : Prop :=
  boardId b = Some cid /\
  items b = List.filter (visibleIn cid (head (dayKeys b))) (itemsTable w).

(** The remote store is reachable and answers. *)
Definition reachable (w : World) : Prop :=
  notOnLine (navigator w) = false /\ faults w = [].





(* ------------------------------------------------------------------ *)
(** ** Notions used to state the properties of the session and loader *)
(* ------------------------------------------------------------------ *)

(** The property as the specification words it: once the role is [editor],
    no return of a lookup and no step of the ladder makes it [viewer]. *)
Definition roleNeverRegresses : Prop :=
  forall (evs : list Part000.AuthEvent) (ev : Part000.AuthEvent),
    Part000.authRole (Part000.authRun Part000.authInit evs) = Editor ->
    (Part000.isLookupStep ev || Part000.isLadderStep ev)%bool = true ->
    Part000.authRole (Part000.authStep (Part000.authRun Part000.authInit evs) ev)
    <> Viewer.

(** Two auth events in a row; the lookup of the second one answers first,
    with [editor]. *)
Definition twoEvents : list Part000.AuthEvent :=
  [ Part000.AuthStateChange true; Part000.AuthStateChange true;
    Part000.ListenerResumes 1 (Part000.LookupOk Editor) ].

(** The lookup of the first event then times out. *)
Definition lateTimeout : Part000.AuthEvent :=
  Part000.ListenerResumes 0 (Part000.LookupFails timeoutError).

(** What holds of the single-flight loader at every moment: with the ref
    empty, no maker is waiting and no load is in flight; with promise [p] in
    the ref, its maker is the only one waiting and no other load is in
    flight. *)
Definition othersSettled (p : option nat) (ps : list PromiseState) : Prop :=
  forall q r, nth_error ps q = Some (Awaits r) -> p = Some q.

Definition loaderInv (l : Loader) : Prop :=
  othersSettled (loadingCenterRef l) (promises l) /\
  match loadingCenterRef l with
  | None => owners l = []
  | Some p => owners l = [p] /\ (p < length (promises l))%nat
  end.

(** A load answered without error, read after read. *)
Definition fourAnswers (p : nat) : list LoaderEvent :=
  [ ReadAnswers p (Ok tt); ReadAnswers p (Ok tt); ReadAnswers p (Ok tt);
    ReadAnswers p (Ok tt) ].


From Stdlib Require Import DecimalString.

(* ------------------------------------------------------------------ *)
(** ** Further parts of the page *)
(* ------------------------------------------------------------------ *)

(** The environment at the time [t]: [Date.now()] answers [t]. *)
Definition atClock (t : Z) (w : World) : World :=
  mkWorld (navigator w) t (lastNetWarnAt w) (localStorage w) (itemsTable w)
    (inpatientsTable w) (faults w) (newId w) (journal w).

(** An operation together with the count of its calls. *)
Definition counting {S T : Type} (fn : S -> Outcome T * S) (st : S * nat) :
    Outcome T * (S * nat) :=
  (fst (fn (fst st)), (snd (fn (fst st)), Datatypes.S (snd st))).

Section RowMoves.

Variable classify : Navigator -> JsErr -> bool.

(** [rows.indexOf(it.row)] *)
Definition indexOfRow (l : list string) (x : string) : Z :=
  findIndex (fun y => String.eqb y x) l.

(** [moveRowUp] and [moveRowDown] end the same way:
    [try { await updateItem(it.id, { row: destRow }); await refresh(); }
     catch (e) { showErr(e); }] *)
Definition moveToRow (it : Item) (destRow : string) : M Board unit :=
  tryCatch
    (updateItem (Item.id it) (PatchRow destRow) ;;; refresh classify)
    (showErr classify).

(** [moveRowUp(it)]; [rIdx - 1] is an index of [rows] when [rIdx > 0], the
    [None] branch is never taken. *)
Definition moveRowUp (it : Item) : M Board unit :=
  b <- getState ;;
  let rIdx := indexOfRow (rows b) (Item.row it) in
  if rIdx <=? 0 then ret tt
  else
    match at_ (rows b) (rIdx - 1) with
    | Some destRow => moveToRow it destRow
    | None => throw typeError
    end.

(** [moveRowDown(it)]; [rIdx + 1] is an index of [rows] past the guard, the
    [None] branch is never taken. *)
Definition moveRowDown (it : Item) : M Board unit :=
  b <- getState ;;
  let rIdx := indexOfRow (rows b) (Item.row it) in
  if ((rIdx <? 0) || (Z.of_nat (length (rows b)) - 1 <=? rIdx))%bool then ret tt
  else
    match at_ (rows b) (rIdx + 1) with
    | Some destRow => moveToRow it destRow
    | None => throw typeError
    end.

End RowMoves.

(** The card [it] as the cache holds it once it sits in the row [r]. *)
Definition withRow (r : string) (it : Item) : Item := applyPatch (PatchRow r) it.

(** The cards of the remote table that carry the identity of [it] are [it]
    itself: identities are unique and the card at hand is up to date. *)
Definition upToDate (it : Item) (table : list Item) : Prop :=
  forall x, In x table -> Item.id x = Item.id it -> x = it.

(** The sample board after the cleanup of its subscription effect. *)
Definition staleBoard : Board :=
  mkBoard Editor (Some "demo") ["A"; "B"] false week2024 [cardX; cardY]
    None ∅ [] false ∅ ∅ false.

(** The sample board with card X in room B. *)
Definition cardXB : Item :=
  Item.mk "x" "demo" monday2024 "B" 1 "X" "" "" "Coronaria" false.

Definition roomBBoard : Board :=
  mkBoard Editor (Some "demo") ["A"; "B"] false week2024 [cardXB; cardY]
    None ∅ [] false ∅ ∅ true.

Definition roomBWorld : World :=
  mkWorld (Some true) 0 0 ∅ [cardXB; cardY] [] [] (fun _ => "n") [].

(* ------------------------------------------------------------------ *)
(** ** Text helpers of the page *)
(* ------------------------------------------------------------------ *)

(** [s.split(sep)] for a separator [sep] of one character: the pieces of [s]
    between the occurrences of [sep]; one empty piece for the empty string. *)
Fixpoint splitOn (sep : ascii) (s : string) : list string :=
  match s with
  | EmptyString => [EmptyString]
  | String c r =>
      if Ascii.eqb c sep then EmptyString :: splitOn sep r
      else
        match splitOn sep r with
        | p :: ps => String c p :: ps
        | [] => [String c EmptyString]
        end
  end.

(** A piece of a destructured array inside a template literal: a piece
    that is missing reads [undefined]. *)
Definition piece (l : list string) (i : nat) : string := nth i l "undefined".

(** [formatDateES(iso)]:
    [const [y, m, d] = iso.split('-'); return `${d}-${m}-${y}`] *)
Definition formatDateES (iso : string) : string :=
  let p := splitOn "-" iso in
  piece p 2 +:+ "-" +:+ piece p 1 +:+ "-" +:+ piece p 0.

(** [s.replaceAll(a, b)] for strings [a] and [b] of one character. *)
Fixpoint replaceAll (a b : ascii) (s : string) : string :=
  match s with
  | EmptyString => EmptyString
  | String c r => String (if Ascii.eqb c a then b else c) (replaceAll a b r)
  end.

(** The character [c] occurs in [s]. *)
Fixpoint hasChar (c : ascii) (s : string) : bool :=
  match s with
  | EmptyString => false
  | String x r => (Ascii.eqb x c || hasChar c r)%bool
  end.

(** [filteredItems]: the cards that the search box lets through.
    [it.name?.toLowerCase().includes(q) || ... ||
     String(it.proc ?? '').toLowerCase().includes(q)] *)
Definition matchesSearch (q : string) (it : Item) : bool :=
  (includes (toLowerCase (Item.name it)) q ||
   includes (toLowerCase (Item.dx it)) q ||
   includes (toLowerCase (Item.room it)) q ||
   includes (toLowerCase (Item.proc it)) q)%bool.

Definition filteredItems (items : list Item) (search : string) : list Item :=
  let q := toLowerCase (trim search) in
  if isEmpty q then items else List.filter (matchesSearch q) items.

(** [visibleRows]: the rows that the room filter lets through. *)
Definition visibleRows (rows : list string) (roomFilter : string) : list string :=
  if String.eqb roomFilter "__all__" then rows
  else List.filter (fun r => String.eqb r roomFilter) rows.

Definition ROOMFILTER_KEY : string := "salatrack_roomfilter".

(** The initial value of [roomFilter] when the board of the second copy
    mounts: [localStorage.getItem('salatrack_roomfilter') || '__all__'] *)
Definition initialRoomFilter (w : World) : string :=
  match localStorage w !! ROOMFILTER_KEY with
  | Some v => if isEmpty v then "__all__" else v
  | None => "__all__"
  end.

(** The effect that persists [roomFilter]:
    [localStorage.setItem('salatrack_roomfilter', String(roomFilter))] *)
Definition persistRoomFilter {C} (roomFilter : string) : M C unit :=
  emit (StorageSet ROOMFILTER_KEY roomFilter) ;;;
  setWorld (fun w => set_localStorage (<[ROOMFILTER_KEY := roomFilter]> (localStorage w)) w).

(* ------------------------------------------------------------------ *)
(** ** What a load of the configuration makes of its answers *)
(* ------------------------------------------------------------------ *)

(** [String(x)] of a text that may be [null]. *)
Definition stringOfNullable (x : option string) : string :=
  match x with Some s => s | None => "null" end.

(** [(roomsData ?? []).map((x) => String(x.name)).filter(Boolean)]; a row of
    [rooms] is taken by its [name]. *)
Definition roomNamesOf (roomsData : option (list (option string))) : list string :=
  List.filter (fun s => negb (isEmpty s))
    (List.map stringOfNullable (nullish roomsData [])).

(** [roomNames.length ? roomNames : ['Sala 1']] *)
Definition rowsOf (roomNames : list string) : list string :=
  if (0 <? Z.of_nat (length roomNames)) then roomNames else ["Sala 1"].

Record ProcDef : Type := mkProcDef {
  proc_name : string;
  color_bg : option string;
  color_text : option string
}.

(** A row of [procedure_types], by the fields the page reads. *)
Record ProcRow : Type := mkProcRow {
  row_name : option string;
  row_color_bg : option string;
  row_color_text : option string
}.

(** [(procData ?? []).map(...).filter((p) => p.name)] *)
Definition procListOf (procData : option (list ProcRow)) : list ProcDef :=
  List.filter (fun p => negb (isEmpty (proc_name p)))
    (List.map
       (fun x => mkProcDef (stringOfNullable (row_name x)) (row_color_bg x) (row_color_text x))
       (nullish procData [])).

(** [procList.length ? procList : [{ name: 'Coronario', ... }]] *)
Definition procsOf (procList : list ProcDef) : list ProcDef :=
  if (0 <? Z.of_nat (length procList)) then procList
  else [mkProcDef "Coronario" (Some "#DCFCE7") (Some "#166534")].

(** [const open = sched?.open_rooms ?? roomNames.length ?? null;
     typeof open === 'number' ? open : null]; [sched] is the row of today,
    if any, by its [open_rooms]. *)
Definition openRoomsOf (sched : option (option Z)) (roomNames : list string) : option Z :=
  match sched with
  | Some (Some n) => Some n
  | _ => Some (Z.of_nat (length roomNames))
  end.

Module Part000Board.

(** [getActiveDayISO()] of the second copy; [today] is the local calendar
    date of [new Date()], which [d.setHours(12, 0, 0, 0)] keeps. *)
Definition getActiveDayISO (today : Date) : ISODate :=
  let d := today in
  let wd := getDay d in
  let d := if wd =? 6 then setDate d (getDate d + 2) else d in
  let d := if wd =? 0 then setDate d (getDate d + 1) else d in
  toISODate d.

(** [formatShortES(isoLike)] *)
Definition formatShortES (isoLike : option string) : string :=
  match isoLike with
  | None => ""
  | Some iso =>
      if isEmpty iso then ""
      else
        let ymd := if (10 <=? jsLength iso)%nat then sliceTo 10 iso else iso in
        match splitOn "-" ymd with
        | y :: m :: d :: _ =>
            if (isEmpty y || isEmpty m || isEmpty d)%bool then ymd
            else d +:+ "/" +:+ m
        | _ => ymd
        end
  end.

End Part000Board.

(** A key that names a date of the calendar: the key that [toISODate] gives
    for its day.  Every key that the page makes comes from [toISODate]. *)
Definition calendarKey (iso : ISODate) : Prop := toISODate (dayNumber iso) = iso.

(* ------------------------------------------------------------------ *)
(** ** Notions used to state further properties of the session *)
(* ------------------------------------------------------------------ *)

(** One round of the upgrade ladder: its timer fires, then its lookup of
    the role comes back. *)
Definition ladderRounds (ls : list Part000.Lookup) : list Part000.AuthEvent :=
  flat_map (fun l => [Part000.LadderTimer; Part000.LadderResumes l]) ls.

(** The session with the ladder [u]. *)
Definition withLadder (u : option Part000.Ladder) (a : Part000.Auth) : Part000.Auth :=
  Part000.mkAuth (Part000.authRole a) (Part000.authReady a) (Part000.authAlive a)
    (Part000.listenerCalls a) (Part000.boot a) u.

(** A lookup that does not confirm the editor: its answer is another role,
    or it fails. *)
Definition notEditor (l : Part000.Lookup) : bool :=
  negb (Role_eqb (Part000.resolveRole true l) Editor).

(** A session signed in as viewer after a lookup that timed out, with the
    ladder it started. *)
Definition timedOutViewer : Part000.Auth :=
  Part000.authRun Part000.authInit
    [Part000.AuthStateChange true; Part000.ListenerResumes 0 (Part000.LookupFails timeoutError)].

(** The sample board while a toggle of card X is running, and the sample
    board that shows card X as admitted. *)
Definition busyBoard : Board :=
  mkBoard Editor (Some "demo") ["A"; "B"] false week2024 [cardX; cardY]
    None ∅ [] false ∅ {["x"]} true.

Definition wardBoard : Board :=
  mkBoard Editor (Some "demo") ["A"; "B"] false week2024 [cardX; cardY]
    None {["x"]} [recordX] false ∅ ∅ true.

(** The remote table after the discharge of the card [src] at [at_time]. *)
Definition discharged (cid src : string) (at_time : Z) (table : list InpatientRow) :
    list InpatientRow :=
  List.map (fun r => if activeOf cid src r then dischargeRow at_time r else r) table.

(** The cards that [refreshInpatients] marks as admitted: the sources of
    the active records of the board. *)
Definition admittedIn (cid : string) (table : list InpatientRow) : gset string :=
  list_to_set
    (List.filter (fun s => negb (isEmpty s))
       (List.map Inpatient.source_item_id
          (latestFirst (List.filter (activeFor cid) table)))).

(* ------------------------------------------------------------------ *)
(** ** The export to CSV *)
(* ------------------------------------------------------------------ *)

(** A row of the answer to the query of [exportCSV], by the columns it
    selects; [None] is [null]. *)
Record CsvRow : Type := mkCsvRow {
  csv_day : option string;
  csv_row : option string;
  csv_ord : option Z;
  csv_name : option string;
  csv_room : option string;
  csv_dx : option string;
  csv_proc : option string;
  csv_done : option bool
}.

(** [String(n)] of an integer. *)
Definition numberToString (n : Z) : string := NilZero.string_of_int (Z.to_int n).

(** The columns of a row, before the semicolons are replaced:
    [String(it.day ?? '')], ..., [it.done ? '1' : '0']. *)
Definition csvColumns (it : CsvRow) : list string :=
  [ nullish (csv_day it) "";
    nullish (csv_row it) "";
    match csv_ord it with Some n => numberToString n | None => "" end;
    nullish (csv_name it) "";
    nullish (csv_room it) "";
    nullish (csv_dx it) "";
    nullish (csv_proc it) "";
    match csv_done it with Some true => "1" | _ => "0" end ].

(** The line that [exportCSV] pushes for a row:
    [[...].map((x) => String(x).replaceAll(';', ',')).join(';')] *)
Definition csvLine (it : CsvRow) : string :=
  String.concat ";" (List.map (replaceAll ";" ",") (csvColumns it)).

(** [header.join(';')] *)
Definition csvHeader : string :=
  String.concat ";"
    ["Día"; "Sala"; "Orden"; "Paciente"; "Habitación/Obs"; "Dx"; "Procedimiento"; "Hecho"].

(** [lines.join('\n')] after the loop over the rows. *)
Definition csvText (data : list CsvRow) : string :=
  String.concat (String (ascii_of_nat 10) "") (csvHeader :: List.map csvLine data).

Inductive ExportMode : Type := ExportAll | ExportToday | ExportWeek | ExportRange.

(** The bounds [from] and [to] that [exportCSV] works out before its query;
    it throws when a bound of the range is missing. *)
Definition exportBounds (exportMode : ExportMode) (todayISO : string)
    (dayKeys : list string) (rangeFrom rangeTo : string) :
    Outcome (option string * option string) :=
  match exportMode with
  | ExportToday => Ok (Some todayISO, Some todayISO)
  | ExportWeek => Ok (at_ dayKeys 0, at_ dayKeys 4)
  | ExportRange =>
      if (isEmpty rangeFrom || isEmpty rangeTo)%bool
      then Throw (errorOf "Selecciona fecha de inicio y fin")
      else Ok (Some (if codeUnitLeb rangeFrom rangeTo then rangeFrom else rangeTo),
               Some (if codeUnitLeb rangeFrom rangeTo then rangeTo else rangeFrom))
  | ExportAll => Ok (None, None)
  end.

(** A row whose text holds semicolons. *)
Definition csvSample : CsvRow :=
  mkCsvRow (Some "2024-01-01") (Some "A") (Some 2) (Some "X; Y") None (Some "a;b;c")
    (Some "Coronaria") (Some true).

(* ------------------------------------------------------------------ *)
(** ** Further requests and effects of the page *)
(* ------------------------------------------------------------------ *)

(** The fields of a record of [inpatients] that the page patches from its
    text boxes; [None] is a field that the patch does not carry. *)
Record InpatientPatch : Type := mkInpatientPatch {
  patch_bed : option string;
  patch_dx : option string;
  patch_evolution : option string
}.

(** [{ ...r, ...patch }] *)
Definition applyInpatientPatch (p : InpatientPatch) (r : InpatientRow) : InpatientRow :=
  Inpatient.mk (Inpatient.id r) (Inpatient.center_id r) (Inpatient.source_item_id r)
    (Inpatient.name r)
    (match patch_bed p with Some v => Some v | None => Inpatient.bed r end)
    (match patch_dx p with Some v => Some v | None => Inpatient.dx r end)
    (match patch_evolution p with Some v => Some v | None => Inpatient.evolution r end)
    (Inpatient.is_active r) (Inpatient.admitted_at r) (Inpatient.discharged_at r).

(** What the page does besides the requests of [Call] and the effects of
    [Effect]: further requests to the remote store and to the session
    service, and dialogs and navigation of the browser. *)
Inductive Action : Type :=
| DeleteItem (id : string)
| ToggleItemDone (p_id : string)
| Confirm (msg : string)
| InpatientsUpdate (rowId : string) (patch : InpatientPatch)
| InpatientsDischargeRow (rowId : string) (at_time : Z)
| SignInWithPassword (email password : string)
| ResetPasswordForEmail (email : string) (redirectTo : string)
| UpdateUser (password : string)
| ReplaceState (url : string)
| LocationAssign (url : string).

(** A component together with the actions of this kind done so far, oldest
    first. *)
Record Logged (C : Type) : Type := mkLogged { comp : C; actions : list Action }.
Arguments mkLogged {C} comp actions.
Arguments comp {C} l.
Arguments actions {C} l.

Section LoggedHandlers.

Context {C : Type}.

(** A handler of the component, run on the component with its log. *)
Definition onComp {A} (m : M C A) : M (Logged C) A :=
  fun s =>
    (fst (m (comp (fst s), snd s)),
     (mkLogged (fst (snd (m (comp (fst s), snd s)))) (actions (fst s)),
      snd (snd (m (comp (fst s), snd s))))).

(** An action of the browser. *)
Definition act (a : Action) : M (Logged C) unit :=
  setState (fun v => mkLogged (comp v) (actions v ++ [a])).

(** A request among the actions: it is logged, then it meets the next entry
    of [faults], as the requests of [Call] do. *)
Definition perform {A} (a : Action) (serve : World -> A * World) : M (Logged C) (Outcome A) :=
  fun s =>
    let v := mkLogged (comp (fst s)) (actions (fst s) ++ [a]) in
    match faults (snd s) with
    | Some e :: rest => (Ok (Throw e), (v, set_faults rest (snd s)))
    | None :: rest =>
        let r := serve (set_faults rest (snd s)) in (Ok (Ok (fst r)), (v, snd r))
    | [] => let r := serve (snd s) in (Ok (Ok (fst r)), (v, snd r))
    end.

(** Modelled from the spec: [deleteItem] of [@/lib/data] is not part of the
    sources at hand.  The remote store exposes create, read, update and
    delete over the cards; [deleteItem] removes the card with the given
    identity.  A request that fails throws. *)
Definition deleteItem (id : string) : M (Logged C) unit :=
  r <- perform (DeleteItem id)
         (fun w =>
            (tt, set_itemsTable
                   (List.filter (fun i => negb (String.eqb (Item.id i) id)) (itemsTable w))
                   w)) ;;
  match r with Ok _ => ret tt | Throw e => throw e end.

(** Modelled from the spec: the remote procedure [toggle_item_done] is not
    part of the sources at hand.  It is the restricted procedure for
    viewers, which flips the [done] flag of the card and nothing else.  It
    answers with an error or without. *)
Definition rpcToggleItemDone (p_id : string) : M (Logged C) (Outcome unit) :=
  perform (ToggleItemDone p_id)
    (fun w =>
       (tt, set_itemsTable
              (List.map
                 (fun i => if String.eqb (Item.id i) p_id
                           then applyPatch (PatchDone (negb (Item.done i))) i else i)
                 (itemsTable w))
              w)).

End LoggedHandlers.

(** The board with the part of its React state that the edit of a card
    uses. *)
Record BoardView : Type := mkBoardView { board : Board; editId : option string }.

(** A handler of the board, run on this larger state. *)
Definition onBoard {A} (m : M Board A) : M BoardView A :=
  fun s =>
    (fst (m (board (fst s), snd s)),
     (mkBoardView (fst (snd (m (board (fst s), snd s)))) (editId (fst s)),
      snd (snd (m (board (fst s), snd s))))).

Section CardHandlers.

Variable classify : Navigator -> JsErr -> bool.

(** [onSubmitEdit(id, vals)]; [vals] are the name, room, dx and proc of the
    form. *)
Definition onSubmitEdit (id : string) (vName vRoom vDx vProc : string) : M BoardView unit :=
  v <- getState ;;
  if negb (Role_eqb (effectiveRole (board v)) Editor) then ret tt
  else
    tryCatch
      (emit (ConsoleLog "[EDIT] id=") ;;;
       emit (ConsoleLog "[EDIT] vals=") ;;;
       emit (ConsoleLog "[EDIT] patch=") ;;;
       updateItem id (PatchCard (trim vName) (trim vRoom) (trim vDx) vProc) ;;;
       setState (fun v => mkBoardView (board v) None) ;;;
       onBoard (refresh classify))
      (showErr classify).

(** [doDelete(id)]; [confirmed] is the answer of the user to the dialog. *)
Definition doDelete (confirmed : bool) (id : string) : M (Logged Board) unit :=
  v <- getState ;;
  if negb (Role_eqb (effectiveRole (comp v)) Editor) then ret tt
  else
    act (Confirm "¿Eliminar este paciente?") ;;;
    if negb confirmed then ret tt
    else
      tryCatch
        (deleteItem id ;;; onComp (refresh classify))
        (showErr classify).

(** [doToggleDone(it)] *)
Definition doToggleDone (it : Item) : M (Logged Board) unit :=
  v <- getState ;;
  tryCatch
    ((if Role_eqb (role (comp v)) Editor
      then updateItem (Item.id it) (PatchDone (negb (Item.done it)))
      else
        r <- rpcToggleItemDone (Item.id it) ;;
        match r with Ok _ => ret tt | Throw e => throw e end) ;;;
     onComp (refresh classify))
    (fun e => emit (ConsoleError "toggle done failed") ;;; showErr classify e).

End CardHandlers.

(** The card [it] with the flag [done] as given. *)
Definition withDone (d : bool) (it : Item) : Item := applyPatch (PatchDone d) it.

(** The sample board in read-only mode, and as a viewer sees it. *)
Definition readOnlyBoard : Board :=
  mkBoard Editor (Some "demo") ["A"; "B"] true week2024 [cardX; cardY]
    (Some (monday2024, "A")) ∅ [] false ∅ ∅ true.

Definition viewerBoard : Board :=
  mkBoard Viewer (Some "demo") ["A"; "B"] false week2024 [cardX; cardY]
    None ∅ [] false ∅ ∅ true.

(** The remote table after the restricted procedure has flipped the flag of
    the card [id]. *)
Definition flipped (id : string) (table : list Item) : list Item :=
  List.map
    (fun i => if String.eqb (Item.id i) id
              then applyPatch (PatchDone (negb (Item.done i))) i else i)
    table.

(* ------------------------------------------------------------------ *)
(** ** The debounced save of the fields of a record *)
(* ------------------------------------------------------------------ *)

(** The board with [saveTimersRef.current] (the handle of the last timer set
    for each record) and the timers of the browser that are set and have
    neither fired nor been cleared, each with the record and the patch that
    its callback holds.  [nextTimer] is the handle that the next
    [setTimeout] returns; the handles of a browser are positive. *)
Record Persister : Type := mkPersister {
  pboard : Board;
  saveTimers : gmap string nat;
  timers : gmap nat (string * InpatientPatch);
  nextTimer : nat
}.

(** The rows of a list or table with the patch applied to the record
    [rowId]. *)
Definition patchRows (rowId : string) (patch : InpatientPatch) (l : list InpatientRow) :
    list InpatientRow :=
  List.map (fun r => if String.eqb (Inpatient.id r) rowId
                     then applyInpatientPatch patch r else r) l.

(** [updateInpatientFieldDebounced(rowId, patch)] *)
Definition updateInpatientFieldDebounced (rowId : string) (patch : InpatientPatch) :
    M (Logged Persister) unit :=
  setState (fun v =>
    mkLogged
      (mkPersister
         (setInpatients (patchRows rowId patch (inpatients (pboard (comp v))))
            (pboard (comp v)))
         (saveTimers (comp v)) (timers (comp v)) (nextTimer (comp v)))
      (actions v)) ;;;
  v <- getState ;;
  let p := comp v in
  let cleared :=
    match saveTimers p !! rowId with
    | Some h => if (h =? 0)%nat then timers p else delete h (timers p)
    | None => timers p
    end in
  let h := nextTimer p in
  setState (fun v =>
    mkLogged
      (mkPersister (pboard p) (<[rowId := h]> (saveTimers p))
         (<[h := (rowId, patch)]> cleared) (Datatypes.S h))
      (actions v)).

(** The callback of the timer [h], when the timer fires after 700 ms. *)
Definition saveTimerFires (h : nat) : M (Logged Persister) unit :=
  v <- getState ;;
  match timers (comp v) !! h with
  | None => ret tt
  | Some (rowId, patch) =>
      setState (fun v =>
        mkLogged
          (mkPersister (pboard (comp v)) (saveTimers (comp v))
             (delete h (timers (comp v))) (nextTimer (comp v)))
          (actions v)) ;;;
      tryCatch
        (r <- perform (InpatientsUpdate rowId patch)
                (fun w => (tt, set_inpatientsTable
                                 (patchRows rowId patch (inpatientsTable w)) w)) ;;
         match r with Ok _ => ret tt | Throw e => throw e end)
        (fun e => emit (ConsoleWarn "[INP] update failed"))
  end.

(** What holds of the timers at every moment: a timer that is set is the
    last one set for its record, and its handle is positive and was given
    out before. *)
Definition timersInv (p : Persister) : Prop :=
  (0 < nextTimer p)%nat /\
  forall (h : nat) (rowId : string) (patch : InpatientPatch),
    timers p !! h = Some (rowId, patch) ->
    saveTimers p !! rowId = Some h /\ (0 < h < nextTimer p)%nat.

(** The sample board with the record of card X in its list, no timer set. *)
Definition wardPersister : Persister := mkPersister wardBoard ∅ ∅ 1.

Definition bedPatch : InpatientPatch := mkInpatientPatch (Some "12B") None None.
Definition dxPatch : InpatientPatch := mkInpatientPatch None (Some "IAM") None.

(** The state of the persister after [updateInpatientFieldDebounced]. *)
Definition scheduled (rowId : string) (patch : InpatientPatch) (p : Persister) : Persister :=
  mkPersister
    (setInpatients (patchRows rowId patch (inpatients (pboard p))) (pboard p))
    (<[rowId := nextTimer p]> (saveTimers p))
    (<[nextTimer p := (rowId, patch)]>
       (match saveTimers p !! rowId with
        | Some h => if (h =? 0)%nat then timers p else delete h (timers p)
        | None => timers p
        end))
    (Datatypes.S (nextTimer p)).

(* ------------------------------------------------------------------ *)
(** ** The discharge from the list of the admitted *)
(* ------------------------------------------------------------------ *)

(** The remote table after [.update({ is_active: false, discharged_at })
    .eq('id', rowId)]. *)
Definition dischargedRow (rowId : string) (at_time : Z) (table : list InpatientRow) :
    list InpatientRow :=
  List.map (fun r => if String.eqb (Inpatient.id r) rowId then dischargeRow at_time r else r)
    table.

(** [dischargeInpatient(rowId)] *)
Definition dischargeInpatient (rowId : string) : M (Logged Board) unit :=
  v <- getState ;;
  tryCatch
    (let row := List.find (fun r => String.eqb (Inpatient.id r) rowId)
                  (inpatients (comp v)) in
     w <- getWorld ;;
     r <- perform (InpatientsDischargeRow rowId (clock w))
            (fun w0 =>
               (tt, set_inpatientsTable
                      (dischargedRow rowId (clock w) (inpatientsTable w0)) w0)) ;;
     match r with
     | Throw e => throw e
     | Ok _ =>
         setState (fun v =>
           mkLogged
             (setInpatients
                (List.filter (fun r => negb (String.eqb (Inpatient.id r) rowId))
                   (inpatients (comp v)))
                (comp v))
             (actions v)) ;;;
         match row with
         | Some r0 =>
             if isEmpty (Inpatient.source_item_id r0) then ret tt
             else
               setState (fun v =>
                 mkLogged
                   (setInpatientSet
                      (inpatientSet (comp v) ∖ {[Inpatient.source_item_id r0]}) (comp v))
                   (actions v))
         | None => ret tt
         end
     end)
    (fun e => emit (ConsoleWarn "[INP] discharge failed")).

(* ------------------------------------------------------------------ *)
(** ** The sign-in form of the second copy *)
(* ------------------------------------------------------------------ *)

(** The state of [AuthButtons] in the second copy: the fields of the first
    copy and those of the recovery of the password. *)
Record AuthForm : Type := mkAuthForm {
  buttons : AuthButtons;
  resetSent : bool;
  recoveryMode : bool;
  newPass : string;
  newPass2 : string
}.

Definition setButtons (a : AuthButtons) (f : AuthForm) : AuthForm :=
  mkAuthForm a (resetSent f) (recoveryMode f) (newPass f) (newPass2 f).

Definition setResetSent (v : bool) (f : AuthForm) : AuthForm :=
  mkAuthForm (buttons f) v (recoveryMode f) (newPass f) (newPass2 f).

(** The requests to the session service answer with an error or without. *)
Definition authRequest (a : Action) : M (Logged AuthForm) (Outcome unit) :=
  perform a (fun w => (tt, w)).

Definition onForm (g : AuthForm -> AuthForm) : M (Logged AuthForm) unit :=
  setState (fun v => mkLogged (g (comp v)) (actions v)).

Module Part000Auth.

(** [signIn]; in the browser [typeof window !== 'undefined'] holds. *)
Definition signIn : M (Logged AuthForm) unit :=
  v <- getState ;;
  let f := comp v in
  tryCatch
    (if (isEmpty (email (buttons f)) || isEmpty (pass (buttons f)))%bool
     then emit (Alert "Introduce email y contraseña")
     else
       r <- authRequest (SignInWithPassword (email (buttons f)) (pass (buttons f))) ;;
       match r with
       | Throw e => throw e
       | Ok _ =>
           onForm (fun f =>
             setButtons (mkAuthButtons "" "" (userEmail (buttons f)) false) f) ;;;
           emit (Dispatch "salatrack:signedin")
       end)
    (showErr Part000.isTransientNetworkError).

(** [sendResetEmail]; [origin] is [window.location.origin]. *)
Definition sendResetEmail (origin : string) : M (Logged AuthForm) unit :=
  v <- getState ;;
  let f := comp v in
  tryCatch
    (if isEmpty (email (buttons f))
     then emit (Alert "Introduce tu email para enviarte el enlace de recuperación")
     else
       onForm (setResetSent false) ;;;
       r <- authRequest
              (ResetPasswordForEmail (email (buttons f)) (origin +:+ "/reset-password")) ;;
       match r with
       | Throw e => throw e
       | Ok _ => onForm (setResetSent true)
       end)
    (showErr Part000.isTransientNetworkError).

(** [updatePassword]; [pathname] is [window.location.pathname]. *)
Definition updatePassword (pathname : string) : M (Logged AuthForm) unit :=
  v <- getState ;;
  let f := comp v in
  tryCatch
    (if (isEmpty (newPass f) || (jsLength (newPass f) <? 8)%nat)%bool
     then emit (Alert "La contraseña debe tener al menos 8 caracteres")
     else if negb (String.eqb (newPass f) (newPass2 f))
     then emit (Alert "Las contraseñas no coinciden")
     else
       r <- authRequest (UpdateUser (newPass f)) ;;
       match r with
       | Throw e => throw e
       | Ok _ =>
           onForm (fun f =>
             mkAuthForm
               (mkAuthButtons (email (buttons f)) (pass (buttons f))
                  (userEmail (buttons f)) false)
               (resetSent f) false "" "") ;;;
           act (ReplaceState pathname) ;;;
           emit (Dispatch "salatrack:signedin") ;;;
           emit (Alert "Contraseña actualizada. Ya puedes iniciar sesión.")
       end)
    (showErr Part000.isTransientNetworkError).

End Part000Auth.

(** The form of the sample: a recovery with the two passwords typed. *)
Definition recoveryForm (p1 p2 : string) : AuthForm :=
  mkAuthForm (mkAuthButtons "ana@example.org" "" None true) false true p1 p2.

(* ------------------------------------------------------------------ *)
(** ** The rejoin protocol of [src/app/PageClientBoard.tsx] *)
(* ------------------------------------------------------------------ *)

Module SrcAppRejoin.

(** Where a run of [rejoin] stands: it awaits its settle delay of 700 ms,
    the end of [retry(() => supabase.auth.refreshSession(), 4, 500)], the
    return of [refreshSafe()], or the timer of 800 ms that releases the busy
    flag; or it is over. *)
Inductive RunPhase : Type :=
| Settling
| AwaitsSession
| AwaitsData
| AwaitsRelease
| Released.

(** What a run does that can be observed. *)
Inductive RejoinEffect : Type :=
| LogBegin
| WarnSessionFailed
| RealtimeDisconnect
| RealtimeConnect
| Resubscribe
| WarnResubscribeFailed
| CallRefreshSafe
| LogDone.

(** [rejoinBusyRef.current], the [alive] flag of the effect, the runs of
    [rejoin] started so far (run [k] is the [k]-th one) and what the runs
    did, oldest first, each effect with its run. *)
Record Rejoin : Type := mkRejoin {
  rejoinBusyRef : bool;
  alive : bool;
  runs : list RunPhase;
  effects : list (nat * RejoinEffect)
}.

Definition rejoinInit : Rejoin := mkRejoin false true [] [].

(** What happens on the event loop: a call of [rejoin] (by a focus, an
    online or a visibility event, by the event of the sign-in or by an auth
    event) with [navigator] as it is then; the settle timer of a run; the
    end of the refresh of the session of a run, with how the subscription
    that follows goes; the return of its [refreshSafe()]; the timer that
    releases the busy flag; and the cleanup of the effect. *)
Inductive RejoinEvent : Type :=
| Trigger (nav : Navigator)
| SettleTimer (k : nat)
| SessionAnswers (k : nat) (session resubscribe : Outcome unit)
| DataRefreshed (k : nat)
| ReleaseTimer (k : nat)
| Cleanup.

Definition warnIfFailed (o : Outcome unit) (e : RejoinEffect) : list RejoinEffect :=
  match o with Ok _ => [] | Throw _ => [e] end.

Definition setPhase (k : nat) (ph : RunPhase) (s : Rejoin) : Rejoin :=
  mkRejoin (rejoinBusyRef s) (alive s) (<[k := ph]> (runs s)) (effects s).

Definition logEffects (k : nat) (l : list RejoinEffect) (s : Rejoin) : Rejoin :=
  mkRejoin (rejoinBusyRef s) (alive s) (runs s) (effects s ++ List.map (pair k) l).

Definition rejoinStep (s : Rejoin) (ev : RejoinEvent) : Rejoin :=
  match ev with
  | Trigger nav =>
      if negb (alive s) then s
      else if rejoinBusyRef s then s
      else if offline nav then s
      else
        mkRejoin true (alive s) (runs s ++ [Settling])
          (effects s ++ [(length (runs s), LogBegin)])
  | SettleTimer k =>
      match nth_error (runs s) k with
      | Some Settling => setPhase k AwaitsSession s
      | _ => s
      end
  | SessionAnswers k session resubscribe =>
      match nth_error (runs s) k with
      | Some AwaitsSession =>
          logEffects k
            (warnIfFailed session WarnSessionFailed ++
             [RealtimeDisconnect; RealtimeConnect; Resubscribe] ++
             warnIfFailed resubscribe WarnResubscribeFailed ++
             [CallRefreshSafe])
            (setPhase k AwaitsData s)
      | _ => s
      end
  | DataRefreshed k =>
      match nth_error (runs s) k with
      | Some AwaitsData => logEffects k [LogDone] (setPhase k AwaitsRelease s)
      | _ => s
      end
  | ReleaseTimer k =>
      match nth_error (runs s) k with
      | Some AwaitsRelease =>
          mkRejoin false (alive s) (<[k := Released]> (runs s)) (effects s)
      | _ => s
      end
  | Cleanup => mkRejoin (rejoinBusyRef s) false (runs s) (effects s)
  end.

Definition rejoinRun (s : Rejoin) (evs : list RejoinEvent) : Rejoin :=
  fold_left rejoinStep evs s.

Definition isOver (ph : RunPhase) : bool :=
  match ph with Released => true | _ => false end.

(** The runs that are not over. *)
Definition underWay (s : Rejoin) : nat :=
  length (List.filter (fun ph => negb (isOver ph)) (runs s)).

(** A run from its settle timer to the release of the busy flag. *)
Definition wholeRun (k : nat) (session resubscribe : Outcome unit) : list RejoinEvent :=
  [SettleTimer k; SessionAnswers k session resubscribe; DataRefreshed k; ReleaseTimer k].

(** What holds of the protocol at every moment: one run under way while
    the busy flag is on, none while it is off. *)
Definition rejoinInv (s : Rejoin) : Prop :=
  underWay s = if rejoinBusyRef s then 1%nat else 0%nat.

End SrcAppRejoin.

(* ================================================================== *)
(** * Properties *)
(* ================================================================== *)

(* ------------------------------------------------------------------ *)
(** ** Strings *)
(* ------------------------------------------------------------------ *)

Lemma byteOf_range (c : ascii) : 0 <= byteOf c < 256.
Proof. unfold byteOf. pose proof (N_ascii_bounded c) as H. lia. Qed.

Lemma charOf_byteOf (c : ascii) : charOf (byteOf c) = c.
Proof. unfold charOf, byteOf. rewrite N2Z.id. apply ascii_N_embedding. Qed.

Lemma charOf_eq (c : ascii) (z : Z) : z = byteOf c -> charOf z = c.
Proof. intros ->. apply charOf_byteOf. Qed.

Lemma cons_append (c : ascii) (s t : string) : String c s +:+ t = String c (s +:+ t).
Proof. reflexivity. Qed.

(** One step of [codePoints]: the bytes at the head of a text that is not
    empty are the bytes of the code point read from them, and a code point
    proper is read the same way whatever follows the text. *)
Lemma codePoints_step (c1 : ascii) (t1 : string) :
  exists cp rest,
    codePoints (String c1 t1) = cp :: codePoints rest /\
    String c1 t1 = bytesOf cp +:+ rest /\
    (String.length rest <= String.length t1)%nat /\
    (cp < 1114112 ->
     forall tail, codePoints (String c1 t1 +:+ tail) = cp :: codePoints (rest +:+ tail)).
Proof.
  pose proof (byteOf_range c1) as Ha.
  assert (Hstray : exists cp rest,
            (1114112 + byteOf c1) :: codePoints t1 = cp :: codePoints rest /\
            String c1 t1 = bytesOf cp +:+ rest /\
            (String.length rest <= String.length t1)%nat /\
            (cp < 1114112 ->
             forall tail,
               codePoints (String c1 t1 +:+ tail) = cp :: codePoints (rest +:+ tail))).
  { exists (1114112 + byteOf c1), t1. split; [reflexivity|]. split; [|split; [lia|lia]].
    unfold bytesOf.
    repeat match goal with |- context [?x <? ?y] =>
      destruct (Z.ltb_spec x y); [lia|] end.
    cbv [String.append]. f_equal. symmetry. apply charOf_eq. lia. }
  cbn [codePoints]. cbv zeta.
  destruct (Z.ltb_spec (byteOf c1) 128) as [H1|H1].
  { exists (byteOf c1), t1. split; [reflexivity|]. split; [|split; [lia|]].
    - unfold bytesOf. destruct (Z.ltb_spec (byteOf c1) 128); [|lia].
      cbv [String.append]. now rewrite charOf_byteOf.
    - intros _ tail. rewrite cons_append. cbn [codePoints]. cbv zeta.
      destruct (Z.ltb_spec (byteOf c1) 128); [reflexivity | lia]. }
  destruct t1 as [|c2 t2]; [exact Hstray|].
  pose proof (byteOf_range c2) as Hb.
  destruct ((194 <=? byteOf c1) && (byteOf c1 <=? 223))%bool eqn:E2.
  { destruct (isCont (byteOf c2)) eqn:Cb; [|exact Hstray].
    eexists _, t2. split; [reflexivity|]. split; [|split; [cbn; lia|]].
    - apply andb_true_iff in E2 as [E2a E2b]. apply Z.leb_le in E2a, E2b.
      unfold isCont in Cb. apply andb_true_iff in Cb as [Cb1 Cb2].
      apply Z.leb_le in Cb1, Cb2. unfold bytesOf.
      repeat match goal with |- context [?x <? ?y] =>
        destruct (Z.ltb_spec x y); try lia end.
      cbv [String.append]. f_equal; [|f_equal]; symmetry; apply charOf_eq;
        Z.div_mod_to_equations; lia.
    - intros _ tail. rewrite !cons_append. cbn [codePoints]. cbv zeta.
      destruct (Z.ltb_spec (byteOf c1) 128); [lia|]. now rewrite E2, Cb. }
  destruct t2 as [|c3 t3]; [exact Hstray|].
  pose proof (byteOf_range c3) as Hc.
  destruct ((224 <=? byteOf c1) && (byteOf c1 <=? 239))%bool eqn:E3.
  { destruct (isCont (byteOf c2) && isCont (byteOf c3) &&
              ((225 <=? byteOf c1) || (160 <=? byteOf c2)))%bool eqn:Cb; [|exact Hstray].
    eexists _, t3. split; [reflexivity|]. split; [|split; [cbn; lia|]].
    - apply andb_true_iff in E3 as [E3a E3b]. apply Z.leb_le in E3a, E3b.
      unfold isCont in Cb.
      repeat (apply andb_true_iff in Cb as [Cb ?]).
      repeat match goal with H : (_ <=? _) = true |- _ => apply Z.leb_le in H end.
      assert (Hlow : 225 <= byteOf c1 \/ 160 <= byteOf c2).
      { match goal with H : (_ || _)%bool = true |- _ =>
          apply orb_true_iff in H as [H|H]; apply Z.leb_le in H; auto end. }
      unfold bytesOf.
      repeat match goal with |- context [?x <? ?y] =>
        destruct (Z.ltb_spec x y); try lia end.
      cbv [String.append]. f_equal; [|f_equal; [|f_equal]]; symmetry; apply charOf_eq;
        Z.div_mod_to_equations; lia.
    - intros _ tail. rewrite !cons_append. cbn [codePoints]. cbv zeta.
      destruct (Z.ltb_spec (byteOf c1) 128); [lia|]. now rewrite E2, E3, Cb. }
  destruct t3 as [|c4 t4]; [exact Hstray|].
  pose proof (byteOf_range c4) as Hd.
  match goal with |- context [if ?c then _ else _] => destruct c eqn:E4 end;
    [|exact Hstray].
  eexists _, t4. split; [reflexivity|]. split; [|split; [cbn; lia|]].
  - unfold isCont in E4.
    repeat (apply andb_true_iff in E4 as [E4 ?]).
    repeat match goal with H : (_ <=? _) = true |- _ => apply Z.leb_le in H end.
    assert (Hlow : 241 <= byteOf c1 \/ 144 <= byteOf c2).
    { match goal with H : ((241 <=? _) || _)%bool = true |- _ =>
        apply orb_true_iff in H as [H|H]; apply Z.leb_le in H; auto end. }
    assert (Hhigh : byteOf c1 <= 243 \/ byteOf c2 <= 143).
    { match goal with H : ((_ <=? 243) || _)%bool = true |- _ =>
        apply orb_true_iff in H as [H|H]; apply Z.leb_le in H; auto end. }
    unfold bytesOf.
    repeat match goal with |- context [?x <? ?y] =>
      destruct (Z.ltb_spec x y); try lia end.
    cbv [String.append]. f_equal; [|f_equal; [|f_equal; [|f_equal]]]; symmetry;
      apply charOf_eq; Z.div_mod_to_equations; lia.
  - intros _ tail. rewrite !cons_append. cbn [codePoints]. cbv zeta.
    destruct (Z.ltb_spec (byteOf c1) 128); [lia|]. now rewrite E2, E3, E4.
Qed.

Lemma append_assoc (a b c : string) : (a +:+ b) +:+ c = a +:+ (b +:+ c).
Proof. induction a as [|x a IH]; [reflexivity|]. rewrite !cons_append. now rewrite IH. Qed.

(** The bytes of the code points of a text are the text. *)
Lemma ofCodePoints_codePoints (s : string) : ofCodePoints (codePoints s) = s.
Proof.
  remember (String.length s) as n eqn:Hn. revert s Hn.
  induction n as [n IH] using lt_wf_ind. intros s Hn.
  destruct s as [|c1 t1]; [reflexivity|].
  destruct (codePoints_step c1 t1) as (cp & rest & Hcp & Hs & Hlen & _).
  rewrite Hcp. cbn [ofCodePoints fold_right].
  change (fold_right (fun cp0 r => bytesOf cp0 +:+ r) "" (codePoints rest))
    with (ofCodePoints (codePoints rest)).
  rewrite (IH (String.length rest)); [now rewrite <- Hs | | reflexivity].
  subst n. cbn [String.length]. lia.
Qed.

(** The code points of a text proper followed by another text. *)
Lemma codePoints_app (a b : string) :
  isText a -> codePoints (a +:+ b) = codePoints a ++ codePoints b.
Proof.
  remember (String.length a) as n eqn:Hn. revert a Hn.
  induction n as [n IH] using lt_wf_ind. intros a Hn Ha.
  destruct a as [|c1 t1]; [reflexivity|].
  destruct (codePoints_step c1 t1) as (cp & rest & Hcp & Hs & Hlen & Happ).
  unfold isText in Ha. rewrite Hcp in Ha.
  apply List.Forall_cons_iff in Ha as [Hvalid Hrest].
  rewrite (Happ Hvalid b), Hcp. cbn [app]. f_equal.
  apply (IH (String.length rest)); [|reflexivity|exact Hrest].
  subst n. cbn [String.length]. lia.
Qed.

Lemma jsLength_app (a b : string) :
  isText a -> jsLength (a +:+ b) = (jsLength a + jsLength b)%nat.
Proof.
  intros Ha. unfold jsLength. rewrite (codePoints_app a b Ha), List.map_app.
  apply list_sum_app.
Qed.

Lemma unitsOf_cases (c : Z) : unitsOf c = 1%nat \/ unitsOf c = 2%nat.
Proof. unfold unitsOf. destruct (_ && _)%bool; auto. Qed.

Lemma takeUnits_app (l1 l2 : list Z) :
  takeUnits (list_sum (List.map unitsOf l1)) (l1 ++ l2) = l1.
Proof.
  induction l1 as [|c r IH]; cbn [List.map list_sum app].
  - destruct l2; reflexivity.
  - change (list_sum (unitsOf c :: List.map unitsOf r))
      with (unitsOf c + list_sum (List.map unitsOf r))%nat.
    destruct (unitsOf_cases c) as [E|E]; rewrite E; cbn [Nat.add takeUnits]; rewrite E.
    + now rewrite IH.
    + now rewrite IH.
Qed.

(** [slice] gives back a text proper from what follows it. *)
Lemma sliceTo_app (a b : string) :
  isText a -> sliceTo (jsLength a) (a +:+ b) = a.
Proof.
  intros Ha. unfold sliceTo, jsLength. rewrite (codePoints_app a b Ha), takeUnits_app.
  apply ofCodePoints_codePoints.
Qed.

(** The order of the code units is total and antisymmetric. *)
Lemma unitRank_cycle (c : ascii) :
  Nat.iter 6 unitRank (unitRank c) = c.
Proof. destruct c as [[] [] [] [] [] [] [] []]; vm_compute; reflexivity. Qed.

Lemma unitRank_inj (c d : ascii) : unitRank c = unitRank d -> c = d.
Proof.
  intros H. rewrite <- (unitRank_cycle c), <- (unitRank_cycle d). now rewrite H.
Qed.

Lemma unitRanks_inj (a b : string) : unitRanks a = unitRanks b -> a = b.
Proof.
  revert b. induction a as [|c a IH]; intros [|d b] H; cbn [unitRanks] in H;
    try discriminate; [reflexivity|].
  injection H as Hc Hr. f_equal; [now apply unitRank_inj | now apply IH].
Qed.

Lemma codeUnitLeb_total (a b : string) :
  codeUnitLeb a b = true \/ codeUnitLeb b a = true.
Proof. unfold codeUnitLeb. apply String.leb_total. Qed.

Lemma codeUnitLeb_antisym (a b : string) :
  codeUnitLeb a b = true -> codeUnitLeb b a = true -> a = b.
Proof.
  unfold codeUnitLeb. intros H1 H2. apply unitRanks_inj.
  now apply String.leb_antisym.
Qed.

(** The functions on texts with characters outside ASCII: white space, the
    letters with an accent, the sigma at the end of a word, and a character
    of two code units. *)
Example text_samples :
  trim (blanks +:+ "x y" +:+ blanks) = "x y" /\ trim blanks = "" /\
  toLowerCase "GARCÍA" = "garcía" /\ toLowerCase "ΟΔΟΣ" = "οδος" /\
  jsLength "García" = 6%nat /\ jsLength (ofCodePoints [128512]) = 2%nat.
Proof. repeat split; vm_compute; reflexivity. Qed.

Lemma prefix_nil (s : string) : String.prefix "" s = true.
Proof. destruct s; reflexivity. Qed.

Lemma prefix_app (p s : string) : String.prefix p (p +:+ s) = true.
Proof.
  induction p as [|c p IH]; simpl; [apply prefix_nil|].
  destruct (ascii_dec c c); [exact IH | congruence].
Qed.

Lemma prefix_app_r (p s post : string) :
  String.prefix p s = true -> String.prefix p (s +:+ post) = true.
Proof.
  revert s. induction p as [|c p IH]; intros s H; [apply prefix_nil|].
  destruct s as [|d s]; simpl in *; [discriminate|].
  destruct (ascii_dec c d); [now apply IH | discriminate].
Qed.

Lemma includes_here (s p : string) :
  String.prefix p s = true -> includes s p = true.
Proof. intros H. destruct s; cbn [includes]; now rewrite H. Qed.

Lemma includes_cons (c : ascii) (s p : string) :
  includes s p = true -> includes (String c s) p = true.
Proof. intros H. cbn [includes]. rewrite H. apply orb_true_r. Qed.

Lemma includes_app_l (pre s p : string) :
  includes s p = true -> includes (pre +:+ s) p = true.
Proof.
  intros H. induction pre as [|c pre IH]; [exact H|].
  simpl. now apply includes_cons.
Qed.

Lemma includes_app_r (s post p : string) :
  includes s p = true -> includes (s +:+ post) p = true.
Proof.
  induction s as [|c s IH]; cbn [includes]; intros H.
  - apply includes_here. rewrite orb_false_r in H.
    now apply (prefix_app_r p "" post).
  - apply orb_true_iff in H as [H|H].
    + apply includes_here. now apply (prefix_app_r p (String c s) post).
    + simpl. apply includes_cons. now apply IH.
Qed.

(** What is found in a part of a string is found in the whole string. *)
Lemma includes_occurs (s pre mid post p : string) :
  s = pre +:+ mid +:+ post -> includes mid p = true -> includes s p = true.
Proof.
  intros -> H. apply includes_app_l. now apply includes_app_r.
Qed.

Lemma includes_app (pre p post : string) : includes (pre +:+ p +:+ post) p = true.
Proof.
  apply (includes_occurs _ pre p post); [reflexivity|].
  apply includes_here. clear.
  induction p as [|c p IH]; simpl; [reflexivity|].
  destruct (ascii_dec c c); [exact IH | congruence].
Qed.

(* ------------------------------------------------------------------ *)
(** ** TransientErrorClassifier *)
(* ------------------------------------------------------------------ *)

(** Second copy: with the device not reported offline, an error whose text
    carries no network, timeout or abort signature is fatal. *)
Lemma isTransientNetworkError_fatal (nav : Navigator) (e : JsErr) :
  offline nav = false ->
  carries networkSignatures e = false ->
  carries timeoutSignatures e = false ->
  carries abortSignatures e = false ->
  Part000.isTransientNetworkError nav e = false.
Proof.
  unfold carries, Part000.isTransientNetworkError. cbn [existsb networkSignatures
    timeoutSignatures abortSignatures].
  intros -> Hn Ht Ha.
  repeat (apply orb_false_iff in Hn as [? Hn]).
  repeat (apply orb_false_iff in Ht as [? Ht]).
  repeat (apply orb_false_iff in Ha as [? Ha]).
  repeat match goal with H : _ = false |- _ => rewrite H; clear H end.
  reflexivity.
Qed.

(** The same holds in [src/app/PageClientBoard.tsx], which looks for fewer
    signatures. *)
Lemma SrcApp_isTransientNetworkError_fatal (nav : Navigator) (e : JsErr) :
  offline nav = false ->
  carries networkSignatures e = false ->
  carries timeoutSignatures e = false ->
  SrcApp.isTransientNetworkError nav e = false.
Proof.
  unfold carries, SrcApp.isTransientNetworkError. cbn [existsb networkSignatures
    timeoutSignatures].
  intros -> Hn Ht.
  repeat (apply orb_false_iff in Hn as [? Hn]).
  repeat (apply orb_false_iff in Ht as [? Ht]).
  repeat match goal with H : _ = false |- _ => rewrite H; clear H end.
  reflexivity.
Qed.

(** Second copy: an error whose text, put in lower case, holds the word
    "abort" anywhere is transient, online or not. *)
Lemma isTransientNetworkError_abort (nav : Navigator) (e : JsErr)
    (pre post : string) :
  toLowerCase (rawText e) = pre +:+ "abort" +:+ post ->
  Part000.isTransientNetworkError nav e = true.
Proof.
  intros Hraw. unfold Part000.isTransientNetworkError. cbv zeta.
  assert (H : includes (toLowerCase (rawText e)) "abort" = true).
  { rewrite Hraw. apply includes_app. }
  rewrite H. rewrite !orb_true_r. reflexivity.
Qed.

(** The second copy classifies every error that the first copy classifies
    as transient the same way. *)
Lemma isTransientNetworkError_extends (nav : Navigator) (e : JsErr) :
  SrcApp.isTransientNetworkError nav e = true ->
  Part000.isTransientNetworkError nav e = true.
Proof.
  unfold SrcApp.isTransientNetworkError, Part000.isTransientNetworkError.
  cbv zeta. intros ->. reflexivity.
Qed.

(** C7: the claim asks that an error whose message carries an abort
    signature be classified transient.  The copy of the classifier in
    [src/app/PageClientBoard.tsx] has no abort signature: online, the abort
    error of a cancelled fetch is classified fatal there, while the second
    copy of the page classifies the same error as transient. *)
Theorem C7_src_app_abort_is_fatal :
  let e := errorOf "signal is aborted without reason" in
  carries abortSignatures e = true /\
  SrcApp.isTransientNetworkError (Some true) e = false /\
  Part000.isTransientNetworkError (Some true) e = true.
Proof. repeat split; vm_compute; reflexivity. Qed.

(* ------------------------------------------------------------------ *)
(** ** RetryPolicy *)
(* ------------------------------------------------------------------ *)

Lemma last_cons_default {A : Type} (x : A) (l : list A) (d : A) :
  List.last (x :: l) d = List.last l x.
Proof.
  revert x d. induction l as [|y l IH]; intros x d; [reflexivity|].
  change (List.last (x :: y :: l) d) with (List.last (y :: l) d).
  rewrite IH. symmetry. apply IH.
Qed.

Section RetryFacts.

Context {engine : Engine}.
Context {S T : Type}.
Variable fn : S -> Outcome T * S.

Lemma retry_loop_fails (errs : list JsErr) (st st1 : S) :
  fails fn errs st st1 ->
  forall (k i : nat) (baseMs : Number) (lastErr : JsErr) (waits : list Number),
    retry_loop fn (length errs + k) i baseMs lastErr st waits =
    retry_loop fn k (i + length errs) baseMs (List.last errs lastErr) st1
      (waits ++ List.map (backoff baseMs) (seq i (length errs))).
Proof.
  induction 1 as [st|e errs st st1 st2 Hfn Hrest IH]; intros k i baseMs lastErr waits.
  - cbn [length seq List.map List.last Nat.add]. now rewrite app_nil_r, Nat.add_0_r.
  - cbn [length Nat.add retry_loop]. rewrite Hfn, IH.
    cbn [seq List.map]. rewrite <- app_assoc. cbn [app].
    replace (Datatypes.S i + length errs)%nat with (i + Datatypes.S (length errs))%nat by lia.
    now rewrite last_cons_default.
Qed.

(** The first success ends the loop with its value. *)
Lemma retry_first_success (tries : nat) (baseMs : Number) (errs : list JsErr)
    (st st1 st2 : S) (v : T) :
  fails fn errs st st1 ->
  (length errs < tries)%nat ->
  fn st1 = (Ok v, st2) ->
  retry fn tries baseMs st =
  (Ok v, st2, List.map (backoff baseMs) (seq 0 (length errs))).
Proof.
  intros Hf Hlt Hok. unfold retry.
  replace tries with (length errs + Datatypes.S (tries - length errs - 1))%nat by lia.
  rewrite (retry_loop_fails errs st st1 Hf). cbn [retry_loop]. now rewrite Hok.
Qed.

(** When every attempt fails, the last error is thrown. *)
Lemma retry_all_fail (tries : nat) (baseMs : Number) (errs : list JsErr) (st st1 : S) :
  fails fn errs st st1 ->
  length errs = tries ->
  retry fn tries baseMs st =
  (Throw (List.last errs ErrNullish), st1, List.map (backoff baseMs) (seq 0 tries)).
Proof.
  intros Hf <-. unfold retry.
  replace (length errs) with (length errs + 0)%nat at 1 by lia.
  rewrite (retry_loop_fails errs st st1 Hf). reflexivity.
Qed.

(** [retry] always ends, in one of the two ways above. *)
Lemma retry_total (tries : nat) (st : S) :
  exists errs st1,
    fails fn errs st st1 /\
    (((length errs < tries)%nat /\ exists v st2, fn st1 = (Ok v, st2)) \/
     length errs = tries).
Proof.
  revert st. induction tries as [|k IH]; intros st.
  - exists [], st. split; [constructor | now right].
  - destruct (fn st) as [[v|e] st'] eqn:Hfn.
    + exists [], st. split; [constructor|]. left. split; [simpl; lia | eauto].
    + destruct (IH st') as (errs & st1 & Hf & [[Hlt Hok] | Hlen]).
      * exists (e :: errs), st1. split; [econstructor; eauto|].
        left. split; [simpl; lia | exact Hok].
      * exists (e :: errs), st1. split; [econstructor; eauto|].
        right. simpl; lia.
Qed.

End RetryFacts.

(** The delays of the default policy, with a [Math.pow] that rounds
    correctly: 400, 640, 1024.0000000000002, 1638.4000000000003,
    2621.4400000000005 and 4194.304000000001 milliseconds, each within one
    part in 2^50 of the exact [400 * 1.6^attempt]. *)
Lemma backoff_default :
  let delays :=
    List.map (fun attempt : nat =>
                valueOf (times (numberOfZ 400) (nearestPower (decimal (16 # 10)) attempt)))
      (seq 0 6) in
  List.map Qred delays =
    [ 400 # 1; 640 # 1; 4503599627370497 # 4398046511104;
      7205759403792795 # 4398046511104; 1441151880758559 # 549755813888;
      4611686018427389 # 1099511627776 ]%Q /\
  Forall2 (fun d x : Q => (Qabs (d - x) <= x * (1 # 2 ^ 50))%Q) delays
    (List.map (fun attempt : nat => (400 * (16 # 10) ^ Z.of_nat attempt)%Q) (seq 0 6)).
Proof.
  cbv zeta. split; [vm_compute; reflexivity|].
  cbn [seq List.map].
  repeat (constructor; [apply Qle_bool_imp_le; vm_compute; reflexivity|]).
  constructor.
Qed.

(** C6: [retry] returns the result of the first attempt that succeeds, having
    waited [baseMs * Math.pow(1.6, attempt)] after each failed attempt; when
    all [tries] attempts fail it throws the error of the last one, having
    waited after each of them.  The product and the power are the ones of
    the numbers, whatever the precision of the [Math.pow] of the engine.
    The default policy makes 6 attempts from 400 milliseconds; with a
    [Math.pow] that rounds correctly its delays are within one part in 2^50
    of the exact [400 * 1.6^attempt]. *)
Theorem C6_retry {engine : Engine} {S T : Type} (fn : S -> Outcome T * S) (tries : nat)
    (baseMs : Number) (errs : list JsErr) (st st1 : S) :
  fails fn errs st st1 ->
  let wait := fun attempt : nat => times baseMs (mathPow (decimal (16 # 10)) attempt) in
  (forall v st2,
     (length errs < tries)%nat -> fn st1 = (Ok v, st2) ->
     retry fn tries baseMs st =
     (Ok v, st2, List.map wait (seq 0 (length errs)))) /\
  (length errs = tries ->
   retry fn tries baseMs st =
   (Throw (List.last errs ErrNullish), st1, List.map wait (seq 0 tries))) /\
  retry_default fn st = retry fn 6 (numberOfZ 400) st /\
  Forall2 (fun d x : Q => (Qabs (d - x) <= x * (1 # 2 ^ 50))%Q)
    (List.map (fun attempt : nat =>
                 valueOf (times (numberOfZ 400)
                            (nearestPower (decimal (16 # 10)) attempt)))
       (seq 0 6))
    (List.map (fun attempt : nat => (400 * (16 # 10) ^ Z.of_nat attempt)%Q) (seq 0 6)).
Proof.
  intros Hf wait. split; [|split; [|split]].
  - intros v st2 Hlt Hok.
    now apply (retry_first_success fn tries baseMs errs st st1 st2 v).
  - intros Hlen. now apply retry_all_fail.
  - reflexivity.
  - exact (proj2 backoff_default).
Qed.

Lemma C6_retry_witness :
  retry flaky 6 (numberOfZ 400) 0%nat =
    (Ok 2%nat, 3%nat,
     [times (numberOfZ 400) (nearestPower (decimal (16 # 10)) 0);
      times (numberOfZ 400) (nearestPower (decimal (16 # 10)) 1)]) /\
  retry flaky 2 (numberOfZ 400) 0%nat =
    (Throw (errorOf "Failed to fetch"), 2%nat,
     [times (numberOfZ 400) (nearestPower (decimal (16 # 10)) 0);
      times (numberOfZ 400) (nearestPower (decimal (16 # 10)) 1)]).
Proof.
  assert (Hf : fails flaky [errorOf "Failed to fetch"; errorOf "Failed to fetch"] 0%nat 2%nat).
  { econstructor; [reflexivity|]. econstructor; [reflexivity|]. constructor. }
  destruct (C6_retry flaky 6 (numberOfZ 400) _ 0%nat 2%nat Hf) as (Hok & _).
  destruct (C6_retry flaky 2 (numberOfZ 400) _ 0%nat 2%nat Hf) as (_ & Hall & _).
  split.
  - apply (Hok 2%nat 3%nat); [simpl; lia | reflexivity].
  - apply Hall. reflexivity.
Defined.

(* ------------------------------------------------------------------ *)
(** ** Calendar dates *)
(* ------------------------------------------------------------------ *)

Lemma all_below_nat (k : nat) (p : Z -> bool) :
  fst (nat_rect (fun _ => (bool * Z)%type) (true, 0)
         (fun _ s => ((fst s && p (snd s))%bool, snd s + 1)) k) = true ->
  forall z, 0 <= z < Z.of_nat k -> p z = true.
Proof.
  induction k as [|k IH]; intros H z Hz; [lia|].
  cbn [nat_rect] in H.
  set (s := nat_rect _ _ _ k) in *.
  assert (Hs : snd s = Z.of_nat k).
  { subst s. clear. induction k as [|k IHk]; [reflexivity|].
    cbn [nat_rect snd]. rewrite IHk. lia. }
  cbn [fst] in H. apply andb_true_iff in H as [Hrest Hk].
  destruct (Z.eq_dec z (Z.of_nat k)) as [->|Hne]; [now rewrite <- Hs|].
  apply IH; [exact Hrest | lia].
Qed.

Lemma all_below_spec (n : Z) (p : Z -> bool) :
  0 <= n -> all_below n p = true -> forall z, 0 <= z < n -> p z = true.
Proof.
  intros Hn H z Hz. unfold all_below in H. rewrite iter_nat_of_Z in H by exact Hn.
  apply (all_below_nat (Z.abs_nat n) p H). rewrite Zabs2Nat.id_abs. lia.
Qed.

(** Every day of a 400-year era passes the check. *)
Lemma era_days_ok : all_below 146097 era_day_ok = true.
Proof. vm_compute. reflexivity. Qed.

Lemma days_from_civil_mday (y m d : Z) :
  days_from_civil y m d = days_from_civil y m 1 + (d - 1).
Proof. unfold days_from_civil. cbv zeta. lia. Qed.

(** The two conversions are inverse to each other on day numbers. *)
Lemma days_from_civil_of_days (z : Z) :
  dayNumber (civil_from_days z) = z.
Proof.
  unfold dayNumber, civil_from_days. cbv zeta. cbn [year month mday].
  set (z' := z + 719468).
  set (era := z' / 146097).
  set (doe := z' - era * 146097).
  assert (Hdoe : 0 <= doe < 146097).
  { unfold doe, era. pose proof (Z.div_mod z' 146097 ltac:(lia)).
    pose proof (Z.mod_pos_bound z' 146097 ltac:(lia)). lia. }
  pose proof (all_below_spec 146097 era_day_ok ltac:(lia) era_days_ok doe Hdoe) as Hok.
  unfold era_day_ok in Hok. cbv zeta in Hok.
  set (yoe := (doe - doe / 1460 + doe / 36524 - doe / 146096) / 365) in *.
  set (doy := doe - (365 * yoe + yoe / 4 - yoe / 100)) in *.
  set (mp := (5 * doy + 2) / 153) in *.
  set (d := doy - (153 * mp + 2) / 5 + 1) in *.
  repeat (apply andb_true_iff in Hok as [Hok ?]).
  repeat match goal with
         | H : (_ <=? _) = true |- _ => apply Z.leb_le in H
         | H : (_ <? _) = true |- _ => apply Z.ltb_lt in H
         | H : (_ =? _) = true |- _ => apply Z.eqb_eq in H
         end.
  unfold days_from_civil. cbv zeta.
  set (m := if mp <? 10 then mp + 3 else mp - 9).
  assert (Hy : (if m <=? 2 then (if m <=? 2 then yoe + era * 400 + 1 else yoe + era * 400) - 1
                else (if m <=? 2 then yoe + era * 400 + 1 else yoe + era * 400))
               = yoe + era * 400).
  { destruct (m <=? 2); lia. }
  rewrite Hy.
  assert (Hera : (yoe + era * 400) / 400 = era).
  { rewrite Z.div_add by lia. rewrite Z.div_small by lia. lia. }
  rewrite Hera.
  assert (Hmp : (if 2 <? m then m - 3 else m + 9) = mp).
  { unfold m. destruct (mp <? 10) eqn:E.
    - apply Z.ltb_lt in E. destruct (2 <? mp + 3) eqn:E2; [lia|].
      apply Z.ltb_ge in E2. lia.
    - apply Z.ltb_ge in E. destruct (2 <? mp - 9) eqn:E2; [|lia].
      apply Z.ltb_lt in E2. lia. }
  rewrite Hmp.
  replace (yoe + era * 400 - era * 400) with yoe by lia.
  unfold z' in *. lia.
Qed.

Lemma setDate_getDate (dt : Date) (k : Z) :
  setDate dt (getDate dt + k) = dt + k.
Proof.
  unfold setDate, getDate. cbv zeta.
  pose proof (days_from_civil_of_days dt) as H. unfold dayNumber in H.
  rewrite days_from_civil_mday in H. lia.
Qed.

Lemma setDate_getDate_sub (dt : Date) (k : Z) :
  setDate dt (getDate dt - k) = dt - k.
Proof.
  replace (getDate dt - k) with (getDate dt + - k) by lia.
  rewrite setDate_getDate. lia.
Qed.

Lemma dayNumber_toISODate (dt : Date) : dayNumber (toISODate dt) = dt.
Proof. apply days_from_civil_of_days. Qed.

Lemma weekday_toISODate (dt : Date) : weekday (toISODate dt) = getDay dt.
Proof. unfold weekday. now rewrite dayNumber_toISODate. Qed.

Lemma parseISODate_plain (iso : ISODate) :
  plainKey iso -> parseISODate iso = dayNumber iso.
Proof.
  intros [Hm Hy]. unfold parseISODate, newDate, dayNumber. cbv zeta.
  replace ((0 <=? year iso) && (year iso <=? 99))%bool with false.
  2:{ symmetry. apply andb_false_iff.
      destruct (Z.leb_spec 0 (year iso)); [right | now left].
      apply Z.leb_gt. lia. }
  rewrite (Z.div_small (month iso - 1) 12) by lia.
  rewrite (Z.mod_small (month iso - 1) 12) by lia.
  rewrite (days_from_civil_mday _ _ (mday iso)). f_equal. f_equal; lia.
Qed.

Lemma getDay_range (dt : Date) : 0 <= getDay dt < 7.
Proof. unfold getDay. apply Z.mod_pos_bound. lia. Qed.

Lemma getDay_add (dt k : Z) : getDay (dt + k) = (getDay dt + k) mod 7.
Proof.
  unfold getDay. rewrite Zplus_mod_idemp_l. f_equal. lia.
Qed.

(** What [nextBusinessDayISO] computes: the key of the date 3 days after a
    Friday, 2 days after a Saturday, 1 day after any other day. *)
Lemma nextBusinessDayISO_eq (iso : ISODate) :
  nextBusinessDayISO iso =
  toISODate (parseISODate iso +
             (if getDay (parseISODate iso) =? 5 then 3
              else if getDay (parseISODate iso) =? 6 then 2 else 1)).
Proof.
  unfold nextBusinessDayISO. cbv zeta.
  destruct (getDay (parseISODate iso) =? 5); [now rewrite setDate_getDate|].
  destruct (getDay (parseISODate iso) =? 6); [now rewrite setDate_getDate|].
  destruct (getDay (parseISODate iso) =? 0); now rewrite setDate_getDate.
Qed.

(** What [prevBusinessDayISO] computes: the key of the date 3 days before a
    Monday, 2 days before a Sunday, 1 day before any other day. *)
Lemma prevBusinessDayISO_eq (iso : ISODate) :
  prevBusinessDayISO iso =
  toISODate (parseISODate iso -
             (if getDay (parseISODate iso) =? 1 then 3
              else if getDay (parseISODate iso) =? 0 then 2 else 1)).
Proof.
  unfold prevBusinessDayISO. cbv zeta.
  destruct (getDay (parseISODate iso) =? 1); [now rewrite setDate_getDate_sub|].
  destruct (getDay (parseISODate iso) =? 0); [now rewrite setDate_getDate_sub|].
  destruct (getDay (parseISODate iso) =? 6); now rewrite setDate_getDate_sub.
Qed.

(** The day computed by [nextBusinessDayISO] is a weekday, for every key. *)
Lemma nextBusinessDayISO_weekday (iso : ISODate) :
  1 <= weekday (nextBusinessDayISO iso) <= 5.
Proof.
  rewrite nextBusinessDayISO_eq, weekday_toISODate, getDay_add.
  pose proof (getDay_range (parseISODate iso)) as Hr.
  set (w := getDay (parseISODate iso)) in *.
  assert (Hw : w = 0 \/ w = 1 \/ w = 2 \/ w = 3 \/ w = 4 \/ w = 5 \/ w = 6) by lia.
  destruct Hw as [-> | [-> | [-> | [-> | [-> | [-> | ->]]]]]]; vm_compute; split; discriminate.
Qed.

(** The day computed by [prevBusinessDayISO] is a weekday, for every key. *)
Lemma prevBusinessDayISO_weekday (iso : ISODate) :
  1 <= weekday (prevBusinessDayISO iso) <= 5.
Proof.
  rewrite prevBusinessDayISO_eq, weekday_toISODate.
  replace (parseISODate iso - (if getDay (parseISODate iso) =? 1 then 3
              else if getDay (parseISODate iso) =? 0 then 2 else 1))
    with (parseISODate iso + - (if getDay (parseISODate iso) =? 1 then 3
              else if getDay (parseISODate iso) =? 0 then 2 else 1)) by lia.
  rewrite getDay_add.
  pose proof (getDay_range (parseISODate iso)) as Hr.
  set (w := getDay (parseISODate iso)) in *.
  assert (Hw : w = 0 \/ w = 1 \/ w = 2 \/ w = 3 \/ w = 4 \/ w = 5 \/ w = 6) by lia.
  destruct Hw as [-> | [-> | [-> | [-> | [-> | [-> | ->]]]]]]; vm_compute; split; discriminate.
Qed.


(* ------------------------------------------------------------------ *)
(** ** SyncCoordinator: refresh *)
(* ------------------------------------------------------------------ *)

Arguments refresh : simpl never.
Arguments showErr : simpl never.

Lemma refresh_offline (classify : Navigator -> JsErr -> bool) (b : Board) (w : World) :
  navigator w = Some false -> refresh classify (b, w) = (Ok tt, (b, w)).
Proof.
  intros Hnav. unfold refresh, bind, getState, getWorld, ret. cbn.
  destruct (boardId b); cbn; [|reflexivity]. now rewrite Hnav.
Qed.

(** C9: while [navigator.onLine] is [false], [refresh] and [refreshSafe] (of
    either copy of the page) end at once: no request is sent, the cache
    [items] and everything else stay as they are. *)
Theorem C9_offline_refresh_is_noop (classify : Navigator -> JsErr -> bool)
    (b : Board) (w : World) :
  navigator w = Some false ->
  refresh classify (b, w) = (Ok tt, (b, w)) /\
  Part000.refreshSafe (b, w) = (Ok tt, (b, w)) /\
  SrcApp.refreshSafe (b, w) = (Ok tt, (b, w)).
Proof.
  intros Hnav. split; [now apply refresh_offline|]. split.
  - unfold Part000.refreshSafe, bind, getState, getWorld, ret. cbn.
    destruct (alive b); cbn; [|reflexivity]. now rewrite Hnav.
  - unfold SrcApp.refreshSafe, bind, getState, ret, tryCatch. cbn.
    destruct (alive b); cbn [negb]; [|reflexivity].
    now rewrite refresh_offline.
Qed.

Ltac mrun :=
  repeat (progress (unfold bind, ret, throw, getState, getWorld, setState,
                      setWorld, emit, tryCatch, tryFinally, requestOrThrow,
                      request;
                    cbn [fst snd])).

(** Online, with the board loaded and a request that goes through,
    [refresh] sends one [listWeek] for the visible week and stores its
    answer in [items]. *)
Lemma refresh_online (classify : Navigator -> JsErr -> bool) (b : Board) (w : World)
    (cid : string) :
  notOnLine (navigator w) = false ->
  boardId b = Some cid ->
  faults w = [] ->
  refresh classify (b, w) =
  (Ok tt,
   (setItems (List.filter (visibleIn cid (head (dayKeys b))) (itemsTable w)) b,
    set_journal (journal w ++ [Remote (ListWeek cid (head (dayKeys b)))]) w)).
Proof.
  intros Hnav Hid Hf. unfold refresh, listWeek. mrun.
  rewrite Hid. cbn [fst snd]. rewrite Hnav. cbn [fst snd set_journal faults].
  rewrite Hf. reflexivity.
Qed.

Lemma refreshSafe_online (b : Board) (w : World) (cid : string) :
  navigator w = Some true ->
  alive b = true ->
  boardId b = Some cid ->
  faults w = [] ->
  Part000.refreshSafe (b, w) =
  (Ok tt,
   (setItems (List.filter (visibleIn cid (head (dayKeys b))) (itemsTable w)) b,
    set_journal (journal w ++ [Remote (ListWeek cid (head (dayKeys b)))]) w)) /\
  SrcApp.refreshSafe (b, w) = Part000.refreshSafe (b, w).
Proof.
  intros Hnav Hal Hid Hf.
  assert (Hn : notOnLine (navigator w) = false) by now rewrite Hnav.
  unfold Part000.refreshSafe, SrcApp.refreshSafe. mrun.
  rewrite Hal. cbn [negb fst snd]. rewrite Hnav. cbn [offline negb].
  rewrite (refresh_online _ b w cid Hn Hid Hf), (refresh_online _ b w cid Hn Hid Hf).
  split; reflexivity.
Qed.

Lemma C9_offline_refresh_is_noop_witness :
  navigator offlineWorld = Some false /\
  Part000.refreshSafe (demoBoard, offlineWorld) = (Ok tt, (demoBoard, offlineWorld)).
Proof.
  split; [reflexivity|].
  apply (C9_offline_refresh_is_noop Part000.isTransientNetworkError
           demoBoard offlineWorld).
  reflexivity.
Defined.

(* ------------------------------------------------------------------ *)
(** ** Errors shown to the user *)
(* ------------------------------------------------------------------ *)

(** [showErr] ends normally; it sends no request and touches neither the
    state of the component, nor the remote tables, nor [localStorage]. *)
Lemma showErr_frame {C : Type} (classify : Navigator -> JsErr -> bool) (e : JsErr)
    (c : C) (w : World) :
  exists w',
    showErr classify e (c, w) = (Ok tt, (c, w')) /\
    localStorage w' = localStorage w /\
    itemsTable w' = itemsTable w /\
    inpatientsTable w' = inpatientsTable w /\
    faults w' = faults w /\
    navigator w' = navigator w /\
    exists j, journal w' = journal w ++ j /\ callsOf j = [].
Proof.
  unfold showErr. mrun.
  destruct (classify (navigator w) e).
  - destruct (clock w - lastNetWarnAt w >? 5000); mrun.
    + eexists. split; [reflexivity|]. cbn. repeat split; try reflexivity.
      eexists. split; [reflexivity|reflexivity].
    + exists w. repeat split; try reflexivity. exists []. now rewrite app_nil_r.
  - mrun. eexists. split; [reflexivity|]. cbn. repeat split; try reflexivity.
    eexists. rewrite <- app_assoc. split; [reflexivity|reflexivity].
Qed.

(* ------------------------------------------------------------------ *)
(** ** Sign-out and the read-only preference *)
(* ------------------------------------------------------------------ *)

(** The preference survives a reload: what the effect of the board stored
    is what the board reads when it mounts again. *)
Lemma readOnly_survives_reload {C : Type} (ro : bool) (c : C) (w : World) :
  initialReadOnly (snd (snd (persistReadOnly ro (c, w)))) = ro.
Proof.
  unfold persistReadOnly. mrun. unfold initialReadOnly. cbn.
  rewrite lookup_insert_eq. now destruct ro.
Qed.

Lemma signOut_journal_Part000 (a : AuthButtons) (w : World) :
  exists a' w' rest,
    Part000.signOut (a, w) = (Ok tt, (a', w')) /\
    journal w' = journal w ++ StorageRemove READONLY_KEY :: Remote AuthSignOut :: rest /\
    callsOf rest = [] /\
    localStorage w' = delete READONLY_KEY (localStorage w).
Proof.
  unfold Part000.signOut, removeItem, authSignOut. mrun.
  cbn [faults set_journal set_localStorage journal].
  destruct (faults w) as [|[e|] rest] eqn:Hf; cbn [fst snd].
  - do 3 eexists. split; [reflexivity|]. cbn.
    rewrite <- !app_assoc. cbn. split; [reflexivity|]. split; reflexivity.
  - match goal with |- context [showErr ?c ?e (?a0, ?w0)] =>
      destruct (showErr_frame c e a0 w0)
        as (w' & Hs & Hls & _ & _ & _ & _ & j & Hj & Hc) end.
    rewrite Hs. do 3 eexists. split; [reflexivity|].
    rewrite Hj, Hls. cbn. rewrite <- !app_assoc. cbn.
    split; [reflexivity|]. split; [exact Hc | reflexivity].
  - do 3 eexists. split; [reflexivity|]. cbn.
    rewrite <- !app_assoc. cbn. split; [reflexivity|]. split; reflexivity.
Qed.

Lemma signOut_journal_SrcApp (a : AuthButtons) (w : World) :
  exists a' w' rest,
    SrcApp.signOut (a, w) = (Ok tt, (a', w')) /\
    journal w' = journal w ++ StorageRemove READONLY_KEY :: Remote AuthSignOut :: rest /\
    callsOf rest = [] /\
    localStorage w' = delete READONLY_KEY (localStorage w).
Proof.
  unfold SrcApp.signOut, removeItem, authSignOut. mrun.
  cbn [faults set_journal set_localStorage journal].
  destruct (faults w) as [|[e|] rest] eqn:Hf; cbn [fst snd].
  - do 3 eexists. split; [reflexivity|]. cbn.
    rewrite <- !app_assoc. cbn. split; [reflexivity|]. split; reflexivity.
  - match goal with |- context [showErr ?c ?e (?a0, ?w0)] =>
      destruct (showErr_frame c e a0 w0)
        as (w' & Hs & Hls & _ & _ & _ & _ & j & Hj & Hc) end.
    rewrite Hs. do 3 eexists. split; [reflexivity|].
    rewrite Hj, Hls. cbn. rewrite <- !app_assoc. cbn.
    split; [reflexivity|]. split; [exact Hc | reflexivity].
  - do 3 eexists. split; [reflexivity|]. cbn.
    rewrite <- !app_assoc. cbn. split; [reflexivity|]. split; reflexivity.
Qed.

(** C10: every [signOut], in either copy of the page and whether the remote
    sign-out succeeds or not, first removes ['salatrack_readonly'] from
    [localStorage] and then sends the one sign-out request; it throws
    nothing, and a board that mounts afterwards starts with [readOnly]
    false. *)
Theorem C10_signOut_drops_readonly (a : AuthButtons) (w : World) :
  (exists a' w' rest,
     Part000.signOut (a, w) = (Ok tt, (a', w')) /\
     journal w' = journal w ++ StorageRemove READONLY_KEY :: Remote AuthSignOut :: rest /\
     callsOf rest = [] /\
     localStorage w' !! READONLY_KEY = None /\
     initialReadOnly w' = false) /\
  (exists a' w' rest,
     SrcApp.signOut (a, w) = (Ok tt, (a', w')) /\
     journal w' = journal w ++ StorageRemove READONLY_KEY :: Remote AuthSignOut :: rest /\
     callsOf rest = [] /\
     localStorage w' !! READONLY_KEY = None /\
     initialReadOnly w' = false).
Proof.
  split.
  - destruct (signOut_journal_Part000 a w) as (a' & w' & rest & Hr & Hj & Hc & Hls).
    exists a', w', rest. repeat split; try assumption.
    + rewrite Hls. apply lookup_delete_eq.
    + unfold initialReadOnly. rewrite Hls, lookup_delete_eq. reflexivity.
  - destruct (signOut_journal_SrcApp a w) as (a' & w' & rest & Hr & Hj & Hc & Hls).
    exists a', w', rest. repeat split; try assumption.
    + rewrite Hls. apply lookup_delete_eq.
    + unfold initialReadOnly. rewrite Hls, lookup_delete_eq. reflexivity.
Qed.

(* ------------------------------------------------------------------ *)
(** ** MutationEngine: add *)
(* ------------------------------------------------------------------ *)

Lemma numberOr0_id (x : Z) : numberOr0 x = x.
Proof. unfold numberOr0. destruct (Z.eqb_spec x 0); congruence. Qed.

Lemma fold_left_max_spec (l : list Z) (x : Z) :
  (fold_left Z.max l x = x \/ In (fold_left Z.max l x) l) /\
  x <= fold_left Z.max l x /\
  (forall y, In y l -> y <= fold_left Z.max l x).
Proof.
  revert x. induction l as [|y l IH]; intros x; cbn [fold_left].
  - split; [now left|]. split; [lia|]. intros y [].
  - destruct (IH (Z.max x y)) as (Hin & Hle & Hall).
    split; [|split].
    + destruct Hin as [Heq|Hin]; [|right; now right].
      rewrite Heq. destruct (Z.max_spec x y) as [[_ ->]|[_ ->]]; [right; now left | now left].
    + lia.
    + intros z [<-|Hz]; [lia | now apply Hall].
Qed.

(** [Math.max(...l)] is the greatest element of a list that is not empty. *)
Lemma mathMax_spec (l : list Z) :
  l <> [] -> In (mathMax l) l /\ forall y, In y l -> y <= mathMax l.
Proof.
  destruct l as [|x l]; [congruence|]. intros _. cbn [mathMax].
  destruct (fold_left_max_spec l x) as (Hin & Hle & Hall).
  split.
  - destruct Hin as [->|Hin]; [now left | now right].
  - intros y [<-|Hy]; [exact Hle | now apply Hall].
Qed.

Lemma ISODate_eqb_eq (a b : ISODate) : ISODate_eqb a b = true <-> a = b.
Proof.
  unfold ISODate_eqb. destruct a as [y1 m1 d1], b as [y2 m2 d2]. cbn [year month mday].
  rewrite !andb_true_iff, !Z.eqb_eq. split.
  - intros [[-> ->] ->]. reflexivity.
  - intros H. injection H as -> -> ->. auto.
Qed.

(** The cards of the cache that [onSubmitAdd] takes for the target cell. *)
Lemma in_target_cell (i : Item) (cache : list Item) (day : ISODate) (row : string) :
  In i (List.filter (inCell day row) cache) <->
  In i cache /\ Item.day i = day /\ Item.row i = row.
Proof.
  rewrite filter_In. unfold inCell.
  rewrite andb_true_iff, ISODate_eqb_eq, String.eqb_eq. reflexivity.
Qed.

(** The integers up to 2^53 in magnitude are numbers. *)
Lemma toNumber_small (z : Z) : Z.abs z <= 2 ^ 53 -> toNumber z = z.
Proof.
  intros Hz. unfold toNumber. cbv zeta.
  destruct (Z.leb_spec (Z.log2 (Z.abs z) - 52) 0) as [_|He]; [reflexivity|].
  assert (Ha : 0 < Z.abs z).
  { destruct (Z.eq_dec (Z.abs z) 0) as [E|E]; [rewrite E in He; cbn in He; lia|].
    pose proof (Z.abs_nonneg z). lia. }
  pose proof (Z.log2_spec _ Ha) as [Hlo _].
  assert (H53 : 2 ^ 53 <= 2 ^ Z.log2 (Z.abs z)) by (apply Z.pow_le_mono_r; lia).
  assert (Hab : Z.abs z = 2 ^ 53) by lia.
  destruct (Z.abs_eq_or_opp z) as [E|E]; rewrite E in Hab.
  - subst z. vm_compute. reflexivity.
  - assert (z = - 2 ^ 53) by lia. subst z. vm_compute. reflexivity.
Qed.

(** Past 2^53 the sum with 1 is no longer exact: 2^53 + 1 is no number, and
    the nearest one is 2^53. *)
Lemma toNumber_2_53 : toNumber (2 ^ 53 + 1) = 2 ^ 53.
Proof. vm_compute. reflexivity. Qed.

(** [toNumber] rounds as the arithmetic of the numbers does. *)
Lemma toNumber_rounds :
  forallb (fun z => match numberOfZ z, numberOfZ (toNumber z) with
                    | S754_finite s m e, S754_finite s' m' e' =>
                        (Bool.eqb s s' && Pos.eqb m m' && (e =? e'))%bool
                    | _, _ => false
                    end)
    [ 1; -7; 400; 2 ^ 53 - 1; 2 ^ 53; 2 ^ 53 + 1; 2 ^ 53 + 2; 2 ^ 53 + 3;
      - (2 ^ 53) - 1; 2 ^ 54 + 2; 2 ^ 54 + 6; 2 ^ 60 + 129; 3 * 2 ^ 70 + 1;
      123456789012345678901234567890; 2 ^ 1023 + 1 ] = true.
Proof. vm_compute. reflexivity. Qed.

(** The position given to a new card: 1 in a cell without cards, and
    otherwise the number nearest to one more than the greatest position of
    the cards of the cell. *)
Lemma nextOrdOf_spec (cellItems : list Item) :
  (cellItems = [] -> nextOrdOf cellItems = 1) /\
  (forall m, In m cellItems ->
             (forall j, In j cellItems -> Item.ord j <= Item.ord m) ->
             nextOrdOf cellItems = toNumber (Item.ord m + 1)).
Proof.
  split.
  - intros ->. reflexivity.
  - intros m Hm Hmax. unfold nextOrdOf.
    destruct cellItems as [|c cs]; [destruct Hm|].
    replace (0 <? Z.of_nat (length (c :: cs))) with true
      by (symmetry; apply Z.ltb_lt; cbn [length]; lia).
    set (ords := List.map (fun i => numberOr0 (Item.ord i)) (c :: cs)).
    destruct (mathMax_spec ords) as [Hin Hall]; [discriminate|].
    apply in_map_iff in Hin as (i & Hi & Hin). rewrite numberOr0_id in Hi.
    assert (Hle : Item.ord m <= mathMax ords).
    { apply Hall. unfold ords. apply in_map_iff. exists m.
      split; [apply numberOr0_id | exact Hm]. }
    pose proof (Hmax i Hin). f_equal. lia.
Qed.

Arguments nextOrdOf : simpl never.
Arguments trim : simpl never.

Arguments addPayload : simpl never.

(** [refresh] never throws: it catches what its request throws. *)
Lemma refresh_ends (classify : Navigator -> JsErr -> bool) (s : Board * World) :
  exists s', refresh classify s = (Ok tt, s').
Proof.
  destruct s as [b w]. unfold refresh, listWeek. mrun.
  destruct (boardId b); [|eauto]. mrun.
  destruct (notOnLine (navigator w)); [eauto|]. mrun.
  cbn [faults set_journal].
  destruct (faults w) as [|[e|] rest]; cbn [fst snd]; eauto.
  match goal with |- context [showErr ?c ?e0 (?a0, ?w0)] =>
    destruct (showErr_frame c e0 a0 w0) as (w' & Hs & _) end.
  rewrite Hs. eauto.
Qed.

(** [refresh] sends fetches only and leaves the remote table alone. *)
Lemma refresh_frame (classify : Navigator -> JsErr -> bool) (b : Board) (w : World) :
  exists b' w' j,
    refresh classify (b, w) = (Ok tt, (b', w')) /\
    itemsTable w' = itemsTable w /\
    journal w' = journal w ++ j /\
    forallb isFetch (callsOf j) = true.
Proof.
  unfold refresh, listWeek. mrun.
  destruct (boardId b) as [cid|].
  2:{ exists b, w, []. rewrite app_nil_r. auto. }
  mrun. destruct (notOnLine (navigator w)).
  { exists b, w, []. rewrite app_nil_r. auto. }
  mrun. cbn [faults set_journal].
  destruct (faults w) as [|[e|] rest]; cbn [fst snd].
  - do 3 eexists. split; [reflexivity|]. cbn. auto.
  - match goal with |- context [showErr ?c ?e0 (?a0, ?w0)] =>
      destruct (showErr_frame c e0 a0 w0)
        as (w' & Hs & _ & Hit & _ & _ & _ & j & Hj & Hc) end.
    rewrite Hs. do 3 eexists. split; [reflexivity|].
    rewrite Hit, Hj. cbn. rewrite <- app_assoc. split; [reflexivity|].
    split; [reflexivity|]. unfold callsOf in *. cbn. now rewrite Hc.
  - do 3 eexists. split; [reflexivity|]. cbn. auto.
Qed.

Lemma tryCatch_refresh (classify : Navigator -> JsErr -> bool)
    (h : JsErr -> M Board unit) (s : Board * World) :
  tryCatch (refresh classify) h s = refresh classify s.
Proof.
  unfold tryCatch. destruct (refresh_ends classify s) as (s' & ->). reflexivity.
Qed.

Lemma onSubmitAdd_empty (classify : Navigator -> JsErr -> bool) (b : Board) (w : World)
    (day : ISODate) (vName vRoom vDx vProc : string) (cid : string)
    (draftDay : ISODate) (draftRow : string) :
  effectiveRole b = Editor ->
  boardId b = Some cid ->
  draftCell b = Some (draftDay, draftRow) ->
  (isEmpty (trim vName) && isEmpty (trim vDx) && isEmpty (trim vRoom))%bool = true ->
  onSubmitAdd classify day vName vRoom vDx vProc (b, w) =
  (Ok tt,
   (b, set_journal
         (journal w ++ [ConsoleLog "[ADD] vals="; ConsoleLog "[ADD] payload=";
                        Alert "No puedes guardar un paciente vacío."]) w)).
Proof.
  intros Hrole Hid Hdraft Hempty. unfold onSubmitAdd. mrun.
  rewrite Hrole. cbn [Role_eqb negb]. rewrite Hid, Hdraft. mrun.
  cbn [NewItem.name NewItem.dx NewItem.room]. rewrite Hempty. mrun.
  cbn. rewrite <- !app_assoc. reflexivity.
Qed.

Lemma callsOf_app (j1 j2 : list Effect) : callsOf (j1 ++ j2) = callsOf j1 ++ callsOf j2.
Proof. unfold callsOf. apply flat_map_app. Qed.

(** Whether the write goes through or not, the first request of an add of
    a card that is not empty is the write of this card, and the only other
    requests are fetches.  When the write goes through, the draft is closed
    and the operation goes on as [refresh]; when it fails, no other request
    follows and the draft stays open. *)
Lemma onSubmitAdd_request (classify : Navigator -> JsErr -> bool) (b : Board) (w : World)
    (day : ISODate) (vName vRoom vDx vProc : string) (cid : string)
    (draftDay : ISODate) (draftRow : string) :
  effectiveRole b = Editor ->
  boardId b = Some cid ->
  draftCell b = Some (draftDay, draftRow) ->
  (isEmpty (trim vName) && isEmpty (trim vDx) && isEmpty (trim vRoom))%bool = false ->
  let payload := addPayload b cid day draftRow vName vRoom vDx vProc in
  exists s' rest,
    onSubmitAdd classify day vName vRoom vDx vProc (b, w) = (Ok tt, s') /\
    callsOf (journal (snd s')) = callsOf (journal w) ++ AddItem payload :: rest /\
    forallb isFetch rest = true /\
    (nextFault w = None ->
     exists w1,
       onSubmitAdd classify day vName vRoom vDx vProc (b, w) =
         refresh classify (setDraftCell None b, w1) /\
       callsOf (journal w1) = callsOf (journal w) ++ [AddItem payload] /\
       itemsTable w1 =
         itemsTable w ++ [itemOfPayload (newId w (length (itemsTable w))) payload]) /\
    (forall e, nextFault w = Some e ->
       rest = [] /\ itemsTable (snd s') = itemsTable w /\ fst s' = b).
Proof.
  intros Hrole Hid Hdraft Hempty payload. unfold onSubmitAdd, addItem. mrun.
  rewrite Hrole. cbn [Role_eqb negb]. rewrite Hid, Hdraft. mrun.
  cbn [NewItem.name NewItem.dx NewItem.room]. rewrite Hempty. mrun.
  fold (addPayload b cid day draftRow vName vRoom vDx vProc). fold payload.
  cbn [faults set_journal]. unfold nextFault.
  assert (Hcalls : forall j,
            callsOf ((((journal w ++ [ConsoleLog "[ADD] vals="]) ++
                       [ConsoleLog "[ADD] payload="]) ++ [Remote (AddItem payload)]) ++ j)
            = callsOf (journal w) ++ AddItem payload :: callsOf j).
  { intros j. rewrite !callsOf_app. cbn. now rewrite !app_nil_r, <- app_assoc. }
  destruct (faults w) as [|[e|] more]; cbn [fst snd].
  - match goal with |- context [refresh classify (?bb, ?ww)] =>
      pose proof (tryCatch_refresh classify (showErr classify) (bb, ww)) as Ht;
      unfold tryCatch in Ht; rewrite Ht; clear Ht;
      destruct (refresh_frame classify bb ww) as (b' & w' & j & Hr & _ & Hj & Hc);
      set (w1 := ww) in * end.
    rewrite Hr. exists (b', w'), (callsOf j). split; [reflexivity|]. cbn [snd].
    rewrite Hj. split; [|split; [exact Hc|split]].
    + subst w1. cbn [journal set_journal set_itemsTable].
      rewrite <- (app_assoc _ [_] j). now rewrite Hcalls.
    + intros _. exists w1. split; [now rewrite Hr|]. subst w1.
      cbn [journal set_journal set_itemsTable itemsTable].
      split; [|reflexivity]. rewrite Hcalls. reflexivity.
    + discriminate.
  - match goal with |- context [showErr ?c ?e0 (?a0, ?w0)] =>
      destruct (showErr_frame c e0 a0 w0)
        as (w' & Hs & _ & Hit & _ & _ & _ & j & Hj & Hc) end.
    rewrite Hs. exists (b, w'), []. split; [reflexivity|]. cbn [snd fst].
    rewrite Hj. cbn [journal set_journal set_faults].
    rewrite Hcalls, Hc. split; [reflexivity|]. split; [reflexivity|].
    split; [discriminate|]. intros _ _. rewrite Hit. auto.
  - match goal with |- context [refresh classify (?bb, ?ww)] =>
      pose proof (tryCatch_refresh classify (showErr classify) (bb, ww)) as Ht;
      unfold tryCatch in Ht; rewrite Ht; clear Ht;
      destruct (refresh_frame classify bb ww) as (b' & w' & j & Hr & _ & Hj & Hc);
      set (w1 := ww) in * end.
    rewrite Hr. exists (b', w'), (callsOf j). split; [reflexivity|]. cbn [snd].
    rewrite Hj. split; [|split; [exact Hc|split]].
    + subst w1. cbn [journal set_journal set_itemsTable set_faults].
      rewrite <- (app_assoc _ [_] j). now rewrite Hcalls.
    + intros _. exists w1. split; [now rewrite Hr|]. subst w1.
      cbn [journal set_journal set_itemsTable set_faults itemsTable].
      split; [|reflexivity]. rewrite Hcalls. reflexivity.
    + discriminate.
Qed.

Lemma all_empty_iff (a b c : string) :
  (isEmpty a && isEmpty b && isEmpty c)%bool = true <-> a = "" /\ b = "" /\ c = "".
Proof.
  destruct a, b, c; cbn; split; try (intros (? & ? & ?)); try discriminate; auto.
Qed.

(** C2: an add by an effective editor on a loaded board, for the cell of the
    open draft.  When name, room and dx are all empty after trimming, the
    user is alerted and no request is sent.  Otherwise the first request is
    the write of a card that carries the board, the day, the row of the
    draft, the trimmed texts and a position [ord]; the only other requests
    are the fetches of the refresh.  The position is 1 when the cache holds
    no card of the target cell; otherwise it is the number nearest to one
    more than the greatest position of the cached cards of the cell, which
    is that position plus 1 as long as it stays below 2^53 in magnitude.
    When the write goes through, the draft is closed and the operation goes
    on as [refresh]; when it fails, nothing else is sent and the remote
    table is as it was. *)
Theorem C2_onSubmitAdd (classify : Navigator -> JsErr -> bool) (b : Board) (w : World)
    (day : ISODate) (vName vRoom vDx vProc : string) (cid : string)
    (draftDay : ISODate) (draftRow : string) :
  effectiveRole b = Editor ->
  boardId b = Some cid ->
  draftCell b = Some (draftDay, draftRow) ->
  let inTarget := fun i : Item =>
    In i (items b) /\ Item.day i = day /\ Item.row i = draftRow in
  let allEmpty := trim vName = "" /\ trim vDx = "" /\ trim vRoom = "" in
  (allEmpty ->
   exists w',
     onSubmitAdd classify day vName vRoom vDx vProc (b, w) = (Ok tt, (b, w')) /\
     alertsOf (journal w') =
       alertsOf (journal w) ++ ["No puedes guardar un paciente vacío."] /\
     callsOf (journal w') = callsOf (journal w) /\
     itemsTable w' = itemsTable w) /\
  (~ allEmpty ->
   exists ord s' rest,
     let payload :=
       NewItem.mk cid day draftRow ord (trim vName) (trim vRoom) (trim vDx) vProc false in
     onSubmitAdd classify day vName vRoom vDx vProc (b, w) = (Ok tt, s') /\
     callsOf (journal (snd s')) = callsOf (journal w) ++ AddItem payload :: rest /\
     forallb isFetch rest = true /\
     ((forall i, ~ inTarget i) -> ord = 1) /\
     (forall m, inTarget m ->
                (forall j, inTarget j -> Item.ord j <= Item.ord m) ->
                ord = toNumber (Item.ord m + 1) /\
                (Z.abs (Item.ord m) < 2 ^ 53 -> ord = Item.ord m + 1)) /\
     (nextFault w = None ->
      exists w1,
        onSubmitAdd classify day vName vRoom vDx vProc (b, w) =
          refresh classify (setDraftCell None b, w1) /\
        callsOf (journal w1) = callsOf (journal w) ++ [AddItem payload] /\
        itemsTable w1 =
          itemsTable w ++
          [Item.mk (newId w (length (itemsTable w))) cid day draftRow ord
             (trim vName) (trim vRoom) (trim vDx) vProc false]) /\
     (forall e, nextFault w = Some e ->
        rest = [] /\ itemsTable (snd s') = itemsTable w /\ fst s' = b)).
Proof.
  intros Hrole Hid Hdraft inTarget allEmpty. split.
  - intros Hall. apply all_empty_iff in Hall. eexists. split.
    + now apply (onSubmitAdd_empty classify b w day vName vRoom vDx vProc cid
                   draftDay draftRow).
    + cbn [journal set_journal itemsTable]. unfold alertsOf, callsOf.
      rewrite !flat_map_app. cbn. rewrite app_nil_r. auto.
  - intros Hnot.
    assert (Hfull : (isEmpty (trim vName) && isEmpty (trim vDx) && isEmpty (trim vRoom))%bool
                    = false).
    { destruct (isEmpty (trim vName) && isEmpty (trim vDx) && isEmpty (trim vRoom))%bool
        eqn:E; [|reflexivity]. exfalso. apply Hnot. now apply all_empty_iff. }
    destruct (onSubmitAdd_request classify b w day vName vRoom vDx vProc cid
                draftDay draftRow Hrole Hid Hdraft Hfull)
      as (s' & rest & Hrun & Hcalls & Hfetch & Hok & Hfail).
    set (cell := List.filter (inCell day draftRow) (items b)).
    exists (nextOrdOf cell), s', rest. cbv zeta.
    split; [exact Hrun|]. split; [exact Hcalls|]. split; [exact Hfetch|].
    split; [|split; [|split; [exact Hok | exact Hfail]]].
    + intros Hnone. apply (proj1 (nextOrdOf_spec cell)).
      destruct cell as [|c cs] eqn:Hc; [reflexivity|]. exfalso.
      apply (Hnone c). apply (in_target_cell c (items b) day draftRow).
      fold cell. rewrite Hc. now left.
    + intros m Hm Hmax.
      assert (Hord : nextOrdOf cell = toNumber (Item.ord m + 1)).
      { apply (proj2 (nextOrdOf_spec cell)).
        - now apply in_target_cell.
        - intros j Hj. apply Hmax. now apply in_target_cell. }
      split; [exact Hord|]. intros Hsmall. rewrite Hord.
      apply toNumber_small. lia.
Qed.

Lemma C2_onSubmitAdd_witness :
  (exists w1,
     onSubmitAdd Part000.isTransientNetworkError monday2024
       (blanks +:+ "Ana García ") "" "" "Coronaria" (demoBoard, demoWorld) =
     refresh Part000.isTransientNetworkError (setDraftCell None demoBoard, w1) /\
     callsOf (journal w1) =
       [AddItem (NewItem.mk "demo" monday2024 "A" 3 "Ana García" "" "" "Coronaria" false)]) /\
  (exists w',
     onSubmitAdd Part000.isTransientNetworkError monday2024 blanks " " "" "Coronaria"
       (demoBoard, demoWorld) = (Ok tt, (demoBoard, w')) /\
     alertsOf (journal w') = ["No puedes guardar un paciente vacío."] /\
     callsOf (journal w') = []).
Proof.
  split.
  - destruct (C2_onSubmitAdd Part000.isTransientNetworkError demoBoard demoWorld
                monday2024 (blanks +:+ "Ana García ") "" "" "Coronaria" "demo" monday2024 "A"
                eq_refl eq_refl eq_refl) as (_ & Hw).
    destruct Hw as (ord & s' & rest & _ & _ & _ & _ & Hmax & Hok & _).
    { intros (H & _). vm_compute in H. discriminate. }
    destruct (Hmax cardY) as (_ & Hord).
    { split; [right; left; reflexivity | split; reflexivity]. }
    { intros j (Hj & _). destruct Hj as [<-|[<-|[]]]; vm_compute; discriminate. }
    destruct (Hok eq_refl) as (w1 & Hrun & Hcalls & _).
    exists w1. split; [exact Hrun|]. rewrite Hcalls, Hord; [|vm_compute; reflexivity].
    vm_compute. reflexivity.
  - destruct (C2_onSubmitAdd Part000.isTransientNetworkError demoBoard demoWorld
                monday2024 blanks " " "" "Coronaria" "demo" monday2024 "A"
                eq_refl eq_refl eq_refl) as (Halert & _).
    destruct Halert as (w' & Hrun & Hal & Hcalls & _).
    { repeat split; vm_compute; reflexivity. }
    exists w'. split; [exact Hrun|]. split; [exact Hal | exact Hcalls].
Defined.

(** C2, as the claim states it, fails where the greatest position of the
    cell has reached 2^53: the sum with 1 is computed on numbers, the
    nearest number to 2^53 + 1 is 2^53, and the new card is given the
    position that the last card of the cell already has. *)
Lemma C2_ord_stays_at_2_53 :
  let classify := Part000.isTransientNetworkError in
  let s' := snd (onSubmitAdd classify monday2024 "Z" "" "" "Coronaria"
                   (bigBoard, bigWorld)) in
  effectiveRole bigBoard = Editor /\
  boardId bigBoard = Some "demo" /\
  draftCell bigBoard = Some (monday2024, "A") /\
  items bigBoard = [cardBig] /\
  Item.day cardBig = monday2024 /\ Item.row cardBig = "A" /\
  Item.ord cardBig = 9007199254740992 /\
  onSubmitAdd classify monday2024 "Z" "" "" "Coronaria" (bigBoard, bigWorld) = (Ok tt, s') /\
  callsOf (journal (snd s')) =
    [ AddItem (NewItem.mk "demo" monday2024 "A" 9007199254740992 "Z" "" ""
                 "Coronaria" false);
      ListWeek "demo" (Some monday2024) ] /\
  9007199254740992 <> Item.ord cardBig + 1.
Proof.
  cbv zeta. repeat split; try (vm_compute; reflexivity). vm_compute. discriminate.
Qed.

(* ------------------------------------------------------------------ *)
(** ** MutationEngine: moves across days *)
(* ------------------------------------------------------------------ *)

Lemma getDay_parse_plain (iso : ISODate) :
  plainKey iso -> getDay (parseISODate iso) = weekday iso.
Proof. intros H. unfold weekday. now rewrite parseISODate_plain. Qed.

(** On a plain key, [nextBusinessDayISO] moves 3 days forward from a Friday,
    2 from a Saturday and 1 from any other day. *)
Lemma nextBusinessDayISO_plain (iso : ISODate) :
  plainKey iso ->
  dayNumber (nextBusinessDayISO iso) =
  dayNumber iso + (if weekday iso =? 5 then 3 else if weekday iso =? 6 then 2 else 1).
Proof.
  intros H. rewrite nextBusinessDayISO_eq, dayNumber_toISODate.
  now rewrite getDay_parse_plain, parseISODate_plain.
Qed.

(** On a plain key, [prevBusinessDayISO] moves 3 days back from a Monday, 2
    from a Sunday and 1 from any other day. *)
Lemma prevBusinessDayISO_plain (iso : ISODate) :
  plainKey iso ->
  dayNumber (prevBusinessDayISO iso) =
  dayNumber iso - (if weekday iso =? 1 then 3 else if weekday iso =? 0 then 2 else 1).
Proof.
  intros H. rewrite prevBusinessDayISO_eq, dayNumber_toISODate.
  now rewrite getDay_parse_plain, parseISODate_plain.
Qed.

Lemma weekday_shift (a b : ISODate) (k : Z) :
  dayNumber b = dayNumber a + k -> weekday b = (weekday a + k) mod 7.
Proof.
  intros H. unfold weekday. rewrite H, Zplus_mod_idemp_l. f_equal. lia.
Qed.

(** The common end of the two moves: the first request is the write of the
    new day of the card, and the only other requests are fetches; when the
    write goes through, the card of the remote table has this day, and when
    it fails, the remote table is as it was. *)
Lemma moveToDay_request (classify : Navigator -> JsErr -> bool) (it : Item)
    (d : ISODate) (b : Board) (w : World) :
  exists b' w' rest,
    moveToDay classify it d (b, w) = (Ok tt, (b', w')) /\
    journal w' = journal w ++ Remote (UpdateItem (Item.id it) (PatchDay d)) :: rest /\
    forallb isFetch (callsOf rest) = true /\
    (nextFault w = None ->
     itemsTable w' = writeItem (Item.id it) (PatchDay d) (itemsTable w)) /\
    (forall e, nextFault w = Some e -> itemsTable w' = itemsTable w).
Proof.
  unfold moveToDay, updateItem, nextFault. mrun. cbn [faults set_journal].
  destruct (faults w) as [|[e|] rest] eqn:Hf; cbn [fst snd].
  - match goal with |- context [refresh classify (?bb, ?ww)] =>
      destruct (refresh_frame classify bb ww) as (b' & w' & j & Hr & Hit & Hj & Hc) end.
    rewrite Hr. exists b', w', j. split; [reflexivity|]. rewrite Hj, Hit. cbn.
    rewrite <- app_assoc. repeat split; auto. discriminate.
  - match goal with |- context [showErr ?c ?e0 (?a0, ?w0)] =>
      destruct (showErr_frame c e0 a0 w0)
        as (w' & Hs & _ & Hit & _ & _ & _ & j & Hj & Hc) end.
    rewrite Hs. exists b, w', j. split; [reflexivity|]. rewrite Hj, Hit. cbn.
    rewrite <- app_assoc. split; [reflexivity|]. split; [now rewrite Hc|].
    split; [discriminate | reflexivity].
  - match goal with |- context [refresh classify (?bb, ?ww)] =>
      destruct (refresh_frame classify bb ww) as (b' & w' & j & Hr & Hit & Hj & Hc) end.
    rewrite Hr. exists b', w', j. split; [reflexivity|]. rewrite Hj, Hit. cbn.
    rewrite <- app_assoc. repeat split; auto. discriminate.
Qed.

Arguments moveToDay : simpl never.
Arguments nextBusinessDayISO : simpl never.
Arguments prevBusinessDayISO : simpl never.

Lemma moveDayRight_last (classify : Navigator -> JsErr -> bool) (it : Item)
    (b : Board) (w : World) :
  indexOf (dayKeys b) (Item.day it) = Z.of_nat (length (dayKeys b)) - 1 ->
  moveDayRight classify it (b, w) =
  moveToDay classify it (nextBusinessDayISO (Item.day it)) (b, w).
Proof.
  intros Hidx. unfold moveDayRight. mrun. rewrite Hidx.
  rewrite Z.ltb_irrefl, andb_false_r, Z.eqb_refl. reflexivity.
Qed.

Lemma moveDayLeft_first (classify : Navigator -> JsErr -> bool) (it : Item)
    (b : Board) (w : World) :
  indexOf (dayKeys b) (Item.day it) = 0 ->
  moveDayLeft classify it (b, w) =
  moveToDay classify it (prevBusinessDayISO (Item.day it)) (b, w).
Proof.
  intros Hidx. unfold moveDayLeft. mrun. rewrite Hidx. reflexivity.
Qed.

(** C3: [moveDayRight] of a card on the last day of the visible week
    reassigns its day to the day [nextBusinessDayISO] computes, and
    [moveDayLeft] of a card on the first day to the day [prevBusinessDayISO]
    computes: the first request of the move writes this day onto the card,
    only fetches follow, and when the write goes through the card of the
    remote table has this day, with everything else as it was (when it
    fails, the remote table is as it was).  The day computed is never a
    Saturday or a Sunday.  From a Friday the next business day is the Monday
    3 days later, from a Monday the previous one is the Friday 3 days
    earlier.  From a Saturday they are the Monday 2 days later and the
    Friday 1 day earlier, from a Sunday the Monday 1 day later and the
    Friday 2 days earlier; from any other day the day after and the day
    before. *)
Theorem C3_business_day_moves (classify : Navigator -> JsErr -> bool) (it : Item)
    (b : Board) (w : World) :
  let moved := fun (d : ISODate) (i : Item) =>
    if String.eqb (Item.id i) (Item.id it)
    then Item.mk (Item.id i) (Item.center_id i) d (Item.row i) (Item.ord i)
           (Item.name i) (Item.room i) (Item.dx i) (Item.proc i) (Item.done i)
    else i in
  (indexOf (dayKeys b) (Item.day it) = Z.of_nat (length (dayKeys b)) - 1 ->
   exists b' w' rest,
     moveDayRight classify it (b, w) = (Ok tt, (b', w')) /\
     journal w' =
       journal w ++
       Remote (UpdateItem (Item.id it) (PatchDay (nextBusinessDayISO (Item.day it))))
       :: rest /\
     forallb isFetch (callsOf rest) = true /\
     (nextFault w = None ->
      itemsTable w' = List.map (moved (nextBusinessDayISO (Item.day it))) (itemsTable w)) /\
     (forall e, nextFault w = Some e -> itemsTable w' = itemsTable w)) /\
  (indexOf (dayKeys b) (Item.day it) = 0 ->
   exists b' w' rest,
     moveDayLeft classify it (b, w) = (Ok tt, (b', w')) /\
     journal w' =
       journal w ++
       Remote (UpdateItem (Item.id it) (PatchDay (prevBusinessDayISO (Item.day it))))
       :: rest /\
     forallb isFetch (callsOf rest) = true /\
     (nextFault w = None ->
      itemsTable w' = List.map (moved (prevBusinessDayISO (Item.day it))) (itemsTable w)) /\
     (forall e, nextFault w = Some e -> itemsTable w' = itemsTable w)) /\
  (forall iso : ISODate,
     1 <= weekday (nextBusinessDayISO iso) <= 5 /\
     1 <= weekday (prevBusinessDayISO iso) <= 5) /\
  (forall iso : ISODate,
     plainKey iso -> weekday iso = 5 ->
     nextBusinessDayISO iso = toISODate (dayNumber iso + 3) /\
     weekday (nextBusinessDayISO iso) = 1) /\
  (forall iso : ISODate,
     plainKey iso -> weekday iso = 1 ->
     prevBusinessDayISO iso = toISODate (dayNumber iso - 3) /\
     weekday (prevBusinessDayISO iso) = 5) /\
  (forall iso : ISODate,
     plainKey iso -> weekday iso = 6 ->
     nextBusinessDayISO iso = toISODate (dayNumber iso + 2) /\
     weekday (nextBusinessDayISO iso) = 1 /\
     prevBusinessDayISO iso = toISODate (dayNumber iso - 1) /\
     weekday (prevBusinessDayISO iso) = 5) /\
  (forall iso : ISODate,
     plainKey iso -> weekday iso = 0 ->
     nextBusinessDayISO iso = toISODate (dayNumber iso + 1) /\
     weekday (nextBusinessDayISO iso) = 1 /\
     prevBusinessDayISO iso = toISODate (dayNumber iso - 2) /\
     weekday (prevBusinessDayISO iso) = 5) /\
  (forall iso : ISODate,
     plainKey iso ->
     (1 <= weekday iso <= 4 -> nextBusinessDayISO iso = toISODate (dayNumber iso + 1)) /\
     (2 <= weekday iso <= 5 -> prevBusinessDayISO iso = toISODate (dayNumber iso - 1))).
Proof.
  intros moved.
  assert (Hnext : forall iso k, plainKey iso ->
            (if weekday iso =? 5 then 3 else if weekday iso =? 6 then 2 else 1) = k ->
            nextBusinessDayISO iso = toISODate (dayNumber iso + k) /\
            weekday (nextBusinessDayISO iso) = (weekday iso + k) mod 7).
  { intros iso k Hp <-. rewrite nextBusinessDayISO_eq, getDay_parse_plain,
      parseISODate_plain by exact Hp.
    split; [reflexivity|]. rewrite weekday_toISODate, getDay_add.
    unfold weekday, getDay. reflexivity. }
  assert (Hprev : forall iso k, plainKey iso ->
            (if weekday iso =? 1 then 3 else if weekday iso =? 0 then 2 else 1) = k ->
            prevBusinessDayISO iso = toISODate (dayNumber iso - k) /\
            weekday (prevBusinessDayISO iso) = (weekday iso - k) mod 7).
  { intros iso k Hp <-. rewrite prevBusinessDayISO_eq, getDay_parse_plain,
      parseISODate_plain by exact Hp.
    split; [reflexivity|]. rewrite weekday_toISODate.
    match goal with |- getDay (?a - ?c) = _ =>
      replace (a - c) with (a + - c) by lia; rewrite getDay_add end.
    unfold weekday, getDay. f_equal. }
  split; [|split; [|split; [|split; [|split; [|split; [|split]]]]]].
  - intros Hidx. rewrite (moveDayRight_last classify it b w Hidx).
    destruct (moveToDay_request classify it (nextBusinessDayISO (Item.day it)) b w)
      as (b' & w' & rest & Hr & Hj & Hc & Hok & Hfail).
    exists b', w', rest. repeat split; auto.
  - intros Hidx. rewrite (moveDayLeft_first classify it b w Hidx).
    destruct (moveToDay_request classify it (prevBusinessDayISO (Item.day it)) b w)
      as (b' & w' & rest & Hr & Hj & Hc & Hok & Hfail).
    exists b', w', rest. repeat split; auto.
  - intros iso. split; [apply nextBusinessDayISO_weekday | apply prevBusinessDayISO_weekday].
  - intros iso Hplain Hd. destruct (Hnext iso 3 Hplain) as [H1 H2]; [now rewrite Hd|].
    split; [exact H1|]. rewrite H2, Hd. reflexivity.
  - intros iso Hplain Hd. destruct (Hprev iso 3 Hplain) as [H1 H2]; [now rewrite Hd|].
    split; [exact H1|]. rewrite H2, Hd. reflexivity.
  - intros iso Hplain Hd.
    destruct (Hnext iso 2 Hplain) as [H1 H2]; [now rewrite Hd|].
    destruct (Hprev iso 1 Hplain) as [H3 H4]; [now rewrite Hd|].
    rewrite H2, H4, Hd. repeat split; auto.
  - intros iso Hplain Hd.
    destruct (Hnext iso 1 Hplain) as [H1 H2]; [now rewrite Hd|].
    destruct (Hprev iso 2 Hplain) as [H3 H4]; [now rewrite Hd|].
    rewrite H2, H4, Hd. repeat split; auto.
  - intros iso Hplain. split; intros Hd.
    + apply (Hnext iso 1 Hplain).
      destruct (Z.eqb_spec (weekday iso) 5); [lia|].
      destruct (Z.eqb_spec (weekday iso) 6); [lia | reflexivity].
    + apply (Hprev iso 1 Hplain).
      destruct (Z.eqb_spec (weekday iso) 1); [lia|].
      destruct (Z.eqb_spec (weekday iso) 0); [lia | reflexivity].
Qed.

Lemma C3_business_day_moves_witness :
  nextBusinessDayISO friday2024 = mkISO 2024 1 8 /\
  prevBusinessDayISO monday2024 = mkISO 2023 12 29 /\
  (exists b' w' rest,
     moveDayRight Part000.isTransientNetworkError cardF (fridayBoard, fridayWorld) =
       (Ok tt, (b', w')) /\
     journal w' = Remote (UpdateItem "f" (PatchDay (mkISO 2024 1 8))) :: rest /\
     List.map Item.day (itemsTable w') = [mkISO 2024 1 8]) /\
  (exists b' w' rest,
     moveDayLeft Part000.isTransientNetworkError cardX (demoBoard, demoWorld) =
       (Ok tt, (b', w')) /\
     journal w' = Remote (UpdateItem "x" (PatchDay (mkISO 2023 12 29))) :: rest /\
     List.map Item.day (itemsTable w') = [mkISO 2023 12 29; monday2024]) /\
  nextBusinessDayISO friday2024 = toISODate (dayNumber friday2024 + 3) /\
  prevBusinessDayISO monday2024 = toISODate (dayNumber monday2024 - 3).
Proof.
  destruct (C3_business_day_moves Part000.isTransientNetworkError cardF
              fridayBoard fridayWorld) as (HR & _ & _ & Hfri & Hmon & _).
  destruct (C3_business_day_moves Part000.isTransientNetworkError cardX
              demoBoard demoWorld) as (_ & HL & _).
  assert (Hp : forall d, 1 <= d -> plainKey (mkISO 2024 1 d)).
  { intros d Hd. split; cbn; lia. }
  split; [vm_compute; reflexivity|]. split; [vm_compute; reflexivity|].
  split.
  { destruct (HR eq_refl) as (b' & w' & rest & Hrun & Hj & _ & Hok & _).
    exists b', w', rest. split; [exact Hrun|]. split; [exact Hj|].
    rewrite (Hok eq_refl). vm_compute. reflexivity. }
  split.
  { destruct (HL eq_refl) as (b' & w' & rest & Hrun & Hj & _ & Hok & _).
    exists b', w', rest. split; [exact Hrun|]. split; [exact Hj|].
    rewrite (Hok eq_refl). vm_compute. reflexivity. }
  split.
  - apply (Hfri friday2024); [apply Hp; lia | vm_compute; reflexivity].
  - apply (Hmon monday2024); [apply Hp; lia | vm_compute; reflexivity].
Defined.


(* ------------------------------------------------------------------ *)
(** ** MutationEngine: admission toggle *)
(* ------------------------------------------------------------------ *)

Lemma insertLatest_In (x y : InpatientRow) (l : list InpatientRow) :
  In y (insertLatest x l) <-> y = x \/ In y l.
Proof.
  induction l as [|z l IH]; cbn [insertLatest].
  - cbn. intuition congruence.
  - destruct (Inpatient.admitted_at z <=? Inpatient.admitted_at x); cbn [In].
    + intuition congruence.
    + rewrite IH. intuition congruence.
Qed.

Lemma latestFirst_In (y : InpatientRow) (l : list InpatientRow) :
  In y (latestFirst l) <-> In y l.
Proof.
  induction l as [|x l IH]; [reflexivity|].
  cbn [latestFirst fold_right]. fold (latestFirst l).
  rewrite insertLatest_In, IH. cbn. intuition congruence.
Qed.

(** The cards that a successful [refreshInpatients] marks as admitted. *)
Lemma marked_after_select (cid src : string) (table : list InpatientRow) :
  src <> "" ->
  existsb (activeOf cid src) table = true ->
  src ∈ (list_to_set
           (List.filter (fun s => negb (isEmpty s))
              (List.map Inpatient.source_item_id
                 (latestFirst (List.filter (activeFor cid) table)))) : gset string).
Proof.
  intros Hne Hex. apply existsb_exists in Hex as (r & Hr & Hact).
  unfold activeOf in Hact. apply andb_true_iff in Hact as [Hact Hsrc].
  apply String.eqb_eq in Hsrc.
  apply elem_of_list_to_set, list_elem_of_In, filter_In. split.
  - apply in_map_iff. exists r. split; [exact Hsrc|].
    apply latestFirst_In, filter_In. now split.
  - destruct src; [congruence | reflexivity].
Qed.

Ltac close_journal :=
  cbn [journal set_journal set_faults set_inpatientsTable inpatientsTable
       set_itemsTable itemsTable];
  rewrite <- ?app_assoc; cbn [app].

(** [refreshInpatients] ends normally.  It leaves the remote tables and the
    marks of the calls in flight alone; the set of admitted cards is either
    left as it was (the select failed) or replaced by the sources of the
    active records of the board. *)
Lemma refreshInpatients_spec (b : Board) (w : World) (cid : string) :
  boardId b = Some cid ->
  exists b' w' j,
    Part000.refreshInpatients (b, w) = (Ok tt, (b', w')) /\
    journal w' = journal w ++ j /\
    ~ In toggleFailed j /\
    inpatientsTable w' = inpatientsTable w /\
    inpatientInFlight b' = inpatientInFlight b /\
    (inpatientSet b' = inpatientSet b \/
     inpatientSet b' =
       list_to_set
         (List.filter (fun s => negb (isEmpty s))
            (List.map Inpatient.source_item_id
               (latestFirst (List.filter (activeFor cid) (inpatientsTable w)))))).
Proof.
  intros Hid. unfold Part000.refreshInpatients, inpatientsSelectActive, itemsSelectIn.
  mrun. rewrite Hid. mrun. cbn [faults set_journal].
  destruct (faults w) as [|[e|] rest] eqn:Hf; cbn [fst snd]; mrun.
  2:{ do 3 eexists. split; [reflexivity|]. close_journal.
      split; [reflexivity|]. split; [cbn; intuition discriminate|].
      split; [reflexivity|]. split; [reflexivity|]. left. reflexivity. }
  - set (ids := List.filter _ (List.map _ _)).
    destruct (0 <? Z.of_nat (length ids)); mrun.
    + cbn [faults set_journal]. rewrite Hf. cbn [fst snd]. mrun.
      do 3 eexists. split; [reflexivity|]. close_journal.
      split; [reflexivity|]. split; [cbn; intuition discriminate|].
      split; [reflexivity|]. split; [reflexivity|]. right. reflexivity.
    + do 3 eexists. split; [reflexivity|]. close_journal.
      split; [reflexivity|]. split; [cbn; intuition discriminate|].
      split; [reflexivity|]. split; [reflexivity|]. right. reflexivity.
  - set (ids := List.filter _ (List.map _ _)).
    destruct (0 <? Z.of_nat (length ids)); mrun.
    + cbn [faults set_journal set_faults].
      destruct rest as [|[e|] rest']; cbn [fst snd]; mrun;
        (do 3 eexists; split; [reflexivity|]; close_journal;
         split; [reflexivity|]; split; [cbn; intuition discriminate|];
         split; [reflexivity|]; split; [reflexivity|]; right; reflexivity).
    + do 3 eexists. split; [reflexivity|]. close_journal.
      split; [reflexivity|]. split; [cbn; intuition discriminate|].
      split; [reflexivity|]. split; [reflexivity|]. right. reflexivity.
Qed.

Arguments Part000.refreshInpatients : simpl never.

Lemma toggleInpatient_duplicate (it : Item) (b : Board) (w : World) (cid : string) :
  boardId b = Some cid ->
  Item.id it ∉ inpatientInFlight b ->
  Item.id it ∉ inpatientSet b ->
  Item.id it <> "" ->
  nextFault w = None ->
  existsb (activeOf cid (Item.id it)) (inpatientsTable w) = true ->
  exists b' w' j,
    Part000.toggleInpatient it (b, w) = (Ok tt, (b', w')) /\
    journal w' = journal w ++ Remote (InpatientsInsert (inpatientPayload cid it w)) :: j /\
    ~ In toggleFailed j /\
    Item.id it ∈ inpatientSet b' /\
    inpatientsTable w' = inpatientsTable w /\
    Item.id it ∉ inpatientInFlight b'.
Proof.
  intros Hid Hfl Hset Hne Hnf Hdup.
  unfold Part000.toggleInpatient, inpatientsInsert. mrun. rewrite Hid. cbn [fst snd].
  rewrite (bool_decide_eq_false_2 _ Hfl). mrun.
  rewrite (bool_decide_eq_false_2 _ Hset). mrun.
  fold (inpatientPayload cid it w). cbn [faults set_journal].
  assert (Hserve :
    forall w0, inpatientsTable w0 = inpatientsTable w ->
      (NewInpatient.is_active (inpatientPayload cid it w) &&
       existsb (activeOf (NewInpatient.center_id (inpatientPayload cid it w))
                  (NewInpatient.source_item_id (inpatientPayload cid it w)))
         (inpatientsTable w0))%bool = true).
  { intros w0 ->. cbn. exact Hdup. }
  unfold nextFault in Hnf.
  destruct (faults w) as [|[e|] rest] eqn:Hf; [|discriminate|]; cbn [fst snd].
  - rewrite Hserve by reflexivity. cbn [fst snd errorOfAnswer uniqueViolation codeOf code
      isNot23505 String.eqb Ascii.eqb Bool.eqb negb]. mrun.
    match goal with |- context [Part000.refreshInpatients (?bb, ?ww)] =>
      destruct (refreshInpatients_spec bb ww cid Hid)
        as (b' & w' & j & Hr & Hj & Hnw & Htab & Hinf & Hs) end.
    rewrite Hr. cbn [fst snd].
    do 3 eexists. split; [reflexivity|]. cbn [inpatientSet setInpatientInFlight
      inpatientInFlight]. rewrite Hj, Htab. close_journal.
    split; [reflexivity|]. split; [exact Hnw|]. split; [|split; [reflexivity|]].
    + destruct Hs as [-> | ->].
      * cbn. apply elem_of_union. left. now apply elem_of_singleton.
      * cbn. now apply marked_after_select.
    + rewrite Hinf. cbn. intros Hc. apply elem_of_difference in Hc as [_ Hc].
      apply Hc. now apply elem_of_singleton.
  - rewrite Hserve by reflexivity. cbn [fst snd errorOfAnswer uniqueViolation codeOf code
      isNot23505 String.eqb Ascii.eqb Bool.eqb negb]. mrun.
    match goal with |- context [Part000.refreshInpatients (?bb, ?ww)] =>
      destruct (refreshInpatients_spec bb ww cid Hid)
        as (b' & w' & j & Hr & Hj & Hnw & Htab & Hinf & Hs) end.
    rewrite Hr. cbn [fst snd].
    do 3 eexists. split; [reflexivity|]. cbn [inpatientSet setInpatientInFlight
      inpatientInFlight]. rewrite Hj, Htab. close_journal.
    split; [reflexivity|]. split; [exact Hnw|]. split; [|split; [reflexivity|]].
    + destruct Hs as [-> | ->].
      * cbn. apply elem_of_union. left. now apply elem_of_singleton.
      * cbn. now apply marked_after_select.
    + rewrite Hinf. cbn. intros Hc. apply elem_of_difference in Hc as [_ Hc].
      apply Hc. now apply elem_of_singleton.
Qed.

Lemma toggleInpatient_other_error (it : Item) (b : Board) (w : World) (cid : string)
    (e : JsErr) (rest : list (option JsErr)) :
  boardId b = Some cid ->
  Item.id it ∉ inpatientInFlight b ->
  Item.id it ∉ inpatientSet b ->
  faults w = Some e :: rest ->
  isNot23505 (codeOf e) = true ->
  Part000.toggleInpatient it (b, w) =
  (Ok tt,
   (setInpatientInFlight
      (({[Item.id it]} ∪ inpatientInFlight b) ∖ {[Item.id it]}) b,
    set_faults rest
      (set_journal
         (journal w ++ [Remote (InpatientsInsert (inpatientPayload cid it w)); toggleFailed])
         w))).
Proof.
  intros Hid Hfl Hset Hf Hcode.
  unfold Part000.toggleInpatient, inpatientsInsert. mrun. rewrite Hid. cbn [fst snd].
  rewrite (bool_decide_eq_false_2 _ Hfl). mrun.
  rewrite (bool_decide_eq_false_2 _ Hset). mrun.
  fold (inpatientPayload cid it w). cbn [faults set_journal]. rewrite Hf. cbn [fst snd errorOfAnswer].
  rewrite Hcode. mrun. cbn. rewrite <- app_assoc. reflexivity.
Qed.

(** C5: [toggleInpatient] on a card that is not marked as admitted, on a
    loaded board, with no toggle of the card in flight.  When the insert is
    answered with the uniqueness violation 23505 (an active record of the
    card exists already), the operation ends as a success: nothing is
    thrown, no failure is logged, and the card is in the set of admitted
    cards.  When the insert fails with any other code, nothing is thrown
    either, but the failure is logged, the set of admitted cards is left as
    it was and no reload follows.  The mark of the call in flight is
    removed in both cases. *)
Theorem C5_toggleInpatient_insert_conflict (it : Item) (b : Board) (w : World) (cid : string) :
  boardId b = Some cid ->
  Item.id it ∉ inpatientInFlight b ->
  Item.id it ∉ inpatientSet b ->
  Item.id it <> "" ->
  (nextFault w = None ->
   existsb (activeOf cid (Item.id it)) (inpatientsTable w) = true ->
   exists b' w' j,
     Part000.toggleInpatient it (b, w) = (Ok tt, (b', w')) /\
     journal w' = journal w ++ Remote (InpatientsInsert (inpatientPayload cid it w)) :: j /\
     ~ In toggleFailed j /\
     Item.id it ∈ inpatientSet b' /\
     inpatientsTable w' = inpatientsTable w /\
     Item.id it ∉ inpatientInFlight b') /\
  (forall (e : JsErr) (rest : list (option JsErr)),
     faults w = Some e :: rest ->
     isNot23505 (codeOf e) = true ->
     exists b' w',
       Part000.toggleInpatient it (b, w) = (Ok tt, (b', w')) /\
       journal w' =
         journal w ++ [Remote (InpatientsInsert (inpatientPayload cid it w)); toggleFailed] /\
       inpatientSet b' = inpatientSet b /\
       inpatientsTable w' = inpatientsTable w /\
       Item.id it ∉ inpatientInFlight b').
Proof.
  intros Hid Hfl Hset Hne. split.
  - intros Hnf Hdup. now apply toggleInpatient_duplicate.
  - intros e rest Hf Hcode.
    rewrite (toggleInpatient_other_error it b w cid e rest Hid Hfl Hset Hf Hcode).
    do 2 eexists. split; [reflexivity|]. cbn. repeat split; try reflexivity.
    intros Hc. apply elem_of_difference in Hc as [_ Hc].
    apply Hc. now apply elem_of_singleton.
Qed.

Lemma C5_toggleInpatient_insert_conflict_witness :
  (exists b' w' j,
     Part000.toggleInpatient cardX (demoBoard, racedWorld) = (Ok tt, (b', w')) /\
     journal w' = Remote (InpatientsInsert (inpatientPayload "demo" cardX racedWorld)) :: j /\
     ~ In toggleFailed j /\
     "x" ∈ inpatientSet b') /\
  (exists b' w',
     Part000.toggleInpatient cardX (demoBoard, unreachableWorld) = (Ok tt, (b', w')) /\
     journal w' =
       [Remote (InpatientsInsert (inpatientPayload "demo" cardX unreachableWorld)); toggleFailed] /\
     inpatientSet b' = ∅).
Proof.
  assert (Hx : "x" ∉ (∅ : gset string)) by apply not_elem_of_empty.
  assert (Hne : "x" <> "") by discriminate.
  split.
  - destruct (C5_toggleInpatient_insert_conflict cardX demoBoard racedWorld "demo"
                eq_refl Hx Hx Hne) as (Hdup & _).
    destruct (Hdup eq_refl eq_refl) as (b' & w' & j & Hr & Hj & Hnw & Hin & _).
    exists b', w', j. repeat split; assumption.
  - destruct (C5_toggleInpatient_insert_conflict cardX demoBoard unreachableWorld "demo"
                eq_refl Hx Hx Hne) as (_ & Hoth).
    destruct (Hoth (errorOf "Failed to fetch") [] eq_refl eq_refl)
      as (b' & w' & Hr & Hj & Hs & _).
    exists b', w'. repeat split; assumption.
Defined.

(* ------------------------------------------------------------------ *)
(** ** Lists: search, display order *)
(* ------------------------------------------------------------------ *)

Lemma findIndex_bounds {A : Type} (p : A -> bool) (l : list A) :
  -1 <= findIndex p l < Z.of_nat (length l).
Proof.
  induction l as [|x l IH]; cbn [findIndex length]; [lia|].
  destruct (p x); [lia|].
  destruct (Z.ltb_spec (findIndex p l) 0); lia.
Qed.

(** [findIndex] gives the place of the first element that satisfies [p]. *)
Lemma findIndex_at {A : Type} (p : A -> bool) (l1 : list A) (x : A) (l2 : list A) :
  (forall y, In y l1 -> p y = false) -> p x = true ->
  findIndex p (l1 ++ x :: l2) = Z.of_nat (length l1).
Proof.
  intros Hl1 Hx. induction l1 as [|y l1 IH]; cbn [findIndex app length].
  - now rewrite Hx.
  - rewrite (Hl1 y (or_introl eq_refl)).
    rewrite IH by (intros z Hz; apply Hl1; now right).
    destruct (Z.ltb_spec (Z.of_nat (length l1)) 0); lia.
Qed.


(** Conversely, an index that is not negative splits the list there. *)
Lemma findIndex_split {A : Type} (p : A -> bool) (l : list A) :
  0 <= findIndex p l ->
  exists l1 x l2,
    l = l1 ++ x :: l2 /\ findIndex p l = Z.of_nat (length l1) /\
    p x = true /\ forall y, In y l1 -> p y = false.
Proof.
  induction l as [|y l IH]; cbn [findIndex]; [lia|].
  destruct (p y) eqn:Hy.
  - intros _. exists [], y, l. repeat split; auto. intros z [].
  - destruct (Z.ltb_spec (findIndex p l) 0) as [Hneg|Hpos]; [lia|].
    intros _. destruct (IH Hpos) as (l1 & x & l2 & -> & Hk & Hx & Hl1).
    exists (y :: l1), x, l2. cbn [app length]. repeat split; auto.
    + rewrite Hk. lia.
    + intros z [<-|Hz]; auto.
Qed.

Lemma at_app_here {A : Type} (l1 : list A) (x : A) (l2 : list A) :
  at_ (l1 ++ x :: l2) (Z.of_nat (length l1)) = Some x.
Proof.
  unfold at_. destruct (Z.ltb_spec (Z.of_nat (length l1)) 0); [lia|].
  rewrite Nat2Z.id. clear. induction l1 as [|a l1 IH]; cbn [length app nth_error]; [reflexivity | exact IH].
Qed.







(* ------------------------------------------------------------------ *)
(** ** MutationEngine: moves inside a cell *)
(* ------------------------------------------------------------------ *)

Arguments cellOf : simpl never.
Arguments writeItem : simpl never.

Lemma updateItem_run {C : Type} (id : string) (p : Patch) (c : C) (w : World) :
  faults w = [] ->
  updateItem id p (c, w) =
  (Ok tt, (c, set_itemsTable (writeItem id p (itemsTable w))
                (set_journal (journal w ++ [Remote (UpdateItem id p)]) w))).
Proof.
  intros Hf. unfold updateItem. mrun. cbn [faults set_journal]. rewrite Hf.
  reflexivity.
Qed.









(** Without a neighbour in the direction of the move, nothing happens. *)
Lemma moveOneUp_first (classify : Navigator -> JsErr -> bool) (it : Item) (b : Board)
    (w : World) :
  (forall l1 prev cur l2,
     cellOf (items b) (Item.day it) (Item.row it) = l1 ++ prev :: cur :: l2 ->
     sameId it cur = true ->
     exists y, In y (l1 ++ [prev]) /\ sameId it y = true) ->
  moveOneUp classify it (b, w) = (Ok tt, (b, w)).
Proof.
  intros Hno. unfold moveOneUp. unfold bind at 1. unfold getState. cbn [fst snd].
  fold (sameId it). set (cell := cellOf _ _ _) in *.
  destruct (Z.leb_spec (findIndex (sameId it) cell) 0) as [Hle|Hgt]; [reflexivity|].
  exfalso. assert (Hpos : 0 <= findIndex (sameId it) cell) by lia.
  destruct (findIndex_split (sameId it) cell Hpos)
    as (k1 & cur & l2 & Hcell & Hk & Hcur & Hk1).
  destruct (exists_last (l := k1)) as (l1 & prev & ->).
  { intros ->. cbn [length] in Hk. lia. }
  rewrite <- app_assoc in Hcell. cbn [app] in Hcell.
  destruct (Hno l1 prev cur l2 Hcell Hcur) as (y & Hy & Hty).
  rewrite (Hk1 y Hy) in Hty. discriminate.
Qed.

Lemma moveOneDown_last (classify : Navigator -> JsErr -> bool) (it : Item) (b : Board)
    (w : World) :
  (forall l1 cur next l2,
     cellOf (items b) (Item.day it) (Item.row it) = l1 ++ cur :: next :: l2 ->
     sameId it cur = true ->
     exists y, In y l1 /\ sameId it y = true) ->
  moveOneDown classify it (b, w) = (Ok tt, (b, w)).
Proof.
  intros Hno. unfold moveOneDown. unfold bind at 1. unfold getState. cbn [fst snd].
  fold (sameId it). set (cell := cellOf _ _ _) in *.
  destruct (Z.ltb_spec (findIndex (sameId it) cell) 0) as [Hneg|Hpos]; [reflexivity|].
  destruct (Z.leb_spec (Z.of_nat (length cell) - 1) (findIndex (sameId it) cell))
    as [Hle|Hgt]; [reflexivity|].
  exfalso. destruct (findIndex_split (sameId it) cell Hpos)
    as (l1 & cur & k2 & Hcell & Hk & Hcur & Hl1).
  destruct k2 as [|next l2].
  { rewrite Hk in Hgt. rewrite Hcell, length_app in Hgt. cbn [length] in Hgt. lia. }
  destruct (Hno l1 cur next l2 Hcell Hcur) as (y & Hy & Hty).
  rewrite (Hl1 y Hy) in Hty. discriminate.
Qed.


Lemma withOrd_withOrd (a b : Z) (it : Item) : withOrd a (withOrd b it) = withOrd a it.
Proof. reflexivity. Qed.























(** The card at the top of a cell is another case: [moveOneUp] leaves it
    where it is and [moveOneDown] then moves it down. *)
Lemma top_card_up_then_down :
  let classify := Part000.isTransientNetworkError in
  let s1 := snd (moveOneUp classify cardX (demoBoard, demoWorld)) in
  let s2 := snd (moveOneDown classify cardX s1) in
  s1 = (demoBoard, demoWorld) /\
  List.map Item.ord (itemsTable demoWorld) = [1; 2] /\
  List.map Item.ord (itemsTable (snd s2)) = [2; 1].
Proof. cbv zeta. repeat split; vm_compute; reflexivity. Qed.


(* ------------------------------------------------------------------ *)
(** ** SessionManager: the role and the upgrade ladder *)
(* ------------------------------------------------------------------ *)

Import Part000.

(** A step of the ladder leaves the role as it is or sets it to [editor]. *)
Lemma ladder_step_role (a : Auth) (ev : AuthEvent) :
  isLadderStep ev = true ->
  authRole (authStep a ev) = authRole a \/ authRole (authStep a ev) = Editor.
Proof.
  destruct ev; try discriminate; intros _; cbn [authStep].
  - destruct (upgrading a) as [[i [|]]|]; auto.
    destruct (authAlive a); cbn; auto.
  - destruct (upgrading a) as [[i [|]]|]; auto.
    destruct (authAlive a); cbn [negb]; [|cbn; auto].
    destruct (Role_eqb (resolveRole true l) Editor); [cbn; auto|].
    destruct ((Datatypes.S i <? maxTries)%nat && true)%bool; cbn; auto.
Qed.

Lemma upgradeToEditor_role (hasUser : bool) (a : Auth) :
  authRole (upgradeToEditor hasUser a) = authRole a.
Proof.
  unfold upgradeToEditor. destruct hasUser; cbn [negb]; [|reflexivity].
  destruct (upgrading a); [reflexivity|].
  destruct ((0 <? maxTries)%nat && authAlive a)%bool; reflexivity.
Qed.

(** The end of a handler writes the role its own lookup resolved. *)
Lemma afterResolve_role (hasUser : bool) (l : Lookup) (a : Auth) :
  authRole (afterResolve hasUser l a) =
  if authAlive a then resolveRole hasUser l else authRole a.
Proof.
  unfold afterResolve. destruct (authAlive a); cbn [negb]; [|reflexivity].
  destruct (hasUser && Role_eqb (resolveRole hasUser l) Viewer)%bool;
    [apply upgradeToEditor_role | reflexivity].
Qed.

(** Through any number of steps of the ladder, the role [editor] stays. *)
Lemma ladder_keeps_editor (a : Auth) (evs : list AuthEvent) :
  forallb isLadderStep evs = true ->
  authRole a = Editor -> authRole (authRun a evs) = Editor.
Proof.
  revert a. induction evs as [|ev evs IH]; intros a Hall Ha; [exact Ha|].
  cbn [forallb] in Hall. apply andb_true_iff in Hall as [Hev Hall].
  cbn [authRun fold_left]. apply (IH (authStep a ev) Hall).
  destruct (ladder_step_role a ev Hev) as [H|H]; congruence.
Qed.

(** An auth event resets the role at once, whatever it was. *)
Lemma authStateChange_resets (a : Auth) (hasUser : bool) :
  authAlive a = true ->
  authRole (authStep a (AuthStateChange hasUser)) = if hasUser then Viewer else Unknown.
Proof. intros Hal. cbn [authStep]. rewrite Hal. reflexivity. Qed.

(** C4, as the code has it: once the role is [editor], no step of the
    background ladder changes it (a step of the ladder leaves the role as
    it is or sets it to [editor]).  The handlers of the auth events are
    another matter: each writes, when its own lookup returns, the role this
    lookup resolved, which is [viewer] after a failure or a timeout. *)
Theorem C4_ladder_never_downgrades (a : Auth) (evs : list AuthEvent) :
  forallb isLadderStep evs = true ->
  authRole a = Editor ->
  authRole (authRun a evs) = Editor /\
  (forall (k : nat) (hasUser : bool) (l : Lookup),
     nth_error (listenerCalls a) k = Some (Some hasUser) ->
     authAlive a = true ->
     authRole (authStep a (ListenerResumes k l)) = resolveRole hasUser l).
Proof.
  intros Hall Ha. split; [now apply ladder_keeps_editor|].
  intros k hasUser l Hk Hal. cbn [authStep]. rewrite Hk.
  rewrite afterResolve_role. cbn [authAlive]. now rewrite Hal.
Qed.

Lemma C4_ladder_never_downgrades_witness :
  authRole (authRun confirmedEditor ladderSteps) = Editor.
Proof.
  apply (C4_ladder_never_downgrades confirmedEditor ladderSteps); reflexivity.
Defined.

(** C4, as the claim states it, fails: two auth events arrive in a row, the
    lookup of the second answers [editor], and the lookup of the first then
    times out.  The handler of the first event writes [viewer] over the
    confirmed [editor]. *)
Lemma C4_late_timeout_regresses :
  authRole (authRun authInit twoEvents) = Editor /\
  isLookupStep lateTimeout = true /\
  authRole (authStep (authRun authInit twoEvents) lateTimeout) = Viewer /\
  ~ roleNeverRegresses.
Proof.
  split; [reflexivity|]. split; [reflexivity|]. split; [reflexivity|].
  intros H. apply (H twoEvents lateTimeout); reflexivity.
Qed.

(* ------------------------------------------------------------------ *)
(** ** ConfigLoader: single flight *)
(* ------------------------------------------------------------------ *)

Lemma nth_error_lookup {A : Type} (l : list A) (i : nat) : nth_error l i = l !! i.
Proof.
  revert i. induction l as [|x l IH]; intros [|i]; cbn; auto.
Qed.

Lemma answer_frame (p : nat) (o : Outcome unit) (l : Loader) :
  loadingCenterRef (answer p o l) = loadingCenterRef l /\
  owners (answer p o l) = owners l /\
  handed (answer p o l) = handed l /\
  length (promises (answer p o l)) = length (promises l).
Proof.
  unfold answer. destruct (nth_error (promises l) p) as [[r|o']|]; auto.
  destruct o as [[]|e]; [destruct (nextRead r)|]; cbn; rewrite ?length_insert; auto.
Qed.

(** A promise that awaits a read after an answer awaited one before. *)
Lemma answer_awaits (p : nat) (o : Outcome unit) (l : Loader) (q : nat) (r : Read) :
  nth_error (promises (answer p o l)) q = Some (Awaits r) ->
  exists r0, nth_error (promises l) q = Some (Awaits r0).
Proof.
  unfold answer. destruct (nth_error (promises l) p) as [[r0|o']|] eqn:Hp; eauto.
  assert (Hlt : (p < length (promises l))%nat) by (apply nth_error_Some; congruence).
  assert (Hins : forall s, nth_error (<[p := s]> (promises l)) q = Some (Awaits r) ->
                   q = p \/ nth_error (promises l) q = Some (Awaits r)).
  { intros s. rewrite !nth_error_lookup. destruct (Nat.eq_dec q p) as [->|Hne]; [auto|].
    rewrite list_lookup_insert_ne by congruence. auto. }
  destruct o as [[]|e]; [destruct (nextRead r0)|]; cbn [promises]; intros Hq;
    (apply Hins in Hq as [->|Hq]; [eauto | eauto]).
Qed.

Lemma isSettled_awaits (p : nat) (ps : list PromiseState) (r : Read) :
  isSettled p ps = true -> nth_error ps p <> Some (Awaits r).
Proof. unfold isSettled. destruct (nth_error ps p) as [[|]|]; congruence. Qed.

(** The invariant of the single-flight loader holds after every step. *)
Lemma loaderInv_step (l : Loader) (ev : LoaderEvent) :
  loaderInv l -> loaderInv (Part000.loaderStep l ev).
Proof.
  intros [Hoth Hown]. destruct ev as [|p o|p]; cbn [Part000.loaderStep].
  - destruct (loadingCenterRef l) as [p|] eqn:Href.
    + split; cbn [loadingCenterRef promises owners]; [exact Hoth | exact Hown].
    + split; cbn [loadingCenterRef promises owners].
      * intros q r Hq. destruct (Nat.lt_ge_cases q (length (promises l))) as [Hlt|Hge].
        -- rewrite nth_error_app1 in Hq by exact Hlt. specialize (Hoth q r Hq). discriminate.
        -- rewrite nth_error_app2 in Hq by exact Hge.
           destruct (q - length (promises l))%nat as [|n] eqn:Hd; [|destruct n; discriminate].
           f_equal. lia.
      * rewrite Hown, length_app. cbn. split; [reflexivity | lia].
  - destruct (answer_frame p o l) as (Href & Hown' & _ & Hlen).
    split.
    + rewrite Href. intros q r Hq. apply answer_awaits in Hq as [r0 Hq]. now apply (Hoth q r0).
    + rewrite Href, Hown', Hlen. exact Hown.
  - destruct (memNat p (owners l) && isSettled p (promises l))%bool eqn:Hc;
      [|split; assumption].
    apply andb_true_iff in Hc as [Hmem Hset].
    destruct (loadingCenterRef l) as [p0|] eqn:Href.
    2:{ rewrite Hown in Hmem. discriminate. }
    destruct Hown as [Hown Hlt]. rewrite Hown in Hmem. cbn in Hmem.
    rewrite orb_false_r in Hmem. apply Nat.eqb_eq in Hmem. subst p0.
    split; cbn [loadingCenterRef promises owners].
    + intros q r Hq. specialize (Hoth q r Hq). injection Hoth as ->.
      now apply isSettled_awaits in Hq.
    + rewrite Hown. cbn. now rewrite Nat.eqb_refl.
Qed.

Lemma loaderInv_run (l : Loader) (evs : list LoaderEvent) :
  loaderInv l -> loaderInv (Part000.loaderRun l evs).
Proof.
  revert l. induction evs as [|ev evs IH]; intros l Hl; [exact Hl|].
  cbn [Part000.loaderRun fold_left]. apply IH. now apply loaderInv_step.
Qed.

Lemma loaderInv_init : loaderInv loaderInit.
Proof. split; [intros [|q] r Hq; discriminate | reflexivity]. Qed.

(** With every promise but one settled, at most one load is in flight. *)
Lemma awaiting_at_most_one (ps : list PromiseState) (p : option nat) :
  othersSettled p ps -> (length (List.filter isAwaiting ps) <= 1)%nat.
Proof.
  revert p. induction ps as [|s ps IH]; intros p Hoth; cbn [List.filter length]; [lia|].
  assert (Hrest : forall q r, nth_error ps q = Some (Awaits r) -> p = Some (Datatypes.S q)).
  { intros q r Hq. now apply (Hoth (Datatypes.S q) r). }
  destruct s as [r|o]; cbn [isAwaiting length].
  - assert (Hp : p = Some 0%nat) by now apply (Hoth 0%nat r).
    assert (Hnone : List.filter isAwaiting ps = []).
    { destruct (List.filter isAwaiting ps) as [|s' f] eqn:Hf; [reflexivity|].
      assert (Hin : In s' (List.filter isAwaiting ps)) by (rewrite Hf; now left).
      apply filter_In in Hin as [Hin Hs']. destruct s' as [r'|]; [|discriminate].
      apply In_nth_error in Hin as [q Hq]. specialize (Hrest q r' Hq). congruence. }
    rewrite Hnone. cbn. lia.
  - apply (IH (match p with Some (Datatypes.S q) => Some q | _ => None end)).
    intros q r Hq. now rewrite (Hrest q r Hq).
Qed.

(** Second copy: at every moment at most one load is in flight. *)
Lemma single_flight (evs : list LoaderEvent) :
  (inFlight (Part000.loaderRun loaderInit evs) <= 1)%nat.
Proof.
  destruct (loaderInv_run loaderInit evs loaderInv_init) as [Hoth _].
  now apply (awaiting_at_most_one _ (loadingCenterRef (Part000.loaderRun loaderInit evs))).
Qed.

(** Second copy: a call made while a load is in flight sends no read and is
    handed the promise of the load in flight. *)
Lemma call_in_flight (evs : list LoaderEvent) (p : nat) (r : Read) :
  let l := Part000.loaderRun loaderInit evs in
  nth_error (promises l) p = Some (Awaits r) ->
  promises (Part000.loaderStep l CallLoad) = promises l /\
  reads (Part000.loaderStep l CallLoad) = reads l /\
  handed (Part000.loaderStep l CallLoad) = handed l ++ [p] /\
  loadingCenterRef (Part000.loaderStep l CallLoad) = Some p.
Proof.
  intros l Hp. destruct (loaderInv_run loaderInit evs loaderInv_init) as [Hoth _].
  fold l in Hoth. specialize (Hoth p r Hp). cbn [Part000.loaderStep].
  rewrite Hoth. auto.
Qed.

Lemma insert_read (ps : list PromiseState) (p : nat) (s : PromiseState) :
  (p < length ps)%nat -> nth_error (<[p := s]> ps) p = Some s.
Proof. intros Hlt. rewrite nth_error_lookup. now apply list_lookup_insert_eq. Qed.

(** Second copy: when the load in flight is rejected, and its maker has
    resumed, the ref is empty again. *)
Lemma marker_cleared_on_error (evs : list LoaderEvent) (p : nat) (r : Read) (e : JsErr) :
  let l := Part000.loaderRun loaderInit evs in
  nth_error (promises l) p = Some (Awaits r) ->
  loadingCenterRef (Part000.loaderRun l [ReadAnswers p (Throw e); ResumeOwner p]) = None.
Proof.
  intros l Hp. destruct (loaderInv_run loaderInit evs loaderInv_init) as [Hoth Hown].
  fold l in Hoth, Hown. specialize (Hoth p r Hp). rewrite Hoth in Hown.
  destruct Hown as [Hown Hlt].
  cbn [Part000.loaderRun fold_left Part000.loaderStep].
  unfold answer. rewrite Hp. cbn [owners promises].
  rewrite Hown. cbn [memNat existsb]. rewrite Nat.eqb_refl. cbn [orb andb].
  unfold isSettled. rewrite insert_read by exact Hlt. reflexivity.
Qed.

Lemma answer_next (l : Loader) (p : nat) (r r' : Read) :
  nth_error (promises l) p = Some (Awaits r) ->
  nextRead r = Some r' ->
  nth_error (promises (answer p (Ok tt) l)) p = Some (Awaits r') /\
  loadingCenterRef (answer p (Ok tt) l) = loadingCenterRef l /\
  owners (answer p (Ok tt) l) = owners l.
Proof.
  intros Hp Hn. unfold answer. rewrite Hp, Hn. cbn.
  rewrite insert_read by (apply nth_error_Some; congruence). auto.
Qed.

(** Second copy: when the four reads of the load in flight have been
    answered, and its maker has resumed, the ref is empty again. *)
Lemma marker_cleared_on_success (evs : list LoaderEvent) (p : nat) :
  let l := Part000.loaderRun loaderInit evs in
  nth_error (promises l) p = Some (Awaits ReadCenter) ->
  loadingCenterRef (Part000.loaderRun l (fourAnswers p ++ [ResumeOwner p])) = None.
Proof.
  intros l Hp. destruct (loaderInv_run loaderInit evs loaderInv_init) as [Hoth Hown].
  fold l in Hoth, Hown. specialize (Hoth p _ Hp). rewrite Hoth in Hown.
  destruct Hown as [Hown Hlt].
  cbn [Part000.loaderRun fold_left Part000.loaderStep fourAnswers app].
  destruct (answer_next l p _ _ Hp eq_refl) as (H1 & R1 & O1).
  destruct (answer_next _ p _ _ H1 eq_refl) as (H2 & R2 & O2).
  destruct (answer_next _ p _ _ H2 eq_refl) as (H3 & R3 & O3).
  set (l3 := answer p (Ok tt) (answer p (Ok tt) (answer p (Ok tt) l))) in *.
  unfold answer at 1 2 3. rewrite H3. cbn [nextRead owners promises].
  rewrite O3, O2, O1, Hown. cbn [memNat existsb]. rewrite Nat.eqb_refl. cbn [orb andb].
  unfold isSettled. rewrite insert_read by (apply nth_error_Some; congruence).
  reflexivity.
Qed.

(** C8: the assertion asks that a call of [loadCenterConfig] made while a
    load is in flight start no second sequence of reads.  The copy of the
    loader in [src/app/PageClientBoard.tsx] has no marker of a load in
    flight: two calls in a row start two loads (each sends its read of the
    centre) and are handed two different promises, where the second copy of
    the page starts one load and hands its promise to both calls. *)
Theorem C8_src_app_loads_twice :
  let twice := [CallLoad; CallLoad] in
  inFlight (SrcApp.loaderRun loaderInit twice) = 2%nat /\
  reads (SrcApp.loaderRun loaderInit twice) = [(0%nat, ReadCenter); (1%nat, ReadCenter)] /\
  handed (SrcApp.loaderRun loaderInit twice) = [0%nat; 1%nat] /\
  inFlight (Part000.loaderRun loaderInit twice) = 1%nat /\
  reads (Part000.loaderRun loaderInit twice) = [(0%nat, ReadCenter)] /\
  handed (Part000.loaderRun loaderInit twice) = [0%nat; 0%nat].
Proof. repeat split; reflexivity. Qed.


(* ------------------------------------------------------------------ *)
(** ** Error display: [showErr] *)
(* ------------------------------------------------------------------ *)

(** X1: a connectivity error is never shown to the user.  [showErr] logs a
    warning for it when more than 5 seconds have passed since the last
    logged one and stamps the time; otherwise it does nothing at all.  Once
    a warning is logged, the connectivity errors of the next 5 seconds
    leave no trace. *)
Theorem showErr_transient_rate_limited {C : Type}
    (classify : Navigator -> JsErr -> bool) (e : JsErr) (c : C) (w : World) :
  classify (navigator w) e = true ->
  exists w',
    showErr classify e (c, w) = (Ok tt, (c, w')) /\
    alertsOf (journal w') = alertsOf (journal w) /\
    callsOf (journal w') = callsOf (journal w) /\
    (clock w - lastNetWarnAt w <= 5000 -> w' = w) /\
    (5000 < clock w - lastNetWarnAt w ->
     journal w' = journal w ++ [ConsoleWarn "[NET] transient error — ignoring alert"] /\
     lastNetWarnAt w' = clock w /\
     forall (e2 : JsErr) (t : Z),
       classify (navigator w) e2 = true ->
       t - clock w <= 5000 ->
       showErr classify e2 (c, atClock t w') = (Ok tt, (c, atClock t w'))).
Proof.
  intros Hc. unfold showErr. mrun. rewrite Hc.
  destruct (clock w - lastNetWarnAt w >? 5000) eqn:Hgt.
  - mrun. eexists. split; [reflexivity|].
    cbn [journal set_journal set_lastNetWarnAt lastNetWarnAt clock].
    unfold alertsOf, callsOf. rewrite !flat_map_app. cbn [flat_map]. rewrite !app_nil_r.
    split; [reflexivity|]. split; [reflexivity|].
    split; [intros Hle; apply Z.gtb_lt in Hgt; lia|].
    intros _. split; [reflexivity|]. split; [reflexivity|].
    intros e2 t Hc2 Ht. cbn [atClock navigator set_lastNetWarnAt set_journal clock
                              lastNetWarnAt].
    rewrite Hc2.
    destruct (t - clock w >? 5000) eqn:Hgt2; [apply Z.gtb_lt in Hgt2; lia|reflexivity].
  - exists w. split; [reflexivity|]. split; [reflexivity|]. split; [reflexivity|].
    split; [reflexivity|]. intros Hlt.
    assert ((clock w - lastNetWarnAt w >? 5000) = true) by (apply Z.gtb_lt; lia).
    congruence.
Qed.

Lemma showErr_transient_rate_limited_witness :
  exists w',
    showErr Part000.isTransientNetworkError (errorOf "Failed to fetch")
      (demoBoard, atClock 6000 demoWorld) = (Ok tt, (demoBoard, w')) /\
    alertsOf (journal w') = [] /\
    lastNetWarnAt w' = 6000 /\
    showErr Part000.isTransientNetworkError (errorOf "Load failed")
      (demoBoard, atClock 11000 w') = (Ok tt, (demoBoard, atClock 11000 w')).
Proof.
  destruct (showErr_transient_rate_limited Part000.isTransientNetworkError
              (errorOf "Failed to fetch") demoBoard (atClock 6000 demoWorld) eq_refl)
    as (w' & Hrun & Hal & _ & _ & Hwarn).
  destruct (Hwarn eq_refl) as (_ & Hstamp & Hnext).
  exists w'. split; [exact Hrun|]. split; [exact Hal|]. split; [exact Hstamp|].
  apply Hnext; [reflexivity | cbn; lia].
Defined.

(** X2: an error that is not a connectivity error is logged and shown in one
    alert, whose text is never empty: the first non-empty field among
    [message], [error_description], [details] and [hint], trimmed, or the
    default text when nothing is left.  An error thrown as a bare string or
    as [null] is shown with the default text. *)
Theorem showErr_fatal_alerts_once {C : Type}
    (classify : Navigator -> JsErr -> bool) (e : JsErr) (c : C) (w : World) :
  classify (navigator w) e = false ->
  exists msg,
    showErr classify e (c, w) =
      (Ok tt, (c, set_journal (journal w ++ [ConsoleError "[ERR]"; Alert msg]) w)) /\
    msg <> "" /\
    (trim (firstTruthy e) <> "" -> msg = trim (firstTruthy e)) /\
    (trim (firstTruthy e) = "" -> msg = "Error inesperado. Revisa la consola.") /\
    match e with
    | ErrObj _ => True
    | _ => msg = "Error inesperado. Revisa la consola."
    end.
Proof.
  intros Hc. unfold showErr. mrun. rewrite Hc. mrun.
  cbn [journal set_journal]. rewrite <- app_assoc. cbn [app].
  eexists. split; [reflexivity|].
  destruct (trim (firstTruthy e)) as [|a s] eqn:Ht; cbn [isEmpty].
  - split; [discriminate|]. split; [congruence|]. split; [reflexivity|].
    destruct e; auto.
  - split; [discriminate|]. split; [reflexivity|]. split; [discriminate|].
    destruct e; auto; cbn in Ht; discriminate.
Qed.

Lemma showErr_fatal_alerts_once_witness :
  showErr Part000.isTransientNetworkError (errorOf "  permission denied ")
    (demoBoard, demoWorld) =
  (Ok tt, (demoBoard,
           set_journal [ConsoleError "[ERR]"; Alert "permission denied"] demoWorld)) /\
  showErr Part000.isTransientNetworkError (ErrStr "boom") (demoBoard, demoWorld) =
  (Ok tt, (demoBoard,
           set_journal [ConsoleError "[ERR]";
                        Alert "Error inesperado. Revisa la consola."] demoWorld)) /\
  showErr Part000.isTransientNetworkError
    (errorOf (blanks +:+ "sesión caducada" +:+ blanks)) (demoBoard, demoWorld) =
  (Ok tt, (demoBoard,
           set_journal [ConsoleError "[ERR]"; Alert "sesión caducada"] demoWorld)) /\
  showErr Part000.isTransientNetworkError (errorOf blanks) (demoBoard, demoWorld) =
  (Ok tt, (demoBoard,
           set_journal [ConsoleError "[ERR]";
                        Alert "Error inesperado. Revisa la consola."] demoWorld)).
Proof.
  split; [|split; [|split]].
  3:{ destruct (showErr_fatal_alerts_once Part000.isTransientNetworkError
                  (errorOf (blanks +:+ "sesión caducada" +:+ blanks))
                  demoBoard demoWorld eq_refl)
        as (msg & Hrun & _ & Hmsg & _).
      rewrite Hrun, (Hmsg ltac:(vm_compute; discriminate)). reflexivity. }
  3:{ destruct (showErr_fatal_alerts_once Part000.isTransientNetworkError
                  (errorOf blanks) demoBoard demoWorld eq_refl)
        as (msg & Hrun & _ & _ & Hmsg & _).
      rewrite Hrun, (Hmsg eq_refl). reflexivity. }
  - destruct (showErr_fatal_alerts_once Part000.isTransientNetworkError
                (errorOf "  permission denied ") demoBoard demoWorld eq_refl)
      as (msg & Hrun & _ & Hmsg & _).
    rewrite Hrun, (Hmsg ltac:(vm_compute; discriminate)). reflexivity.
  - destruct (showErr_fatal_alerts_once Part000.isTransientNetworkError
                (ErrStr "boom") demoBoard demoWorld eq_refl)
      as (msg & Hrun & _ & _ & _ & Hmsg).
    rewrite Hrun, Hmsg. reflexivity.
Defined.

(* ------------------------------------------------------------------ *)
(** ** RetryPolicy: how often the operation is called *)
(* ------------------------------------------------------------------ *)

Lemma retry_loop_counting {S T : Type} (fn : S -> Outcome T * S) (k : nat) :
  forall (i : nat) (baseMs : Number) (lastErr : JsErr) (st : S) (n : nat) (waits : list Number),
    let out := retry_loop (counting fn) k i baseMs lastErr (st, n) waits in
    match fst (fst out) with
    | Ok _ =>
        (n < snd (snd (fst out)) <= n + k)%nat /\
        length (snd out) = (length waits + (snd (snd (fst out)) - n - 1))%nat
    | Throw e =>
        snd (snd (fst out)) = (n + k)%nat /\
        length (snd out) = (length waits + k)%nat /\
        (k = 0%nat -> e = lastErr)
    end.
Proof.
  induction k as [|k IH]; intros i baseMs lastErr st n waits; cbn zeta.
  - cbn. repeat split; lia.
  - cbn [retry_loop].
    change (counting fn (st, n)) with (fst (fn st), (snd (fn st), Datatypes.S n)).
    destruct (fn st) as [[v|e] st1] eqn:Hfn; cbn [fst snd].
    + split; lia.
    + specialize (IH (Datatypes.S i) baseMs e st1 (Datatypes.S n)
                    (waits ++ [backoff baseMs i])).
      cbn zeta in IH.
      destruct (retry_loop (counting fn) k (Datatypes.S i) baseMs e
                  (st1, Datatypes.S n) (waits ++ [backoff baseMs i]))
        as [[[v|e'] [st2 n2]] ws]; cbn [fst snd] in *;
        rewrite length_app in IH; cbn [length] in IH.
      * split; lia.
      * repeat split; lia.
Qed.

(** X3: [retry(fn, tries, baseMs)] calls [fn] at most [tries] times and never
    again after a call that succeeds; it waits once after every call that
    fails, the last one included.  When it rejects, [fn] was called exactly
    [tries] times; with [tries = 0] it rejects with [undefined] without
    calling [fn]. *)
Theorem retry_calls_at_most_tries {S T : Type} (fn : S -> Outcome T * S)
    (tries : nat) (baseMs : Number) (st : S) :
  let out := retry (counting fn) tries baseMs (st, 0%nat) in
  let calls := snd (snd (fst out)) in
  (calls <= tries)%nat /\
  match fst (fst out) with
  | Ok _ => (1 <= calls)%nat /\ length (snd out) = (calls - 1)%nat
  | Throw e =>
      calls = tries /\ length (snd out) = tries /\
      (tries = 0%nat -> e = ErrNullish /\ snd (fst out) = (st, 0%nat))
  end.
Proof.
  cbn zeta. unfold retry.
  pose proof (retry_loop_counting fn tries 0 baseMs ErrNullish st 0 []) as H.
  cbn zeta in H.
  destruct (retry_loop (counting fn) tries 0 baseMs ErrNullish (st, 0%nat) [])
    as [[[v|e] [st2 n2]] ws] eqn:Hrun; cbn [fst snd length] in *.
  - split; [lia|]. split; lia.
  - destruct H as (Hn & Hw & He). split; [lia|]. split; [lia|]. split; [lia|].
    intros ->. split; [now apply He|]. cbn in Hrun. congruence.
Qed.

Lemma showErr_quiet {C : Type} (classify : Navigator -> JsErr -> bool) (e : JsErr)
    (c : C) (w : World) :
  classify (navigator w) e = true ->
  exists w',
    showErr classify e (c, w) = (Ok tt, (c, w')) /\
    alertsOf (journal w') = alertsOf (journal w) /\
    callsOf (journal w') = callsOf (journal w).
Proof.
  intros Hc. unfold showErr. mrun. rewrite Hc.
  destruct (clock w - lastNetWarnAt w >? 5000).
  - mrun. eexists. split; [reflexivity|]. cbn [journal set_journal set_lastNetWarnAt].
    unfold alertsOf, callsOf. rewrite !flat_map_app. cbn. now rewrite !app_nil_r.
  - exists w. auto.
Qed.

Lemma showErr_loud {C : Type} (classify : Navigator -> JsErr -> bool) (e : JsErr)
    (c : C) (w : World) :
  classify (navigator w) e = false ->
  exists msg,
    msg <> "" /\
    showErr classify e (c, w) =
      (Ok tt, (c, set_journal (journal w ++ [ConsoleError "[ERR]"; Alert msg]) w)).
Proof.
  intros Hc. unfold showErr. mrun. rewrite Hc. mrun.
  cbn [journal set_journal]. rewrite <- app_assoc. cbn [app].
  eexists. split; [|reflexivity].
  destruct (trim (firstTruthy e)); cbn [isEmpty]; discriminate.
Qed.

(* ------------------------------------------------------------------ *)
(** ** SyncCoordinator: a fetch that fails *)
(* ------------------------------------------------------------------ *)

Lemma alertsOf_app (j1 j2 : list Effect) : alertsOf (j1 ++ j2) = alertsOf j1 ++ alertsOf j2.
Proof. unfold alertsOf. apply flat_map_app. Qed.

(** X4: a [refresh] whose fetch fails keeps the cached cards: it sends the
    one request for the visible week, leaves the component as it was and
    ends normally.  A connectivity error is not shown; any other error is
    shown in one alert. *)
Theorem refresh_failed_fetch_keeps_cache (classify : Navigator -> JsErr -> bool)
    (b : Board) (w : World) (cid : string) (e : JsErr) (rest : list (option JsErr)) :
  boardId b = Some cid ->
  notOnLine (navigator w) = false ->
  faults w = Some e :: rest ->
  exists w',
    refresh classify (b, w) = (Ok tt, (b, w')) /\
    callsOf (journal w') = callsOf (journal w) ++ [ListWeek cid (head (dayKeys b))] /\
    itemsTable w' = itemsTable w /\
    faults w' = rest /\
    (classify (navigator w) e = true -> alertsOf (journal w') = alertsOf (journal w)) /\
    (classify (navigator w) e = false ->
     exists msg, msg <> "" /\ alertsOf (journal w') = alertsOf (journal w) ++ [msg]).
Proof.
  intros Hb Hon Hf. unfold refresh, listWeek. mrun. rewrite Hb. mrun. rewrite Hon.
  mrun. cbn [faults set_journal]. rewrite Hf. cbn [fst snd].
  set (w0 := set_faults rest (set_journal (journal w ++ [Remote (ListWeek cid (head (dayKeys b)))]) w)).
  assert (Hnav : navigator w0 = navigator w) by reflexivity.
  destruct (classify (navigator w) e) eqn:Hc.
  - destruct (showErr_quiet classify e b w0) as (w' & Hs & Hal & Hca).
    { now rewrite Hnav. }
    rewrite Hs. exists w'. split; [reflexivity|].
    split; [rewrite Hca; unfold w0; cbn [journal set_faults set_journal];
            rewrite callsOf_app; reflexivity|].
    destruct (showErr_frame classify e b w0) as (w2 & Hs2 & _ & Hit & _ & Hfa & _).
    rewrite Hs in Hs2. injection Hs2 as <-.
    split; [exact Hit|]. split; [exact Hfa|].
    split; [intros _; rewrite Hal; unfold w0; cbn [journal set_faults set_journal];
            rewrite alertsOf_app; cbn; apply app_nil_r | discriminate].
  - destruct (showErr_loud classify e b w0) as (msg & Hne & Hs).
    { now rewrite Hnav. }
    rewrite Hs. eexists. split; [reflexivity|].
    unfold w0. cbn [journal set_faults set_journal itemsTable faults].
    rewrite <- !app_assoc, !callsOf_app, !alertsOf_app. cbn.
    rewrite ?app_nil_r.
    split; [reflexivity|]. split; [reflexivity|]. split; [reflexivity|].
    split; [discriminate|]. intros _. exists msg. auto.
Qed.

Lemma refresh_failed_fetch_keeps_cache_witness :
  exists w',
    refresh Part000.isTransientNetworkError (demoBoard, unreachableWorld) =
      (Ok tt, (demoBoard, w')) /\
    callsOf (journal w') = [ListWeek "demo" (Some monday2024)] /\
    itemsTable w' = [cardX; cardY] /\
    alertsOf (journal w') = [].
Proof.
  destruct (refresh_failed_fetch_keeps_cache Part000.isTransientNetworkError
              demoBoard unreachableWorld "demo" (errorOf "Failed to fetch") []
              eq_refl eq_refl eq_refl) as (w' & Hrun & Hcalls & Hit & _ & Hquiet & _).
  exists w'. split; [exact Hrun|]. split; [exact Hcalls|]. split; [exact Hit|].
  apply Hquiet. reflexivity.
Defined.

Lemma refresh_one_fetch (classify : Navigator -> JsErr -> bool) (b : Board) (w : World) :
  exists b' w' j,
    refresh classify (b, w) = (Ok tt, (b', w')) /\
    journal w' = journal w ++ j /\
    itemsTable w' = itemsTable w /\
    forallb isFetch (callsOf j) = true /\
    (length (callsOf j) <= 1)%nat.
Proof.
  unfold refresh, listWeek. mrun.
  destruct (boardId b) as [cid|].
  2:{ exists b, w, []. rewrite app_nil_r. cbn. repeat split; auto. }
  mrun. destruct (notOnLine (navigator w)).
  { exists b, w, []. rewrite app_nil_r. cbn. repeat split; auto. }
  mrun. cbn [faults set_journal].
  destruct (faults w) as [|[e|] rest]; cbn [fst snd].
  - do 3 eexists. split; [reflexivity|]. cbn. repeat split; auto.
  - match goal with |- context [showErr ?c ?e0 (?a0, ?w0)] =>
      destruct (showErr_frame c e0 a0 w0)
        as (w' & Hs & _ & Hit & _ & _ & _ & j & Hj & Hc) end.
    rewrite Hs. do 3 eexists. split; [reflexivity|].
    rewrite Hit, Hj. cbn. rewrite <- app_assoc. split; [reflexivity|].
    split; [reflexivity|]. unfold callsOf in *. cbn. rewrite Hc. cbn. auto.
  - do 3 eexists. split; [reflexivity|]. cbn. repeat split; auto.
Qed.

(** X5: [refreshSafe], in both copies of the page, always ends normally: it
    sends at most one request, which is the fetch of the visible week, and
    writes nothing to the remote store.  After the cleanup of the effect
    ([alive] false) it does nothing, also when the device is online. *)
Theorem refreshSafe_ends_normally (b : Board) (w : World) :
  (exists b' w' j,
     Part000.refreshSafe (b, w) = (Ok tt, (b', w')) /\
     journal w' = journal w ++ j /\
     itemsTable w' = itemsTable w /\
     forallb isFetch (callsOf j) = true /\
     (length (callsOf j) <= 1)%nat) /\
  (exists b' w' j,
     SrcApp.refreshSafe (b, w) = (Ok tt, (b', w')) /\
     journal w' = journal w ++ j /\
     itemsTable w' = itemsTable w /\
     forallb isFetch (callsOf j) = true /\
     (length (callsOf j) <= 1)%nat) /\
  (alive b = false ->
   Part000.refreshSafe (b, w) = (Ok tt, (b, w)) /\
   SrcApp.refreshSafe (b, w) = (Ok tt, (b, w))).
Proof.
  assert (Hnil : exists b' w' j,
             (Ok tt, (b, w)) = (@Ok unit tt, (b', w')) /\
             journal w' = journal w ++ j /\ itemsTable w' = itemsTable w /\
             forallb isFetch (callsOf j) = true /\ (length (callsOf j) <= 1)%nat).
  { exists b, w, []. rewrite app_nil_r. cbn. repeat split; auto. }
  split; [|split].
  - unfold Part000.refreshSafe. mrun. destruct (alive b); cbn [negb]; [|exact Hnil].
    mrun. destruct (offline (navigator w)); [exact Hnil|].
    pose proof (tryCatch_refresh Part000.isTransientNetworkError) as Ht.
    unfold tryCatch in Ht. rewrite Ht.
    apply refresh_one_fetch.
  - unfold SrcApp.refreshSafe. mrun. destruct (alive b); cbn [negb]; [|exact Hnil].
    pose proof (tryCatch_refresh SrcApp.isTransientNetworkError) as Ht.
    unfold tryCatch in Ht. rewrite Ht.
    apply refresh_one_fetch.
  - intros Hal. unfold Part000.refreshSafe, SrcApp.refreshSafe. mrun.
    rewrite Hal. auto.
Qed.

Lemma refreshSafe_ends_normally_witness :
  navigator demoWorld = Some true /\
  Part000.refreshSafe (staleBoard, demoWorld) = (Ok tt, (staleBoard, demoWorld)) /\
  SrcApp.refreshSafe (staleBoard, demoWorld) = (Ok tt, (staleBoard, demoWorld)).
Proof.
  split; [reflexivity|].
  apply (refreshSafe_ends_normally staleBoard demoWorld). reflexivity.
Defined.

(* ------------------------------------------------------------------ *)
(** ** MutationEngine: moves across rows *)
(* ------------------------------------------------------------------ *)

(** One write followed by a refresh, as the handlers of the moves, of the
    edit and of the done flag run them. *)
Lemma patch_then_refresh (classify : Navigator -> JsErr -> bool) (id : string)
    (p : Patch) (b : Board) (w : World) :
  exists b' w' rest,
    tryCatch (updateItem id p ;;; refresh classify) (showErr classify) (b, w) =
      (Ok tt, (b', w')) /\
    journal w' = journal w ++ Remote (UpdateItem id p) :: rest /\
    forallb isFetch (callsOf rest) = true /\
    (nextFault w = None -> itemsTable w' = writeItem id p (itemsTable w)) /\
    (forall e, nextFault w = Some e -> itemsTable w' = itemsTable w /\ b' = b).
Proof.
  unfold updateItem. mrun. cbn [faults set_journal]. unfold nextFault.
  destruct (faults w) as [|[e|] rest] eqn:Hf; cbn [fst snd].
  - match goal with |- context [refresh classify (?bb, ?ww)] =>
      destruct (refresh_frame classify bb ww) as (b' & w' & j & Hr & Hit & Hj & Hc) end.
    rewrite Hr. exists b', w', j. split; [reflexivity|]. rewrite Hj, Hit. cbn.
    rewrite <- app_assoc. repeat split; auto; discriminate.
  - match goal with |- context [showErr ?c ?e0 (?a0, ?w0)] =>
      destruct (showErr_frame c e0 a0 w0)
        as (w' & Hs & _ & Hit & _ & _ & _ & j & Hj & Hc) end.
    rewrite Hs. exists b, w', j. split; [reflexivity|]. rewrite Hj, Hit. cbn.
    rewrite <- app_assoc. rewrite Hc. repeat split; auto; discriminate.
  - match goal with |- context [refresh classify (?bb, ?ww)] =>
      destruct (refresh_frame classify bb ww) as (b' & w' & j & Hr & Hit & Hj & Hc) end.
    rewrite Hr. exists b', w', j. split; [reflexivity|]. rewrite Hj, Hit. cbn.
    rewrite <- app_assoc. repeat split; auto; discriminate.
Qed.

(** The same run when the remote store is reachable and answers. *)
Lemma patch_then_refresh_reachable (classify : Navigator -> JsErr -> bool) (id : string)
    (p : Patch) (b : Board) (w : World) (cid : string) :
  boardId b = Some cid ->
  reachable w ->
  tryCatch (updateItem id p ;;; refresh classify) (showErr classify) (b, w) =
  (Ok tt,
   (setItems (List.filter (visibleIn cid (head (dayKeys b)))
                (writeItem id p (itemsTable w))) b,
    set_journal
      (journal w ++ [Remote (UpdateItem id p); Remote (ListWeek cid (head (dayKeys b)))])
      (set_itemsTable (writeItem id p (itemsTable w)) w))).
Proof.
  intros Hb [Hon Hf]. unfold tryCatch, bind. rewrite (updateItem_run id p b w Hf).
  rewrite (refresh_online classify b _ cid); [|exact Hon|exact Hb|exact Hf].
  cbn [journal set_journal set_itemsTable itemsTable]. rewrite <- app_assoc. reflexivity.
Qed.

Lemma indexOfRow_here (above : list string) (r : string) (below : list string) :
  ~ In r above -> indexOfRow (above ++ r :: below) r = Z.of_nat (length above).
Proof.
  intros Hn. unfold indexOfRow. apply findIndex_at.
  - intros y Hy. apply String.eqb_neq. intros ->. contradiction.
  - apply String.eqb_refl.
Qed.

Lemma at_index (l : list string) (k : Z) :
  0 <= k < Z.of_nat (length l) -> exists r, at_ l k = Some r.
Proof.
  intros Hk. unfold at_. destruct (k <? 0) eqn:Hlt; [apply Z.ltb_lt in Hlt; lia|].
  destruct (nth_error l (Z.to_nat k)) as [r|] eqn:Hn; [eauto|].
  apply nth_error_None in Hn. lia.
Qed.

Lemma writeItem_row_ords (id r : string) (table : list Item) :
  List.map Item.ord (writeItem id (PatchRow r) table) = List.map Item.ord table.
Proof.
  unfold writeItem. rewrite List.map_map. apply List.map_ext. intros x.
  destruct (String.eqb (Item.id x) id); reflexivity.
Qed.

Arguments moveToRow : simpl never.

(** X6: [moveRowUp] does nothing for a card of the first row or of a row
    that is not configured, and [moveRowDown] nothing for a card of the last
    row or of such a row.  Otherwise the first request of the handler writes
    the neighbouring row of the configured order onto the card, and only
    fetches follow; the handler ends normally, and no position [ord] of the
    remote table changes. *)
Theorem moveRow_writes_adjacent_row (classify : Navigator -> JsErr -> bool)
    (it : Item) (b : Board) (w : World) :
  let rIdx := indexOfRow (rows b) (Item.row it) in
  (rIdx <= 0 -> moveRowUp classify it (b, w) = (Ok tt, (b, w))) /\
  (rIdx < 0 \/ Z.of_nat (length (rows b)) - 1 <= rIdx ->
   moveRowDown classify it (b, w) = (Ok tt, (b, w))) /\
  (0 < rIdx ->
   exists destRow b' w' rest,
     at_ (rows b) (rIdx - 1) = Some destRow /\
     moveRowUp classify it (b, w) = (Ok tt, (b', w')) /\
     journal w' =
       journal w ++ Remote (UpdateItem (Item.id it) (PatchRow destRow)) :: rest /\
     forallb isFetch (callsOf rest) = true /\
     List.map Item.ord (itemsTable w') = List.map Item.ord (itemsTable w) /\
     (nextFault w = None ->
      itemsTable w' = writeItem (Item.id it) (PatchRow destRow) (itemsTable w))) /\
  (0 <= rIdx < Z.of_nat (length (rows b)) - 1 ->
   exists destRow b' w' rest,
     at_ (rows b) (rIdx + 1) = Some destRow /\
     moveRowDown classify it (b, w) = (Ok tt, (b', w')) /\
     journal w' =
       journal w ++ Remote (UpdateItem (Item.id it) (PatchRow destRow)) :: rest /\
     forallb isFetch (callsOf rest) = true /\
     List.map Item.ord (itemsTable w') = List.map Item.ord (itemsTable w) /\
     (nextFault w = None ->
      itemsTable w' = writeItem (Item.id it) (PatchRow destRow) (itemsTable w))).
Proof.
  cbn zeta.
  pose proof (findIndex_bounds (fun y => String.eqb y (Item.row it)) (rows b)) as Hbd.
  fold (indexOfRow (rows b) (Item.row it)) in Hbd.
  assert (Hrun : forall destRow,
            exists b' w' rest,
              moveToRow classify it destRow (b, w) = (Ok tt, (b', w')) /\
              journal w' =
                journal w ++ Remote (UpdateItem (Item.id it) (PatchRow destRow)) :: rest /\
              forallb isFetch (callsOf rest) = true /\
              List.map Item.ord (itemsTable w') = List.map Item.ord (itemsTable w) /\
              (nextFault w = None ->
               itemsTable w' = writeItem (Item.id it) (PatchRow destRow) (itemsTable w))).
  { intros destRow. unfold moveToRow.
    destruct (patch_then_refresh classify (Item.id it) (PatchRow destRow) b w)
      as (b' & w' & rest & Hr & Hj & Hc & Hok & Hko).
    exists b', w', rest. repeat split; auto.
    destruct (nextFault w) as [e|] eqn:Hnf.
    - destruct (Hko e eq_refl) as [-> _]. reflexivity.
    - rewrite (Hok eq_refl). apply writeItem_row_ords. }
  split; [|split; [|split]].
  - intros Hle. unfold moveRowUp. mrun.
    destruct (indexOfRow (rows b) (Item.row it) <=? 0) eqn:H; [reflexivity|].
    apply Z.leb_gt in H. lia.
  - intros Hor. unfold moveRowDown. mrun.
    destruct (indexOfRow (rows b) (Item.row it) <? 0) eqn:H1; [reflexivity|].
    destruct (Z.of_nat (length (rows b)) - 1 <=? indexOfRow (rows b) (Item.row it)) eqn:H2;
      [reflexivity|].
    apply Z.ltb_ge in H1. apply Z.leb_gt in H2. lia.
  - intros Hpos.
    destruct (at_index (rows b) (indexOfRow (rows b) (Item.row it) - 1)) as [r Hr]; [lia|].
    destruct (Hrun r) as (b' & w' & rest & Hm & Hrest).
    exists r, b', w', rest. split; [exact Hr|]. split; [|exact Hrest].
    unfold moveRowUp. mrun.
    destruct (indexOfRow (rows b) (Item.row it) <=? 0) eqn:H;
      [apply Z.leb_le in H; lia|].
    rewrite Hr. exact Hm.
  - intros Hin.
    destruct (at_index (rows b) (indexOfRow (rows b) (Item.row it) + 1)) as [r Hr]; [lia|].
    destruct (Hrun r) as (b' & w' & rest & Hm & Hrest).
    exists r, b', w', rest. split; [exact Hr|]. split; [|exact Hrest].
    unfold moveRowDown. mrun.
    destruct (indexOfRow (rows b) (Item.row it) <? 0) eqn:H1;
      [apply Z.ltb_lt in H1; lia|].
    destruct (Z.of_nat (length (rows b)) - 1 <=? indexOfRow (rows b) (Item.row it)) eqn:H2;
      [apply Z.leb_le in H2; lia|].
    cbn [orb]. rewrite Hr. exact Hm.
Qed.

Lemma moveRow_writes_adjacent_row_witness :
  moveRowUp Part000.isTransientNetworkError cardX (demoBoard, demoWorld) =
    (Ok tt, (demoBoard, demoWorld)) /\
  (exists b' w' rest,
     moveRowDown Part000.isTransientNetworkError cardX (demoBoard, demoWorld) =
       (Ok tt, (b', w')) /\
     journal w' = Remote (UpdateItem "x" (PatchRow "B")) :: rest /\
     List.map Item.ord (itemsTable w') = [1; 2]).
Proof.
  destruct (moveRow_writes_adjacent_row Part000.isTransientNetworkError cardX
              demoBoard demoWorld) as (Hup & _ & _ & Hdown).
  split; [apply Hup; vm_compute; discriminate|].
  destruct Hdown as (r & b' & w' & rest & Hr & Hrun & Hj & _ & Hord & _).
  { vm_compute. split; [discriminate | reflexivity]. }
  vm_compute in Hr. injection Hr as <-.
  exists b', w', rest. split; [exact Hrun|]. split; [exact Hj|]. exact Hord.
Defined.

Lemma writeItem_row_back (it : Item) (r : string) (table : list Item) :
  upToDate it table ->
  writeItem (Item.id it) (PatchRow (Item.row it))
    (writeItem (Item.id it) (PatchRow r) table) = table.
Proof.
  intros Hup. unfold writeItem. rewrite List.map_map.
  rewrite <- (List.map_id table) at 2. apply List.map_ext_in. intros x Hx.
  destruct (String.eqb (Item.id x) (Item.id it)) eqn:He.
  - apply String.eqb_eq in He. rewrite (Hup x Hx He).
    cbn. rewrite String.eqb_refl. destruct it; reflexivity.
  - rewrite He. reflexivity.
Qed.

(** X7: where no room is configured twice, [moveRowUp] followed by
    [moveRowDown] of the same card puts the remote table and the cache back
    as they were: after the first move the card sits in the row above, with
    the position it had, and the second move writes its former row. *)
Theorem moveRowUp_then_moveRowDown (classify : Navigator -> JsErr -> bool)
    (it : Item) (b : Board) (w : World) (cid : string)
    (above : list string) (r : string) (below : list string) :
  rows b = above ++ r :: Item.row it :: below ->
  NoDup (rows b) ->
  inSync b w cid ->
  reachable w ->
  upToDate it (itemsTable w) ->
  exists b1 w1 b2 w2,
    moveRowUp classify it (b, w) = (Ok tt, (b1, w1)) /\
    itemsTable w1 = writeItem (Item.id it) (PatchRow r) (itemsTable w) /\
    Item.ord (withRow r it) = Item.ord it /\
    moveRowDown classify (withRow r it) (b1, w1) = (Ok tt, (b2, w2)) /\
    itemsTable w2 = itemsTable w /\
    items b2 = items b.
Proof.
  intros Hrows Hnd [Hb Hsync] Hre Hup.
  rewrite Hrows in Hnd.
  apply NoDup_app in Hnd as (_ & Hdis & Hnd2).
  apply NoDup_cons in Hnd2 as (Hr2 & _).
  assert (Hra : ~ In r above).
  { intros Hin. apply (Hdis r); [now apply list_elem_of_In|]. apply list_elem_of_In. now left. }
  assert (Hia : ~ In (Item.row it) above).
  { intros Hin. apply (Hdis (Item.row it)); [now apply list_elem_of_In|].
    apply list_elem_of_In. right. now left. }
  assert (Hne : Item.row it <> r).
  { intros He. apply Hr2. rewrite He. apply list_elem_of_In. now left. }
  assert (Hi1 : indexOfRow (rows b) (Item.row it) = Z.of_nat (length above) + 1).
  { rewrite Hrows.
    change (above ++ r :: Item.row it :: below)
      with (above ++ [r] ++ Item.row it :: below).
    rewrite app_assoc, indexOfRow_here.
    - rewrite length_app. cbn [length]. lia.
    - intros Hin. apply in_app_iff in Hin as [Hin|[Hin|[]]]; [contradiction|].
      now apply Hne. }
  assert (Hi2 : indexOfRow (rows b) r = Z.of_nat (length above)).
  { rewrite Hrows. now apply indexOfRow_here. }
  assert (Hat1 : at_ (rows b) (Z.of_nat (length above)) = Some r).
  { rewrite Hrows. apply at_app_here. }
  assert (Hat2 : at_ (rows b) (Z.of_nat (length above) + 1) = Some (Item.row it)).
  { rewrite Hrows.
    change (above ++ r :: Item.row it :: below)
      with (above ++ [r] ++ Item.row it :: below).
    rewrite app_assoc.
    replace (Z.of_nat (length above) + 1) with (Z.of_nat (length (above ++ [r])))
      by (rewrite length_app; cbn [length]; lia).
    apply at_app_here. }
  assert (Hlen : Z.of_nat (length (rows b)) = Z.of_nat (length above) + 2 + Z.of_nat (length below)).
  { rewrite Hrows, length_app. cbn [length]. lia. }
  set (t1 := writeItem (Item.id it) (PatchRow r) (itemsTable w)).
  set (w1 := set_journal
               (journal w ++ [Remote (UpdateItem (Item.id it) (PatchRow r));
                              Remote (ListWeek cid (head (dayKeys b)))])
               (set_itemsTable t1 w)).
  set (b1 := setItems (List.filter (visibleIn cid (head (dayKeys b))) t1) b).
  assert (Hrun1 : moveRowUp classify it (b, w) = (Ok tt, (b1, w1))).
  { unfold moveRowUp. mrun. rewrite Hi1.
    destruct (Z.of_nat (length above) + 1 <=? 0) eqn:H; [apply Z.leb_le in H; lia|].
    replace (Z.of_nat (length above) + 1 - 1) with (Z.of_nat (length above)) by lia.
    rewrite Hat1. unfold moveToRow.
    now rewrite (patch_then_refresh_reachable classify _ _ b w cid Hb Hre). }
  assert (Hre1 : reachable w1) by exact Hre.
  assert (Hb1 : boardId b1 = Some cid) by exact Hb.
  exists b1, w1.
  eexists. eexists. split; [exact Hrun1|]. split; [reflexivity|]. split; [reflexivity|].
  split.
  - unfold moveRowDown. mrun.
    change (rows b1) with (rows b). change (Item.row (withRow r it)) with r.
    rewrite Hi2, Hlen.
    destruct (Z.of_nat (length above) <? 0) eqn:H1; [apply Z.ltb_lt in H1; lia|].
    destruct (Z.of_nat (length above) + 2 + Z.of_nat (length below) - 1
              <=? Z.of_nat (length above)) eqn:H2; [apply Z.leb_le in H2; lia|].
    cbn [orb]. rewrite Hat2. unfold moveToRow.
    rewrite (patch_then_refresh_reachable classify _ _ b1 w1 cid Hb1 Hre1).
    reflexivity.
  - cbn [snd fst itemsTable set_journal set_itemsTable w1 items setItems b1 dayKeys].
    change (Item.id (withRow r it)) with (Item.id it).
    unfold w1, t1. cbn [itemsTable set_journal set_itemsTable].
    rewrite (writeItem_row_back it r (itemsTable w) Hup).
    split; [reflexivity|]. cbn [items setItems]. symmetry. exact Hsync.
Qed.

Lemma moveRowUp_then_moveRowDown_witness :
  exists b1 w1 b2 w2,
    moveRowUp Part000.isTransientNetworkError cardXB (roomBBoard, roomBWorld) =
      (Ok tt, (b1, w1)) /\
    itemsTable w1 = [cardX; cardY] /\
    moveRowDown Part000.isTransientNetworkError cardX (b1, w1) = (Ok tt, (b2, w2)) /\
    itemsTable w2 = [cardXB; cardY] /\
    items b2 = [cardXB; cardY].
Proof.
  destruct (moveRowUp_then_moveRowDown Part000.isTransientNetworkError cardXB
              roomBBoard roomBWorld "demo" [] "A" []) as
    (b1 & w1 & b2 & w2 & H1 & Ht1 & _ & H2 & Ht2 & Hi2).
  - reflexivity.
  - apply (bool_decide_unpack _). vm_compute. reflexivity.
  - split; [reflexivity | vm_compute; reflexivity].
  - split; reflexivity.
  - intros x [<-|[<-|[]]] Hid; [reflexivity | vm_compute in Hid; discriminate].
  - exists b1, w1, b2, w2. split; [exact H1|]. split; [exact Ht1|].
    split; [exact H2|]. split; [exact Ht2 | exact Hi2].
Defined.


(* ------------------------------------------------------------------ *)
(** ** The active day and the business days *)
(* ------------------------------------------------------------------ *)

(** X8: [getActiveDayISO] of the second copy never names a Saturday or a
    Sunday: on a working day it names today, on a Saturday the Monday two
    days later, on a Sunday the Monday one day later. *)
Theorem getActiveDayISO_is_a_working_day (today : Date) :
  1 <= weekday (Part000Board.getActiveDayISO today) <= 5 /\
  (1 <= getDay today <= 5 -> Part000Board.getActiveDayISO today = toISODate today) /\
  (getDay today = 6 ->
   dayNumber (Part000Board.getActiveDayISO today) = today + 2 /\
   weekday (Part000Board.getActiveDayISO today) = 1) /\
  (getDay today = 0 ->
   dayNumber (Part000Board.getActiveDayISO today) = today + 1 /\
   weekday (Part000Board.getActiveDayISO today) = 1).
Proof.
  unfold Part000Board.getActiveDayISO. cbn zeta.
  pose proof (getDay_range today) as Hr.
  destruct (getDay today =? 6) eqn:H6; [apply Z.eqb_eq in H6 | apply Z.eqb_neq in H6];
    (destruct (getDay today =? 0) eqn:H0; [apply Z.eqb_eq in H0 | apply Z.eqb_neq in H0]);
    try lia;
    rewrite ?setDate_getDate, ?weekday_toISODate, ?dayNumber_toISODate, ?getDay_add.
  - rewrite H6. change ((6 + 2) mod 7) with 1.
    split; [lia|]. split; [intros; lia|]. split; [auto|]. intros; lia.
  - rewrite H0. change ((0 + 1) mod 7) with 1.
    split; [lia|]. split; [intros; lia|]. split; [intros; lia|]. auto.
  - split; [lia|]. split; [reflexivity|]. split; intros; lia.
Qed.

Lemma getActiveDayISO_is_a_working_day_witness :
  Part000Board.getActiveDayISO (dayNumber (mkISO 2024 1 6)) = mkISO 2024 1 8 /\
  Part000Board.getActiveDayISO (dayNumber (mkISO 2024 1 7)) = mkISO 2024 1 8 /\
  Part000Board.getActiveDayISO (dayNumber (mkISO 2024 1 5)) = mkISO 2024 1 5.
Proof.
  split; [vm_compute; reflexivity|]. split; [vm_compute; reflexivity|].
  apply (getActiveDayISO_is_a_working_day (dayNumber (mkISO 2024 1 5))).
  vm_compute. split; discriminate.
Defined.

Lemma toISODate_calendarKey (dt : Date) : calendarKey (toISODate dt).
Proof. unfold calendarKey. now rewrite dayNumber_toISODate. Qed.

Lemma weekday_range (iso : ISODate) : 0 <= weekday iso < 7.
Proof. unfold weekday. apply Z.mod_pos_bound. lia. Qed.

(** X9: on the working days the two business-day steps undo each other: for
    a key of a Monday to Friday, the previous business day of its next
    business day is the key itself, and the next business day of its
    previous business day as well (Friday goes to Monday and back, Monday
    to Friday and back). *)
Theorem business_days_round_trip (iso : ISODate) :
  calendarKey iso ->
  plainKey iso ->
  1 <= weekday iso <= 5 ->
  (plainKey (nextBusinessDayISO iso) ->
   prevBusinessDayISO (nextBusinessDayISO iso) = iso) /\
  (plainKey (prevBusinessDayISO iso) ->
   nextBusinessDayISO (prevBusinessDayISO iso) = iso).
Proof.
  intros Hcal Hplain Hwd. unfold calendarKey in Hcal. split; intros Hp.
  - rewrite prevBusinessDayISO_eq, (getDay_parse_plain _ Hp), (parseISODate_plain _ Hp).
    pose proof (nextBusinessDayISO_plain iso Hplain) as Hn.
    pose proof (weekday_shift iso (nextBusinessDayISO iso) _ Hn) as Hw.
    rewrite Hw, Hn.
    match goal with |- toISODate ?x = _ => assert (Hx : x = dayNumber iso) end.
    { destruct (weekday iso =? 5) eqn:H5.
      - apply Z.eqb_eq in H5. rewrite H5. change ((5 + 3) mod 7) with 1.
        change (1 =? 1) with true. cbv iota. lia.
      - apply Z.eqb_neq in H5.
        destruct (weekday iso =? 6) eqn:H6; [apply Z.eqb_eq in H6; lia|].
        assert (Hm : (weekday iso + 1) mod 7 = weekday iso + 1)
          by (apply Z.mod_small; lia).
        rewrite Hm.
        destruct (weekday iso + 1 =? 1) eqn:H1; [apply Z.eqb_eq in H1; lia|].
        destruct (weekday iso + 1 =? 0) eqn:H0; [apply Z.eqb_eq in H0; lia|]. lia. }
    rewrite Hx. exact Hcal.
  - rewrite nextBusinessDayISO_eq, (getDay_parse_plain _ Hp), (parseISODate_plain _ Hp).
    pose proof (prevBusinessDayISO_plain iso Hplain) as Hn.
    assert (Hn' : dayNumber (prevBusinessDayISO iso) =
                  dayNumber iso + - (if weekday iso =? 1 then 3
                                     else if weekday iso =? 0 then 2 else 1)) by lia.
    pose proof (weekday_shift iso (prevBusinessDayISO iso) _ Hn') as Hw.
    rewrite Hw, Hn.
    match goal with |- toISODate ?x = _ => assert (Hx : x = dayNumber iso) end.
    { destruct (weekday iso =? 1) eqn:H1.
      - apply Z.eqb_eq in H1. rewrite H1.
        replace ((1 + Z.opp 3) mod 7) with 5 by reflexivity.
        change (5 =? 5) with true. cbv iota. lia.
      - apply Z.eqb_neq in H1.
        destruct (weekday iso =? 0) eqn:H0; [apply Z.eqb_eq in H0; lia|].
        assert (Hm : (weekday iso + Z.opp 1) mod 7 = weekday iso - 1)
          by (apply Z.mod_small; lia).
        rewrite Hm.
        destruct (weekday iso - 1 =? 5) eqn:H5; [apply Z.eqb_eq in H5; lia|].
        destruct (weekday iso - 1 =? 6) eqn:H6; [apply Z.eqb_eq in H6; lia|]. lia. }
    rewrite Hx. exact Hcal.
Qed.

Lemma business_days_round_trip_witness :
  prevBusinessDayISO (nextBusinessDayISO friday2024) = friday2024 /\
  nextBusinessDayISO (prevBusinessDayISO monday2024) = monday2024.
Proof.
  split.
  - apply (business_days_round_trip friday2024).
    + vm_compute. reflexivity.
    + vm_compute. split; [split; discriminate | intros [_ H]; apply H; reflexivity].
    + vm_compute. split; discriminate.
    + vm_compute. split; [split; discriminate | intros [_ H]; apply H; reflexivity].
  - apply (business_days_round_trip monday2024).
    + vm_compute. reflexivity.
    + vm_compute. split; [split; discriminate | intros [_ H]; apply H; reflexivity].
    + vm_compute. split; discriminate.
    + vm_compute. split; [split; discriminate | intros [_ H]; apply H; reflexivity].
Defined.

(* ------------------------------------------------------------------ *)
(** ** The search box and the room filter *)
(* ------------------------------------------------------------------ *)

Lemma prefix_inv (p s : string) :
  String.prefix p s = true -> exists post, s = p +:+ post.
Proof.
  revert s. induction p as [|c p IH]; intros s H.
  - exists s. reflexivity.
  - destruct s as [|d s]; [discriminate|]. cbn in H.
    destruct (Ascii.ascii_dec c d) as [->|]; [|discriminate].
    destruct (IH s H) as [post ->]. exists post. reflexivity.
Qed.

Lemma includes_inv (s p : string) :
  includes s p = true -> exists pre post, s = pre +:+ p +:+ post.
Proof.
  induction s as [|c s IH]; cbn [includes]; intros H.
  - rewrite orb_false_r in H. destruct (prefix_inv _ _ H) as [post ->].
    exists "", post. reflexivity.
  - apply orb_true_iff in H as [H|H].
    + destruct (prefix_inv _ _ H) as [post ->]. exists "", post. reflexivity.
    + destruct (IH H) as (pre & post & ->). exists (String c pre), post. reflexivity.
Qed.

Lemma includes_trans (s q' q : string) :
  includes s q' = true -> includes q' q = true -> includes s q = true.
Proof.
  intros H1 H2. destruct (includes_inv _ _ H1) as (pre & post & ->).
  apply includes_app_l, includes_app_r. exact H2.
Qed.

Lemma bytesOf_cons (cp : Z) : exists c r, bytesOf cp = String c r.
Proof. unfold bytesOf. repeat destruct (_ <? _); eauto. Qed.

(** Only the empty text has an empty lower case. *)
Lemma toLowerCase_empty (s : string) : toLowerCase s = "" -> s = "".
Proof.
  destruct s as [|c1 t1]; [reflexivity|]. intros H. exfalso.
  destruct (codePoints_step c1 t1) as (cp & rest & Hcp & _).
  unfold toLowerCase in H. rewrite Hcp in H. cbn [lowerFrom] in H.
  match type of H with
  | ofCodePoints (?hd ++ ?tl) = _ =>
      assert (Hhd : exists x l, hd = x :: l)
        by (destruct (cp =? 931); [eauto | destruct (cp =? 304); eauto]);
      destruct Hhd as (x & l & Hx); rewrite Hx in H
  end.
  cbn [app ofCodePoints fold_right] in H.
  destruct (bytesOf_cons x) as (c & r & Hb). rewrite Hb in H. discriminate H.
Qed.

(** X10: the search box.  A search that is empty or blank lets every card
    through, in the order of the cache.  Otherwise the cards kept are cards
    of the cache, and a longer search never brings a card back: when the
    text searched (trimmed, in lower case) occurs in the text of a second
    search, every card that the second search keeps is kept by the first. *)
Theorem filteredItems_narrows (items : list Item) (search search' : string) :
  (trim search = "" -> filteredItems items search = items) /\
  (forall it, In it (filteredItems items search) -> In it items) /\
  (includes (toLowerCase (trim search')) (toLowerCase (trim search)) = true ->
   forall it, In it (filteredItems items search') -> In it (filteredItems items search)).
Proof.
  unfold filteredItems. cbn zeta. split; [|split].
  - intros ->. reflexivity.
  - intros it. destruct (isEmpty (toLowerCase (trim search))); [auto|].
    intros H. now apply filter_In in H.
  - intros Hinc it.
    destruct (toLowerCase (trim search)) as [|c q] eqn:Hq; cbn [isEmpty].
    + destruct (isEmpty (toLowerCase (trim search'))); [auto|].
      intros H. now apply filter_In in H.
    + destruct (toLowerCase (trim search')) as [|c' q'] eqn:Hq'; cbn [isEmpty].
      * cbn in Hinc. discriminate.
      * intros H. apply filter_In in H as [Hin Hm]. apply filter_In. split; [exact Hin|].
        assert (Hstep : forall s, includes s (String c' q') = true ->
                                  includes s (String c q) = true).
        { intros s Hs. exact (includes_trans _ _ _ Hs Hinc). }
        unfold matchesSearch in *.
        destruct (includes (toLowerCase (Item.name it)) (String c' q')) eqn:E1.
        { now rewrite (Hstep _ E1). }
        destruct (includes (toLowerCase (Item.dx it)) (String c' q')) eqn:E2.
        { rewrite (Hstep _ E2). now rewrite orb_true_r. }
        destruct (includes (toLowerCase (Item.room it)) (String c' q')) eqn:E3.
        { rewrite (Hstep _ E3). now rewrite orb_true_r. }
        cbn [orb] in Hm. rewrite (Hstep _ Hm). now rewrite orb_true_r.
Qed.


Lemma filteredItems_narrows_witness :
  filteredItems [cardX; cardY] "   " = [cardX; cardY] /\
  (forall it, In it (filteredItems [cardX; cardY] "coronaria y") ->
              In it (filteredItems [cardX; cardY] " CORONA ")) /\
  filteredItems [cardX; cardG] blanks = [cardX; cardG] /\
  filteredItems [cardX; cardG] (blanks +:+ "GARCÍA") = [cardG] /\
  (forall it, In it (filteredItems [cardX; cardG] "ana garcía") ->
              In it (filteredItems [cardX; cardG] (blanks +:+ "GARCÍA"))).
Proof.
  destruct (filteredItems_narrows [cardX; cardY] "   " "") as (Hblank & _).
  destruct (filteredItems_narrows [cardX; cardY] " CORONA " "coronaria y")
    as (_ & _ & Hnarrow).
  destruct (filteredItems_narrows [cardX; cardG] blanks "") as (Hblank' & _).
  destruct (filteredItems_narrows [cardX; cardG] (blanks +:+ "GARCÍA") "ana garcía")
    as (_ & _ & Hnarrow').
  split; [apply Hblank; reflexivity|].
  split; [apply Hnarrow; reflexivity|].
  split; [apply Hblank'; reflexivity|].
  split; [vm_compute; reflexivity|].
  apply Hnarrow'. vm_compute. reflexivity.
Defined.

(** X11: the room filter of the second copy survives a reload: the value
    that the effect persists is the one read back when the board mounts,
    except the empty text, which reads back as "all rooms".  A filter that
    names a room lets through that room only; when it names a room that is
    not configured (any more), no row of the grid is shown. *)
Theorem roomFilter_survives_reload {C : Type} (roomFilter : string) (c : C) (w : World)
    (rows : list string) :
  let w' := snd (snd (persistRoomFilter roomFilter (c, w))) in
  (roomFilter <> "" -> initialRoomFilter w' = roomFilter) /\
  (roomFilter = "" -> initialRoomFilter w' = "__all__") /\
  visibleRows rows "__all__" = rows /\
  (roomFilter <> "__all__" ->
   forall r, In r (visibleRows rows roomFilter) <-> r = roomFilter /\ In r rows) /\
  (roomFilter <> "__all__" -> ~ In roomFilter rows -> visibleRows rows roomFilter = []).
Proof.
  cbn zeta. unfold persistRoomFilter, initialRoomFilter. mrun.
  cbn [localStorage set_localStorage set_journal]. rewrite lookup_insert_eq.
  assert (Hvis : roomFilter <> "__all__" ->
                 visibleRows rows roomFilter =
                 List.filter (fun r => String.eqb r roomFilter) rows).
  { intros Hne. unfold visibleRows. apply String.eqb_neq in Hne. now rewrite Hne. }
  split; [|split; [|split; [|split]]].
  - intros Hne. destruct roomFilter; [contradiction | reflexivity].
  - intros ->. reflexivity.
  - reflexivity.
  - intros Hne r. rewrite (Hvis Hne), filter_In, String.eqb_eq. tauto.
  - intros Hne Hnot. rewrite (Hvis Hne). clear Hvis.
    induction rows as [|x rows IH]; [reflexivity|]. cbn [List.filter].
    destruct (String.eqb x roomFilter) eqn:He.
    + apply String.eqb_eq in He. subst. exfalso. apply Hnot. now left.
    + apply IH. intros Hin. apply Hnot. now right.
Qed.

Lemma roomFilter_survives_reload_witness :
  initialRoomFilter (snd (snd (persistRoomFilter "B" (demoBoard, demoWorld)))) = "B" /\
  visibleRows ["A"; "B"] "C" = [].
Proof.
  destruct (roomFilter_survives_reload "B" demoBoard demoWorld ["A"; "B"])
    as (Hkeep & _).
  destruct (roomFilter_survives_reload "C" demoBoard demoWorld ["A"; "B"])
    as (_ & _ & _ & _ & Hgone).
  split; [apply Hkeep; discriminate|].
  apply Hgone; [discriminate|]. intros [H|[H|[]]]; discriminate.
Defined.

(* ------------------------------------------------------------------ *)
(** ** ConfigLoader: fallback values *)
(* ------------------------------------------------------------------ *)

(** X12: whatever the remote store answers for the rooms and the procedure
    types, the grid that a load configures is never empty: there is at
    least one row and one procedure type, and none has an empty name.  With
    no active room the one row is the default "Sala 1", and the count of the
    rooms open today, which is never [null] after a load, is 0 unless the
    schedule of today says otherwise. *)
Theorem config_is_never_empty (roomsData : option (list (option string)))
    (procData : option (list ProcRow)) (sched : option (option Z)) :
  let roomNames := roomNamesOf roomsData in
  rowsOf roomNames <> [] /\
  (forall r, In r (rowsOf roomNames) -> r <> "") /\
  procsOf (procListOf procData) <> [] /\
  (forall p, In p (procsOf (procListOf procData)) -> proc_name p <> "") /\
  (roomNames = [] -> rowsOf roomNames = ["Sala 1"]) /\
  (roomNames <> [] -> rowsOf roomNames = roomNames) /\
  openRoomsOf sched roomNames <> None /\
  (roomNames = [] -> (sched = None \/ sched = Some None) ->
   openRoomsOf sched roomNames = Some 0).
Proof.
  cbn zeta.
  assert (Hnames : forall r, In r (roomNamesOf roomsData) -> r <> "").
  { intros r Hr. unfold roomNamesOf in Hr. apply filter_In in Hr as [_ Hr].
    destruct r; [discriminate | discriminate]. }
  assert (Hprocs : forall p, In p (procListOf procData) -> proc_name p <> "").
  { intros p Hp. unfold procListOf in Hp. apply filter_In in Hp as [_ Hp].
    destruct (proc_name p); discriminate. }
  unfold rowsOf, procsOf.
  destruct (roomNamesOf roomsData) as [|r rs] eqn:Hr;
    destruct (procListOf procData) as [|p ps] eqn:Hp; cbn [length Z.of_nat Z.ltb Z.compare];
    repeat split; try discriminate; try congruence; auto;
    try (intros x [<-|[]]; discriminate);
    try (destruct sched as [[n|]|]; discriminate);
    try (intros _ [->| ->]; reflexivity).
Qed.

Lemma config_is_never_empty_witness :
  rowsOf (roomNamesOf (Some [Some ""])) = ["Sala 1"] /\
  openRoomsOf None (roomNamesOf (Some [Some ""])) = Some 0 /\
  rowsOf (roomNamesOf (Some [Some "B"; Some "A"])) = ["B"; "A"].
Proof.
  destruct (config_is_never_empty (Some [Some ""]) None None)
    as (_ & _ & _ & _ & Hdef & _ & _ & Hopen).
  destruct (config_is_never_empty (Some [Some "B"; Some "A"]) None None)
    as (_ & _ & _ & _ & _ & Hsame & _).
  split; [apply Hdef; reflexivity|].
  split; [apply Hopen; [reflexivity | now left]|].
  apply Hsame. discriminate.
Defined.

(* ------------------------------------------------------------------ *)
(** ** Date labels *)
(* ------------------------------------------------------------------ *)

Lemma splitOn_nonempty (sep : ascii) (s : string) : splitOn sep s <> [].
Proof.
  induction s as [|c s IH]; cbn [splitOn]; [discriminate|].
  destruct (Ascii.eqb c sep); [discriminate|].
  destruct (splitOn sep s); [contradiction | discriminate].
Qed.

Lemma splitOn_whole (sep : ascii) (s : string) :
  hasChar sep s = false -> splitOn sep s = [s].
Proof.
  induction s as [|c s IH]; cbn [splitOn hasChar]; [reflexivity|]. intros H.
  apply orb_false_iff in H as [Hc Hs]. rewrite Hc, (IH Hs). reflexivity.
Qed.

Lemma splitOn_app (sep : ascii) (a b : string) :
  hasChar sep a = false ->
  splitOn sep (a +:+ String sep b) = a :: splitOn sep b.
Proof.
  induction a as [|c a IH]; intros H.
  - change ("" +:+ String sep b) with (String sep b). cbn [splitOn].
    now rewrite Ascii.eqb_refl.
  - change (String c a +:+ String sep b) with (String c (a +:+ String sep b)).
    cbn [hasChar] in H. apply orb_false_iff in H as [Hc Ha].
    cbn [splitOn]. rewrite Hc, (IH Ha). reflexivity.
Qed.

Lemma splitOn_three (sep : ascii) (a b c : string) :
  hasChar sep a = false -> hasChar sep b = false -> hasChar sep c = false ->
  splitOn sep (a +:+ String sep (b +:+ String sep c)) = [a; b; c].
Proof.
  intros Ha Hb Hc. now rewrite (splitOn_app _ _ _ Ha), (splitOn_app _ _ _ Hb),
                     (splitOn_whole _ _ Hc).
Qed.

Lemma substring_app_whole (a b : string) :
  substring 0 (String.length a) (a +:+ b) = a.
Proof.
  induction a as [|c a IH].
  - destruct b; reflexivity.
  - change (String c a +:+ b) with (String c (a +:+ b)). cbn [String.length substring].
    now rewrite IH.
Qed.

Lemma length_append (a b : string) :
  String.length (a +:+ b) = (String.length a + String.length b)%nat.
Proof.
  induction a as [|c a IH]; [reflexivity|].
  change (String c a +:+ b) with (String c (a +:+ b)). cbn [String.length].
  now rewrite IH.
Qed.

(** X13: the date labels.  For a day key [y-m-d] (three pieces free of
    dashes) [formatDateES] gives [d-m-y], so that applying it twice gives
    the key back.  [formatShortES] of the second copy reads the first ten
    code units of a time stamp: it gives [d/m] when they are a day key with
    no empty piece, the empty text for [null] and for the empty text, and a
    text without dashes of fewer than ten code units as it stands. *)
Theorem date_labels (y m d rest : string) :
  hasChar "-" y = false -> hasChar "-" m = false -> hasChar "-" d = false ->
  formatDateES (y +:+ "-" +:+ m +:+ "-" +:+ d) = d +:+ "-" +:+ m +:+ "-" +:+ y /\
  formatDateES (formatDateES (y +:+ "-" +:+ m +:+ "-" +:+ d)) =
    y +:+ "-" +:+ m +:+ "-" +:+ d /\
  (isText (y +:+ "-" +:+ m +:+ "-" +:+ d) ->
   jsLength (y +:+ "-" +:+ m +:+ "-" +:+ d) = 10%nat ->
   y <> "" -> m <> "" -> d <> "" ->
   Part000Board.formatShortES (Some ((y +:+ "-" +:+ m +:+ "-" +:+ d) +:+ rest)) =
     d +:+ "/" +:+ m) /\
  Part000Board.formatShortES None = "" /\
  Part000Board.formatShortES (Some "") = "" /\
  ((jsLength y < 10)%nat -> Part000Board.formatShortES (Some y) = y).
Proof.
  intros Hy Hm Hd.
  assert (Hfmt : forall a b c,
            hasChar "-" a = false -> hasChar "-" b = false -> hasChar "-" c = false ->
            formatDateES (a +:+ "-" +:+ b +:+ "-" +:+ c) = c +:+ "-" +:+ b +:+ "-" +:+ a).
  { intros a b c Ha Hb Hc. unfold formatDateES.
    change (a +:+ "-" +:+ b +:+ "-" +:+ c) with (a +:+ String "-" (b +:+ String "-" c)).
    rewrite (splitOn_three _ _ _ _ Ha Hb Hc). reflexivity. }
  split; [now apply Hfmt|]. split; [rewrite (Hfmt y m d Hy Hm Hd); now apply Hfmt|].
  split; [|split; [reflexivity|split; [reflexivity|]]].
  - intros Htext Hlen Hy0 Hm0 Hd0. unfold Part000Board.formatShortES.
    set (k := y +:+ "-" +:+ m +:+ "-" +:+ d) in *.
    assert (Hne : isEmpty (k +:+ rest) = false).
    { destruct k; [discriminate | reflexivity]. }
    rewrite Hne, (jsLength_app k rest Htext), Hlen.
    replace (10 <=? 10 + jsLength rest)%nat with true
      by (symmetry; apply Nat.leb_le; lia).
    rewrite <- Hlen, (sliceTo_app k rest Htext). unfold k.
    change (y +:+ "-" +:+ m +:+ "-" +:+ d) with (y +:+ String "-" (m +:+ String "-" d)).
    rewrite (splitOn_three _ _ _ _ Hy Hm Hd).
    destruct y; [contradiction|]. destruct m; [contradiction|].
    destruct d; [contradiction|]. reflexivity.
  - intros Hlen. unfold Part000Board.formatShortES.
    destruct y as [|c y]; [reflexivity|]. cbn [isEmpty].
    replace (10 <=? jsLength (String c y))%nat with false
      by (symmetry; apply Nat.leb_gt; exact Hlen).
    now rewrite (splitOn_whole _ _ Hy).
Qed.

Lemma date_labels_witness :
  formatDateES "2024-01-05" = "05-01-2024" /\
  formatDateES (formatDateES "2024-01-05") = "2024-01-05" /\
  Part000Board.formatShortES (Some "2024-01-05T09:30:00+00:00") = "05/01".
Proof.
  destruct (date_labels "2024" "01" "05" "T09:30:00+00:00" eq_refl eq_refl eq_refl)
    as (H1 & H2 & H3 & _).
  split; [exact H1|]. split; [exact H2|].
  apply H3; [|reflexivity | discriminate | discriminate | discriminate].
  unfold isText. apply List.Forall_forall. intros cp Hcp.
  vm_compute in Hcp. repeat (destruct Hcp as [<-|Hcp]; [reflexivity|]). destruct Hcp.
Defined.


(* ------------------------------------------------------------------ *)
(** ** SessionManager: teardown and the bounds of the ladder *)
(* ------------------------------------------------------------------ *)

Lemma authStep_unmounted (a : Part000.Auth) (ev : Part000.AuthEvent) :
  Part000.authAlive a = false ->
  Part000.authRole (Part000.authStep a ev) = Part000.authRole a /\
  Part000.authReady (Part000.authStep a ev) = Part000.authReady a /\
  Part000.authAlive (Part000.authStep a ev) = false.
Proof.
  intros Hal. destruct ev as [u|k l|sess|l| |l| ]; cbn [Part000.authStep].
  - rewrite Hal. cbn. auto.
  - destruct (nth_error (Part000.listenerCalls a) k) as [[u|]|]; auto.
    unfold Part000.afterResolve. cbn [Part000.authAlive]. rewrite Hal. cbn. auto.
  - destruct (Part000.boot a); auto. destruct sess; rewrite Hal; cbn; auto.
  - destruct (Part000.boot a); auto.
    unfold Part000.afterResolve. cbn [Part000.authAlive]. rewrite Hal. cbn. auto.
  - destruct (Part000.upgrading a) as [[i [|]]|]; auto. rewrite Hal. cbn. auto.
  - destruct (Part000.upgrading a) as [[i [|]]|]; auto. rewrite Hal. cbn. auto.
  - cbn. auto.
Qed.

(** X14: after the cleanup of the auth effect ([alive] false) nothing writes
    the role or the ready flag any more: whatever comes back later (an auth
    event, a lookup of a handler or of the bootstrap, a step of the ladder),
    the state that React holds stays as it was. *)
Theorem no_role_write_after_unmount (a : Part000.Auth) (evs : list Part000.AuthEvent) :
  Part000.authAlive a = false ->
  Part000.authRole (Part000.authRun a evs) = Part000.authRole a /\
  Part000.authReady (Part000.authRun a evs) = Part000.authReady a /\
  Part000.authAlive (Part000.authRun a evs) = false.
Proof.
  revert a. induction evs as [|ev evs IH]; intros a Hal; [auto|].
  cbn [Part000.authRun fold_left].
  destruct (authStep_unmounted a ev Hal) as (Hr & Hy & Hl).
  destruct (IH _ Hl) as (Hr2 & Hy2 & Hl2). unfold Part000.authRun in *.
  rewrite Hr2, Hy2, Hl2. auto.
Qed.

Lemma no_role_write_after_unmount_witness :
  Part000.authRole
    (Part000.authRun (Part000.authStep timedOutViewer Part000.Unmount)
       [Part000.LadderTimer; Part000.LadderResumes (Part000.LookupOk Editor);
        Part000.AuthStateChange false]) = Viewer.
Proof.
  apply (no_role_write_after_unmount (Part000.authStep timedOutViewer Part000.Unmount)).
  reflexivity.
Defined.

Lemma authRun_app (a : Part000.Auth) (e1 e2 : list Part000.AuthEvent) :
  Part000.authRun a (e1 ++ e2) = Part000.authRun (Part000.authRun a e1) e2.
Proof. unfold Part000.authRun. apply fold_left_app. Qed.

Lemma ladder_failed_rounds (ls : list Part000.Lookup) :
  forall (a : Part000.Auth) (i : nat),
    Part000.authAlive a = true ->
    Part000.upgrading a = Some (Part000.mkLadder i Part000.AwaitsTimer) ->
    forallb notEditor ls = true ->
    (i + length ls < Part000.maxTries)%nat ->
    Part000.authRun a (ladderRounds ls) =
    withLadder (Some (Part000.mkLadder (i + length ls) Part000.AwaitsTimer)) a.
Proof.
  induction ls as [|l ls IH]; intros a i Hal Hup Hne Hlt.
  - cbn. rewrite Nat.add_0_r. destruct a. cbn in *. now rewrite Hup.
  - cbn [forallb] in Hne. apply andb_true_iff in Hne as [Hl Hls].
    cbn [length] in Hlt.
    cbn [ladderRounds flat_map app Part000.authRun fold_left].
    cbn [Part000.authStep]. rewrite Hup, Hal. cbn [negb Part000.upgrading].
    unfold notEditor in Hl. apply negb_true_iff in Hl.
    cbn [Part000.authStep Part000.upgrading Part000.authAlive negb]. rewrite Hl.
    replace (Datatypes.S i <? Part000.maxTries)%nat with true
      by (symmetry; apply Nat.ltb_lt; lia).
    cbn [andb].
    match goal with |- fold_left _ _ ?a1 = _ =>
      change (fold_left Part000.authStep (flat_map
                (fun l => [Part000.LadderTimer; Part000.LadderResumes l]) ls) a1)
        with (Part000.authRun a1 (ladderRounds ls));
      rewrite (IH a1 (Datatypes.S i)) end; try reflexivity; try assumption; try lia.
    cbn [length]. unfold withLadder. cbn. rewrite Hal.
    replace (Datatypes.S (i + length ls)) with (i + Datatypes.S (length ls))%nat by lia.
    reflexivity.
Qed.

Lemma ladderRounds_app (l1 l2 : list Part000.Lookup) :
  ladderRounds (l1 ++ l2) = ladderRounds l1 ++ ladderRounds l2.
Proof. unfold ladderRounds. apply flat_map_app. Qed.

(** X15: the upgrade ladder looks the role up at most six times.  As long as
    its lookups do not confirm the editor it leaves the role alone; the
    first lookup that answers [editor] sets the role to [editor] and ends
    the ladder; after six lookups that do not, the ladder ends and the role
    stays what it was. *)
Theorem ladder_ends_within_six_lookups (a : Part000.Auth) (ls : list Part000.Lookup) :
  Part000.authAlive a = true ->
  Part000.upgrading a = Some (Part000.mkLadder 0 Part000.AwaitsTimer) ->
  forallb notEditor ls = true ->
  ((length ls < 6)%nat ->
   Part000.authRun a (ladderRounds ls) =
     withLadder (Some (Part000.mkLadder (length ls) Part000.AwaitsTimer)) a /\
   forall l, Part000.resolveRole true l = Editor ->
     Part000.authRole (Part000.authRun a (ladderRounds (ls ++ [l]))) = Editor /\
     Part000.upgrading (Part000.authRun a (ladderRounds (ls ++ [l]))) = None) /\
  (length ls = 6%nat ->
   Part000.authRun a (ladderRounds ls) = withLadder None a).
Proof.
  intros Hal Hup Hne. split.
  - intros Hlt.
    pose proof (ladder_failed_rounds ls a 0 Hal Hup Hne Hlt) as Hrun.
    cbn [Nat.add] in Hrun. split; [exact Hrun|].
    intros l Hl. rewrite ladderRounds_app, authRun_app, Hrun.
    cbn [ladderRounds flat_map app Part000.authRun fold_left Part000.authStep
         withLadder Part000.upgrading Part000.authAlive].
    rewrite Hal. cbn [negb Part000.upgrading Part000.authAlive]. rewrite Hl. cbn. auto.
  - intros Hlen.
    destruct (exists_last (l := ls)) as (ls' & l & ->); [destruct ls; discriminate|].
    rewrite length_app in Hlen. cbn [length] in Hlen.
    rewrite forallb_app in Hne. apply andb_true_iff in Hne as [Hne' Hl].
    cbn [forallb] in Hl. rewrite andb_true_r in Hl.
    unfold notEditor in Hl. apply negb_true_iff in Hl.
    assert (Hlt : (0 + length ls' < Part000.maxTries)%nat) by (unfold Part000.maxTries; lia).
    pose proof (ladder_failed_rounds ls' a 0 Hal Hup Hne' Hlt) as Hrun.
    cbn [Nat.add] in Hrun.
    rewrite ladderRounds_app, authRun_app, Hrun.
    cbn [ladderRounds flat_map app Part000.authRun fold_left Part000.authStep
         withLadder Part000.upgrading Part000.authAlive].
    rewrite Hal. cbn [negb Part000.upgrading Part000.authAlive]. rewrite Hl.
    replace (length ls') with 5%nat by lia. cbn. unfold withLadder. now rewrite Hal.
Qed.

Lemma ladder_ends_within_six_lookups_witness :
  Part000.authRole timedOutViewer = Viewer /\
  Part000.authRole
    (Part000.authRun timedOutViewer
       (ladderRounds [Part000.LookupFails timeoutError; Part000.LookupOk Viewer;
                      Part000.LookupOk Editor])) = Editor /\
  Part000.authRun timedOutViewer
    (ladderRounds (repeat (Part000.LookupFails timeoutError) 6)) =
  withLadder None timedOutViewer.
Proof.
  split; [reflexivity|].
  destruct (ladder_ends_within_six_lookups timedOutViewer
              [Part000.LookupFails timeoutError; Part000.LookupOk Viewer]
              eq_refl eq_refl eq_refl) as (Hup & _).
  destruct (ladder_ends_within_six_lookups timedOutViewer
              (repeat (Part000.LookupFails timeoutError) 6)
              eq_refl eq_refl eq_refl) as (_ & Hstop).
  split.
  - destruct (Hup ltac:(cbn; lia)) as (_ & Hed).
    apply (Hed (Part000.LookupOk Editor)). reflexivity.
  - apply Hstop. reflexivity.
Defined.

(* ------------------------------------------------------------------ *)
(** ** The second copy: classifier and single-flight loader *)
(* ------------------------------------------------------------------ *)

(** X16: the classifier of the second copy.  An error whose text carries an
    abort signature is a connectivity error, as is every error that the
    classifier of [src/app/PageClientBoard.tsx] takes for one; with the
    device online, an error that carries no network, timeout or abort
    signature is not.  While the device is offline every error counts as a
    connectivity error, in both copies, so that [showErr] shows none. *)
Theorem isTransientNetworkError_second_copy (nav : Navigator) (e : JsErr) :
  (carries abortSignatures e = true -> Part000.isTransientNetworkError nav e = true) /\
  (SrcApp.isTransientNetworkError nav e = true ->
   Part000.isTransientNetworkError nav e = true) /\
  (offline nav = false ->
   carries networkSignatures e = false ->
   carries timeoutSignatures e = false ->
   carries abortSignatures e = false ->
   Part000.isTransientNetworkError nav e = false) /\
  (offline nav = true ->
   Part000.isTransientNetworkError nav e = true /\
   SrcApp.isTransientNetworkError nav e = true /\
   forall (C : Type) (c : C) (w : World),
     navigator w = nav ->
     alertsOf (journal (snd (snd (showErr Part000.isTransientNetworkError e (c, w))))) =
     alertsOf (journal w)).
Proof.
  split; [|split; [|split]].
  - unfold carries, abortSignatures, Part000.isTransientNetworkError. cbn [existsb].
    set (msg := toLowerCase (rawText e)). rewrite orb_false_r. intros H.
    apply orb_true_iff in H as [H|H]; [rewrite H; now rewrite ?orb_true_r|].
    apply orb_true_iff in H as [H|H]; [rewrite H; now rewrite ?orb_true_r|].
    apply orb_true_iff in H as [H|H]; rewrite H; now rewrite ?orb_true_r.
  - apply isTransientNetworkError_extends.
  - apply isTransientNetworkError_fatal.
  - intros Hoff.
    assert (HB : Part000.isTransientNetworkError nav e = true).
    { unfold Part000.isTransientNetworkError. now rewrite Hoff. }
    split; [exact HB|]. split.
    { unfold SrcApp.isTransientNetworkError. now rewrite Hoff. }
    intros C c w Hnav.
    destruct (showErr_quiet Part000.isTransientNetworkError e c w) as (w' & Hs & Hal & _).
    { now rewrite Hnav. }
    rewrite Hs. exact Hal.
Qed.

Lemma isTransientNetworkError_second_copy_witness :
  Part000.isTransientNetworkError (Some true) (errorOf "AbortError: The user aborted a request.") = true /\
  Part000.isTransientNetworkError (Some true) (errorOf "permission denied") = false /\
  Part000.isTransientNetworkError (Some false) (errorOf "permission denied") = true.
Proof.
  destruct (isTransientNetworkError_second_copy (Some true)
              (errorOf "AbortError: The user aborted a request.")) as (Habort & _).
  destruct (isTransientNetworkError_second_copy (Some true)
              (errorOf "permission denied")) as (_ & _ & Hfatal & _).
  destruct (isTransientNetworkError_second_copy (Some false)
              (errorOf "permission denied")) as (_ & _ & _ & Hoff).
  split; [apply Habort; reflexivity|].
  split; [apply Hfatal; reflexivity|].
  apply Hoff. reflexivity.
Defined.

(** X17: [loadCenterConfig] of the second copy is single-flight.  At every
    moment at most one load is in flight; a call made while a load is in
    flight is handed the promise of that load and sends no read; once the
    load has ended, by an error of any of its reads or after its last read,
    and its maker has resumed, the marker is empty again, and the next call
    starts a load of its own. *)
Theorem loadCenterConfig_single_flight (evs : list LoaderEvent) :
  let l := Part000.loaderRun loaderInit evs in
  (inFlight l <= 1)%nat /\
  (forall (p : nat) (r : Read),
     nth_error (promises l) p = Some (Awaits r) ->
     promises (Part000.loaderStep l CallLoad) = promises l /\
     reads (Part000.loaderStep l CallLoad) = reads l /\
     handed (Part000.loaderStep l CallLoad) = handed l ++ [p]) /\
  (forall (p : nat) (r : Read) (e : JsErr),
     nth_error (promises l) p = Some (Awaits r) ->
     loadingCenterRef
       (Part000.loaderRun l [ReadAnswers p (Throw e); ResumeOwner p]) = None) /\
  (forall p : nat,
     nth_error (promises l) p = Some (Awaits ReadCenter) ->
     loadingCenterRef (Part000.loaderRun l (fourAnswers p ++ [ResumeOwner p])) = None) /\
  (loadingCenterRef l = None ->
   reads (Part000.loaderStep l CallLoad) = reads l ++ [(length (promises l), ReadCenter)] /\
   loadingCenterRef (Part000.loaderStep l CallLoad) = Some (length (promises l))).
Proof.
  cbn zeta. split; [apply single_flight|]. split; [|split; [|split]].
  - intros p r Hp. destruct (call_in_flight evs p r Hp) as (H1 & H2 & H3 & _). auto.
  - intros p r e Hp. exact (marker_cleared_on_error evs p r e Hp).
  - intros p Hp. exact (marker_cleared_on_success evs p Hp).
  - intros Hnone. cbn [Part000.loaderStep]. rewrite Hnone. cbn. auto.
Qed.

Lemma loadCenterConfig_single_flight_witness :
  handed (Part000.loaderRun loaderInit [CallLoad; CallLoad; CallLoad]) = [0; 0; 0]%nat /\
  reads (Part000.loaderRun loaderInit [CallLoad; CallLoad; CallLoad]) = [(0%nat, ReadCenter)] /\
  loadingCenterRef
    (Part000.loaderRun loaderInit
       [CallLoad; ReadAnswers 0 (Throw (errorOf "Failed to fetch")); ResumeOwner 0]) = None.
Proof.
  destruct (loadCenterConfig_single_flight [CallLoad; CallLoad]) as (_ & Hcall & _).
  destruct (Hcall 0%nat ReadCenter eq_refl) as (_ & Hreads & Hhanded).
  destruct (loadCenterConfig_single_flight [CallLoad]) as (_ & _ & Herr & _).
  split; [exact Hhanded|]. split; [exact Hreads|].
  exact (Herr 0%nat ReadCenter (errorOf "Failed to fetch") eq_refl).
Defined.

(* ------------------------------------------------------------------ *)
(** ** The admission toggle: the guard against overlapping calls *)
(* ------------------------------------------------------------------ *)

Lemma in_flight_restored (k : string) (I : gset string) :
  k ∉ I -> ({[k]} ∪ I) ∖ {[k]} = I.
Proof.
  intros Hk. apply set_eq. intros x.
  rewrite elem_of_difference, elem_of_union, !elem_of_singleton. split.
  - intros [[->|Hx] Hne]; [contradiction | exact Hx].
  - intros Hx. split; [now right|]. intros ->. contradiction.
Qed.

Lemma refreshInpatients_ends (b : Board) (w : World) (cid : string) :
  boardId b = Some cid ->
  exists b' w' j,
    Part000.refreshInpatients (b, w) = (Ok tt, (b', w')) /\
    journal w' = journal w ++ j /\
    alertsOf j = [] /\
    itemsTable w' = itemsTable w /\
    inpatientsTable w' = inpatientsTable w /\
    inpatientInFlight b' = inpatientInFlight b /\
    inpatientsLoading b' = false /\
    items b' = items b.
Proof.
  intros Hid. unfold Part000.refreshInpatients, inpatientsSelectActive, itemsSelectIn.
  mrun. rewrite Hid. mrun. cbn [faults set_journal].
  destruct (faults w) as [|[e|] rest] eqn:Hf; cbn [fst snd]; mrun.
  2:{ do 3 eexists. split; [reflexivity|]. close_journal. repeat split; reflexivity. }
  - set (ids := List.filter _ (List.map _ _)).
    destruct (0 <? Z.of_nat (length ids)); mrun.
    + cbn [faults set_journal]. rewrite Hf. cbn [fst snd]. mrun.
      do 3 eexists. split; [reflexivity|]. close_journal. repeat split; reflexivity.
    + do 3 eexists. split; [reflexivity|]. close_journal. repeat split; reflexivity.
  - set (ids := List.filter _ (List.map _ _)).
    destruct (0 <? Z.of_nat (length ids)); mrun.
    + cbn [faults set_journal set_faults].
      destruct rest as [|[e|] rest']; cbn [fst snd]; mrun;
        (do 3 eexists; split; [reflexivity|]; close_journal; repeat split; reflexivity).
    + do 3 eexists. split; [reflexivity|]. close_journal. repeat split; reflexivity.
Qed.

(** X18: [toggleInpatient] does nothing when the board is not loaded or when
    a toggle of the same card is still running.  Otherwise it always ends
    normally, whatever the remote store answers, and leaves the set of the
    toggles in flight as it found it: the mark of the card is removed on
    every path.  It never writes to the table of the cards. *)
Theorem toggleInpatient_clears_its_mark (it : Item) (b : Board) (w : World) :
  (boardId b = None -> Part000.toggleInpatient it (b, w) = (Ok tt, (b, w))) /\
  (Item.id it ∈ inpatientInFlight b ->
   Part000.toggleInpatient it (b, w) = (Ok tt, (b, w))) /\
  (Item.id it ∉ inpatientInFlight b ->
   exists b' w',
     Part000.toggleInpatient it (b, w) = (Ok tt, (b', w')) /\
     inpatientInFlight b' = inpatientInFlight b /\
     itemsTable w' = itemsTable w).
Proof.
  split; [|split].
  - intros Hb. unfold Part000.toggleInpatient. mrun. now rewrite Hb.
  - intros Hin. unfold Part000.toggleInpatient. mrun.
    destruct (boardId b); [|reflexivity]. cbn [fst snd].
    now rewrite (bool_decide_eq_true_2 _ Hin).
  - intros Hfl. unfold Part000.toggleInpatient, inpatientsInsert, inpatientsDischarge.
    mrun. destruct (boardId b) as [cid|] eqn:Hid; [|now exists b, w].
    cbn [fst snd]. rewrite (bool_decide_eq_false_2 _ Hfl). mrun.
    destruct (bool_decide (Item.id it ∈ inpatientSet b)); mrun;
      cbn [faults set_journal];
      destruct (faults w) as [|[e|] rest] eqn:Hf; cbn [fst snd errorOfAnswer]; mrun.
    all: try (match goal with |- context [Part000.refreshInpatients (?bb, ?ww)] =>
                destruct (refreshInpatients_ends bb ww cid Hid)
                  as (b' & w' & j & Hr & Hj & _ & Hit & Htab & Hinf & _);
                rewrite Hr; cbn [fst snd] end).
    all: cbn [NewInpatient.is_active NewInpatient.center_id NewInpatient.source_item_id
              andb inpatientsTable set_journal set_faults].
    all: try match goal with |- context [existsb ?f ?t] => destruct (existsb f t) end.
    all: cbn [fst snd errorOfAnswer].
    all: try change (isNot23505 (codeOf uniqueViolation)) with false.
    all: try destruct (isNot23505 (codeOf e)).
    all: mrun.
    all: try (match goal with |- context [Part000.refreshInpatients (?bb, ?ww)] =>
                destruct (refreshInpatients_ends bb ww cid Hid)
                  as (b' & w' & j & Hr & Hj & _ & Hit & Htab & Hinf & _);
                rewrite Hr; cbn [fst snd] end).
    all: do 2 eexists; split; [reflexivity|];
         cbn [inpatientInFlight setInpatientInFlight itemsTable set_journal
              set_faults set_inpatientsTable];
         rewrite ?Hinf, ?Hit;
         cbn [inpatientInFlight setInpatientInFlight setInpatientSet setInpatients
              itemsTable set_journal set_faults set_inpatientsTable];
         (split; [now apply in_flight_restored | reflexivity]).
Qed.

Lemma toggleInpatient_clears_its_mark_witness :
  Part000.toggleInpatient cardX (busyBoard, demoWorld) = (Ok tt, (busyBoard, demoWorld)) /\
  (exists b' w',
     Part000.toggleInpatient cardX (demoBoard, unreachableWorld) = (Ok tt, (b', w')) /\
     inpatientInFlight b' = ∅).
Proof.
  destruct (toggleInpatient_clears_its_mark cardX busyBoard demoWorld) as (_ & Hbusy & _).
  destruct (toggleInpatient_clears_its_mark cardX demoBoard unreachableWorld)
    as (_ & _ & Hrun).
  split.
  - apply Hbusy. apply (bool_decide_unpack _). vm_compute. reflexivity.
  - destruct Hrun as (b' & w' & Hr & Hfl & _).
    + apply (bool_decide_unpack _). vm_compute. reflexivity.
    + exists b', w'. split; [exact Hr | exact Hfl].
Defined.

Lemma discharged_ids (cid src : string) (t : Z) (table : list InpatientRow) :
  List.map Inpatient.id (discharged cid src t table) = List.map Inpatient.id table.
Proof.
  unfold discharged. rewrite List.map_map. apply List.map_ext. intros r.
  destruct (activeOf cid src r); reflexivity.
Qed.

Lemma discharged_none_active (cid src : string) (t : Z) (table : list InpatientRow) :
  existsb (activeOf cid src) (discharged cid src t table) = false.
Proof.
  unfold discharged. induction table as [|r table IH]; [reflexivity|].
  cbn [List.map existsb]. rewrite IH, orb_false_r.
  destruct (activeOf cid src r) eqn:Ha; [|exact Ha].
  unfold activeOf, activeFor, dischargeRow. cbn. now rewrite andb_false_r.
Qed.

Lemma admittedIn_spec (cid : string) (table : list InpatientRow) (src : string) :
  src ∈ admittedIn cid table <->
  src <> "" /\ existsb (activeOf cid src) table = true.
Proof.
  unfold admittedIn. rewrite elem_of_list_to_set, list_elem_of_In, filter_In, in_map_iff.
  split.
  - intros [(r & Hsrc & Hr) Hne]. apply (proj1 (latestFirst_In _ _)) in Hr.
    apply filter_In in Hr as [Hin Hact].
    split; [intros ->; discriminate Hne|].
    apply existsb_exists. exists r. split; [exact Hin|].
    unfold activeOf. rewrite Hact, Hsrc. cbn. apply String.eqb_refl.
  - intros [Hne Hex]. apply existsb_exists in Hex as (r & Hin & Hact).
    unfold activeOf in Hact. apply andb_true_iff in Hact as [Hact Hsrc].
    apply String.eqb_eq in Hsrc. split.
    + exists r. split; [exact Hsrc|]. apply (proj2 (latestFirst_In _ _)), filter_In. auto.
    + destruct src; [contradiction | reflexivity].
Qed.

(** X19: [refreshInpatients] always ends normally and never shows an alert;
    the loading flag is off when it ends, also after a failure.  When the
    query of the records fails, the list and the marks of the admitted
    cards stay as they were.  When it answers, the list holds the active
    records of the board, and a card is marked as admitted exactly when the
    remote table holds an active record of the board for it. *)
Theorem refreshInpatients_settles (b : Board) (w : World) (cid : string) :
  boardId b = Some cid ->
  exists b' w' j,
    Part000.refreshInpatients (b, w) = (Ok tt, (b', w')) /\
    journal w' = journal w ++ j /\
    alertsOf j = [] /\
    inpatientsLoading b' = false /\
    inpatientsTable w' = inpatientsTable w /\
    (forall (e : JsErr) (rest : list (option JsErr)),
       faults w = Some e :: rest ->
       inpatients b' = inpatients b /\
       inpatientSet b' = inpatientSet b /\
       inpatientMetaMap b' = inpatientMetaMap b) /\
    (nextFault w = None ->
     inpatients b' = latestFirst (List.filter (activeFor cid) (inpatientsTable w)) /\
     forall src : string,
       src ∈ inpatientSet b' <->
       src <> "" /\ existsb (activeOf cid src) (inpatientsTable w) = true).
Proof.
  intros Hid. unfold Part000.refreshInpatients, inpatientsSelectActive, itemsSelectIn.
  mrun. rewrite Hid. mrun. cbn [faults set_journal]. unfold nextFault.
  destruct (faults w) as [|[e|] rest] eqn:Hf; cbn [fst snd]; mrun.
  2:{ do 3 eexists. split; [reflexivity|]. close_journal.
      repeat split; try reflexivity; discriminate. }
  - set (ids := List.filter _ (List.map _ _)).
    destruct (0 <? Z.of_nat (length ids)); mrun.
    + cbn [faults set_journal]. rewrite Hf. cbn [fst snd]. mrun.
      do 3 eexists. split; [reflexivity|]. close_journal.
      split; [reflexivity|]. split; [reflexivity|]. split; [reflexivity|].
      split; [reflexivity|]. split; [discriminate|]. intros _.
      split; [reflexivity|]. intros src. apply (admittedIn_spec cid (inpatientsTable w) src).
    + do 3 eexists. split; [reflexivity|]. close_journal.
      split; [reflexivity|]. split; [reflexivity|]. split; [reflexivity|].
      split; [reflexivity|]. split; [discriminate|]. intros _.
      split; [reflexivity|]. intros src. apply (admittedIn_spec cid (inpatientsTable w) src).
  - set (ids := List.filter _ (List.map _ _)).
    destruct (0 <? Z.of_nat (length ids)); mrun.
    + cbn [faults set_journal set_faults].
      destruct rest as [|[e|] rest']; cbn [fst snd]; mrun;
        (do 3 eexists; split; [reflexivity|]; close_journal;
         split; [reflexivity|]; split; [reflexivity|]; split; [reflexivity|];
         split; [reflexivity|]; split; [discriminate|]; intros _;
         split; [reflexivity|]; intros src;
         apply (admittedIn_spec cid (inpatientsTable w) src)).
    + do 3 eexists. split; [reflexivity|]. close_journal.
      split; [reflexivity|]. split; [reflexivity|]. split; [reflexivity|].
      split; [reflexivity|]. split; [discriminate|]. intros _.
      split; [reflexivity|]. intros src. apply (admittedIn_spec cid (inpatientsTable w) src).
Qed.

Lemma refreshInpatients_settles_witness :
  exists b' w' j,
    Part000.refreshInpatients (demoBoard, racedWorld) = (Ok tt, (b', w')) /\
    journal w' = journal racedWorld ++ j /\
    inpatients b' = [recordX] /\
    "x" ∈ inpatientSet b' /\
    "y" ∉ inpatientSet b'.
Proof.
  destruct (refreshInpatients_settles demoBoard racedWorld "demo" eq_refl)
    as (b' & w' & j & Hrun & Hj & _ & _ & _ & _ & Hok).
  destruct (Hok eq_refl) as (Hlist & Hset).
  exists b', w', j. split; [exact Hrun|]. split; [exact Hj|]. split; [exact Hlist|].
  split.
  - apply Hset. split; [discriminate | reflexivity].
  - intros Hy. apply Hset in Hy as [_ Hy]. discriminate Hy.
Defined.

(** X20: the discharge by [toggleInpatient].  For a card that the board
    shows as admitted, the first request of the toggle discharges the
    active records of the card: they stay in the remote table, inactive and
    stamped with the time, and no record is removed.  When the request
    goes through, no active record is left for the card and the board shows
    it as not admitted; when it fails, the marks stay as they were and no
    alert is shown. *)
Theorem toggleInpatient_discharges (it : Item) (b : Board) (w : World) (cid : string) :
  boardId b = Some cid ->
  Item.id it ∉ inpatientInFlight b ->
  Item.id it ∈ inpatientSet b ->
  (nextFault w = None ->
   exists b' w' j,
     Part000.toggleInpatient it (b, w) = (Ok tt, (b', w')) /\
     journal w' =
       journal w ++ Remote (InpatientsDischarge cid (Item.id it) (clock w)) :: j /\
     alertsOf j = [] /\
     inpatientsTable w' = discharged cid (Item.id it) (clock w) (inpatientsTable w) /\
     List.map Inpatient.id (inpatientsTable w') =
       List.map Inpatient.id (inpatientsTable w) /\
     existsb (activeOf cid (Item.id it)) (inpatientsTable w') = false /\
     Item.id it ∉ inpatientSet b') /\
  (forall (e : JsErr) (rest : list (option JsErr)),
     faults w = Some e :: rest ->
     exists b' w',
       Part000.toggleInpatient it (b, w) = (Ok tt, (b', w')) /\
       journal w' =
         journal w ++ [Remote (InpatientsDischarge cid (Item.id it) (clock w)); toggleFailed] /\
       inpatientSet b' = inpatientSet b /\
       inpatients b' = inpatients b /\
       inpatientsTable w' = inpatientsTable w).
Proof.
  intros Hid Hfl Hset. split.
  - intros Hnf. unfold Part000.toggleInpatient, inpatientsDischarge. mrun.
    rewrite Hid. cbn [fst snd]. rewrite (bool_decide_eq_false_2 _ Hfl). mrun.
    rewrite (bool_decide_eq_true_2 _ Hset). mrun. cbn [faults set_journal].
    unfold nextFault in Hnf.
    destruct (faults w) as [|[e|] rest] eqn:Hf; [|discriminate|]; cbn [fst snd]; mrun.
    all: match goal with |- context [Part000.refreshInpatients (?bb, ?ww)] =>
           destruct (refreshInpatients_ends bb ww cid Hid)
             as (b' & w' & j & Hr & Hj & Hal & _ & Htab & _);
           destruct (refreshInpatients_spec bb ww cid Hid)
             as (b2 & w2 & j2 & Hr2 & _ & _ & _ & _ & Hs);
           rewrite Hr in Hr2; injection Hr2 as <- <-;
           rewrite Hr; cbn [fst snd] end.
    all: do 3 eexists; split; [reflexivity|].
    all: cbn [inpatientSet setInpatientInFlight]; rewrite Hj, Htab; close_journal.
    all: fold (discharged cid (Item.id it) (clock w) (inpatientsTable w)).
    all: split; [reflexivity|]; split; [exact Hal|]; split; [reflexivity|].
    all: split; [apply discharged_ids|]; split; [apply discharged_none_active|].
    all: destruct Hs as [-> | ->].
    all: try (cbn [inpatientSet setInpatients setInpatientSet setInpatientInFlight];
              intros Hc; apply elem_of_difference in Hc as [_ Hc]; apply Hc;
              now apply elem_of_singleton).
    all: cbn [inpatientsTable set_inpatientsTable set_journal set_faults].
    all: fold (discharged cid (Item.id it) (clock w) (inpatientsTable w)).
    all: fold (admittedIn cid (discharged cid (Item.id it) (clock w) (inpatientsTable w))).
    all: intros Hc; apply admittedIn_spec in Hc as [_ Hc];
         rewrite discharged_none_active in Hc; discriminate.
  - intros e rest Hf. unfold Part000.toggleInpatient, inpatientsDischarge. mrun.
    rewrite Hid. cbn [fst snd]. rewrite (bool_decide_eq_false_2 _ Hfl). mrun.
    rewrite (bool_decide_eq_true_2 _ Hset). mrun. cbn [faults set_journal].
    rewrite Hf. cbn [fst snd]. mrun.
    do 2 eexists. split; [reflexivity|]. close_journal. repeat split; reflexivity.
Qed.

Lemma toggleInpatient_discharges_witness :
  exists b' w' j,
    Part000.toggleInpatient cardX (wardBoard, racedWorld) = (Ok tt, (b', w')) /\
    journal w' = Remote (InpatientsDischarge "demo" "x" 5) :: j /\
    inpatientsTable w' = [dischargeRow 5 recordX] /\
    "x" ∉ inpatientSet b'.
Proof.
  destruct (toggleInpatient_discharges cardX wardBoard racedWorld "demo" eq_refl)
    as (Hok & _).
  - apply (bool_decide_unpack _). vm_compute. reflexivity.
  - apply (bool_decide_unpack _). vm_compute. reflexivity.
  - destruct (Hok eq_refl) as (b' & w' & j & Hrun & Hj & _ & Htab & _ & _ & Hset).
    exists b', w', j. split; [exact Hrun|]. split; [exact Hj|].
    split; [exact Htab | exact Hset].
Defined.


(* ------------------------------------------------------------------ *)
(** ** The export to CSV *)
(* ------------------------------------------------------------------ *)

Lemma replaceAll_clean (a b : ascii) (s : string) :
  a <> b -> hasChar a (replaceAll a b s) = false.
Proof.
  intros Hab. induction s as [|c s IH]; [reflexivity|].
  cbn [replaceAll hasChar]. rewrite IH, orb_false_r.
  destruct (Ascii.eqb c a) eqn:Hc; [|exact Hc].
  apply Ascii.eqb_neq. congruence.
Qed.

Lemma replaceAll_id (a b : ascii) (s : string) :
  hasChar a s = false -> replaceAll a b s = s.
Proof.
  induction s as [|c s IH]; [reflexivity|]. cbn [replaceAll hasChar]. intros H.
  apply orb_false_iff in H as [Hc Hs]. now rewrite Hc, (IH Hs).
Qed.

Lemma splitOn_concat (sep : ascii) (l : list string) :
  l <> [] ->
  (forall s, In s l -> hasChar sep s = false) ->
  splitOn sep (String.concat (String sep "") l) = l.
Proof.
  induction l as [|x l IH]; [contradiction|]. intros _ Hclean.
  destruct l as [|y l].
  - cbn [String.concat]. apply splitOn_whole. apply Hclean. now left.
  - change (String.concat (String sep "") (x :: y :: l))
      with (x +:+ String sep (String.concat (String sep "") (y :: l))).
    rewrite splitOn_app by (apply Hclean; now left).
    rewrite IH; [reflexivity | discriminate |].
    intros s Hs. apply Hclean. now right.
Qed.

(** X21: every line that [exportCSV] writes for a card has exactly eight
    columns, whatever the text of the card: read back at the semicolons,
    the line gives the eight columns of the card with their semicolons
    replaced by commas, and a column without semicolon as it was.  The
    header has eight columns as well. *)
Theorem csvLine_has_eight_columns (it : CsvRow) :
  splitOn ";" (csvLine it) = List.map (replaceAll ";" ",") (csvColumns it) /\
  length (splitOn ";" (csvLine it)) = 8%nat /\
  length (splitOn ";" csvHeader) = 8%nat /\
  (forall c, In c (csvColumns it) -> hasChar ";" c = false -> replaceAll ";" "," c = c).
Proof.
  assert (H : splitOn ";" (csvLine it) = List.map (replaceAll ";" ",") (csvColumns it)).
  { unfold csvLine. apply splitOn_concat; [discriminate|].
    intros s Hs. apply in_map_iff in Hs as (c & <- & _).
    apply replaceAll_clean. discriminate. }
  split; [exact H|]. split; [rewrite H; reflexivity|].
  split; [vm_compute; reflexivity|].
  intros c _ Hc. now apply replaceAll_id.
Qed.

Lemma csvLine_has_eight_columns_witness :
  csvLine csvSample = "2024-01-01;A;2;X, Y;;a,b,c;Coronaria;1" /\
  splitOn ";" (csvLine csvSample) =
    ["2024-01-01"; "A"; "2"; "X, Y"; ""; "a,b,c"; "Coronaria"; "1"] /\
  replaceAll ";" "," "Coronaria" = "Coronaria".
Proof.
  destruct (csvLine_has_eight_columns csvSample) as (Hsplit & _ & _ & Hsame).
  split; [vm_compute; reflexivity|]. split; [rewrite Hsplit; vm_compute; reflexivity|].
  apply Hsame; [vm_compute; tauto | reflexivity].
Defined.

(** X22: the bounds of the export.  In the mode "range" the two dates may
    be given in either order: the bounds come out in ascending order and
    are the same when the dates are exchanged; with a date missing the
    export throws before any query.  The mode "all" has no bounds. *)
Theorem exportBounds_orders_the_range (todayISO : string) (dayKeys : list string)
    (rangeFrom rangeTo : string) :
  exportBounds ExportAll todayISO dayKeys rangeFrom rangeTo = Ok (None, None) /\
  (rangeFrom = "" \/ rangeTo = "" ->
   exportBounds ExportRange todayISO dayKeys rangeFrom rangeTo =
   Throw (errorOf "Selecciona fecha de inicio y fin")) /\
  (rangeFrom <> "" -> rangeTo <> "" ->
   exists from to,
     exportBounds ExportRange todayISO dayKeys rangeFrom rangeTo = Ok (Some from, Some to) /\
     codeUnitLeb from to = true /\
     ((from = rangeFrom /\ to = rangeTo) \/ (from = rangeTo /\ to = rangeFrom)) /\
     exportBounds ExportRange todayISO dayKeys rangeTo rangeFrom = Ok (Some from, Some to)).
Proof.
  split; [reflexivity|]. split.
  - intros [-> | ->]; cbn [exportBounds isEmpty orb]; [reflexivity|].
    now rewrite orb_true_r.
  - intros Hf Ht. cbn [exportBounds].
    assert (Hef : isEmpty rangeFrom = false) by (destruct rangeFrom; [contradiction|reflexivity]).
    assert (Het : isEmpty rangeTo = false) by (destruct rangeTo; [contradiction|reflexivity]).
    rewrite Hef, Het. cbn [orb].
    destruct (codeUnitLeb rangeFrom rangeTo) eqn:H1; destruct (codeUnitLeb rangeTo rangeFrom) eqn:H2.
    + pose proof (codeUnitLeb_antisym _ _ H1 H2) as He. subst rangeTo.
      exists rangeFrom, rangeFrom. split; [reflexivity|]. split; [exact H1|].
      split; [left; split; reflexivity | reflexivity].
    + exists rangeFrom, rangeTo. split; [reflexivity|]. split; [exact H1|].
      split; [left; split; reflexivity | reflexivity].
    + exists rangeTo, rangeFrom. split; [reflexivity|]. split; [exact H2|].
      split; [right; split; reflexivity | reflexivity].
    + destruct (codeUnitLeb_total rangeFrom rangeTo); congruence.
Qed.

Lemma exportBounds_orders_the_range_witness :
  exportBounds ExportRange "2024-01-03" [] "2024-01-05" "2024-01-01" =
    Ok (Some "2024-01-01", Some "2024-01-05") /\
  exportBounds ExportRange "2024-01-03" [] "" "2024-01-01" =
    Throw (errorOf "Selecciona fecha de inicio y fin").
Proof.
  destruct (exportBounds_orders_the_range "2024-01-03" [] "2024-01-05" "2024-01-01")
    as (_ & _ & Hrange).
  destruct (exportBounds_orders_the_range "2024-01-03" [] "" "2024-01-01")
    as (_ & Hmissing & _).
  split; [|apply Hmissing; now left].
  destruct (Hrange ltac:(discriminate) ltac:(discriminate))
    as (from & to & Hrun & _ & _ & _).
  rewrite Hrun. vm_compute in Hrun. exact (eq_sym Hrun).
Defined.


(* ------------------------------------------------------------------ *)
(** ** MutationEngine: edit, delete and the done flag *)
(* ------------------------------------------------------------------ *)

Lemma onComp_run {C A : Type} (m : M C A) (c c' : C) (w w' : World) (r : Outcome A)
    (log : list Action) :
  m (c, w) = (r, (c', w')) ->
  onComp m (mkLogged c log, w) = (r, (mkLogged c' log, w')).
Proof. intros H. unfold onComp. cbn [fst snd comp actions]. now rewrite H. Qed.

Lemma onBoard_run {A : Type} (m : M Board A) (b b' : Board) (w w' : World)
    (r : Outcome A) (eid : option string) :
  m (b, w) = (r, (b', w')) ->
  onBoard m (mkBoardView b eid, w) = (r, (mkBoardView b' eid, w')).
Proof. intros H. unfold onBoard. cbn [fst snd board editId]. now rewrite H. Qed.

Lemma effectiveRole_editor (b : Board) :
  effectiveRole b = Editor <-> role b = Editor /\ readOnly b = false.
Proof.
  unfold effectiveRole. destruct (role b), (readOnly b); cbn; intuition discriminate.
Qed.

(** X23: the writes of the cards are guarded.  For a viewer, and for an
    editor in read-only mode, [onSubmitAdd], [onSubmitEdit] and [doDelete]
    do nothing at all: no request, no dialog, no change of the state.  For
    an editor, [doDelete] asks for a confirmation first, and does nothing
    more when the user declines. *)
Theorem card_writes_are_guarded (classify : Navigator -> JsErr -> bool)
    (b : Board) (w : World) (eid : option string) (log : list Action)
    (id : string) (day : ISODate) (vName vRoom vDx vProc : string) (confirmed : bool) :
  (role b <> Editor \/ readOnly b = true ->
   onSubmitAdd classify day vName vRoom vDx vProc (b, w) = (Ok tt, (b, w)) /\
   onSubmitEdit classify id vName vRoom vDx vProc (mkBoardView b eid, w) =
     (Ok tt, (mkBoardView b eid, w)) /\
   doDelete classify confirmed id (mkLogged b log, w) = (Ok tt, (mkLogged b log, w))) /\
  (role b = Editor -> readOnly b = false ->
   doDelete classify false id (mkLogged b log, w) =
     (Ok tt, (mkLogged b (log ++ [Confirm "¿Eliminar este paciente?"]), w))).
Proof.
  split.
  - intros Hno.
    assert (Hrole : Role_eqb (effectiveRole b) Editor = false).
    { unfold effectiveRole. destruct Hno as [Hr | Hro].
      - destruct (role b); cbn; try reflexivity; try (destruct (readOnly b); reflexivity).
        contradiction.
      - rewrite Hro. destruct (role b); reflexivity. }
    unfold onSubmitAdd, onSubmitEdit, doDelete. mrun. cbn [board comp].
    rewrite Hrole. cbn [negb]. auto.
  - intros Hr Hro.
    assert (Hrole : Role_eqb (effectiveRole b) Editor = true).
    { unfold effectiveRole. now rewrite Hr, Hro. }
    unfold doDelete, act. mrun. cbn [comp actions]. rewrite Hrole. cbn [negb]. mrun.
    reflexivity.
Qed.

Lemma card_writes_are_guarded_witness :
  onSubmitAdd Part000.isTransientNetworkError monday2024 "Z" "" "" "Coronaria"
    (readOnlyBoard, demoWorld) = (Ok tt, (readOnlyBoard, demoWorld)) /\
  doDelete Part000.isTransientNetworkError true "x" (mkLogged viewerBoard [], demoWorld) =
    (Ok tt, (mkLogged viewerBoard [], demoWorld)) /\
  doDelete Part000.isTransientNetworkError false "x" (mkLogged demoBoard [], demoWorld) =
    (Ok tt, (mkLogged demoBoard [Confirm "¿Eliminar este paciente?"], demoWorld)).
Proof.
  destruct (card_writes_are_guarded Part000.isTransientNetworkError readOnlyBoard
              demoWorld None [] "x" monday2024 "Z" "" "" "Coronaria" true) as (Hro & _).
  destruct (card_writes_are_guarded Part000.isTransientNetworkError viewerBoard
              demoWorld None [] "x" monday2024 "Z" "" "" "Coronaria" true) as (Hv & _).
  destruct (card_writes_are_guarded Part000.isTransientNetworkError demoBoard
              demoWorld None [] "x" monday2024 "Z" "" "" "Coronaria" true) as (_ & Hed).
  split; [apply Hro; now right|].
  split; [apply Hv; left; discriminate|].
  apply Hed; reflexivity.
Defined.

Lemma writeItem_card_frame (id n r d p : string) (table : list Item) :
  List.map (fun i => (Item.id i, Item.day i, Item.row i, Item.ord i, Item.done i))
    (writeItem id (PatchCard n r d p) table) =
  List.map (fun i => (Item.id i, Item.day i, Item.row i, Item.ord i, Item.done i)) table.
Proof.
  unfold writeItem. rewrite List.map_map. apply List.map_ext. intros x.
  destruct (String.eqb (Item.id x) id); reflexivity.
Qed.

(** X24: [onSubmitEdit] by an editor.  Its first request writes the four
    fields of the form onto the card, the three texts trimmed; only fetches
    follow, and the handler ends normally.  When the write goes through,
    the form is closed and the card carries the new fields; its identity,
    day, row, position and done flag, and every other card, are as before.
    When the write fails, the form stays open and the table is as it was. *)
Theorem onSubmitEdit_writes_the_form (classify : Navigator -> JsErr -> bool)
    (b : Board) (w : World) (eid : option string) (id vName vRoom vDx vProc : string) :
  effectiveRole b = Editor ->
  let patch := PatchCard (trim vName) (trim vRoom) (trim vDx) vProc in
  exists v' w' rest,
    onSubmitEdit classify id vName vRoom vDx vProc (mkBoardView b eid, w) =
      (Ok tt, (v', w')) /\
    callsOf (journal w') = callsOf (journal w) ++ UpdateItem id patch :: rest /\
    forallb isFetch rest = true /\
    List.map (fun i => (Item.id i, Item.day i, Item.row i, Item.ord i, Item.done i))
      (itemsTable w') =
    List.map (fun i => (Item.id i, Item.day i, Item.row i, Item.ord i, Item.done i))
      (itemsTable w) /\
    (nextFault w = None ->
     editId v' = None /\ itemsTable w' = writeItem id patch (itemsTable w)) /\
    (forall e, nextFault w = Some e ->
     v' = mkBoardView b eid /\ itemsTable w' = itemsTable w).
Proof.
  intros Hrole. cbn zeta.
  unfold onSubmitEdit, updateItem. mrun. cbn [board]. rewrite Hrole. cbn [Role_eqb negb].
  mrun. cbn [faults set_journal journal]. unfold nextFault.
  destruct (faults w) as [|[e|] rest] eqn:Hf; cbn [fst snd board editId].
  - match goal with |- context [onBoard (refresh classify) (mkBoardView ?bb ?ee, ?ww)] =>
      destruct (refresh_frame classify bb ww) as (b' & w' & j & Hr & Hit & Hj & Hc);
      rewrite (onBoard_run _ _ _ _ _ _ ee Hr) end.
    do 3 eexists. split; [reflexivity|]. rewrite Hj, Hit.
    cbn [journal set_journal set_itemsTable itemsTable editId].
    rewrite !callsOf_app. cbn [callsOf flat_map app]. rewrite <- !app_assoc. cbn [app].
    split; [reflexivity|]. split; [exact Hc|].
    split; [apply writeItem_card_frame|]. split; [auto | discriminate].
  - match goal with |- context [showErr ?c ?e0 (?a0, ?w0)] =>
      destruct (showErr_frame c e0 a0 w0)
        as (w' & Hs & _ & Hit & _ & _ & _ & j & Hj & Hc) end.
    rewrite Hs. do 3 eexists. split; [reflexivity|]. rewrite Hj, Hit.
    cbn [journal set_journal set_faults itemsTable].
    rewrite !callsOf_app, Hc. cbn [callsOf flat_map app]. rewrite <- !app_assoc. cbn [app].
    split; [reflexivity|]. split; [reflexivity|]. split; [reflexivity|].
    split; [discriminate | auto].
  - match goal with |- context [onBoard (refresh classify) (mkBoardView ?bb ?ee, ?ww)] =>
      destruct (refresh_frame classify bb ww) as (b' & w' & j & Hr & Hit & Hj & Hc);
      rewrite (onBoard_run _ _ _ _ _ _ ee Hr) end.
    do 3 eexists. split; [reflexivity|]. rewrite Hj, Hit.
    cbn [journal set_journal set_itemsTable set_faults itemsTable editId].
    rewrite !callsOf_app. cbn [callsOf flat_map app]. rewrite <- !app_assoc. cbn [app].
    split; [reflexivity|]. split; [exact Hc|].
    split; [apply writeItem_card_frame|]. split; [auto | discriminate].
Qed.

Lemma onSubmitEdit_writes_the_form_witness :
  exists v' w' rest,
    onSubmitEdit Part000.isTransientNetworkError "x"
      (blanks +:+ "Ana García ") "12" blanks "Coronaria"
      (mkBoardView demoBoard (Some "x"), demoWorld) = (Ok tt, (v', w')) /\
    callsOf (journal w') =
      UpdateItem "x" (PatchCard "Ana García" "12" "" "Coronaria") :: rest /\
    editId v' = None /\
    itemsTable w' =
      [Item.mk "x" "demo" monday2024 "A" 1 "Ana García" "12" "" "Coronaria" false; cardY].
Proof.
  destruct (onSubmitEdit_writes_the_form Part000.isTransientNetworkError demoBoard
              demoWorld (Some "x") "x" (blanks +:+ "Ana García ") "12" blanks "Coronaria"
              eq_refl)
    as (v' & w' & rest & Hrun & Hcalls & _ & _ & Hok & _).
  destruct (Hok eq_refl) as (Hclosed & Htab).
  exists v', w', rest. split; [exact Hrun|].
  assert (Hname : trim (blanks +:+ "Ana García ") = "Ana García")
    by (vm_compute; reflexivity).
  assert (Hdx : trim blanks = "") by (vm_compute; reflexivity).
  rewrite Hname, Hdx in Hcalls, Htab.
  split; [exact Hcalls|]. split; [exact Hclosed|]. rewrite Htab. reflexivity.
Defined.

Lemma filter_swap {A : Type} (p q : A -> bool) (l : list A) :
  List.filter p (List.filter q l) = List.filter q (List.filter p l).
Proof.
  induction l as [|x l IH]; [reflexivity|]. cbn [List.filter].
  destruct (q x) eqn:Hq, (p x) eqn:Hp; cbn [List.filter]; rewrite ?Hq, ?Hp, IH; reflexivity.
Qed.

(** X25: [doDelete] by an editor who confirms.  The handler asks for the
    confirmation, then sends the request to delete the card, and ends
    normally.  With the remote store reachable, the card is gone from the
    remote table and, after the refresh, from the cache, and every other
    card is still there; when the request fails, no card is removed. *)
Theorem doDelete_removes_the_card (classify : Navigator -> JsErr -> bool)
    (b : Board) (w : World) (log : list Action) (id : string) :
  effectiveRole b = Editor ->
  let gone := fun i : Item => negb (String.eqb (Item.id i) id) in
  (forall cid : string,
     inSync b w cid ->
     reachable w ->
     exists b' w',
       doDelete classify true id (mkLogged b log, w) =
         (Ok tt,
          (mkLogged b' (log ++ [Confirm "¿Eliminar este paciente?"; DeleteItem id]), w')) /\
       itemsTable w' = List.filter gone (itemsTable w) /\
       items b' = List.filter gone (items b) /\
       (forall x, In x (items b') <-> In x (items b) /\ Item.id x <> id) /\
       callsOf (journal w') = callsOf (journal w) ++ [ListWeek cid (head (dayKeys b))]) /\
  (forall (e : JsErr) (rest : list (option JsErr)),
     faults w = Some e :: rest ->
     exists w',
       doDelete classify true id (mkLogged b log, w) =
         (Ok tt,
          (mkLogged b (log ++ [Confirm "¿Eliminar este paciente?"; DeleteItem id]), w')) /\
       itemsTable w' = itemsTable w /\
       callsOf (journal w') = callsOf (journal w)).
Proof.
  intros Hrole. cbn zeta.
  assert (Hr : Role_eqb (effectiveRole b) Editor = true) by now rewrite Hrole.
  split.
  - intros cid [Hb Hsync] [Hon Hf].
    unfold doDelete, act, deleteItem, perform. mrun. cbn [comp actions].
    rewrite Hr. cbn [negb]. mrun. cbn [comp actions]. rewrite Hf. cbn [fst snd].
    rewrite <- app_assoc. cbn [app].
    match goal with |- context [onComp (refresh classify) (mkLogged ?bb ?ll, ?ww)] =>
      rewrite (onComp_run _ _ _ _ _ _ ll
                 (refresh_online classify bb ww cid Hon Hb Hf)) end.
    do 2 eexists. split; [reflexivity|].
    cbn [itemsTable set_itemsTable set_journal journal items setItems dayKeys].
    split; [reflexivity|].
    assert (Hitems : List.filter (visibleIn cid (head (dayKeys b)))
                       (List.filter (fun i => negb (String.eqb (Item.id i) id)) (itemsTable w)) =
                     List.filter (fun i => negb (String.eqb (Item.id i) id)) (items b)).
    { rewrite Hsync. apply filter_swap. }
    split; [exact Hitems|]. split.
    + intros x. rewrite Hitems, filter_In, negb_true_iff, String.eqb_neq. tauto.
    + rewrite callsOf_app. reflexivity.
  - intros e rest Hf.
    unfold doDelete, act, deleteItem, perform. mrun. cbn [comp actions].
    rewrite Hr. cbn [negb]. mrun. cbn [comp actions]. rewrite Hf. cbn [fst snd].
    rewrite <- app_assoc. cbn [app].
    match goal with |- context [showErr ?c ?e0 (?a0, ?w0)] =>
      destruct (showErr_frame c e0 a0 w0)
        as (w' & Hs & _ & Hit & _ & _ & _ & j & Hj & Hc) end.
    rewrite Hs. exists w'. split; [reflexivity|]. rewrite Hit, Hj, callsOf_app, Hc.
    cbn [itemsTable set_faults journal]. now rewrite app_nil_r.
Qed.

Lemma doDelete_removes_the_card_witness :
  exists b' w',
    doDelete Part000.isTransientNetworkError true "x" (mkLogged demoBoard [], demoWorld) =
      (Ok tt, (mkLogged b' [Confirm "¿Eliminar este paciente?"; DeleteItem "x"], w')) /\
    itemsTable w' = [cardY] /\
    items b' = [cardY].
Proof.
  destruct (doDelete_removes_the_card Part000.isTransientNetworkError demoBoard demoWorld
              [] "x" eq_refl) as (Hok & _).
  destruct (Hok "demo") as (b' & w' & Hrun & Htab & Hitems & _).
  - split; [reflexivity | vm_compute; reflexivity].
  - split; reflexivity.
  - exists b', w'. split; [exact Hrun|]. split; [exact Htab | exact Hitems].
Defined.

Lemma doToggleDone_editor_run (classify : Navigator -> JsErr -> bool) (it : Item)
    (b : Board) (w : World) (log : list Action) (cid : string) :
  role b = Editor ->
  boardId b = Some cid ->
  reachable w ->
  let patch := PatchDone (negb (Item.done it)) in
  doToggleDone classify it (mkLogged b log, w) =
  (Ok tt,
   (mkLogged
      (setItems (List.filter (visibleIn cid (head (dayKeys b)))
                   (writeItem (Item.id it) patch (itemsTable w))) b) log,
    set_journal
      (journal w ++ [Remote (UpdateItem (Item.id it) patch);
                     Remote (ListWeek cid (head (dayKeys b)))])
      (set_itemsTable (writeItem (Item.id it) patch (itemsTable w)) w))).
Proof.
  intros Hrole Hb [Hon Hf]. cbn zeta. unfold doToggleDone. mrun. cbn [comp].
  rewrite Hrole. cbn [Role_eqb].
  rewrite (updateItem_run (Item.id it) _ (mkLogged b log) w Hf).
  match goal with |- context [onComp (refresh classify) (mkLogged ?bb ?ll, ?ww)] =>
    rewrite (onComp_run _ _ _ _ _ _ ll
               (refresh_online classify bb ww cid Hon Hb Hf)) end.
  cbn [journal set_journal set_itemsTable itemsTable]. rewrite <- app_assoc. reflexivity.
Qed.

Lemma writeItem_done_twice (it : Item) (d : bool) (table : list Item) :
  writeItem (Item.id it) (PatchDone d) (writeItem (Item.id it) (PatchDone d) table) =
  writeItem (Item.id it) (PatchDone d) table.
Proof.
  unfold writeItem. rewrite List.map_map. apply List.map_ext. intros x.
  destruct (String.eqb (Item.id x) (Item.id it)) eqn:He; [|now rewrite He].
  cbn. now rewrite He.
Qed.

Lemma writeItem_done_back (it : Item) (table : list Item) :
  upToDate it table ->
  writeItem (Item.id it) (PatchDone (Item.done it))
    (writeItem (Item.id it) (PatchDone (negb (Item.done it))) table) = table.
Proof.
  intros Hup. unfold writeItem. rewrite List.map_map.
  rewrite <- (List.map_id table) at 2. apply List.map_ext_in. intros x Hx.
  destruct (String.eqb (Item.id x) (Item.id it)) eqn:He.
  - apply String.eqb_eq in He. rewrite (Hup x Hx He).
    cbn. rewrite String.eqb_refl. destruct it; reflexivity.
  - rewrite He. reflexivity.
Qed.

(** X26: [doToggleDone].  For an editor (also in read-only mode) the first
    request writes the negation of the flag of the card as rendered; for
    any other role the handler calls the restricted procedure and sends no
    write of a card.  It always ends normally.  With the store reachable,
    an editor who toggles the refreshed card again puts the table back,
    whereas toggling the card as first rendered a second time writes the
    same value again. *)
Theorem doToggleDone_by_role (classify : Navigator -> JsErr -> bool) (it : Item)
    (b : Board) (w : World) (log : list Action) :
  let patch := PatchDone (negb (Item.done it)) in
  (role b = Editor ->
   exists v' w' rest,
     doToggleDone classify it (mkLogged b log, w) = (Ok tt, (v', w')) /\
     actions v' = log /\
     callsOf (journal w') = callsOf (journal w) ++ UpdateItem (Item.id it) patch :: rest /\
     forallb isFetch rest = true) /\
  (role b <> Editor ->
   exists v' w' rest,
     doToggleDone classify it (mkLogged b log, w) = (Ok tt, (v', w')) /\
     actions v' = log ++ [ToggleItemDone (Item.id it)] /\
     callsOf (journal w') = callsOf (journal w) ++ rest /\
     forallb isFetch rest = true /\
     (nextFault w = None -> itemsTable w' = flipped (Item.id it) (itemsTable w)) /\
     (forall e, nextFault w = Some e -> itemsTable w' = itemsTable w)) /\
  (forall cid : string,
     role b = Editor -> boardId b = Some cid -> reachable w ->
     exists s1 s2 s3,
       doToggleDone classify it (mkLogged b log, w) = (Ok tt, s1) /\
       itemsTable (snd s1) = writeItem (Item.id it) patch (itemsTable w) /\
       doToggleDone classify it s1 = (Ok tt, s2) /\
       itemsTable (snd s2) = itemsTable (snd s1) /\
       doToggleDone classify (withDone (negb (Item.done it)) it) s1 = (Ok tt, s3) /\
       (upToDate it (itemsTable w) -> itemsTable (snd s3) = itemsTable w)).
Proof.
  cbn zeta. split; [|split].
  - intros Hrole. unfold doToggleDone, updateItem. mrun. cbn [comp].
    rewrite Hrole. cbn [Role_eqb]. mrun. cbn [faults set_journal journal].
    destruct (faults w) as [|[e|] rest] eqn:Hf; cbn [fst snd].
    + match goal with |- context [onComp (refresh classify) (mkLogged ?bb ?ll, ?ww)] =>
        destruct (refresh_frame classify bb ww) as (b' & w' & j & Hr & Hit & Hj & Hc);
        rewrite (onComp_run _ _ _ _ _ _ ll Hr) end.
      do 3 eexists. split; [reflexivity|]. split; [reflexivity|]. rewrite Hj.
      cbn [journal set_journal set_itemsTable].
      rewrite !callsOf_app. cbn [callsOf flat_map app]. rewrite <- !app_assoc. cbn [app].
      split; [reflexivity | exact Hc].
    + match goal with |- context [showErr ?c ?e0 (?a0, ?w0)] =>
        destruct (showErr_frame c e0 a0 w0)
          as (w' & Hs & _ & Hit & _ & _ & _ & j & Hj & Hc) end.
      rewrite Hs. do 3 eexists. split; [reflexivity|]. split; [reflexivity|]. rewrite Hj.
      cbn [journal set_journal set_faults].
      rewrite !callsOf_app, Hc. cbn [callsOf flat_map app]. rewrite <- !app_assoc. cbn [app].
      split; reflexivity.
    + match goal with |- context [onComp (refresh classify) (mkLogged ?bb ?ll, ?ww)] =>
        destruct (refresh_frame classify bb ww) as (b' & w' & j & Hr & Hit & Hj & Hc);
        rewrite (onComp_run _ _ _ _ _ _ ll Hr) end.
      do 3 eexists. split; [reflexivity|]. split; [reflexivity|]. rewrite Hj.
      cbn [journal set_journal set_itemsTable set_faults].
      rewrite !callsOf_app. cbn [callsOf flat_map app]. rewrite <- !app_assoc. cbn [app].
      split; [reflexivity | exact Hc].
  - intros Hrole.
    assert (Hr0 : Role_eqb (role b) Editor = false) by (destruct (role b); auto; contradiction).
    unfold doToggleDone, rpcToggleItemDone, perform. mrun. cbn [comp actions].
    rewrite Hr0. mrun. unfold nextFault.
    destruct (faults w) as [|[e|] rest] eqn:Hf; cbn [fst snd].
    + match goal with |- context [onComp (refresh classify) (mkLogged ?bb ?ll, ?ww)] =>
        destruct (refresh_frame classify bb ww) as (b' & w' & j & Hr & Hit & Hj & Hc);
        rewrite (onComp_run _ _ _ _ _ _ ll Hr) end.
      do 3 eexists. split; [reflexivity|]. split; [reflexivity|]. rewrite Hj, Hit.
      cbn [journal set_journal set_itemsTable itemsTable]. rewrite callsOf_app.
      split; [reflexivity|]. split; [exact Hc|]. split; [auto | discriminate].
    + match goal with |- context [showErr ?c ?e0 (?a0, ?w0)] =>
        destruct (showErr_frame c e0 a0 w0)
          as (w' & Hs & _ & Hit & _ & _ & _ & j & Hj & Hc) end.
      rewrite Hs. do 3 eexists. split; [reflexivity|]. split; [reflexivity|]. rewrite Hj, Hit.
      cbn [journal set_journal set_faults itemsTable].
      rewrite <- app_assoc, callsOf_app. split; [reflexivity|].
      rewrite callsOf_app, Hc. cbn. split; [reflexivity|]. split; [discriminate | auto].
    + match goal with |- context [onComp (refresh classify) (mkLogged ?bb ?ll, ?ww)] =>
        destruct (refresh_frame classify bb ww) as (b' & w' & j & Hr & Hit & Hj & Hc);
        rewrite (onComp_run _ _ _ _ _ _ ll Hr) end.
      do 3 eexists. split; [reflexivity|]. split; [reflexivity|]. rewrite Hj, Hit.
      cbn [journal set_journal set_itemsTable set_faults itemsTable]. rewrite callsOf_app.
      split; [reflexivity|]. split; [exact Hc|]. split; [auto | discriminate].
  - intros cid Hrole Hb Hre.
    pose proof (doToggleDone_editor_run classify it b w log cid Hrole Hb Hre) as H1.
    cbn zeta in H1.
    set (t1 := writeItem (Item.id it) (PatchDone (negb (Item.done it))) (itemsTable w)) in *.
    match type of H1 with _ = (Ok tt, (mkLogged ?bb _, ?ww)) =>
      set (b1 := bb) in *; set (w1 := ww) in * end.
    assert (Hre1 : reachable w1) by exact Hre.
    assert (Hb1 : boardId b1 = Some cid) by exact Hb.
    assert (Hr1 : role b1 = Editor) by exact Hrole.
    pose proof (doToggleDone_editor_run classify it b1 w1 log cid Hr1 Hb1 Hre1) as H2.
    pose proof (doToggleDone_editor_run classify (withDone (negb (Item.done it)) it)
                  b1 w1 log cid Hr1 Hb1 Hre1) as H3.
    cbn zeta in H2, H3.
    do 3 eexists. split; [exact H1|]. split; [reflexivity|].
    split; [exact H2|]. split.
    { cbn [snd itemsTable set_journal set_itemsTable]. unfold w1.
      cbn [itemsTable set_journal set_itemsTable]. apply writeItem_done_twice. }
    split; [exact H3|]. intros Hup.
    cbn [snd itemsTable set_journal set_itemsTable]. unfold w1.
    cbn [itemsTable set_journal set_itemsTable withDone applyPatch Item.id Item.done].
    rewrite negb_involutive. now apply writeItem_done_back.
Qed.

Lemma doToggleDone_by_role_witness :
  (exists v' w' rest,
     doToggleDone Part000.isTransientNetworkError cardX (mkLogged viewerBoard [], demoWorld) =
       (Ok tt, (v', w')) /\
     actions v' = [ToggleItemDone "x"] /\
     callsOf (journal w') = rest /\
     forallb isFetch rest = true /\
     itemsTable w' = [withDone true cardX; cardY]) /\
  (exists s1 s3,
     doToggleDone Part000.isTransientNetworkError cardX (mkLogged demoBoard [], demoWorld) =
       (Ok tt, s1) /\
     itemsTable (snd s1) = [withDone true cardX; cardY] /\
     doToggleDone Part000.isTransientNetworkError (withDone true cardX) s1 = (Ok tt, s3) /\
     itemsTable (snd s3) = [cardX; cardY]).
Proof.
  split.
  - destruct (doToggleDone_by_role Part000.isTransientNetworkError cardX viewerBoard
                demoWorld []) as (_ & Hviewer & _).
    destruct (Hviewer ltac:(discriminate))
      as (v' & w' & rest & Hrun & Hact & Hcalls & Hfetch & Hok & _).
    exists v', w', rest. split; [exact Hrun|]. split; [exact Hact|].
    split; [exact Hcalls|]. split; [exact Hfetch|]. rewrite (Hok eq_refl). reflexivity.
  - destruct (doToggleDone_by_role Part000.isTransientNetworkError cardX demoBoard
                demoWorld []) as (_ & _ & Hround).
    destruct (Hround "demo" eq_refl eq_refl ltac:(split; reflexivity))
      as (s1 & s2 & s3 & H1 & Ht1 & _ & _ & H3 & Hback).
    exists s1, s3. split; [exact H1|]. split; [exact Ht1|]. split; [exact H3|].
    apply Hback. intros x [<-|[<-|[]]] Hid; [reflexivity | vm_compute in Hid; discriminate].
Defined.


(* ------------------------------------------------------------------ *)
(** ** DebouncedFieldPersister *)
(* ------------------------------------------------------------------ *)

Lemma updateInpatientFieldDebounced_run (rowId : string) (patch : InpatientPatch)
    (p : Persister) (log : list Action) (w : World) :
  updateInpatientFieldDebounced rowId patch (mkLogged p log, w) =
  (Ok tt, (mkLogged (scheduled rowId patch p) log, w)).
Proof. reflexivity. Qed.

Lemma scheduled_inv (rowId : string) (patch : InpatientPatch) (p : Persister) :
  timersInv p -> timersInv (scheduled rowId patch p).
Proof.
  intros [Hpos Hinv]. split; [cbn; lia|].
  intros h row q. cbn [scheduled timers saveTimers nextTimer].
  destruct (decide (h = nextTimer p)) as [->|Hne].
  - rewrite lookup_insert_eq. intros [= <- <-]. rewrite lookup_insert_eq. split; [reflexivity|lia].
  - rewrite lookup_insert_ne by congruence. intros Hh.
    assert (Hold : timers p !! h = Some (row, q)).
    { destruct (saveTimers p !! rowId) as [h0|]; [|exact Hh].
      destruct (h0 =? 0)%nat; [exact Hh|].
      apply lookup_delete_Some in Hh. tauto. }
    destruct (Hinv h row q Hold) as [Hs Hb]. split; [|lia].
    destruct (decide (row = rowId)) as [->|Hr].
    + exfalso. rewrite Hs in Hh.
      destruct (h =? 0)%nat eqn:H0; [apply Nat.eqb_eq in H0; lia|].
      apply lookup_delete_Some in Hh. tauto.
    + rewrite lookup_insert_ne by congruence. exact Hs.
Qed.

(** X27: the debounced save.  Two edits of the same record in a row, before
    the timer of the first one fires, both show on the board at once, send
    nothing yet, and leave one timer set for the record: the one of the
    second edit.  The timer of the first edit was cleared, so the patch of
    the first edit is never sent; when the timer of the second edit fires,
    the one request that goes out carries the patch of the second edit
    only.  When that request fails, the board keeps what the user typed. *)
Theorem debounce_sends_the_last_patch_only (p : Persister) (log : list Action)
    (w : World) (rowId : string) (p1 p2 : InpatientPatch) :
  timersInv p ->
  let h1 := nextTimer p in
  let h2 := Datatypes.S (nextTimer p) in
  let p' := scheduled rowId p2 (scheduled rowId p1 p) in
  let s2 := (mkLogged p' log, w) in
  (updateInpatientFieldDebounced rowId p1 ;;; updateInpatientFieldDebounced rowId p2)
    (mkLogged p log, w) = (Ok tt, s2) /\
  timersInv p' /\
  inpatients (pboard p') =
    patchRows rowId p2 (patchRows rowId p1 (inpatients (pboard p))) /\
  (forall h q, timers p' !! h = Some (rowId, q) <-> h = h2 /\ q = p2) /\
  saveTimerFires h1 s2 = (Ok tt, s2) /\
  (nextFault w = None ->
   exists p3 w3,
     saveTimerFires h2 s2 = (Ok tt, (mkLogged p3 (log ++ [InpatientsUpdate rowId p2]), w3)) /\
     inpatientsTable w3 = patchRows rowId p2 (inpatientsTable w) /\
     pboard p3 = pboard p' /\
     (forall h q, timers p3 !! h <> Some (rowId, q))) /\
  (forall (e : JsErr) (rest : list (option JsErr)),
     faults w = Some e :: rest ->
     exists p3 w3,
       saveTimerFires h2 s2 = (Ok tt, (mkLogged p3 (log ++ [InpatientsUpdate rowId p2]), w3)) /\
       inpatientsTable w3 = inpatientsTable w /\
       alertsOf (journal w3) = alertsOf (journal w) /\
       pboard p3 = pboard p').
Proof.
  intros Hinv. cbn zeta.
  pose proof (scheduled_inv rowId p1 p Hinv) as Hinv1.
  pose proof (scheduled_inv rowId p2 _ Hinv1) as Hinv2.
  destruct Hinv as [Hpos _].
  set (pa := scheduled rowId p1 p) in *.
  assert (Hsave1 : saveTimers pa !! rowId = Some (nextTimer p)).
  { unfold pa. cbn. apply lookup_insert_eq. }
  assert (Hnext1 : nextTimer pa = Datatypes.S (nextTimer p)) by reflexivity.
  assert (Ht2 : timers (scheduled rowId p2 pa) =
                <[Datatypes.S (nextTimer p) := (rowId, p2)]> (delete (nextTimer p) (timers pa))).
  { unfold scheduled at 1. cbn [timers]. rewrite Hsave1, Hnext1.
    destruct (nextTimer p =? 0)%nat eqn:H0; [apply Nat.eqb_eq in H0; lia | reflexivity]. }
  assert (Hh2 : timers (scheduled rowId p2 pa) !! Datatypes.S (nextTimer p) = Some (rowId, p2)).
  { rewrite Ht2. apply lookup_insert_eq. }
  assert (Hh1 : timers (scheduled rowId p2 pa) !! nextTimer p = None).
  { rewrite Ht2, lookup_insert_ne by lia. apply lookup_delete_eq. }
  assert (Hsave2 : saveTimers (scheduled rowId p2 pa) !! rowId = Some (Datatypes.S (nextTimer p))).
  { cbn [scheduled saveTimers]. apply lookup_insert_eq. }
  assert (Honly : forall h q,
            timers (scheduled rowId p2 pa) !! h = Some (rowId, q) <->
            h = Datatypes.S (nextTimer p) /\ q = p2).
  { intros h q. split.
    - intros Hh. destruct Hinv2 as [_ Hinv2]. destruct (Hinv2 h rowId q Hh) as [Hs _].
      rewrite Hsave2 in Hs. injection Hs as <-. rewrite Hh2 in Hh. injection Hh as <-. auto.
    - intros [-> ->]. exact Hh2. }
  split.
  { unfold bind. rewrite updateInpatientFieldDebounced_run.
    now rewrite updateInpatientFieldDebounced_run. }
  split; [exact Hinv2|]. split; [reflexivity|]. split; [exact Honly|].
  split.
  { unfold saveTimerFires. mrun. cbn [comp]. now rewrite Hh1. }
  split.
  - intros Hnf. unfold saveTimerFires, perform. mrun. cbn [comp actions]. rewrite Hh2.
    mrun. cbn [comp actions]. unfold nextFault in Hnf.
    destruct (faults w) as [|[e|] rest] eqn:Hf; [|discriminate|]; cbn [fst snd].
    all: do 2 eexists; split; [reflexivity|]; cbn [inpatientsTable set_inpatientsTable
           set_faults pboard timers].
    all: split; [reflexivity|]; split; [reflexivity|].
    all: intros h q Hh; apply lookup_delete_Some in Hh as [Hne Hh];
         apply Honly in Hh as [-> _]; contradiction.
  - intros e rest Hf. unfold saveTimerFires, perform. mrun. cbn [comp actions]. rewrite Hh2.
    mrun. cbn [comp actions]. rewrite Hf. cbn [fst snd]. mrun.
    do 2 eexists. split; [reflexivity|].
    cbn [inpatientsTable set_journal set_faults journal pboard].
    split; [reflexivity|]. split; [|reflexivity].
    rewrite alertsOf_app. cbn. apply app_nil_r.
Qed.

Lemma debounce_sends_the_last_patch_only_witness :
  let s2 := (mkLogged (scheduled "r1" dxPatch (scheduled "r1" bedPatch wardPersister)) [],
             racedWorld) in
  List.map (fun r => (Inpatient.bed r, Inpatient.dx r)) (inpatients (pboard (comp (fst s2)))) =
    [(Some "12B", Some "IAM")] /\
  saveTimerFires 1 s2 = (Ok tt, s2) /\
  exists p3 w3,
    saveTimerFires 2 s2 = (Ok tt, (mkLogged p3 [InpatientsUpdate "r1" dxPatch], w3)) /\
    List.map (fun r => (Inpatient.bed r, Inpatient.dx r)) (inpatientsTable w3) =
      [(None, Some "IAM")].
Proof.
  assert (Hinv : timersInv wardPersister).
  { split; [cbn; lia|]. intros h row q Hh. cbn in Hh. rewrite lookup_empty in Hh. discriminate. }
  destruct (debounce_sends_the_last_patch_only wardPersister [] racedWorld "r1"
              bedPatch dxPatch Hinv) as (_ & _ & Hlocal & _ & Hfirst & Hfire & _).
  cbn zeta. cbn [fst comp]. split; [rewrite Hlocal; reflexivity|]. split; [exact Hfirst|].
  destruct (Hfire eq_refl) as (p3 & w3 & Hrun & Htab & _).
  exists p3, w3. split; [exact Hrun|]. rewrite Htab. reflexivity.
Defined.

(* ------------------------------------------------------------------ *)
(** ** The discharge from the list of the admitted *)
(* ------------------------------------------------------------------ *)

Lemma dischargedRow_ids (rowId : string) (t : Z) (table : list InpatientRow) :
  List.map Inpatient.id (dischargedRow rowId t table) = List.map Inpatient.id table.
Proof.
  unfold dischargedRow. rewrite List.map_map. apply List.map_ext. intros r.
  destruct (String.eqb (Inpatient.id r) rowId); reflexivity.
Qed.

Lemma dischargedRow_inactive (rowId : string) (t : Z) (table : list InpatientRow)
    (r : InpatientRow) :
  In r (dischargedRow rowId t table) -> Inpatient.id r = rowId ->
  Inpatient.is_active r = false /\ Inpatient.discharged_at r = Some t.
Proof.
  unfold dischargedRow. intros Hin Hid. apply in_map_iff in Hin as (r0 & Hr & _).
  destruct (String.eqb (Inpatient.id r0) rowId) eqn:He.
  - subst r. auto.
  - subst r. apply String.eqb_neq in He. contradiction.
Qed.

(** X28: [dischargeInpatient] always ends normally and sends one request,
    which marks the record as inactive and stamps it with the time; no
    record is removed from the remote table.  When the request goes
    through, the record leaves the list of the board, and the card it came
    from is no longer marked as admitted; when it fails, the list and the
    marks stay as they were and no alert is shown. *)
Theorem dischargeInpatient_soft_deletes (rowId : string) (b : Board) (log : list Action)
    (w : World) :
  let sent := log ++ [InpatientsDischargeRow rowId (clock w)] in
  (nextFault w = None ->
   exists b' w',
     dischargeInpatient rowId (mkLogged b log, w) = (Ok tt, (mkLogged b' sent, w')) /\
     journal w' = journal w /\
     inpatientsTable w' = dischargedRow rowId (clock w) (inpatientsTable w) /\
     List.map Inpatient.id (inpatientsTable w') = List.map Inpatient.id (inpatientsTable w) /\
     (forall r, In r (inpatientsTable w') -> Inpatient.id r = rowId ->
                Inpatient.is_active r = false /\ Inpatient.discharged_at r = Some (clock w)) /\
     (forall r, In r (inpatients b') <-> In r (inpatients b) /\ Inpatient.id r <> rowId) /\
     (forall r0,
        List.find (fun r => String.eqb (Inpatient.id r) rowId) (inpatients b) = Some r0 ->
        Inpatient.source_item_id r0 <> "" ->
        inpatientSet b' = inpatientSet b ∖ {[Inpatient.source_item_id r0]} /\
        Inpatient.source_item_id r0 ∉ inpatientSet b') /\
     (List.find (fun r => String.eqb (Inpatient.id r) rowId) (inpatients b) = None ->
      inpatientSet b' = inpatientSet b)) /\
  (forall (e : JsErr) (rest : list (option JsErr)),
     faults w = Some e :: rest ->
     exists w',
       dischargeInpatient rowId (mkLogged b log, w) = (Ok tt, (mkLogged b sent, w')) /\
       journal w' = journal w ++ [ConsoleWarn "[INP] discharge failed"] /\
       inpatientsTable w' = inpatientsTable w).
Proof.
  cbn zeta. split.
  - intros Hnf. unfold dischargeInpatient, perform. mrun. cbn [comp actions].
    unfold nextFault in Hnf.
    destruct (List.find (fun r => String.eqb (Inpatient.id r) rowId) (inpatients b))
      as [r0|] eqn:Hfind.
    + destruct (isEmpty (Inpatient.source_item_id r0)) eqn:Hsrc;
        (destruct (faults w) as [|[e|] rest] eqn:Hf; [|discriminate|]); cbn [fst snd]; mrun;
        cbn [comp actions];
        (do 2 eexists; split; [reflexivity|];
         cbn [journal inpatientsTable set_inpatientsTable set_faults inpatients setInpatients
              setInpatientSet inpatientSet];
         split; [reflexivity|]; split; [reflexivity|];
         split; [apply dischargedRow_ids|];
         split; [apply dischargedRow_inactive|];
         split; [intros r; rewrite filter_In, negb_true_iff, String.eqb_neq; tauto|];
         split; [|discriminate]).
      all: intros r1 [= <-] Hne.
      all: try (destruct (Inpatient.source_item_id r0); [contradiction | discriminate]).
      all: split; [reflexivity|]; intros Hc; apply elem_of_difference in Hc as [_ Hc];
           apply Hc; now apply elem_of_singleton.
    + destruct (faults w) as [|[e|] rest] eqn:Hf; [|discriminate|]; cbn [fst snd]; mrun;
        cbn [comp actions];
        (do 2 eexists; split; [reflexivity|];
         cbn [journal inpatientsTable set_inpatientsTable set_faults inpatients setInpatients
              setInpatientSet inpatientSet];
         split; [reflexivity|]; split; [reflexivity|];
         split; [apply dischargedRow_ids|];
         split; [apply dischargedRow_inactive|];
         split; [intros r; rewrite filter_In, negb_true_iff, String.eqb_neq; tauto|];
         split; [discriminate | reflexivity]).
  - intros e rest Hf. unfold dischargeInpatient, perform. mrun. cbn [comp actions].
    rewrite Hf. cbn [fst snd]. mrun.
    eexists. split; [reflexivity|]. split; reflexivity.
Qed.

Lemma dischargeInpatient_soft_deletes_witness :
  exists b' w',
    dischargeInpatient "r1" (mkLogged wardBoard [], racedWorld) =
      (Ok tt, (mkLogged b' [InpatientsDischargeRow "r1" 5], w')) /\
    inpatientsTable w' = [dischargeRow 5 recordX] /\
    inpatients b' = [] /\
    "x" ∉ inpatientSet b'.
Proof.
  destruct (dischargeInpatient_soft_deletes "r1" wardBoard [] racedWorld) as (Hok & _).
  destruct (Hok eq_refl) as (b' & w' & Hrun & _ & Htab & _ & _ & Hlist & Hset & _).
  exists b', w'. split; [exact Hrun|]. split; [exact Htab|]. split.
  - destruct (inpatients b') as [|r l] eqn:Hl; [reflexivity|]. exfalso.
    destruct (proj1 (Hlist r) (or_introl eq_refl)) as [[<-|[]] Hne]. now apply Hne.
  - destruct (Hset recordX eq_refl ltac:(discriminate)) as [_ Hx]. exact Hx.
Defined.

(* ------------------------------------------------------------------ *)
(** ** The sign-in form: what is checked before a request *)
(* ------------------------------------------------------------------ *)

(** X29: [updatePassword] of the second copy sends a new password only when
    it has at least 8 characters and equals its confirmation, and then it
    sends that password; otherwise it shows one alert, sends nothing and
    leaves the form as it is.  When the request goes through, the two
    fields are emptied and the recovery mode ends; when it fails, the form
    keeps what was typed.  [signIn] sends its request only when the email
    and the password are both given, and [sendResetEmail] only when the
    email is given; the link of the recovery leads to [/reset-password] of
    the origin of the page. *)
Theorem credentials_are_checked_first (f : AuthForm) (log : list Action) (w : World)
    (pathname : string) :
  let valid := ((8 <=? jsLength (newPass f))%nat &&
                String.eqb (newPass f) (newPass2 f))%bool in
  (valid = false ->
   exists msg,
     Part000Auth.updatePassword pathname (mkLogged f log, w) =
       (Ok tt, (mkLogged f log, set_journal (journal w ++ [Alert msg]) w))) /\
  (valid = true -> nextFault w = None ->
   exists f' w',
     Part000Auth.updatePassword pathname (mkLogged f log, w) =
       (Ok tt, (mkLogged f' (log ++ [UpdateUser (newPass f); ReplaceState pathname]), w')) /\
     newPass f' = "" /\ newPass2 f' = "" /\ recoveryMode f' = false /\
     journal w' =
       journal w ++ [Dispatch "salatrack:signedin";
                     Alert "Contraseña actualizada. Ya puedes iniciar sesión."]) /\
  (valid = true -> forall e rest, faults w = Some e :: rest ->
   exists w',
     Part000Auth.updatePassword pathname (mkLogged f log, w) =
       (Ok tt, (mkLogged f (log ++ [UpdateUser (newPass f)]), w'))) /\
  (email (buttons f) = "" \/ pass (buttons f) = "" ->
   Part000Auth.signIn (mkLogged f log, w) =
     (Ok tt, (mkLogged f log,
              set_journal (journal w ++ [Alert "Introduce email y contraseña"]) w))) /\
  (email (buttons f) <> "" -> pass (buttons f) <> "" ->
   exists f' w',
     Part000Auth.signIn (mkLogged f log, w) =
       (Ok tt,
        (mkLogged f' (log ++ [SignInWithPassword (email (buttons f)) (pass (buttons f))]),
         w')) /\
     (nextFault w = None ->
      email (buttons f') = "" /\ pass (buttons f') = "" /\
      journal w' = journal w ++ [Dispatch "salatrack:signedin"]) /\
     (forall e, nextFault w = Some e -> f' = f)) /\
  (forall origin : string,
     (email (buttons f) = "" ->
      exists msg,
        Part000Auth.sendResetEmail origin (mkLogged f log, w) =
          (Ok tt, (mkLogged f log, set_journal (journal w ++ [Alert msg]) w))) /\
     (email (buttons f) <> "" ->
      exists f' w',
        Part000Auth.sendResetEmail origin (mkLogged f log, w) =
          (Ok tt,
           (mkLogged f'
              (log ++ [ResetPasswordForEmail (email (buttons f))
                         (origin +:+ "/reset-password")]),
            w')) /\
        (nextFault w = None -> resetSent f' = true) /\
        (forall e, nextFault w = Some e -> resetSent f' = false))).
Proof.
  cbn zeta. split; [|split; [|split; [|split; [|split]]]].
  - intros Hv. unfold Part000Auth.updatePassword. mrun. cbn [comp].
    destruct (newPass f) as [|c s] eqn:Hp; cbn [isEmpty orb].
    { eexists. reflexivity. }
    destruct (jsLength (String c s) <? 8)%nat eqn:Hlen.
    { eexists. reflexivity. }
    apply Nat.ltb_ge in Hlen. apply Nat.leb_le in Hlen. rewrite Hlen in Hv. cbn [andb] in Hv.
    rewrite Hv. cbn [negb]. eexists. reflexivity.
  - intros Hv Hnf. apply andb_true_iff in Hv as [Hlen Heq].
    unfold Part000Auth.updatePassword, authRequest, perform, act, onForm. mrun. cbn [comp actions].
    assert (Hne : isEmpty (newPass f) = false).
    { destruct (newPass f); [discriminate | reflexivity]. }
    apply Nat.leb_le in Hlen.
    assert (Hlt : (jsLength (newPass f) <? 8)%nat = false) by (apply Nat.ltb_ge; lia).
    rewrite Hne, Hlt, Heq. cbn [orb negb]. mrun. cbn [comp actions].
    unfold nextFault in Hnf.
    destruct (faults w) as [|[e|] rest] eqn:Hf; [|discriminate|]; cbn [fst snd]; mrun;
      cbn [comp actions].
    all: do 2 eexists; split; [rewrite <- app_assoc; reflexivity|].
    all: cbn [newPass newPass2 recoveryMode journal set_journal set_faults].
    all: rewrite <- app_assoc; auto.
  - intros Hv e rest Hf. apply andb_true_iff in Hv as [Hlen Heq].
    unfold Part000Auth.updatePassword, authRequest, perform, act, onForm. mrun. cbn [comp actions].
    assert (Hne : isEmpty (newPass f) = false).
    { destruct (newPass f); [discriminate | reflexivity]. }
    apply Nat.leb_le in Hlen.
    assert (Hlt : (jsLength (newPass f) <? 8)%nat = false) by (apply Nat.ltb_ge; lia).
    rewrite Hne, Hlt, Heq. cbn [orb negb]. mrun. cbn [comp actions].
    rewrite Hf. cbn [fst snd].
    match goal with |- context [showErr ?c ?e0 (?a0, ?w0)] =>
      destruct (showErr_frame c e0 a0 w0) as (w' & Hs & _) end.
    rewrite Hs. exists w'. reflexivity.
  - intros Hempty. unfold Part000Auth.signIn. mrun. cbn [comp].
    destruct Hempty as [-> | ->]; cbn [isEmpty orb]; [reflexivity|].
    rewrite orb_true_r. reflexivity.
  - intros He Hp. unfold Part000Auth.signIn, authRequest, perform, onForm. mrun.
    cbn [comp actions].
    assert (Hne : isEmpty (email (buttons f)) = false).
    { destruct (email (buttons f)); [contradiction | reflexivity]. }
    assert (Hnp : isEmpty (pass (buttons f)) = false).
    { destruct (pass (buttons f)); [contradiction | reflexivity]. }
    rewrite Hne, Hnp. cbn [orb]. mrun. cbn [comp actions]. unfold nextFault.
    destruct (faults w) as [|[e|] rest] eqn:Hf; cbn [fst snd]; mrun; cbn [comp actions].
    + do 2 eexists. split; [reflexivity|]. split; [auto | discriminate].
    + match goal with |- context [showErr ?c ?e0 (?a0, ?w0)] =>
        destruct (showErr_frame c e0 a0 w0) as (w' & Hs & _) end.
      rewrite Hs. do 2 eexists. split; [reflexivity|]. split; [discriminate | auto].
    + do 2 eexists. split; [reflexivity|]. split; [auto | discriminate].
  - intros origin. split.
    + intros He. unfold Part000Auth.sendResetEmail. mrun. cbn [comp]. rewrite He.
      cbn [isEmpty]. eexists. reflexivity.
    + intros He. unfold Part000Auth.sendResetEmail, authRequest, perform, onForm. mrun.
      cbn [comp actions].
      assert (Hne : isEmpty (email (buttons f)) = false).
      { destruct (email (buttons f)); [contradiction | reflexivity]. }
      rewrite Hne. mrun. cbn [comp actions]. unfold nextFault.
      destruct (faults w) as [|[e|] rest] eqn:Hf; cbn [fst snd]; mrun; cbn [comp actions].
      * do 2 eexists. split; [reflexivity|]. split; [auto | discriminate].
      * match goal with |- context [showErr ?c ?e0 (?a0, ?w0)] =>
          destruct (showErr_frame c e0 a0 w0) as (w' & Hs & _) end.
        rewrite Hs. do 2 eexists. split; [reflexivity|]. split; [discriminate | auto].
      * do 2 eexists. split; [reflexivity|]. split; [auto | discriminate].
Qed.

Lemma credentials_are_checked_first_witness :
  (exists msg,
     Part000Auth.updatePassword "/demo" (mkLogged (recoveryForm "secreto" "secreto") [],
                                         demoWorld) =
       (Ok tt, (mkLogged (recoveryForm "secreto" "secreto") [],
                set_journal [Alert msg] demoWorld))) /\
  (exists f' w',
     Part000Auth.updatePassword "/demo" (mkLogged (recoveryForm "secreto12" "secreto12") [],
                                         demoWorld) =
       (Ok tt, (mkLogged f' [UpdateUser "secreto12"; ReplaceState "/demo"], w')) /\
     newPass f' = "" /\ recoveryMode f' = false) /\
  Part000Auth.signIn (mkLogged (recoveryForm "" "") [], demoWorld) =
    (Ok tt, (mkLogged (recoveryForm "" "") [],
             set_journal [Alert "Introduce email y contraseña"] demoWorld)).
Proof.
  split; [|split].
  - destruct (credentials_are_checked_first (recoveryForm "secreto" "secreto") []
                demoWorld "/demo") as (Hshort & _).
    exact (Hshort eq_refl).
  - destruct (credentials_are_checked_first (recoveryForm "secreto12" "secreto12") []
                demoWorld "/demo") as (_ & Hok & _).
    destruct (Hok eq_refl eq_refl) as (f' & w' & Hrun & Hp1 & _ & Hrec & _).
    exists f', w'. auto.
  - destruct (credentials_are_checked_first (recoveryForm "" "") [] demoWorld "/demo")
      as (_ & _ & _ & Hempty & _).
    apply Hempty. now right.
Defined.


(* ------------------------------------------------------------------ *)
(** ** SyncCoordinator: the rejoin protocol and its busy flag *)
(* ------------------------------------------------------------------ *)

Lemma filter_length_insert {A : Type} (f : A -> bool) (l : list A) (k : nat) (a b : A) :
  nth_error l k = Some a ->
  (length (List.filter f (<[k := b]> l)) + (if f a then 1 else 0) =
   length (List.filter f l) + (if f b then 1 else 0))%nat.
Proof.
  revert k. induction l as [|x l IH]; intros [|k] H; try discriminate.
  - injection H as ->. cbn [list_insert List.filter].
    change (<[0%nat := b]> (a :: l)) with (b :: l). cbn [List.filter].
    destruct (f a), (f b); cbn [length]; lia.
  - change (<[Datatypes.S k := b]> (x :: l)) with (x :: <[k := b]> l).
    cbn [List.filter nth_error] in *. specialize (IH k H).
    destruct (f x); cbn [length]; lia.
Qed.

Lemma filter_length_app_one {A : Type} (f : A -> bool) (l : list A) (a : A) :
  length (List.filter f (l ++ [a])) =
  (length (List.filter f l) + (if f a then 1 else 0))%nat.
Proof.
  rewrite List.filter_app, length_app. cbn [List.filter].
  destruct (f a); reflexivity.
Qed.

Import SrcAppRejoin.

Lemma rejoinInv_step (s : Rejoin) (ev : RejoinEvent) :
  rejoinInv s -> rejoinInv (rejoinStep s ev).
Proof.
  unfold rejoinInv, underWay. intros Hinv.
  destruct ev as [nav|k|k o1 o2|k|k|]; cbn [rejoinStep].
  - destruct (alive s); cbn [negb]; [|exact Hinv].
    destruct (rejoinBusyRef s) eqn:Hb; [now rewrite Hb|].
    destruct (offline nav); [now rewrite Hb|].
    cbn [runs rejoinBusyRef]. rewrite filter_length_app_one, Hinv. reflexivity.
  - destruct (nth_error (runs s) k) as [[| | | |]|] eqn:Hk; try exact Hinv.
    cbn [setPhase runs rejoinBusyRef].
    pose proof (filter_length_insert (fun ph => negb (isOver ph)) _ _ _ AwaitsSession Hk) as H.
    cbn [isOver negb] in H. lia.
  - destruct (nth_error (runs s) k) as [[| | | |]|] eqn:Hk; try exact Hinv.
    cbn [logEffects setPhase runs rejoinBusyRef].
    pose proof (filter_length_insert (fun ph => negb (isOver ph)) _ _ _ AwaitsData Hk) as H.
    cbn [isOver negb] in H. lia.
  - destruct (nth_error (runs s) k) as [[| | | |]|] eqn:Hk; try exact Hinv.
    cbn [logEffects setPhase runs rejoinBusyRef].
    pose proof (filter_length_insert (fun ph => negb (isOver ph)) _ _ _ AwaitsRelease Hk) as H.
    cbn [isOver negb] in H. lia.
  - destruct (nth_error (runs s) k) as [[| | | |]|] eqn:Hk; try exact Hinv.
    cbn [runs rejoinBusyRef].
    pose proof (filter_length_insert (fun ph => negb (isOver ph)) _ _ _ Released Hk) as H.
    cbn [isOver negb] in H. destruct (rejoinBusyRef s); lia.
  - exact Hinv.
Qed.

Lemma rejoinInv_run (evs : list RejoinEvent) (s : Rejoin) :
  rejoinInv s -> rejoinInv (rejoinRun s evs).
Proof.
  revert s. induction evs as [|ev evs IH]; intros s H; [exact H|].
  cbn [rejoinRun fold_left]. apply IH. now apply rejoinInv_step.
Qed.

(** X30: the rejoin protocol of [src/app/PageClientBoard.tsx].  At every
    moment at most one run of [rejoin] is under way, and none when the busy
    flag is off.  A trigger that comes while the flag is on, while the
    device is offline or after the cleanup of the effect starts nothing.
    A run that has started goes through to the end whether or not the
    refresh of the session and the new subscription succeed: it closes and
    reopens the realtime connection, subscribes again, calls [refreshSafe]
    and, once its last timer has fired, the busy flag is off again. *)
Theorem rejoin_runs_one_at_a_time (evs : list RejoinEvent) :
  let s := rejoinRun rejoinInit evs in
  (underWay s <= 1)%nat /\
  (rejoinBusyRef s = false -> underWay s = 0%nat) /\
  (forall nav : Navigator,
     rejoinBusyRef s = true \/ offline nav = true \/ alive s = false ->
     rejoinStep s (Trigger nav) = s) /\
  (forall nav : Navigator,
     rejoinBusyRef s = false -> offline nav = false -> alive s = true ->
     runs (rejoinStep s (Trigger nav)) = runs s ++ [Settling] /\
     rejoinBusyRef (rejoinStep s (Trigger nav)) = true) /\
  (forall (k : nat) (session resubscribe : Outcome unit),
     nth_error (runs s) k = Some Settling ->
     let s' := rejoinRun s (wholeRun k session resubscribe) in
     rejoinBusyRef s' = false /\
     underWay s' = 0%nat /\
     effects s' =
       effects s ++
       List.map (pair k)
         (warnIfFailed session WarnSessionFailed ++
          [RealtimeDisconnect; RealtimeConnect; Resubscribe] ++
          warnIfFailed resubscribe WarnResubscribeFailed ++
          [CallRefreshSafe; LogDone])).
Proof.
  cbn zeta.
  assert (Hinv : rejoinInv (rejoinRun rejoinInit evs)).
  { apply rejoinInv_run. reflexivity. }
  set (s := rejoinRun rejoinInit evs) in *.
  split; [unfold rejoinInv in Hinv; destruct (rejoinBusyRef s); lia|].
  split; [intros Hb; unfold rejoinInv in Hinv; now rewrite Hb in Hinv|].
  split; [|split].
  - intros nav [Hb|[Ho|Ha]]; cbn [rejoinStep].
    + destruct (alive s); cbn [negb]; [now rewrite Hb | reflexivity].
    + destruct (alive s); cbn [negb]; [|reflexivity].
      destruct (rejoinBusyRef s); [reflexivity | now rewrite Ho].
    + now rewrite Ha.
  - intros nav Hb Ho Ha. cbn [rejoinStep]. rewrite Ha, Hb, Ho. cbn. auto.
  - intros k session resubscribe Hk.
    assert (Hlt : (k < length (runs s))%nat).
    { apply nth_error_Some. congruence. }
    assert (Hrun : rejoinRun s (wholeRun k session resubscribe) =
              mkRejoin false (alive s) (<[k := Released]> (runs s))
                (effects s ++
                 List.map (pair k)
                   (warnIfFailed session WarnSessionFailed ++
                    [RealtimeDisconnect; RealtimeConnect; Resubscribe] ++
                    warnIfFailed resubscribe WarnResubscribeFailed ++
                    [CallRefreshSafe; LogDone]))).
    { unfold wholeRun, rejoinRun. cbn [fold_left].
      assert (H1 : rejoinStep s (SettleTimer k) = setPhase k AwaitsSession s).
      { cbn [rejoinStep]. now rewrite Hk. }
      rewrite H1.
      assert (H2 : forall (l : list RunPhase) (ph : RunPhase),
                (k < length l)%nat -> nth_error (<[k := ph]> l) k = Some ph).
      { intros l ph Hl. rewrite nth_error_lookup. now apply list_lookup_insert_eq. }
      cbn [rejoinStep setPhase runs]. rewrite (H2 _ _ Hlt).
      cbn [logEffects setPhase runs rejoinBusyRef alive effects].
      rewrite H2 by (now rewrite length_insert).
      cbn [logEffects setPhase runs rejoinBusyRef alive effects].
      rewrite H2 by (now rewrite !length_insert).
      cbn [logEffects setPhase runs rejoinBusyRef alive effects].
      rewrite !list_insert_insert_eq.
      rewrite <- !app_assoc, <- !List.map_app, <- !app_assoc. reflexivity. }
    assert (Hinv' : rejoinInv (rejoinRun s (wholeRun k session resubscribe))).
    { now apply rejoinInv_run. }
    rewrite Hrun in *. cbn [rejoinBusyRef effects]. split; [reflexivity|].
    split; [exact Hinv' | reflexivity].
Qed.

Lemma rejoin_runs_one_at_a_time_witness :
  let s := rejoinRun rejoinInit [Trigger (Some true); Trigger (Some true); Trigger None] in
  runs s = [Settling] /\
  rejoinStep s (Trigger (Some true)) = s /\
  rejoinBusyRef (rejoinRun s (wholeRun 0 (Throw (errorOf "Failed to fetch")) (Ok tt))) = false /\
  effects (rejoinRun s (wholeRun 0 (Throw (errorOf "Failed to fetch")) (Ok tt))) =
    List.map (pair 0%nat)
      [LogBegin; WarnSessionFailed; RealtimeDisconnect; RealtimeConnect; Resubscribe;
       CallRefreshSafe; LogDone].
Proof.
  cbn zeta.
  destruct (rejoin_runs_one_at_a_time
              [Trigger (Some true); Trigger (Some true); Trigger None])
    as (_ & _ & Hdrop & _ & Hwhole).
  split; [reflexivity|]. split; [apply Hdrop; now left|].
  destruct (Hwhole 0%nat (Throw (errorOf "Failed to fetch")) (Ok tt) eq_refl)
    as (Hfree & _ & Heff).
  split; [exact Hfree | exact Heff].
Defined.
